(** * Webhook push-event reconciliation (server/webhook.go)

    A shallow embedding of the webhook handlers of [server/webhook.go] and
    of the helpers they call, with the properties the specification states
    about them.

    Conventions.
    - A Go [string] is a [string] of bytes; [int] is [Z].
    - A Go [(value, error)] pair is a [result].
    - A pointer the code compares with [nil] is an [option]; every other
      pointer is taken as composed by the store.
    - Collaborators outside the file (the store, the VCS provider, the
      database drivers, the SQL parser and differ, encoding/json,
      crypto/hmac, time.Parse, strings.EqualFold) are the fields of an
      interface the definitions are parameterised by.
    - Stateful code runs in a state monad over the collaborators' state and
      a trace of the observable calls; a nil dereference is a panic. *)

From Stdlib Require Import ZArith String Ascii.
From stdpp Require Import base option list gmap sets strings pretty.

Open Scope Z_scope.
Open Scope string_scope.

(** ** Go values *)

(** Go [error] values ([errors.Errorf], [errors.New], [errors.Wrap], and
    the errors the collaborators return) and the arguments of a format. *)
Inductive error :=
| Errorf (format : string) (args : list arg)
| Wrap (cause : error) (message : string)
| External (message : string)
with arg :=
| AInt (n : Z)
| AStr (s : string)
| AErr (e : error).

(** The text [fmt.Sprintf(format, args...)] produces, kept symbolic. *)
Record text := Sprintf { format : string; args : list arg }.

Inductive result (A : Type) :=
| Ok (a : A)
| Err (e : error).
Arguments Ok {A} a.
Arguments Err {A} e.

(** ** The [strings] package *)

Module strings.

(** [strings.HasPrefix(s, prefix)]. *)
Fixpoint HasPrefix (s prefix : string) {struct prefix} : bool :=
  match prefix with
  | EmptyString => true
  | String c prefix' =>
      match s with
      | EmptyString => false
      | String d s' => if Ascii.eqb c d then HasPrefix s' prefix' else false
      end
  end.

(** [s[n:]] for [n <= len(s)]. *)
Fixpoint drop (n : nat) (s : string) : string :=
  match n, s with
  | O, _ => s
  | S n', String _ s' => drop n' s'
  | S _, EmptyString => EmptyString
  end.

(** [strings.TrimPrefix(s, prefix)]: [s] without the leading [prefix], or
    [s] itself when it does not start with it. *)
Definition TrimPrefix (s prefix : string) : string :=
  if HasPrefix s prefix then drop (String.length prefix) s else s.

(** [strings.ReplaceAll(s, old, new)]: the non-overlapping occurrences of
    [old] are replaced from the left; [skip] counts the bytes of a replaced
    occurrence still to pass over.  Every call in this file has a constant,
    non-empty [old]; the empty [old] (Go inserts [new] around every rune)
    is outside the model and leaves [s] as it is. *)
Fixpoint replaceFrom (skip : nat) (s old new : string) : string :=
  match s with
  | EmptyString => EmptyString
  | String c s' =>
      match skip with
      | S k => replaceFrom k s' old new
      | O =>
          if HasPrefix s old
          then new ++ replaceFrom (String.length old - 1) s' old new
          else String c (replaceFrom O s' old new)
      end
  end.

Definition ReplaceAll (s old new : string) : string :=
  match old with
  | EmptyString => s
  | _ => replaceFrom O s old new
  end.

(** [strings.SplitN(s, sep, 2)[0]] for a non-empty [sep]: [s] up to the
    first occurrence of [sep], or all of [s]. *)
Fixpoint beforeFirst (s sep : string) : string :=
  match s with
  | EmptyString => EmptyString
  | String c s' => if HasPrefix s sep then EmptyString else String c (beforeFirst s' sep)
  end.

End strings.

Module strconv.

(** [strconv.Itoa]. *)
Definition Itoa (n : Z) : string := pretty n.

End strconv.

(** ** Time *)

(** A [time.Time] instant, as nanoseconds since the zero [Time]
    (January 1, year 1, 00:00:00 UTC). *)
Definition Time := Z.

Module time.

(** The zero value of [time.Time]. *)
Definition zero : Time := 0.

(** [t.Before(u)]. *)
Definition Before (t u : Time) : bool := Z.ltb t u.

(** [t.Unix()]: the seconds since January 1, 1970 UTC. *)
Definition Unix (t : Time) : Z := t `div` 1000000000 - 62135596800.

End time.

(** ** The data model *)

Module vcs.

(** [vcs.Type]. *)
Inductive Type' := GitLabSelfHost | GitHubCom.

(** [vcs.FileCommit]. *)
Module FileCommit.
Record t := {
  ID : string;
  Title : string;
  Message : string;
  CreatedTs : Z;
  URL : string;
  AuthorName : string;
  AuthorEmail : string;
  Added : string;
}.
End FileCommit.

(** [vcs.PushEvent]. *)
Module PushEvent.
Record t := {
  VCSType : Type';
  BaseDirectory : string;
  Ref : string;
  RepositoryID : string;
  RepositoryURL : string;
  RepositoryFullPath : string;
  AuthorName : string;
  FileCommit : FileCommit.t;
}.
End PushEvent.

End vcs.

Module db.

(** [db.Type], the database engine. *)
Inductive Type' := Postgres | MySQL | OtherEngine (name : string).

(** [db.MigrationSource]. *)
Inductive MigrationSource := UI | VCS | LIBRARY.

(** [db.MigrationType]. *)
Inductive MigrationType := Baseline | Migrate | Branch | Data.

#[global] Instance MigrationType_eq_dec : EqDecision MigrationType.
Proof. solve_decision. Defined.

(** The string behind a [db.MigrationType]. *)
Definition MigrationType_string (t : MigrationType) : string :=
  match t with
  | Baseline => "BASELINE"
  | Migrate => "MIGRATE"
  | Branch => "BRANCH"
  | Data => "DATA"
  end.

(** [db.MigrationInfo]. *)
Module MigrationInfo.
Record t := {
  Version : string;
  Namespace : string;
  Database : string;
  Environment : string;
  Source : MigrationSource;
  Type_ : MigrationType;
  Description : string;
}.
End MigrationInfo.

End db.

Module api.

Inductive ProjectTenantMode := TenantModeDisabled | TenantModeTenant.
Inductive ProjectSchemaChangeType := ProjectSchemaChangeTypeDDL | ProjectSchemaChangeTypeSDL.

#[global] Instance ProjectTenantMode_eq_dec : EqDecision ProjectTenantMode.
Proof. solve_decision. Defined.
#[global] Instance ProjectSchemaChangeType_eq_dec : EqDecision ProjectSchemaChangeType.
Proof. solve_decision. Defined.

Module Project.
Record t := {
  TenantMode : ProjectTenantMode;
  SchemaChangeType : ProjectSchemaChangeType;
}.
End Project.

Module VCS.
Record t := {
  Type_ : vcs.Type';
  ApplicationID : string;
  Secret : string;
  InstanceURL : string;
}.
End VCS.

(** [api.Repository], a repository binding.  [VCS] is the one pointer the
    handlers compare with [nil]. *)
Module Repository.
Record t := {
  ID : Z;
  VCS : option VCS.t;
  ProjectID : Z;
  Project : Project.t;
  WebURL : string;
  WebhookEndpointID : string;
  BranchFilter : string;
  BaseDirectory : string;
  FilePathTemplate : string;
  SchemaPathTemplate : string;
  ExternalID : string;
  WebhookSecretToken : string;
  AccessToken : string;
  RefreshToken : string;
}.
End Repository.

Module Environment.
Record t := {
  Name : string;
}.
End Environment.

Module Instance.
Record t := {
  EnvironmentID : Z;
  Environment : Environment.t;
  Engine : db.Type';
}.
End Instance.

Module Database.
Record t := {
  ID : Z;
  ProjectID : Z;
  Name : string;
  Instance : Instance.t;
}.
End Database.

(** [api.DatabaseFind] with the two fields the file sets. *)
Module DatabaseFind.
Record t := {
  ProjectID : Z;
  Name : string;
}.
End DatabaseFind.

(** [api.MigrationDetail]. *)
Module MigrationDetail.
Record t := {
  DatabaseID : Z;
  DatabaseName : string;
  Statement : string;
  SchemaVersion : string;
}.
End MigrationDetail.

Inductive TaskStatus :=
| TaskPending | TaskPendingApproval | TaskRunning | TaskDone | TaskFailed | TaskCanceled.

Inductive TaskType :=
| TaskGeneral | TaskDatabaseCreate | TaskDatabaseSchemaUpdate | TaskDatabaseDataUpdate
| TaskOther (name : string).

#[global] Instance TaskStatus_eq_dec : EqDecision TaskStatus.
Proof. solve_decision. Defined.
#[global] Instance TaskType_eq_dec : EqDecision TaskType.
Proof. solve_decision. Defined.

(** [api.Task]: the identifiers the file reads, and the columns a task
    search looks at. *)
Module Task.
Record t := {
  ID : Z;
  PipelineID : Z;
  DatabaseID : Z;
  Status : TaskStatus;
  Type_ : TaskType;
  Statement : string;
  SchemaVersion : string;
}.
End Task.

Module TaskFind.
Record t := {
  DatabaseID : Z;
  StatusList : list TaskStatus;
  TypeList : list TaskType;
  Payload : text;
}.
End TaskFind.

Module TaskPatch.
Record t := {
  ID : Z;
  Statement : string;
  UpdaterID : Z;
}.
End TaskPatch.

Inductive IssueType := IssueDatabaseSchemaUpdate | IssueDatabaseDataUpdate.

Module Issue.
Record t := {
  ID : Z;
  Name : string;
}.
End Issue.

Module IssueCreate.
Record t := {
  ProjectID : Z;
  Name : text;
  Type_ : IssueType;
  Description : string;
  AssigneeID : Z;
  CreateContext : string;
}.
End IssueCreate.

Module Principal.
Record t := {
  ID : Z;
}.
End Principal.

Inductive ActivityType := ActivityProjectRepositoryPush.
Inductive ActivityLevel := ActivityInfo | ActivityWarn | ActivityError.

Module ActivityCreate.
Record t := {
  CreatorID : Z;
  ContainerID : Z;
  Type_ : ActivityType;
  Level : ActivityLevel;
  Comment : text;
  Payload : string;
}.
End ActivityCreate.

(** [api.ActivityProjectRepositoryPushPayload]; the issue fields are
    omitted from the JSON when empty. *)
Module ActivityProjectRepositoryPushPayload.
Record t := {
  VCSPushEvent : vcs.PushEvent.t;
  IssueID : Z;
  IssueName : string;
}.
End ActivityProjectRepositoryPushPayload.

(** [api.MigrationContext]. *)
Module MigrationContext.
Record t := {
  MigrationType : db.MigrationType;
  VCSPushEvent : vcs.PushEvent.t;
  DetailList : list MigrationDetail.t;
}.
End MigrationContext.

Inductive FeatureType := FeatureMultiTenancy.

(** [api.SystemBotID]. *)
Definition SystemBotID : Z := 1.

End api.

Module gitlab.

(** [gitlab.WebhookPush], the object kind of a push event. *)
Definition WebhookPush : string := "push".

Module WebhookCommitAuthor.
Record t := {
  Name : string;
  Email : string;
}.
End WebhookCommitAuthor.

(** [gitlab.WebhookCommit]. *)
Module WebhookCommit.
Record t := {
  ID : string;
  Title : string;
  Message : string;
  Timestamp : string;
  URL : string;
  Author : WebhookCommitAuthor.t;
  AddedList : list string;
  ModifiedList : list string;
}.
End WebhookCommit.

Module WebhookProject.
Record t := {
  ID : Z;
  WebURL : string;
  FullPath : string;
}.
End WebhookProject.

(** [gitlab.WebhookPushEvent]. *)
Module WebhookPushEvent.
Record t := {
  ObjectKind : string;
  Ref : string;
  AuthorName : string;
  Project : WebhookProject.t;
  CommitList : list WebhookCommit.t;
}.
End WebhookPushEvent.

End gitlab.

Module github.

(** [github.WebhookType]. *)
Definition WebhookPing : string := "ping".
Definition WebhookPush : string := "push".

Module WebhookCommitAuthor.
Record t := {
  Name : string;
  Email : string;
}.
End WebhookCommitAuthor.

(** [github.WebhookCommit]. *)
Module WebhookCommit.
Record t := {
  ID : string;
  Distinct : bool;
  Message : string;
  Timestamp : Time;
  URL : string;
  Author : WebhookCommitAuthor.t;
  Added : list string;
  Modified : list string;
}.
End WebhookCommit.

Module WebhookRepository.
Record t := {
  ID : Z;
  FullName : string;
  HTMLURL : string;
}.
End WebhookRepository.

Module WebhookSender.
Record t := {
  Login : string;
}.
End WebhookSender.

(** [github.WebhookPushEvent]. *)
Module WebhookPushEvent.
Record t := {
  Ref : string;
  Repository : WebhookRepository.t;
  Sender : WebhookSender.t;
  Commits : list WebhookCommit.t;
}.
End WebhookPushEvent.

End github.

(** ** The [path] package *)

Module path.

(** The elements of a path between its slashes. *)
Fixpoint split (s : string) (cur : string) : list string :=
  match s with
  | EmptyString => [cur]
  | String c s' =>
      if Ascii.eqb c "/" then cur :: split s' EmptyString
      else split s' (cur ++ String c EmptyString)
  end.

(** The elements [path.Clean] keeps, most recent first: an empty element
    and [.] are dropped, [..] removes the element before it unless that
    is a kept [..]; a [..] with nothing before it is kept in a relative
    path and dropped in a rooted one. *)
Fixpoint cleanElems (rooted : bool) (elems : list string) (out : list string) : list string :=
  match elems with
  | [] => out
  | e :: elems' =>
      if decide (e = "" \/ e = ".") then cleanElems rooted elems' out
      else if decide (e = "..") then
        match out with
        | top :: out' =>
            if decide (top = "..") then cleanElems rooted elems' (e :: out)
            else cleanElems rooted elems' out'
        | [] => if rooted then cleanElems rooted elems' out
                else cleanElems rooted elems' [e]
        end
      else cleanElems rooted elems' (e :: out)
  end.

Fixpoint joinElems (elems : list string) : string :=
  match elems with
  | [] => ""
  | [e] => e
  | e :: elems' => e ++ "/" ++ joinElems elems'
  end.

(** [path.Clean]. *)
Definition Clean (p : string) : string :=
  match p with
  | EmptyString => "."
  | String c _ =>
      let rooted := Ascii.eqb c "/" in
      let body := joinElems (rev (cleanElems rooted (split p EmptyString) [])) in
      if rooted then "/" ++ body
      else match body with EmptyString => "." | _ => body end
  end.

(** [path.Join(a, b)]: empty elements in front are ignored, the others
    are joined by a slash, and the result is cleaned. *)
Definition Join (a b : string) : string :=
  match a, b with
  | EmptyString, EmptyString => ""
  | EmptyString, _ => Clean b
  | _, _ => Clean (a ++ "/" ++ b)
  end.

End path.

(** ** [encoding/hex] and [crypto/subtle] *)

Module hex.

Definition hextable : string := "0123456789abcdef".

Definition digit (n : N) : ascii :=
  match String.get (N.to_nat n) hextable with
  | Some c => c
  | None => "0"%char
  end.

(** [hex.EncodeToString]: two lowercase digits per byte. *)
Fixpoint EncodeToString (src : string) : string :=
  match src with
  | EmptyString => EmptyString
  | String c src' =>
      let v := N_of_ascii c in
      String (digit (N.shiftr v 4)) (String (digit (N.land v 15)) (EncodeToString src'))
  end.

End hex.

Module subtle.

(** The loop [v |= x[i] ^ y[i]] of [ConstantTimeCompare]. *)
Fixpoint xorFold (x y : string) (v : N) : N :=
  match x, y with
  | String a x', String b y' => xorFold x' y' (N.lor v (N.lxor (N_of_ascii a) (N_of_ascii b)))
  | _, _ => v
  end.

(** [subtle.ConstantTimeByteEq]. *)
Definition ConstantTimeByteEq (x y : N) : Z :=
  if N.eqb x y then 1 else 0.

(** [subtle.ConstantTimeCompare]: 1 when the two slices have equal
    contents, 0 otherwise (at once when the lengths differ). *)
Definition ConstantTimeCompare (x y : string) : Z :=
  if negb (Nat.eqb (String.length x) (String.length y)) then 0
  else ConstantTimeByteEq (xorFold x y 0%N) 0%N.

End subtle.

(** ** The [regexp] package, on a fragment of its syntax

    The patterns [parseSchemaFileInfo] builds from a path template are
    sequences of literal bytes, escaped punctuation, character classes
    and named groups, with [+] on a single byte or class.  The model
    parses and runs this fragment; any other pattern is [Unmodelled].
    Matching is Go's: the leftmost match, and among the matches at one
    offset the one a backtracking search finds first ([+] is greedy). *)

Module regexp.

(** A single-byte matcher. *)
Inductive atom :=
| Lit (c : ascii)
| Class (ranges : list (ascii * ascii)).

Inductive inst :=
| One (a : atom)
| Plus (a : atom)
| Open (name : string)
| Close.

(** A compiled pattern. *)
Definition Regexp := list inst.

Inductive compiled :=
| Compiled (re : Regexp)
| CompileError (e : error)
| Unmodelled.

Definition inRange (c : ascii) (r : ascii * ascii) : bool :=
  (N_of_ascii r.1 <=? N_of_ascii c)%N && (N_of_ascii c <=? N_of_ascii r.2)%N.

Definition accepts (a : atom) (c : ascii) : bool :=
  match a with
  | Lit d => Ascii.eqb d c
  | Class ranges => existsb (inRange c) ranges
  end.

(** *** Parsing *)

Definition isASCII (c : ascii) : bool := (N_of_ascii c <? 128)%N.

Definition isWordChar (c : ascii) : bool :=
  existsb (inRange c) [("a", "z"); ("A", "Z"); ("0", "9"); ("_", "_")]%char.

(** Bytes with a meaning of their own outside a class that the fragment
    does not cover. *)
Definition isOtherMeta (c : ascii) : bool :=
  existsb (Ascii.eqb c) ["*"; "?"; "{"; "|"; "."; "^"; "$"]%char.

(** The items of a class up to its closing bracket, and the pattern after
    it.  A class with a negation, an escape, a nested bracket or a byte
    outside ASCII is not covered. *)
Fixpoint parseClass (s : string) (acc : list (ascii * ascii))
    : option (list (ascii * ascii) * string) :=
  match s with
  | EmptyString => None
  | String c s' =>
      if Ascii.eqb c "]" then
        match acc with [] => None | _ => Some (rev acc, s') end
      else if Ascii.eqb c "\" || Ascii.eqb c "[" || Ascii.eqb c "^" || negb (isASCII c)
      then None
      else
        match s' with
        | String d (String e s'') =>
            if Ascii.eqb d "-" && negb (Ascii.eqb e "]") then
              if Ascii.eqb e "\" || Ascii.eqb e "[" || negb (isASCII e)
                 || (N_of_ascii e <? N_of_ascii c)%N
              then None
              else parseClass s'' ((c, e) :: acc)
            else parseClass s' ((c, c) :: acc)
        | _ => parseClass s' ((c, c) :: acc)
        end
  end.

(** The name of a group up to its closing [>], and the pattern after it. *)
Fixpoint parseName (s : string) (acc : string) : option (string * string) :=
  match s with
  | EmptyString => None
  | String c s' =>
      if Ascii.eqb c ">" then
        match acc with EmptyString => None | _ => Some (acc, s') end
      else if isWordChar c then parseName s' (acc ++ String c EmptyString)
      else None
  end.

(** One parsing step needs at most the whole pattern; [fuel] is its
    length.  [depth] counts the groups open, [out] holds the instructions
    read so far, most recent first. *)
Fixpoint parse (fuel : nat) (s : string) (depth : nat) (out : list inst) : compiled :=
  match fuel with
  | O =>
      match s with
      | EmptyString =>
          match depth with
          | O => Compiled (rev out)
          | S _ => CompileError (Errorf "error parsing regexp: missing closing )" [])
          end
      | _ => Unmodelled
      end
  | S fuel' =>
      match s with
      | EmptyString =>
          match depth with
          | O => Compiled (rev out)
          | S _ => CompileError (Errorf "error parsing regexp: missing closing )" [])
          end
      | String c s' =>
          if Ascii.eqb c "(" then
            match s' with
            | String "?" (String "P" (String "<" s'')) =>
                match parseName s'' EmptyString with
                | Some (name, s3) => parse fuel' s3 (S depth) (Open name :: out)
                | None => Unmodelled
                end
            | String "?" _ => Unmodelled
            | _ => parse fuel' s' (S depth) (Open "" :: out)
            end
          else if Ascii.eqb c ")" then
            match depth with
            | O => CompileError (Errorf "error parsing regexp: unexpected )" [])
            | S depth' => parse fuel' s' depth' (Close :: out)
            end
          else if Ascii.eqb c "[" then
            match parseClass s' [] with
            | Some (ranges, s'') => parse fuel' s'' depth (One (Class ranges) :: out)
            | None => Unmodelled
            end
          else if Ascii.eqb c "\" then
            match s' with
            | String d s'' =>
                if isASCII d && negb (isWordChar d)
                then parse fuel' s'' depth (One (Lit d) :: out)
                else Unmodelled
            | EmptyString => Unmodelled
            end
          else if Ascii.eqb c "+" then
            match out with
            | One (Lit d) :: out' =>
                if isASCII d then parse fuel' s' depth (Plus (Lit d) :: out') else Unmodelled
            | One a :: out' => parse fuel' s' depth (Plus a :: out')
            | [] => CompileError
                      (Errorf "error parsing regexp: missing argument to repetition operator: `+`" [])
            | _ => Unmodelled
            end
          else if isOtherMeta c then Unmodelled
          else parse fuel' s' depth (One (Lit c) :: out)
      end
  end.

(** [regexp.Compile]. *)
Definition Compile (expr : string) : compiled :=
  parse (String.length expr) expr 0%nat [].

(** [re.SubexpNames()]: the empty name of the whole match, then the
    groups' names in the order they open. *)
Definition SubexpNames (re : Regexp) : list string :=
  "" :: omap (fun i => match i with Open name => Some name | _ => None end) re.

(** *** Matching *)

(** The state of one attempt: the text matched so far, the groups open
    (innermost first) and the groups closed, each with its number and the
    text it has matched. *)
Record attempt := {
  matched : string;
  opened : list (nat * string);
  closed : list (nat * string);
  groups : nat;
}.

Definition start : attempt :=
  {| matched := ""; opened := []; closed := []; groups := 0%nat |}.

Definition consume (c : ascii) (st : attempt) : attempt :=
  {| matched := matched st ++ String c EmptyString;
     opened := (fun g => (g.1, g.2 ++ String c EmptyString)) <$> opened st;
     closed := closed st;
     groups := groups st |}.

Definition openGroup (st : attempt) : attempt :=
  {| matched := matched st;
     opened := (S (groups st), "") :: opened st;
     closed := closed st;
     groups := S (groups st) |}.

Definition closeGroup (st : attempt) : attempt :=
  match opened st with
  | g :: rest =>
      {| matched := matched st; opened := rest; closed := g :: closed st;
         groups := groups st |}
  | [] => st
  end.

(** As many bytes of [a] as possible, then [k]; one byte fewer when [k]
    fails. *)
Fixpoint many (a : atom) (s : string) (st : attempt)
    (k : string -> attempt -> option attempt) : option attempt :=
  match s with
  | String c s' =>
      if accepts a c then
        match many a s' (consume c st) k with
        | Some r => Some r
        | None => k s st
        end
      else k s st
  | EmptyString => k s st
  end.

(** A match of [re] at the start of [s]. *)
Fixpoint run (re : Regexp) (s : string) (st : attempt) : option attempt :=
  match re with
  | [] => Some st
  | One a :: re' =>
      match s with
      | String c s' => if accepts a c then run re' s' (consume c st) else None
      | EmptyString => None
      end
  | Plus a :: re' =>
      match s with
      | String c s' => if accepts a c then many a s' (consume c st) (run re') else None
      | EmptyString => None
      end
  | Open _ :: re' => run re' s (openGroup st)
  | Close :: re' => run re' s (closeGroup st)
  end.

(** The leftmost match of [re] in [s]. *)
Fixpoint search (re : Regexp) (s : string) : option attempt :=
  match run re s start with
  | Some r => Some r
  | None =>
      match s with
      | String _ s' => search re s'
      | EmptyString => None
      end
  end.

Definition groupText (st : attempt) (i : nat) : string :=
  match list_find (fun g => g.1 = i) (closed st) with
  | Some (_, g) => g.2
  | None => ""
  end.

(** [re.FindStringSubmatch(s)]: [nil] without a match; else the text of
    the leftmost match, then the text of each group. *)
Definition FindStringSubmatch (re : Regexp) (s : string) : list string :=
  match search re s with
  | None => []
  | Some st => matched st :: (groupText st <$> seq 1 (groups st))
  end.

End regexp.

(** ** Imported packages without state *)

Module parser.

(** [parser.EngineType]. *)
Inductive EngineType := Postgres | MySQL.

End parser.

(** The functions of other packages the file calls and that depend on
    their arguments alone. *)
Class Imports := {
  (** [time.Parse(time.RFC3339, s)]; [None] is a parse error, on which
      Go returns the zero [Time] together with the error. *)
  time_Parse_RFC3339 : string -> option Time;
  (** [strings.EqualFold]. *)
  strings_EqualFold : string -> string -> bool;
  (** [hmac.New(sha256.New, key)], [m.Write(body)] and [m.Sum(nil)]: the
      32 bytes of the digest, or the error of [Write]. *)
  hmac_sha256 : string -> string -> result string;
  (** [json.Unmarshal] into the two push-event types. *)
  json_Unmarshal_gitlab : string -> result gitlab.WebhookPushEvent.t;
  json_Unmarshal_github : string -> result github.WebhookPushEvent.t;
  (** [json.Marshal] of the two payloads the file serialises. *)
  json_Marshal_payload : api.ActivityProjectRepositoryPushPayload.t -> result string;
  json_Marshal_context : api.MigrationContext.t -> result string;
  (** [common.EscapeForLogging]. *)
  common_EscapeForLogging : string -> string;
  (** [feature.AccessErrorMessage()] of [api.FeatureType]. *)
  api_AccessErrorMessage : api.FeatureType -> string;
  (** [db.ParseMigrationInfo(filePath, filePathTemplate)]. *)
  db_ParseMigrationInfo : string -> string -> result db.MigrationInfo.t;
  (** The syntax trees of [parser.Parse], and [pg.SchemaDiff]. *)
  Node : Type;
  parser_Parse : parser.EngineType -> string -> result (list Node);
  pg_SchemaDiff : list Node -> list Node -> result string;
}.

(** ** Signature and branch validation *)

Section Validation.
Context `{Imports}.

(** [validateGitHubWebhookSignature256]. *)
Definition validateGitHubWebhookSignature256 (signature key body : string) : result bool :=
  let signature := strings.TrimPrefix signature "sha256=" in
  match hmac_sha256 key body with
  | Err err => Err err
  | Ok sum =>
      let got := hex.EncodeToString sum in
      Ok (bool_decide (subtle.ConstantTimeCompare signature got = 1))
  end.

(** [parseBranchNameFromRefs]. *)
Definition parseBranchNameFromRefs (ref : string) : result string :=
  let expectedPrefix := "refs/heads/" in
  if negb (strings.HasPrefix ref expectedPrefix)
     || Nat.eqb (String.length expectedPrefix) (String.length ref)
  then Err (Errorf "unexpected ref name %q without prefix %q" [AStr ref; AStr expectedPrefix])
  else Ok (strings.drop (String.length expectedPrefix) ref).

End Validation.

(** ** The commit deduplicator *)

(** [fileItemType]. *)
Inductive fileItemType :=
| fileItemTypeAdded
| fileItemTypeModified.

#[global] Instance fileItemType_eq_dec : EqDecision fileItemType.
Proof. solve_decision. Defined.

(** [fileItem]. *)
Module fileItem.
Record t := {
  name : string;
  itemType : fileItemType;
}.
End fileItem.

(** [distinctFileItem]. *)
Record distinctFileItem := {
  createdTime : Time;
  commit : gitlab.WebhookCommit.t;
  fileName : string;
  itemType : fileItemType;
}.

Section Dedup.
Context `{Imports}.

(** The [createdTime] of a commit's files: the error of [time.Parse] is
    logged, and the zero time it came with is used all the same. *)
Definition parseCreatedTime (c : gitlab.WebhookCommit.t) : Time :=
  match time_Parse_RFC3339 (gitlab.WebhookCommit.Timestamp c) with
  | Some t => t
  | None => time.zero
  end.

(** The [for i, file := range distinctFileList] loop of [addDistinctFile],
    at index [i] with [rest] still to visit. *)
Fixpoint addDistinctFileFrom (distinctFileList : list distinctFileItem)
    (item : distinctFileItem) (i : nat) (rest : list distinctFileItem)
    : list distinctFileItem :=
  match rest with
  | [] => distinctFileList ++ [item]
  | file :: rest' =>
      if decide (fileName item = fileName file)
      then
        if time.Before (createdTime file) (createdTime item)
        then <[i := item]> distinctFileList
        else distinctFileList
      else addDistinctFileFrom distinctFileList item (S i) rest'
  end.

(** The closure [addDistinctFile] of [dedupMigrationFilesFromCommitList],
    as a function of the list it updates. *)
Definition addDistinctFile (distinctFileList : list distinctFileItem)
    (createdTime : Time) (commit : gitlab.WebhookCommit.t)
    (fileName : string) (itemType : fileItemType) : list distinctFileItem :=
  let item := {| createdTime := createdTime; commit := commit;
                 fileName := fileName; itemType := itemType |} in
  addDistinctFileFrom distinctFileList item 0%nat distinctFileList.

(** The body of the loop over the commit list. *)
Definition dedupCommit (distinctFileList : list distinctFileItem)
    (commit : gitlab.WebhookCommit.t) : list distinctFileItem :=
  let createdTime := parseCreatedTime commit in
  let afterAdded :=
    foldl (fun l added => addDistinctFile l createdTime commit added fileItemTypeAdded)
          distinctFileList (gitlab.WebhookCommit.AddedList commit) in
  foldl (fun l modified => addDistinctFile l createdTime commit modified fileItemTypeModified)
        afterAdded (gitlab.WebhookCommit.ModifiedList commit).

(** [dedupMigrationFilesFromCommitList]. *)
Definition dedupMigrationFilesFromCommitList
    (commitList : list gitlab.WebhookCommit.t) : list distinctFileItem :=
  foldl dedupCommit [] commitList.

End Dedup.

(** ** The path classifier *)

(** The loop [info[name] = match[i+1]] over [re.SubexpNames()[1:]]. *)
Fixpoint fillInfo (names : list string) (groups : list string)
    (info : gmap string string) : gmap string string :=
  match names, groups with
  | name :: names', g :: groups' => fillInfo names' groups' (<[name := g]> info)
  | _, _ => info
  end.

(** The pattern [parseSchemaFileInfo] compiles. *)
Definition schemaFilePathRegex (baseDirectory schemaPathTemplate : string) : string :=
  let schemaFilePathRegex := strings.ReplaceAll schemaPathTemplate "." "\." in
  let schemaFilePathRegex :=
    foldl (fun re placeholder =>
             strings.ReplaceAll re ("{{" ++ placeholder ++ "}}")
               ("(?P<" ++ placeholder ++ ">[a-zA-Z0-9+-=/_#?!$. ]+)"))
          schemaFilePathRegex ["ENV_NAME"; "DB_NAME"] in
  path.Join baseDirectory schemaFilePathRegex.

(** [parseSchemaFileInfo]: [Some (Ok None)] is Go's [(nil, nil)];
    [None] is a pattern outside the modelled fragment of [regexp]. *)
Definition parseSchemaFileInfo (baseDirectory schemaPathTemplate file : string)
    : option (result (option (gmap string string))) :=
  if decide (schemaPathTemplate = "") then Some (Ok None)
  else
    match regexp.Compile (schemaFilePathRegex baseDirectory schemaPathTemplate) with
    | regexp.Unmodelled => None
    | regexp.CompileError err => Some (Err (Wrap err "compile schema file path regex"))
    | regexp.Compiled re =>
        let match_ := regexp.FindStringSubmatch re file in
        match match_ with
        | [] => Some (Ok None)
        | _ :: groups => Some (Ok (Some (fillInfo (tail (regexp.SubexpNames re)) groups ∅)))
        end
    end.

(** ** Effects *)

Inductive LogLevel := LevelDebug | LevelWarn | LevelError.

(** [*echo.HTTPError], built by [echo.NewHTTPError(code, message)] and
    [SetInternal]. *)
Module HTTPError.
Record t := {
  Code : Z;
  Message : text;
  Internal : option error;
}.
End HTTPError.

(** [common.OauthContext] without its refresher callback. *)
Module OauthContext.
Record t := {
  ClientID : string;
  ClientSecret : string;
  AccessToken : string;
  RefreshToken : string;
}.
End OauthContext.

(** What a run leaves behind for an observer: the log lines (by their
    message), the entries into [createIssueFromPushEvent], and the calls
    to the collaborators that write or that a decision depends on, each
    with its answer. *)
Inductive Event :=
| EvLog (level : LogLevel) (message : string)
| EvCreateIssueFromPushEvent (repo : api.Repository.t) (file : string) (fileType : fileItemType)
| EvFindTask (find : api.TaskFind.t) (r : result (list api.Task.t))
| EvGetIssueByPipelineID (pipelineID : Z) (r : result api.Issue.t)
| EvPatchTask (task : api.Task.t) (patch : api.TaskPatch.t) (r : result api.Task.t)
| EvSchemaDiff (database : api.Database.t) (newSchemaStr : string) (r : result string)
| EvCreateIssue (create : api.IssueCreate.t) (creatorID : Z) (r : result api.Issue.t)
| EvCreateActivity (create : option api.ActivityCreate.t) (r : result unit).

(** The state a run threads: the collaborators' state and the trace. *)
Record State (W : Type) := mkState {
  world : W;
  trace : list Event;
}.
Arguments mkState {W} world trace.
Arguments world {W} s.
Arguments trace {W} s.

(** How a computation ends: with a value, in a Go panic, or at a point
    the model does not cover. *)
Inductive Res (A : Type) :=
| Val (a : A)
| Panic (message : string)
| Stuck.
Arguments Val {A} a.
Arguments Panic {A} message.
Arguments Stuck {A}.

Definition M (W A : Type) : Type := State W -> Res A * State W.

Definition ret {W A} (a : A) : M W A := fun s => (Val a, s).

Definition bind {W A B} (m : M W A) (k : A -> M W B) : M W B :=
  fun s =>
    match m s with
    | (Val a, s') => k a s'
    | (Panic msg, s') => (Panic msg, s')
    | (Stuck, s') => (Stuck, s')
    end.

#[global] Instance M_ret {W} : MRet (M W) := fun A => @ret W A.
#[global] Instance M_bind {W} : MBind (M W) := fun A B k m => @bind W A B m k.

Definition emit {W} (e : Event) : M W unit :=
  fun s => (Val tt, mkState (world s) (trace s ++ [e])).

Definition panic {W A} (message : string) : M W A :=
  fun s => (Panic message, s).

Definition stuck {W A} : M W A := fun s => (Stuck, s).

(** A call to a collaborator. *)
Definition call {W A} (f : W -> A * W) : M W A :=
  fun s => let '(a, w) := f (world s) in (Val a, mkState w (trace s)).

(** A call whose answer is recorded in the trace. *)
Definition traced {W A} (f : W -> A * W) (ev : A -> Event) : M W A :=
  a ← call f; emit (ev a);; ret a.

Definition log_Debug {W} (message : string) : M W unit := emit (EvLog LevelDebug message).
Definition log_Warn {W} (message : string) : M W unit := emit (EvLog LevelWarn message).
Definition log_Error {W} (message : string) : M W unit := emit (EvLog LevelError message).

(** The nil dereference of Go. *)
Definition nilDereference : string :=
  "runtime error: invalid memory address or nil pointer dereference".

(** [for _, x := range l { body }]. *)
Fixpoint forEach {W A} (l : list A) (body : A -> M W unit) : M W unit :=
  match l with
  | [] => ret tt
  | x :: l' => body x;; forEach l' body
  end.

(** ** The collaborators

    The store, the activity manager, the VCS provider, the database
    drivers, the feature flags and the clock, over a state [W]. *)
Class Collaborators (W : Type) := {
  (** [s.store.FindRepository] by webhook endpoint id. *)
  store_FindRepository : string -> W -> result (list api.Repository.t) * W;
  (** [s.store.FindDatabase]. *)
  store_FindDatabase : api.DatabaseFind.t -> W -> result (list api.Database.t) * W;
  (** [s.store.FindTask]. *)
  store_FindTask : api.TaskFind.t -> W -> result (list api.Task.t) * W;
  (** [s.store.GetIssueByPipelineID]. *)
  store_GetIssueByPipelineID : Z -> W -> result api.Issue.t * W;
  (** [s.store.GetPrincipalByEmail]: the principal, [nil] or not, and the
      error, [nil] or not. *)
  store_GetPrincipalByEmail : string -> W -> (option api.Principal.t * option error) * W;
  (** [s.patchTask]. *)
  server_patchTask : api.Task.t -> api.TaskPatch.t -> api.Issue.t -> W -> result api.Task.t * W;
  (** [s.createIssue]. *)
  server_createIssue : api.IssueCreate.t -> Z -> W -> result api.Issue.t * W;
  (** [s.ActivityManager.CreateActivity]; the activity may be [nil]. *)
  ActivityManager_CreateActivity : option api.ActivityCreate.t -> W -> result unit * W;
  (** [s.feature]. *)
  server_feature : api.FeatureType -> W -> bool;
  (** [vcs.Get(type, config).ReadFileContent(ctx, oauthCtx, instanceURL,
      repositoryID, filePath, ref)], token refresh included. *)
  vcs_ReadFileContent :
    vcs.Type' -> OauthContext.t -> string -> string -> string -> string -> W -> result string * W;
  (** [s.getAdminDatabaseDriver], [driver.Dump] (schema only) and
      [driver.Close]. *)
  Driver : Type;
  server_getAdminDatabaseDriver : api.Instance.t -> string -> W -> result Driver * W;
  driver_Dump : Driver -> string -> W -> result string * W;
  driver_Close : Driver -> W -> W;
  (** [common.DefaultMigrationVersion()], read off the clock. *)
  common_DefaultMigrationVersion : W -> string * W;
}.

(** ** The database resolver *)

(** The loop over [filteredDatabases] that marks environment ids: [true]
    when it meets an id already marked. *)
Fixpoint sharesEnvironment (databases : list api.Database.t) (marked : gset Z) : bool :=
  match databases with
  | [] => false
  | database :: databases' =>
      let id := api.Instance.EnvironmentID (api.Database.Instance database) in
      if decide (id ∈ marked) then true
      else sharesEnvironment databases' ({[id]} ∪ marked)
  end.

Section Resolver.
Context `{Imports} {W : Type} `{Collaborators W}.

(** [findProjectDatabases]. *)
Definition findProjectDatabases (projectID : Z) (tenantMode : api.ProjectTenantMode)
    (dbName envName : string) : M W (result (list api.Database.t)) :=
  found ← call (store_FindDatabase
                  {| api.DatabaseFind.ProjectID := projectID;
                     api.DatabaseFind.Name := dbName |});
  match found with
  | Err err => ret (Err (Wrap err "find database"))
  | Ok foundDatabases =>
      if Nat.eqb (length foundDatabases) 0 then
        ret (Err (Errorf "project %d does not have database %q" [AInt projectID; AStr dbName]))
      else if decide (tenantMode = api.TenantModeTenant) then
        if negb (bool_decide (envName = "")) then
          ret (Err (Errorf "non-empty environment is not allowed for tenant mode project" []))
        else ret (Ok foundDatabases)
      else
        let filteredDatabases :=
          if negb (bool_decide (envName = "")) then
            filter (fun database =>
                      strings_EqualFold
                        (api.Environment.Name
                           (api.Instance.Environment (api.Database.Instance database)))
                        envName = true)
                   foundDatabases
          else foundDatabases in
        if negb (bool_decide (envName = "")) && Nat.eqb (length filteredDatabases) 0 then
          ret (Err (Errorf "project %d does not have database %q for environment %q"
                      [AInt projectID; AStr dbName; AStr envName]))
        else if sharesEnvironment filteredDatabases ∅ then
          ret (Err (Errorf "project %d has multiple databases %q for environment %q"
                      [AInt projectID; AStr dbName; AStr envName]))
        else ret (Ok filteredDatabases)
  end.

End Resolver.

(** ** The reconciler *)

(** What [createIssueFromPushEvent] returns. *)
Module Reconciled.
Record t := {
  message : text;
  created : bool;
  activityCreateList : list (option api.ActivityCreate.t);
  err : option HTTPError.t;
}.
End Reconciled.

(** [strings.NewReplacer(pairs...).Replace(s)] for non-empty old strings:
    at each position the first pair whose old string starts there is
    replaced, and the search goes on after it. *)
Fixpoint replacerFrom (skip : nat) (s : string) (pairs : list (string * string)) : string :=
  match s with
  | EmptyString => EmptyString
  | String c s' =>
      match skip with
      | S k => replacerFrom k s' pairs
      | O =>
          match list_find (fun p => strings.HasPrefix s p.1 = true) pairs with
          | Some (_, (old, new)) => new ++ replacerFrom (String.length old - 1) s' pairs
          | None => String c (replacerFrom O s' pairs)
          end
      end
  end.

Definition noText : text := Sprintf "" [].

Section Reconciler.
Context `{Imports} {W : Type} `{Collaborators W}.

(** [getIgnoredFileActivityCreate]; [None] is the [nil] it returns when
    the payload cannot be serialised. *)
Definition getIgnoredFileActivityCreate (projectID : Z) (pushEvent : vcs.PushEvent.t)
    (file : string) (err : error) : M W (option api.ActivityCreate.t) :=
  match json_Marshal_payload
          {| api.ActivityProjectRepositoryPushPayload.VCSPushEvent := pushEvent;
             api.ActivityProjectRepositoryPushPayload.IssueID := 0;
             api.ActivityProjectRepositoryPushPayload.IssueName := "" |} with
  | Err marshalErr =>
      log_Warn "Failed to construct project activity payload for the ignored repository file";;
      ret None
  | Ok payload =>
      ret (Some {| api.ActivityCreate.CreatorID := api.SystemBotID;
                   api.ActivityCreate.ContainerID := projectID;
                   api.ActivityCreate.Type_ := api.ActivityProjectRepositoryPush;
                   api.ActivityCreate.Level := api.ActivityWarn;
                   api.ActivityCreate.Comment := Sprintf "Ignored file %q, %v." [AStr file; AErr err];
                   api.ActivityCreate.Payload := payload |})
  end.

(** [readFileContent].  With no repository under the endpoint the code
    returns [errors.Wrapf(err, ...)] of a [nil] error, which is [nil]:
    the empty content and no error. *)
Definition readFileContent (pushEvent : vcs.PushEvent.t) (webhookEndpointID file : string)
    : M W (result string) :=
  found ← call (store_FindRepository webhookEndpointID);
  match found with
  | Err err => ret (Err (Wrap err "get repository by webhook endpoint %q"))
  | Ok [] => ret (Ok "")
  | Ok (repo :: _) =>
      match api.Repository.VCS repo with
      | None => panic nilDereference
      | Some repoVCS =>
          content ← call (vcs_ReadFileContent
                            (api.VCS.Type_ repoVCS)
                            {| OauthContext.ClientID := api.VCS.ApplicationID repoVCS;
                               OauthContext.ClientSecret := api.VCS.Secret repoVCS;
                               OauthContext.AccessToken := api.Repository.AccessToken repo;
                               OauthContext.RefreshToken := api.Repository.RefreshToken repo |}
                            (api.VCS.InstanceURL repoVCS)
                            (api.Repository.ExternalID repo)
                            file
                            (vcs.FileCommit.ID (vcs.PushEvent.FileCommit pushEvent)));
          match content with
          | Err err => ret (Err (Wrap err "read content"))
          | Ok content => ret (Ok content)
          end
      end
  end.

(** The body of [computeDatabaseSchemaDiff] once the driver is open. *)
Definition diffWithDriver (driver : Driver) (database : api.Database.t)
    (newSchemaStr : string) : M W (result string) :=
  schema ← call (driver_Dump driver (api.Database.Name database));
  match schema with
  | Err err => ret (Err (Wrap err "dump old schema"))
  | Ok schema =>
      let engine :=
        match api.Instance.Engine (api.Database.Instance database) with
        | db.Postgres => Ok parser.Postgres
        | db.MySQL => Ok parser.MySQL
        | db.OtherEngine name => Err (Errorf "unsupported database engine %q" [AStr name])
        end in
      match engine with
      | Err err => ret (Err err)
      | Ok engine =>
          match parser_Parse engine schema with
          | Err err => ret (Err (Wrap err "parse old schema"))
          | Ok oldSchema =>
              match parser_Parse engine newSchemaStr with
              | Err err => ret (Err (Wrap err "parse new schema"))
              | Ok newSchema =>
                  match pg_SchemaDiff oldSchema newSchema with
                  | Err _ => ret (Err (Errorf "compute schema diff" []))
                  | Ok diff => ret (Ok diff)
                  end
              end
          end
      end
  end.

(** [computeDatabaseSchemaDiff]; the deferred [driver.Close] runs on
    every way out once the driver is open. *)
Definition computeDatabaseSchemaDiff (database : api.Database.t) (newSchemaStr : string)
    : M W (result string) :=
  driver ← call (server_getAdminDatabaseDriver
                   (api.Database.Instance database) (api.Database.Name database));
  r ← match driver with
      | Err err => ret (Err (Wrap err "get admin driver"))
      | Ok driver =>
          r ← diffWithDriver driver database newSchemaStr;
          call (fun w => (tt, driver_Close driver w));;
          ret r
      end;
  emit (EvSchemaDiff database newSchemaStr r);;
  ret r.

(** The loop of [prepareIssueFromPushEventSDL] over the databases:
    the details and the activities it appends. *)
Fixpoint sdlDatabases (repo : api.Repository.t) (pushEvent : vcs.PushEvent.t)
    (file content : string) (databases : list api.Database.t)
    (migrationDetailList : list api.MigrationDetail.t)
    (activityCreateList : list (option api.ActivityCreate.t))
    : M W (list api.MigrationDetail.t * list (option api.ActivityCreate.t)) :=
  match databases with
  | [] => ret (migrationDetailList, activityCreateList)
  | database :: databases' =>
      diff ← computeDatabaseSchemaDiff database content;
      match diff with
      | Err err =>
          activityCreate ← getIgnoredFileActivityCreate (api.Repository.ProjectID repo)
                             pushEvent file (Wrap err "Failed to compute database schema diff");
          sdlDatabases repo pushEvent file content databases'
            migrationDetailList (activityCreateList ++ [activityCreate])
      | Ok diff =>
          sdlDatabases repo pushEvent file content databases'
            (migrationDetailList ++
               [{| api.MigrationDetail.DatabaseID := api.Database.ID database;
                   api.MigrationDetail.DatabaseName := "";
                   api.MigrationDetail.Statement := diff;
                   api.MigrationDetail.SchemaVersion := "" |}])
            activityCreateList
      end
  end.

(** [prepareIssueFromPushEventSDL].  The last component is the push
    event behind the pointer the caller passed: the function rewrites
    its [FileCommit.Added] before it returns a migration info. *)
Definition prepareIssueFromPushEventSDL (repo : api.Repository.t)
    (pushEvent : vcs.PushEvent.t) (schemaInfo : gmap string string)
    (file webhookEndpointID : string)
    : M W (option db.MigrationInfo.t * list api.MigrationDetail.t
           * list (option api.ActivityCreate.t) * vcs.PushEvent.t) :=
  let dbName := default "" (schemaInfo !! "DB_NAME") in
  if decide (dbName = "") then
    log_Debug "Ignored schema file without a database name";;
    ret (None, [], [], pushEvent)
  else
    content ← readFileContent pushEvent webhookEndpointID file;
    match content with
    | Err err =>
        activityCreate ← getIgnoredFileActivityCreate (api.Repository.ProjectID repo)
                           pushEvent file (Wrap err "Failed to read file content");
        ret (None, [], [activityCreate], pushEvent)
    | Ok content =>
        let envName := default "" (schemaInfo !! "ENV_NAME") in
        let tenantMode := api.Project.TenantMode (api.Repository.Project repo) in
        prepared ←
          (if decide (tenantMode = api.TenantModeTenant) then
             ret (Some [{| api.MigrationDetail.DatabaseID := 0;
                           api.MigrationDetail.DatabaseName := dbName;
                           api.MigrationDetail.Statement := content;
                           api.MigrationDetail.SchemaVersion := "" |}], [])
           else
             databases ← findProjectDatabases (api.Repository.ProjectID repo)
                           tenantMode dbName envName;
             match databases with
             | Err err =>
                 activityCreate ← getIgnoredFileActivityCreate (api.Repository.ProjectID repo)
                                    pushEvent file (Wrap err "Failed to find project databases");
                 ret (None, [activityCreate])
             | Ok databases =>
                 r ← sdlDatabases repo pushEvent file content databases [] [];
                 ret (Some r.1, r.2)
             end) : M W (option (list api.MigrationDetail.t) * _)%type;
        match prepared with
        | (None, activityCreateList) => ret (None, [], activityCreateList, pushEvent)
        | (Some migrationDetailList, activityCreateList) =>
            version ← call common_DefaultMigrationVersion;
            let migrationInfo :=
              {| db.MigrationInfo.Version := version;
                 db.MigrationInfo.Namespace := dbName;
                 db.MigrationInfo.Database := dbName;
                 db.MigrationInfo.Environment := envName;
                 db.MigrationInfo.Source := db.VCS;
                 db.MigrationInfo.Type_ := db.Migrate;
                 db.MigrationInfo.Description := "Apply schema diff" |} in
            let added :=
              replacerFrom O (api.Repository.FilePathTemplate repo)
                [("{{ENV_NAME}}", envName);
                 ("{{DB_NAME}}", dbName);
                 ("{{VERSION}}", version);
                 ("{{TYPE}}", "migrate");
                 ("{{DESCRIPTION}}", strings.ReplaceAll "Apply schema diff" " " "_")] in
            let fileCommit := vcs.PushEvent.FileCommit pushEvent in
            let pushEvent' :=
              {| vcs.PushEvent.VCSType := vcs.PushEvent.VCSType pushEvent;
                 vcs.PushEvent.BaseDirectory := vcs.PushEvent.BaseDirectory pushEvent;
                 vcs.PushEvent.Ref := vcs.PushEvent.Ref pushEvent;
                 vcs.PushEvent.RepositoryID := vcs.PushEvent.RepositoryID pushEvent;
                 vcs.PushEvent.RepositoryURL := vcs.PushEvent.RepositoryURL pushEvent;
                 vcs.PushEvent.RepositoryFullPath := vcs.PushEvent.RepositoryFullPath pushEvent;
                 vcs.PushEvent.AuthorName := vcs.PushEvent.AuthorName pushEvent;
                 vcs.PushEvent.FileCommit :=
                   {| vcs.FileCommit.ID := vcs.FileCommit.ID fileCommit;
                      vcs.FileCommit.Title := vcs.FileCommit.Title fileCommit;
                      vcs.FileCommit.Message := vcs.FileCommit.Message fileCommit;
                      vcs.FileCommit.CreatedTs := vcs.FileCommit.CreatedTs fileCommit;
                      vcs.FileCommit.URL := vcs.FileCommit.URL fileCommit;
                      vcs.FileCommit.AuthorName := vcs.FileCommit.AuthorName fileCommit;
                      vcs.FileCommit.AuthorEmail := vcs.FileCommit.AuthorEmail fileCommit;
                      vcs.FileCommit.Added :=
                        path.Join (api.Repository.BaseDirectory repo) added |} |} in
            ret (Some migrationInfo, migrationDetailList, activityCreateList, pushEvent')
        end
    end.

(** The messages of the three errors the loop over a modified file's
    databases logs. *)
Definition ambiguousTasks : string :=
  "Found more than one pending approval or failed tasks for modified VCS file, should be only one task.".
Definition issueLookupFailed : string := "Failed to get issue by pipeline ID %d".
Definition patchFailed : string := "Failed to patch task with the same migration version".

(** The [api.TaskFind] of a modified file for a database: the tasks
    waiting for approval or failed, that update the schema or the data,
    with the file's schema version. *)
Definition pendingTaskFind (database : api.Database.t) (migrationInfo : db.MigrationInfo.t)
    : api.TaskFind.t :=
  {| api.TaskFind.DatabaseID := api.Database.ID database;
     api.TaskFind.StatusList := [api.TaskPendingApproval; api.TaskFailed];
     api.TaskFind.TypeList := [api.TaskDatabaseSchemaUpdate; api.TaskDatabaseDataUpdate];
     api.TaskFind.Payload :=
       Sprintf "payload->>'schemaVersion' = '%s'"
         [AStr (db.MigrationInfo.Version migrationInfo)] |}.

(** The [api.TaskPatch] that sets a task's statement. *)
Definition statementPatch (task : api.Task.t) (content : string) : api.TaskPatch.t :=
  {| api.TaskPatch.ID := api.Task.ID task;
     api.TaskPatch.Statement := content;
     api.TaskPatch.UpdaterID := api.SystemBotID |}.

(** The loop of [prepareIssueFromPushEventDDL] over the databases of a
    modified file.  Every way out of it is a way out of the function,
    with no migration detail. *)
Fixpoint modifiedDatabases (repo : api.Repository.t) (pushEvent : vcs.PushEvent.t)
    (file content : string) (migrationInfo : db.MigrationInfo.t)
    (databases : list api.Database.t)
    : M W (list api.MigrationDetail.t * list (option api.ActivityCreate.t)) :=
  match databases with
  | [] => ret ([], [])
  | database :: databases' =>
      let find := pendingTaskFind database migrationInfo in
      taskList ← traced (store_FindTask find) (EvFindTask find);
      match taskList with
      | Err err =>
          activityCreate ← getIgnoredFileActivityCreate (api.Repository.ProjectID repo)
                             pushEvent file (Wrap err "Failed to find project task");
          ret ([], [activityCreate])
      | Ok [] => modifiedDatabases repo pushEvent file content migrationInfo databases'
      | Ok (_ :: _ :: _) =>
          log_Error ambiguousTasks;;
          ret ([], [])
      | Ok [task] =>
          let taskPatch := statementPatch task content in
          issue ← traced (store_GetIssueByPipelineID (api.Task.PipelineID task))
                    (EvGetIssueByPipelineID (api.Task.PipelineID task));
          match issue with
          | Err err =>
              log_Error issueLookupFailed;;
              ret ([], [])
          | Ok issue =>
              log_Debug "Patching task for modified file VCS push event";;
              patched ← traced (server_patchTask task taskPatch issue) (EvPatchTask task taskPatch);
              match patched with
              | Err err =>
                  log_Error patchFailed;;
                  ret ([], [])
              | Ok _ => modifiedDatabases repo pushEvent file content migrationInfo databases'
              end
          end
      end
  end.

(** [prepareIssueFromPushEventDDL]. *)
Definition prepareIssueFromPushEventDDL (repo : api.Repository.t)
    (pushEvent : vcs.PushEvent.t) (file : string) (fileType : fileItemType)
    (webhookEndpointID : string) (migrationInfo : db.MigrationInfo.t)
    : M W (list api.MigrationDetail.t * list (option api.ActivityCreate.t)) :=
  content ← readFileContent pushEvent webhookEndpointID file;
  match content with
  | Err err =>
      activityCreate ← getIgnoredFileActivityCreate (api.Repository.ProjectID repo)
                         pushEvent file (Wrap err "Failed to read file content");
      ret ([], [activityCreate])
  | Ok content =>
      let tenantMode := api.Project.TenantMode (api.Repository.Project repo) in
      if decide (tenantMode = api.TenantModeTenant) then
        ret ([{| api.MigrationDetail.DatabaseID := 0;
                 api.MigrationDetail.DatabaseName := db.MigrationInfo.Database migrationInfo;
                 api.MigrationDetail.Statement := content;
                 api.MigrationDetail.SchemaVersion := db.MigrationInfo.Version migrationInfo |}],
             [])
      else
        databases ← findProjectDatabases (api.Repository.ProjectID repo) tenantMode
                      (db.MigrationInfo.Database migrationInfo)
                      (db.MigrationInfo.Environment migrationInfo);
        match databases with
        | Err err =>
            activityCreate ← getIgnoredFileActivityCreate (api.Repository.ProjectID repo)
                               pushEvent file (Wrap err "Failed to find project databases");
            ret ([], [activityCreate])
        | Ok databases =>
            if decide (fileType = fileItemTypeAdded) then
              ret ((fun database =>
                      {| api.MigrationDetail.DatabaseID := api.Database.ID database;
                         api.MigrationDetail.DatabaseName := "";
                         api.MigrationDetail.Statement := content;
                         api.MigrationDetail.SchemaVersion :=
                           db.MigrationInfo.Version migrationInfo |}) <$> databases,
                   [])
            else modifiedDatabases repo pushEvent file content migrationInfo databases
        end
  end.

Definition reconciled (message : text) (created : bool)
    (activityCreateList : list (option api.ActivityCreate.t)) (err : option HTTPError.t)
    : Reconciled.t :=
  {| Reconciled.message := message; Reconciled.created := created;
     Reconciled.activityCreateList := activityCreateList; Reconciled.err := err |}.

(** [http.StatusOK] and the other status codes the file names. *)
Definition StatusOK : Z := 200.
Definition StatusBadRequest : Z := 400.
Definition StatusForbidden : Z := 403.
Definition StatusNotFound : Z := 404.
Definition StatusInternalServerError : Z := 500.

Definition NewHTTPError (code : Z) (message : text) (internal : option error) : HTTPError.t :=
  {| HTTPError.Code := code; HTTPError.Message := message; HTTPError.Internal := internal |}.

(** The message logged for a file that fails the scope check. *)
Definition outsideBaseDirectory : string := "Ignored file outside the base directory".

(** The scope check of [createIssueFromPushEvent]: the escaped file
    path starts with the repository's base directory. *)
Definition underBaseDirectory (repo : api.Repository.t) (fileEscaped : string) : bool :=
  strings.HasPrefix fileEscaped (api.Repository.BaseDirectory repo).

(** The end of [createIssueFromPushEvent], from "Create schema update
    issue" on. *)
Definition createIssueForDetails (pushEvent : vcs.PushEvent.t) (repo : api.Repository.t)
    (file fileEscaped : string) (migrationInfo : db.MigrationInfo.t)
    (migrationDetailList : list api.MigrationDetail.t)
    (activityCreateList : list (option api.ActivityCreate.t)) : M W Reconciled.t :=
  let authorEmail := vcs.FileCommit.AuthorEmail (vcs.PushEvent.FileCommit pushEvent) in
  creatorID ←
    (if negb (bool_decide (authorEmail = "")) then
       found ← call (store_GetPrincipalByEmail authorEmail);
       match found.2 with
       | Some _ => log_Error "Failed to find the principal with committer email"
       | None => ret tt
       end;;
       match found.1 with
       | None =>
           log_Debug "Failed to find the principal with committer email, use system bot instead";;
           ret api.SystemBotID
       | Some committerPrincipal => ret (api.Principal.ID committerPrincipal)
       end
     else ret api.SystemBotID);
  match json_Marshal_context
          {| api.MigrationContext.MigrationType := db.MigrationInfo.Type_ migrationInfo;
             api.MigrationContext.VCSPushEvent := pushEvent;
             api.MigrationContext.DetailList := migrationDetailList |} with
  | Err err =>
      ret (reconciled noText false activityCreateList
             (Some (NewHTTPError StatusInternalServerError
                      (Sprintf "Failed to marshal update schema context" []) (Some err))))
  | Ok createContext =>
      let issueType :=
        if decide (db.MigrationInfo.Type_ migrationInfo = db.Data)
        then api.IssueDatabaseDataUpdate else api.IssueDatabaseSchemaUpdate in
      let issueCreate :=
        {| api.IssueCreate.ProjectID := api.Repository.ProjectID repo;
           api.IssueCreate.Name :=
             Sprintf "%s by %s"
               [AStr (db.MigrationInfo.Description migrationInfo);
                AStr (strings.TrimPrefix fileEscaped (api.Repository.BaseDirectory repo ++ "/"))];
           api.IssueCreate.Type_ := issueType;
           api.IssueCreate.Description :=
             vcs.FileCommit.Message (vcs.PushEvent.FileCommit pushEvent);
           api.IssueCreate.AssigneeID := api.SystemBotID;
           api.IssueCreate.CreateContext := createContext |} in
      issue ← traced (server_createIssue issueCreate creatorID) (EvCreateIssue issueCreate creatorID);
      match issue with
      | Err err =>
          let errMsg :=
            match issueType with
            | api.IssueDatabaseDataUpdate => "Failed to create data update issue"
            | api.IssueDatabaseSchemaUpdate => "Failed to create schema update issue"
            end in
          ret (reconciled noText false activityCreateList
                 (Some (NewHTTPError StatusInternalServerError (Sprintf errMsg []) (Some err))))
      | Ok issue =>
          match json_Marshal_payload
                  {| api.ActivityProjectRepositoryPushPayload.VCSPushEvent := pushEvent;
                     api.ActivityProjectRepositoryPushPayload.IssueID := api.Issue.ID issue;
                     api.ActivityProjectRepositoryPushPayload.IssueName := api.Issue.Name issue |} with
          | Err err =>
              ret (reconciled noText false activityCreateList
                     (Some (NewHTTPError StatusInternalServerError
                              (Sprintf "Failed to construct activity payload" []) (Some err))))
          | Ok payload =>
              let activityCreate :=
                {| api.ActivityCreate.CreatorID := creatorID;
                   api.ActivityCreate.ContainerID := api.Repository.ProjectID repo;
                   api.ActivityCreate.Type_ := api.ActivityProjectRepositoryPush;
                   api.ActivityCreate.Level := api.ActivityInfo;
                   api.ActivityCreate.Comment :=
                     Sprintf "Created issue %q." [AStr (api.Issue.Name issue)];
                   api.ActivityCreate.Payload := payload |} in
              created ← traced (ActivityManager_CreateActivity (Some activityCreate))
                          (EvCreateActivity (Some activityCreate));
              match created with
              | Err err =>
                  ret (reconciled noText false activityCreateList
                         (Some (NewHTTPError StatusInternalServerError
                                  (Sprintf "Failed to create project activity after creating issue from repository push event: %d"
                                     [AInt (api.Issue.ID issue)])
                                  (Some err))))
              | Ok _ =>
                  ret (reconciled
                         (Sprintf "Created issue %q on adding %s"
                            [AStr (api.Issue.Name issue); AStr file])
                         true activityCreateList None)
              end
          end
      end
  end.

(** The body of [createIssueFromPushEvent]. *)
Definition reconcileFile (pushEvent : vcs.PushEvent.t) (repo : api.Repository.t)
    (webhookEndpointID file : string) (fileType : fileItemType) : M W Reconciled.t :=
  let project := api.Repository.Project repo in
  allowed ← (if decide (api.Project.TenantMode project = api.TenantModeTenant)
             then call (fun w => (server_feature api.FeatureMultiTenancy w, w))
             else ret true);
  if negb allowed then
    ret (reconciled noText false []
           (Some (NewHTTPError StatusForbidden
                    (Sprintf (api_AccessErrorMessage api.FeatureMultiTenancy) []) None)))
  else
    let fileEscaped := common_EscapeForLogging file in
    log_Debug "Processing file";;
    if negb (underBaseDirectory repo fileEscaped) then
      log_Debug outsideBaseDirectory;;
      ret (reconciled noText false [] None)
    else
      match parseSchemaFileInfo (api.Repository.BaseDirectory repo)
              (api.Repository.SchemaPathTemplate repo) fileEscaped with
      | None => stuck
      | Some (Err err) =>
          log_Debug "Failed to parse schema file info";;
          ret (reconciled noText false [] None)
      | Some (Ok schemaInfo) =>
          match api.Project.SchemaChangeType project, schemaInfo with
          | api.ProjectSchemaChangeTypeDDL, Some _ =>
              log_Debug "Ignored schema file for non-SDL";;
              ret (reconciled noText false [] None)
          | api.ProjectSchemaChangeTypeSDL, Some schemaInfo =>
              prepared ← prepareIssueFromPushEventSDL repo pushEvent schemaInfo file
                           webhookEndpointID;
              let '(migrationInfo, migrationDetailList, activityCreateList, pushEvent) :=
                prepared in
              match migrationInfo, migrationDetailList with
              | Some migrationInfo, _ :: _ =>
                  createIssueForDetails pushEvent repo file fileEscaped migrationInfo
                    migrationDetailList activityCreateList
              | _, _ => ret (reconciled noText false activityCreateList None)
              end
          | schemaChangeType, None =>
              match db_ParseMigrationInfo file
                      (path.Join (api.Repository.BaseDirectory repo)
                         (api.Repository.FilePathTemplate repo)) with
              | Err err =>
                  log_Error "Failed to parse migration info";;
                  ret (reconciled noText false [] None)
              | Ok migrationInfo =>
                  if bool_decide (schemaChangeType = api.ProjectSchemaChangeTypeSDL)
                     && negb (bool_decide (db.MigrationInfo.Type_ migrationInfo = db.Data))
                  then
                    activityCreate ← getIgnoredFileActivityCreate (api.Repository.ProjectID repo)
                                       pushEvent file
                                       (Errorf "Only DATA type migration scripts are allowed but got %q"
                                          [AStr (db.MigrationType_string (db.MigrationInfo.Type_ migrationInfo))]);
                    ret (reconciled noText false [activityCreate] None)
                  else
                    prepared ← prepareIssueFromPushEventDDL repo pushEvent file fileType
                                 webhookEndpointID migrationInfo;
                    match prepared.1 with
                    | [] => ret (reconciled noText false prepared.2 None)
                    | _ :: _ =>
                        createIssueForDetails pushEvent repo file fileEscaped migrationInfo
                          prepared.1 prepared.2
                    end
              end
          end
      end.

(** [createIssueFromPushEvent]: the call is recorded in the trace, then
    the body runs. *)
Definition createIssueFromPushEvent (pushEvent : vcs.PushEvent.t) (repo : api.Repository.t)
    (webhookEndpointID file : string) (fileType : fileItemType) : M W Reconciled.t :=
  emit (EvCreateIssueFromPushEvent repo file fileType);;
  reconcileFile pushEvent repo webhookEndpointID file fileType.

End Reconciler.

(** ** The handlers *)

(** What a handler reads of the request. *)
Module Request.
Record t := {
  (** [io.ReadAll(c.Request().Body)]. *)
  Body : result string;
  (** [c.Request().Header.Get]. *)
  Header : string -> string;
  (** [c.Param("id")]. *)
  ParamID : string;
}.
End Request.

(** What a handler returns: [c.String(code, strings.Join(lines, "\n"))],
    or an [*echo.HTTPError]. *)
Inductive Response :=
| RespondString (code : Z) (lines : list text)
| RespondError (e : HTTPError.t).

Definition appendActivities (m : gmap Z (list (option api.ActivityCreate.t))) (repoID : Z)
    (activityCreateList : list (option api.ActivityCreate.t))
    : gmap Z (list (option api.ActivityCreate.t)) :=
  <[repoID := (default [] (m !! repoID) ++ activityCreateList)%list]> m.

Section Handlers.
Context `{Imports} {W : Type} `{Collaborators W}.

(** The loop both handlers run for a file no issue was created for: the
    activities collected for the repositories to handle are stored. *)
Definition createIgnoredActivities (handleRepos : list api.Repository.t)
    (repoID2ActivityCreateList : gmap Z (list (option api.ActivityCreate.t))) : M W unit :=
  forEach handleRepos (fun repo =>
    match repoID2ActivityCreateList !! api.Repository.ID repo with
    | Some activityCreateList =>
        forEach activityCreateList (fun activityCreate =>
          r ← traced (ActivityManager_CreateActivity activityCreate)
                (EvCreateActivity activityCreate);
          match r with
          | Err _ => log_Warn "Failed to create project activity for the ignored repository file"
          | Ok _ => ret tt
          end)
    | None => ret tt
    end).

(** *** GitLab *)

(** The checks of one repository binding in the GitLab handler. *)
Definition gitlabAccepts (c : Request.t) (pushEvent : gitlab.WebhookPushEvent.t)
    (branch : string) (repo : api.Repository.t) : M W bool :=
  if negb (bool_decide (api.Repository.BranchFilter repo = branch)) then
    log_Debug "Skipping repo due to branch filter mismatch";; ret false
  else if negb (bool_decide (is_Some (api.Repository.VCS repo))) then
    log_Debug "Skipping repo due to missing VCS";; ret false
  else if negb (bool_decide (Request.Header c "X-Gitlab-Token"
                             = api.Repository.WebhookSecretToken repo)) then
    log_Debug "Skipping repo due to secret token mismatch";; ret false
  else if negb (bool_decide (strconv.Itoa (gitlab.WebhookProject.ID
                                             (gitlab.WebhookPushEvent.Project pushEvent))
                             = api.Repository.ExternalID repo)) then
    log_Debug "Skipping repo due to external ID mismatch";; ret false
  else ret true.

(** The loop that fills [handleRepos]. *)
Fixpoint gitlabHandleRepos (c : Request.t) (pushEvent : gitlab.WebhookPushEvent.t)
    (branch : string) (repos handleRepos : list api.Repository.t)
    : M W (list api.Repository.t) :=
  match repos with
  | [] => ret handleRepos
  | repo :: repos' =>
      ok ← gitlabAccepts c pushEvent branch repo;
      gitlabHandleRepos c pushEvent branch repos'
        (if ok : bool then (handleRepos ++ [repo])%list else handleRepos)
  end.

Definition gitlabPushEvent (pushEvent : gitlab.WebhookPushEvent.t) (repo : api.Repository.t)
    (repoVCS : api.VCS.t) (item : distinctFileItem) : vcs.PushEvent.t :=
  let project := gitlab.WebhookPushEvent.Project pushEvent in
  {| vcs.PushEvent.VCSType := api.VCS.Type_ repoVCS;
     vcs.PushEvent.BaseDirectory := api.Repository.BaseDirectory repo;
     vcs.PushEvent.Ref := gitlab.WebhookPushEvent.Ref pushEvent;
     vcs.PushEvent.RepositoryID := strconv.Itoa (gitlab.WebhookProject.ID project);
     vcs.PushEvent.RepositoryURL := gitlab.WebhookProject.WebURL project;
     vcs.PushEvent.RepositoryFullPath := gitlab.WebhookProject.FullPath project;
     vcs.PushEvent.AuthorName := gitlab.WebhookPushEvent.AuthorName pushEvent;
     vcs.PushEvent.FileCommit :=
       {| vcs.FileCommit.ID := gitlab.WebhookCommit.ID (commit item);
          vcs.FileCommit.Title := gitlab.WebhookCommit.Title (commit item);
          vcs.FileCommit.Message := gitlab.WebhookCommit.Message (commit item);
          vcs.FileCommit.CreatedTs := time.Unix (createdTime item);
          vcs.FileCommit.URL := gitlab.WebhookCommit.URL (commit item);
          vcs.FileCommit.AuthorName :=
            gitlab.WebhookCommitAuthor.Name (gitlab.WebhookCommit.Author (commit item));
          vcs.FileCommit.AuthorEmail :=
            gitlab.WebhookCommitAuthor.Email (gitlab.WebhookCommit.Author (commit item));
          vcs.FileCommit.Added := common_EscapeForLogging (fileName item) |} |}.

(** The loop over [handleRepos] for one file of the GitLab push: an
    error of [createIssueFromPushEvent] moves on to the next repository. *)
Fixpoint gitlabRepos (pushEvent : gitlab.WebhookPushEvent.t) (webhookEndpointID : string)
    (item : distinctFileItem) (handleRepos : list api.Repository.t)
    (createdMessageList : list text)
    (repoID2ActivityCreateList : gmap Z (list (option api.ActivityCreate.t)))
    : M W (list text * gmap Z (list (option api.ActivityCreate.t))) :=
  match handleRepos with
  | [] => ret (createdMessageList, repoID2ActivityCreateList)
  | repo :: handleRepos' =>
      match api.Repository.VCS repo with
      | None => panic nilDereference
      | Some repoVCS =>
          r ← createIssueFromPushEvent (gitlabPushEvent pushEvent repo repoVCS item) repo
                webhookEndpointID (fileName item) (itemType item);
          match Reconciled.err r with
          | Some _ =>
              gitlabRepos pushEvent webhookEndpointID item handleRepos'
                createdMessageList repoID2ActivityCreateList
          | None =>
              gitlabRepos pushEvent webhookEndpointID item handleRepos'
                (if Reconciled.created r
                 then (createdMessageList ++ [Reconciled.message r])%list
                 else createdMessageList)
                (appendActivities repoID2ActivityCreateList (api.Repository.ID repo)
                   (Reconciled.activityCreateList r))
          end
      end
  end.

(** The loop over the distinct files of the GitLab push. *)
Fixpoint gitlabFiles (pushEvent : gitlab.WebhookPushEvent.t) (webhookEndpointID : string)
    (handleRepos : list api.Repository.t) (distinctFileList : list distinctFileItem)
    (createdMessages : list text) : M W (list text) :=
  match distinctFileList with
  | [] => ret createdMessages
  | item :: distinctFileList' =>
      r ← gitlabRepos pushEvent webhookEndpointID item handleRepos [] ∅;
      (if Nat.eqb (length r.1) 0 then createIgnoredActivities handleRepos r.2 else ret tt);;
      gitlabFiles pushEvent webhookEndpointID handleRepos distinctFileList'
        (createdMessages ++ r.1)%list
  end.

(** The handler of [POST /hook/gitlab/:id]. *)
Definition gitlabWebhook (c : Request.t) : M W Response :=
  match Request.Body c with
  | Err err =>
      ret (RespondError (NewHTTPError StatusBadRequest
                           (Sprintf "Failed to read webhook request" []) (Some err)))
  | Ok body =>
      match json_Unmarshal_gitlab body with
      | Err err =>
          ret (RespondError (NewHTTPError StatusBadRequest
                               (Sprintf "Malformed push event" []) (Some err)))
      | Ok pushEvent =>
          if negb (bool_decide (gitlab.WebhookPushEvent.ObjectKind pushEvent = gitlab.WebhookPush))
          then
            ret (RespondError
                   (NewHTTPError StatusBadRequest
                      (Sprintf "Invalid webhook event type, got %s, want push"
                         [AStr (gitlab.WebhookPushEvent.ObjectKind pushEvent)]) None))
          else
            match parseBranchNameFromRefs (gitlab.WebhookPushEvent.Ref pushEvent) with
            | Err err =>
                ret (RespondError
                       (NewHTTPError StatusBadRequest
                          (Sprintf "Failed to parse branch name from ref: %v"
                             [AStr (gitlab.WebhookPushEvent.Ref pushEvent)]) (Some err)))
            | Ok branch =>
                let webhookEndpointID := Request.ParamID c in
                repos ← call (store_FindRepository webhookEndpointID);
                match repos with
                | Err err =>
                    ret (RespondError
                           (NewHTTPError StatusInternalServerError
                              (Sprintf "Failed to respond webhook event for endpoint: %v"
                                 [AStr webhookEndpointID]) (Some err)))
                | Ok [] =>
                    ret (RespondError
                           (NewHTTPError StatusNotFound
                              (Sprintf "Webhook endpoint not found: %v"
                                 [AStr webhookEndpointID]) None))
                | Ok repos =>
                    handleRepos ← gitlabHandleRepos c pushEvent branch repos [];
                    log_Debug "Process push event in repos";;
                    let distinctFileList :=
                      dedupMigrationFilesFromCommitList
                        (gitlab.WebhookPushEvent.CommitList pushEvent) in
                    createdMessages ← gitlabFiles pushEvent webhookEndpointID handleRepos
                                        distinctFileList [];
                    (if Nat.eqb (length createdMessages) 0
                     then log_Warn "Ignored push event because no applicable file found in the commit list"
                     else ret tt);;
                    ret (RespondString StatusOK createdMessages)
                end
            end
      end
  end.

(** *** GitHub *)

(** The loop that fills [handleRepos] in the GitHub handler; an error
    of the signature validation leaves the handler. *)
Fixpoint githubHandleRepos (c : Request.t) (pushEvent : github.WebhookPushEvent.t)
    (body branch : string) (repos handleRepos : list api.Repository.t)
    : M W (HTTPError.t + list api.Repository.t) :=
  match repos with
  | [] => ret (inr handleRepos)
  | repo :: repos' =>
      if negb (bool_decide (api.Repository.BranchFilter repo = branch)) then
        log_Debug "Skipping repo due to branch filter mismatch";;
        githubHandleRepos c pushEvent body branch repos' handleRepos
      else if negb (bool_decide (is_Some (api.Repository.VCS repo))) then
        log_Debug "Skipping repo due to missing VCS";;
        githubHandleRepos c pushEvent body branch repos' handleRepos
      else
        match validateGitHubWebhookSignature256 (Request.Header c "X-Hub-Signature-256")
                (api.Repository.WebhookSecretToken repo) body with
        | Err err =>
            ret (inl (NewHTTPError StatusInternalServerError
                        (Sprintf "Failed to validate GitHub webhook signature" []) (Some err)))
        | Ok false =>
            log_Debug "Skipping repo due to mismatched  payload signature";;
            githubHandleRepos c pushEvent body branch repos' handleRepos
        | Ok true =>
            if negb (bool_decide (github.WebhookRepository.FullName
                                    (github.WebhookPushEvent.Repository pushEvent)
                                  = api.Repository.ExternalID repo)) then
              log_Debug "Skipping repo due to external ID mismatch";;
              githubHandleRepos c pushEvent body branch repos' handleRepos
            else
              githubHandleRepos c pushEvent body branch repos' (handleRepos ++ [repo])%list
        end
  end.

Definition githubPushEvent (pushEvent : github.WebhookPushEvent.t) (repo : api.Repository.t)
    (repoVCS : api.VCS.t) (commit : github.WebhookCommit.t) (messageTitle : string)
    (file : fileItem.t) : vcs.PushEvent.t :=
  let repository := github.WebhookPushEvent.Repository pushEvent in
  {| vcs.PushEvent.VCSType := api.VCS.Type_ repoVCS;
     vcs.PushEvent.BaseDirectory := api.Repository.BaseDirectory repo;
     vcs.PushEvent.Ref := github.WebhookPushEvent.Ref pushEvent;
     vcs.PushEvent.RepositoryID := strconv.Itoa (github.WebhookRepository.ID repository);
     vcs.PushEvent.RepositoryURL := github.WebhookRepository.HTMLURL repository;
     vcs.PushEvent.RepositoryFullPath := github.WebhookRepository.FullName repository;
     vcs.PushEvent.AuthorName :=
       github.WebhookSender.Login (github.WebhookPushEvent.Sender pushEvent);
     vcs.PushEvent.FileCommit :=
       {| vcs.FileCommit.ID := github.WebhookCommit.ID commit;
          vcs.FileCommit.Title := messageTitle;
          vcs.FileCommit.Message := github.WebhookCommit.Message commit;
          vcs.FileCommit.CreatedTs := time.Unix (github.WebhookCommit.Timestamp commit);
          vcs.FileCommit.URL := github.WebhookCommit.URL commit;
          vcs.FileCommit.AuthorName :=
            github.WebhookCommitAuthor.Name (github.WebhookCommit.Author commit);
          vcs.FileCommit.AuthorEmail :=
            github.WebhookCommitAuthor.Email (github.WebhookCommit.Author commit);
          vcs.FileCommit.Added := common_EscapeForLogging (fileItem.name file) |} |}.

(** The loop [for _, repo := range repos] for one file of the GitHub
    push: it ranges over every repository of the endpoint, and an error
    of [createIssueFromPushEvent] leaves the handler. *)
Fixpoint githubRepos (pushEvent : github.WebhookPushEvent.t) (webhookEndpointID : string)
    (commit : github.WebhookCommit.t) (messageTitle : string) (file : fileItem.t)
    (repos : list api.Repository.t) (createdMessageList : list text)
    (repoID2ActivityCreateList : gmap Z (list (option api.ActivityCreate.t)))
    : M W (HTTPError.t + list text * gmap Z (list (option api.ActivityCreate.t))) :=
  match repos with
  | [] => ret (inr (createdMessageList, repoID2ActivityCreateList))
  | repo :: repos' =>
      match api.Repository.VCS repo with
      | None => panic nilDereference
      | Some repoVCS =>
          r ← createIssueFromPushEvent
                (githubPushEvent pushEvent repo repoVCS commit messageTitle file) repo
                webhookEndpointID (fileItem.name file) (fileItem.itemType file);
          match Reconciled.err r with
          | Some httpErr => ret (inl httpErr)
          | None =>
              githubRepos pushEvent webhookEndpointID commit messageTitle file repos'
                (if Reconciled.created r
                 then (createdMessageList ++ [Reconciled.message r])%list
                 else createdMessageList)
                (appendActivities repoID2ActivityCreateList (api.Repository.ID repo)
                   (Reconciled.activityCreateList r))
          end
      end
  end.

(** The loop over the files of one commit. *)
Fixpoint githubFiles (pushEvent : github.WebhookPushEvent.t) (webhookEndpointID : string)
    (repos handleRepos : list api.Repository.t) (commit : github.WebhookCommit.t)
    (messageTitle : string) (files : list fileItem.t) (createdMessages : list text)
    : M W (HTTPError.t + list text) :=
  match files with
  | [] => ret (inr createdMessages)
  | file :: files' =>
      r ← githubRepos pushEvent webhookEndpointID commit messageTitle file repos [] ∅;
      match r with
      | inl httpErr => ret (inl httpErr)
      | inr (createdMessageList, repoID2ActivityCreateList) =>
          (if Nat.eqb (length createdMessageList) 0 then
             log_Debug "Ignored push event file because no applicable file found in the commit list";;
             createIgnoredActivities handleRepos repoID2ActivityCreateList
           else ret tt);;
          githubFiles pushEvent webhookEndpointID repos handleRepos commit messageTitle files'
            (createdMessages ++ createdMessageList)%list
      end
  end.

(** The files of a commit: the added ones, then the modified ones. *)
Definition commitFiles (commit : github.WebhookCommit.t) : list fileItem.t :=
  (((fun added => {| fileItem.name := added; fileItem.itemType := fileItemTypeAdded |})
      <$> github.WebhookCommit.Added commit)
   ++ ((fun modified => {| fileItem.name := modified; fileItem.itemType := fileItemTypeModified |})
         <$> github.WebhookCommit.Modified commit))%list.

(** The loop over the commits of the GitHub push. *)
Fixpoint githubCommits (pushEvent : github.WebhookPushEvent.t) (webhookEndpointID : string)
    (repos handleRepos : list api.Repository.t) (commits : list github.WebhookCommit.t)
    (createdMessages : list text) : M W (HTTPError.t + list text) :=
  match commits with
  | [] => ret (inr createdMessages)
  | commit :: commits' =>
      if negb (github.WebhookCommit.Distinct commit) then
        githubCommits pushEvent webhookEndpointID repos handleRepos commits' createdMessages
      else
        let messageTitle :=
          strings.beforeFirst (github.WebhookCommit.Message commit) (String "010" (String "010" "")) in
        r ← githubFiles pushEvent webhookEndpointID repos handleRepos commit messageTitle
              (commitFiles commit) createdMessages;
        match r with
        | inl httpErr => ret (inl httpErr)
        | inr createdMessages =>
            githubCommits pushEvent webhookEndpointID repos handleRepos commits' createdMessages
        end
  end.

(** The handler of [POST /hook/github/:id]. *)
Definition githubWebhook (c : Request.t) : M W Response :=
  let eventType := Request.Header c "X-GitHub-Event" in
  if bool_decide (eventType = github.WebhookPing) then
    ret (RespondString StatusOK [Sprintf "OK" []])
  else if negb (bool_decide (eventType = github.WebhookPush)) then
    ret (RespondError
           (NewHTTPError StatusBadRequest
              (Sprintf "Invalid webhook event type, got %s, want %s"
                 [AStr eventType; AStr github.WebhookPush]) None))
  else
    let webhookEndpointID := Request.ParamID c in
    repos ← call (store_FindRepository webhookEndpointID);
    match repos with
    | Err err =>
        ret (RespondError
               (NewHTTPError StatusInternalServerError
                  (Sprintf "Failed to respond webhook event for endpoint: %v"
                     [AStr webhookEndpointID]) (Some err)))
    | Ok [] =>
        ret (RespondError
               (NewHTTPError StatusNotFound
                  (Sprintf "Webhook endpoint not found: %v" [AStr webhookEndpointID]) None))
    | Ok repos =>
        match Request.Body c with
        | Err err =>
            ret (RespondError (NewHTTPError StatusBadRequest
                                 (Sprintf "Failed to read webhook request" []) (Some err)))
        | Ok body =>
            match json_Unmarshal_github body with
            | Err err =>
                ret (RespondError (NewHTTPError StatusBadRequest
                                     (Sprintf "Malformed push event" []) (Some err)))
            | Ok pushEvent =>
                match parseBranchNameFromRefs (github.WebhookPushEvent.Ref pushEvent) with
                | Err err =>
                    ret (RespondError (NewHTTPError StatusBadRequest
                                         (Sprintf "Invalid ref" []) (Some err)))
                | Ok branch =>
                    handleRepos ← githubHandleRepos c pushEvent body branch repos [];
                    match handleRepos with
                    | inl httpErr => ret (RespondError httpErr)
                    | inr handleRepos =>
                        r ← githubCommits pushEvent webhookEndpointID repos handleRepos
                              (github.WebhookPushEvent.Commits pushEvent) [];
                        match r with
                        | inl httpErr => ret (RespondError httpErr)
                        | inr createdMessages =>
                            (if Nat.eqb (length createdMessages) 0
                             then log_Warn "Ignored push event because no applicable file found in the commit list"
                             else ret tt);;
                            ret (RespondString StatusOK createdMessages)
                        end
                    end
                end
            end
        end
    end.

End Handlers.

(** ** Reference definitions

    Definitions that follow the words of the specification, to compare
    the functions above with. *)

(** The distinct elements of a list in the order of their first
    occurrence. *)
Fixpoint firstOccurrences (l : list string) : list string :=
  match l with
  | [] => []
  | p :: l' => p :: filter (fun q => q ≠ p) (firstOccurrences l')
  end.

(** One more path seen: a new one goes to the end. *)
Definition appendNew (seen : list string) (p : string) : list string :=
  if decide (p ∈ seen) then seen else (seen ++ [p])%list.

(** The file paths a commit list mentions, in the order the
    deduplicator visits them: commit by commit, the added paths of a
    commit before its modified paths. *)
Definition commitPaths (commitList : list gitlab.WebhookCommit.t) : list string :=
  concat ((fun c => gitlab.WebhookCommit.AddedList c ++ gitlab.WebhookCommit.ModifiedList c)%list
            <$> commitList).

(** The candidates of a commit: one entry per path it mentions, the
    added paths first. *)
Definition commitCandidates (t : Time) (c : gitlab.WebhookCommit.t) : list distinctFileItem :=
  (((fun p => {| createdTime := t; commit := c; fileName := p;
                 itemType := fileItemTypeAdded |}) <$> gitlab.WebhookCommit.AddedList c)
   ++ ((fun p => {| createdTime := t; commit := c; fileName := p;
                    itemType := fileItemTypeModified |}) <$> gitlab.WebhookCommit.ModifiedList c))%list.

(** The index of the first entry for a file name. *)
Definition firstEntry (l : list distinctFileItem) (name : string) (i : nat) : Prop :=
  (exists file, l !! i = Some file /\ fileName file = name)
  /\ forall j file, (j < i)%nat -> l !! j = Some file -> fileName file ≠ name.

(** [addDistinctFile] on a list without the scan index: the entry of the
    same name is overwritten or kept, a new name is appended. *)
Fixpoint upsert (item : distinctFileItem) (l : list distinctFileItem) : list distinctFileItem :=
  match l with
  | [] => [item]
  | file :: rest =>
      if decide (fileName item = fileName file)
      then (if time.Before (createdTime file) (createdTime item) then item :: rest
            else file :: rest)
      else file :: upsert item rest
  end.

Definition isLog (ev : Event) : Prop := exists level message, ev = EvLog level message.

(** What the reconciliation of a modified file leaves in the trace,
    database by database.  No matching task: the next database.  One
    matching task: its issue is looked up and the task patched with the
    file's content, then the next database.  More than one: an error is
    logged and the run ends.  A failed lookup or patch ends the run as
    well. *)
Inductive ModifiedRun (content : string) (migrationInfo : db.MigrationInfo.t)
    : list api.Database.t -> list Event -> Prop :=
| run_end : ModifiedRun content migrationInfo [] []
| run_no_task database databases evs :
    ModifiedRun content migrationInfo databases evs ->
    ModifiedRun content migrationInfo (database :: databases)
      (EvFindTask (pendingTaskFind database migrationInfo) (Ok []) :: evs)
| run_patched database databases task issue patched evs :
    ModifiedRun content migrationInfo databases evs ->
    ModifiedRun content migrationInfo (database :: databases)
      (EvFindTask (pendingTaskFind database migrationInfo) (Ok [task])
       :: EvGetIssueByPipelineID (api.Task.PipelineID task) (Ok issue)
       :: EvLog LevelDebug "Patching task for modified file VCS push event"
       :: EvPatchTask task (statementPatch task content) (Ok patched)
       :: evs)
| run_ambiguous database databases task1 task2 tasks :
    ModifiedRun content migrationInfo (database :: databases)
      [EvFindTask (pendingTaskFind database migrationInfo) (Ok (task1 :: task2 :: tasks));
       EvLog LevelError ambiguousTasks]
| run_find_failed database databases e logs :
    Forall isLog logs ->
    ModifiedRun content migrationInfo (database :: databases)
      (EvFindTask (pendingTaskFind database migrationInfo) (Err e) :: logs)
| run_issue_failed database databases task e :
    ModifiedRun content migrationInfo (database :: databases)
      [EvFindTask (pendingTaskFind database migrationInfo) (Ok [task]);
       EvGetIssueByPipelineID (api.Task.PipelineID task) (Err e);
       EvLog LevelError issueLookupFailed]
| run_patch_failed database databases task issue e :
    ModifiedRun content migrationInfo (database :: databases)
      [EvFindTask (pendingTaskFind database migrationInfo) (Ok [task]);
       EvGetIssueByPipelineID (api.Task.PipelineID task) (Ok issue);
       EvLog LevelDebug "Patching task for modified file VCS push event";
       EvPatchTask task (statementPatch task content) (Err e);
       EvLog LevelError patchFailed].

(** The entries into [createIssueFromPushEvent] a trace records. *)
Definition reconciledFiles (evs : list Event) : list (Z * string) :=
  omap (fun ev => match ev with
                  | EvCreateIssueFromPushEvent repo file _ => Some (api.Repository.ID repo, file)
                  | _ => None
                  end) evs.

(** A binding passes the four checks of the GitLab handler. *)
Definition gitlabAccepted (c : Request.t) (pushEvent : gitlab.WebhookPushEvent.t)
    (branch : string) (repo : api.Repository.t) : bool :=
  bool_decide (api.Repository.BranchFilter repo = branch)
  && bool_decide (is_Some (api.Repository.VCS repo))
  && bool_decide (Request.Header c "X-Gitlab-Token" = api.Repository.WebhookSecretToken repo)
  && bool_decide (strconv.Itoa (gitlab.WebhookProject.ID
                                  (gitlab.WebhookPushEvent.Project pushEvent))
                  = api.Repository.ExternalID repo).

(** The pairs of a binding and a file, file by file. *)
Definition filesTimesRepos (distinctFileList : list distinctFileItem)
    (repos : list api.Repository.t) : list (Z * string) :=
  distinctFileList ≫= fun item => (fun repo => (api.Repository.ID repo, fileName item)) <$> repos.

Definition isEntry (ev : Event) : Prop :=
  exists repo file fileType, ev = EvCreateIssueFromPushEvent repo file fileType.

(** Every event a computation adds to the trace satisfies [P]. *)
Definition emitsOnly {W A} (m : M W A) (P : Event -> Prop) : Prop :=
  forall s, exists evs, trace (m s).2 = (trace s ++ evs)%list /\ Forall P evs.

(** When a computation returns, the value it returns and the events it
    has added to the trace satisfy [Q]. *)
Definition returns {W A} (m : M W A) (Q : A -> list Event -> Prop) : Prop :=
  forall s a s', m s = (Val a, s') -> exists evs, trace s' = (trace s ++ evs)%list /\ Q a evs.

(** The events of the preparation of an issue: log lines, the search
    for tasks and their patches, and schema diffs. *)
Definition isPreparation (ev : Event) : Prop :=
  match ev with
  | EvLog _ _ | EvFindTask _ _ | EvGetIssueByPipelineID _ _ | EvPatchTask _ _ _
  | EvSchemaDiff _ _ _ => True
  | _ => False
  end.

(** The calls to [s.createIssue] and to the activity manager a trace
    records. *)
Definition isIssueEvent (ev : Event) : bool :=
  match ev with
  | EvCreateIssue _ _ _ | EvCreateActivity _ _ => true
  | _ => false
  end.

Definition issueEvents (evs : list Event) : list Event :=
  filter (fun ev => isIssueEvent ev = true) evs.

(** The error of a failed reconciliation: its status code and cause. *)
Definition failsWith (r : Reconciled.t) (code : Z) (cause : option error) : Prop :=
  Reconciled.created r = false
  /\ Reconciled.message r = noText
  /\ exists e, Reconciled.err r = Some e
               /\ HTTPError.Code e = code /\ HTTPError.Internal e = cause.

(** What [createIssueFromPushEvent] returns for a file, against the
    calls it made to create an issue and to record it as a project
    activity.  Without a call it reports no issue, with or without an
    error.  A refused issue, an issue whose activity payload cannot be
    built and an issue whose activity cannot be stored are errors with
    status 500, the last two with the issue in place.  An issue is
    reported exactly when it was created and its activity stored. *)
Inductive IssueOutcome (file : string) (r : Reconciled.t) : list Event -> Prop :=
| outcome_ignored :
    Reconciled.created r = false ->
    Reconciled.message r = noText ->
    Reconciled.err r = None ->
    IssueOutcome file r []
| outcome_failed code cause :
    failsWith r code cause ->
    code = StatusForbidden \/ code = StatusInternalServerError ->
    IssueOutcome file r []
| outcome_refused create creatorID cause :
    failsWith r StatusInternalServerError (Some cause) ->
    IssueOutcome file r [EvCreateIssue create creatorID (Err cause)]
| outcome_unrecorded create creatorID issue cause :
    failsWith r StatusInternalServerError (Some cause) ->
    IssueOutcome file r [EvCreateIssue create creatorID (Ok issue)]
| outcome_unstored create creatorID issue activityCreate cause :
    failsWith r StatusInternalServerError (Some cause) ->
    IssueOutcome file r [EvCreateIssue create creatorID (Ok issue);
                         EvCreateActivity (Some activityCreate) (Err cause)]
| outcome_created create creatorID issue activityCreate :
    Reconciled.created r = true ->
    Reconciled.err r = None ->
    Reconciled.message r
    = Sprintf "Created issue %q on adding %s" [AStr (api.Issue.Name issue); AStr file] ->
    api.ActivityCreate.Level activityCreate = api.ActivityInfo ->
    api.ActivityCreate.Comment activityCreate
    = Sprintf "Created issue %q." [AStr (api.Issue.Name issue)] ->
    IssueOutcome file r [EvCreateIssue create creatorID (Ok issue);
                         EvCreateActivity (Some activityCreate) (Ok tt)].

(** A push event with the path of its added file replaced. *)
Definition withAdded (pushEvent : vcs.PushEvent.t) (added : string) : vcs.PushEvent.t :=
  let fileCommit := vcs.PushEvent.FileCommit pushEvent in
  {| vcs.PushEvent.VCSType := vcs.PushEvent.VCSType pushEvent;
     vcs.PushEvent.BaseDirectory := vcs.PushEvent.BaseDirectory pushEvent;
     vcs.PushEvent.Ref := vcs.PushEvent.Ref pushEvent;
     vcs.PushEvent.RepositoryID := vcs.PushEvent.RepositoryID pushEvent;
     vcs.PushEvent.RepositoryURL := vcs.PushEvent.RepositoryURL pushEvent;
     vcs.PushEvent.RepositoryFullPath := vcs.PushEvent.RepositoryFullPath pushEvent;
     vcs.PushEvent.AuthorName := vcs.PushEvent.AuthorName pushEvent;
     vcs.PushEvent.FileCommit :=
       {| vcs.FileCommit.ID := vcs.FileCommit.ID fileCommit;
          vcs.FileCommit.Title := vcs.FileCommit.Title fileCommit;
          vcs.FileCommit.Message := vcs.FileCommit.Message fileCommit;
          vcs.FileCommit.CreatedTs := vcs.FileCommit.CreatedTs fileCommit;
          vcs.FileCommit.URL := vcs.FileCommit.URL fileCommit;
          vcs.FileCommit.AuthorName := vcs.FileCommit.AuthorName fileCommit;
          vcs.FileCommit.AuthorEmail := vcs.FileCommit.AuthorEmail fileCommit;
          vcs.FileCommit.Added := added |} |}.

(** The migration file a schema file stands for: the file path template
    of the repository filled in for a schema migration of the database,
    under the base directory. *)
Definition sdlMigrationFile (repo : api.Repository.t) (dbName envName version : string)
    : string :=
  path.Join (api.Repository.BaseDirectory repo)
    (replacerFrom O (api.Repository.FilePathTemplate repo)
       [("{{ENV_NAME}}", envName);
        ("{{DB_NAME}}", dbName);
        ("{{VERSION}}", version);
        ("{{TYPE}}", "migrate");
        ("{{DESCRIPTION}}", "Apply_schema_diff")]).

(** The pairs of a binding and a file over the commits of a GitHub
    push: commit by commit, leaving out the commits that are not
    distinct, each file of the commit with each binding. *)
Definition commitsTimesRepos (commits : list github.WebhookCommit.t)
    (repos : list api.Repository.t) : list (Z * string) :=
  filter (fun commit => github.WebhookCommit.Distinct commit = true) commits
  ≫= fun commit =>
       commitFiles commit
       ≫= fun file => (fun repo => (api.Repository.ID repo, fileItem.name file)) <$> repos.

(** Among the mentions of file paths in the order they were visited,
    [item] is the first mention of its path with the latest time: the
    earlier mentions of the path are strictly earlier in time, the
    later ones are not later in time. *)
Definition firstOfLatest (visited : list distinctFileItem) (item : distinctFileItem) : Prop :=
  exists i,
    visited !! i = Some item
    /\ forall j other,
         visited !! j = Some other -> fileName other = fileName item ->
         ((j < i)%nat -> createdTime other < createdTime item)
         /\ ((i <= j)%nat -> createdTime other <= createdTime item).

(** A string occurs in another one. *)
Definition occursIn (piece s : string) : Prop :=
  exists pre post, s = (pre ++ piece ++ post)%string.

(** The number of groups of a pattern. *)
Definition opens (re : regexp.Regexp) : nat :=
  length (omap (fun i => match i with regexp.Open name => Some name | _ => None end) re).

(** What an attempt has matched of [file], with [s] still to match:
    the text matched and then [s] end the file, the text of an open
    group ends the text matched, and the text of a closed group occurs
    in it. *)
Definition within (file : string) (s : string) (st : regexp.attempt) : Prop :=
  (exists skipped, file = (skipped ++ regexp.matched st ++ s)%string)
  /\ (forall g, g ∈ regexp.opened st -> exists pre, regexp.matched st = (pre ++ g.2)%string)
  /\ (forall g, g ∈ regexp.closed st -> occursIn g.2 (regexp.matched st)).

(** When a computation returns, the value it returns satisfies [P]. *)
Definition yields {W A} (m : M W A) (P : A -> Prop) : Prop :=
  forall s a s', m s = (Val a, s') -> P a.

(** The activity of an ignored file: a warning, or no activity at all
    when its payload could not be built. *)
Definition isIgnoredActivity (activityCreate : option api.ActivityCreate.t) : Prop :=
  match activityCreate with
  | Some a => api.ActivityCreate.Level a = api.ActivityWarn
  | None => True
  end.

(** The activity manager has stored an informational activity: the
    record of a created issue. *)
Definition isAnnouncement (ev : Event) : bool :=
  match ev with
  | EvCreateActivity (Some a) (Ok _) =>
      match api.ActivityCreate.Level a with
      | api.ActivityInfo => true
      | _ => false
      end
  | _ => false
  end.

Definition announcements (evs : list Event) : list Event :=
  filter (fun ev => isAnnouncement ev = true) evs.

(** The activities a handler has collected for each binding are those
    of ignored files. *)
Definition collected (activities : gmap Z (list (option api.ActivityCreate.t))) : Prop :=
  map_Forall (fun _ l => Forall isIgnoredActivity l) activities.

(** What a call to [s.createIssue] asks for, for a file of a
    repository binding: an issue of the binding's project, assigned to
    the system bot, described by the message of the commit, and named
    by a description and the file path without the base directory and
    its slash in front; the creator is the system bot when the commit
    has no author email. *)
Definition requestsIssueFor (repo : api.Repository.t) (pushEvent : vcs.PushEvent.t)
    (fileEscaped : string) (ev : Event) : Prop :=
  match ev with
  | EvCreateIssue create creatorID _ =>
      api.IssueCreate.ProjectID create = api.Repository.ProjectID repo
      /\ api.IssueCreate.AssigneeID create = api.SystemBotID
      /\ api.IssueCreate.Description create
         = vcs.FileCommit.Message (vcs.PushEvent.FileCommit pushEvent)
      /\ (exists description,
            api.IssueCreate.Name create
            = Sprintf "%s by %s"
                [AStr description;
                 AStr (strings.TrimPrefix fileEscaped
                         (api.Repository.BaseDirectory repo ++ "/"))])
      /\ (vcs.FileCommit.AuthorEmail (vcs.PushEvent.FileCommit pushEvent) = "" ->
          creatorID = api.SystemBotID)
  | _ => True
  end.

(** Every byte of [s] is accepted by [a]. *)
Fixpoint allAccepted (a : regexp.atom) (s : string) : Prop :=
  match s with
  | EmptyString => True
  | String c s' => regexp.accepts a c = true /\ allAccepted a s'
  end.

(** The attempt after the bytes of [s] have been matched, one by one. *)
Fixpoint consumeAll (s : string) (st : regexp.attempt) : regexp.attempt :=
  match s with
  | EmptyString => st
  | String c s' => consumeAll s' (regexp.consume c st)
  end.

(** The match of a pattern at the start of a text, said without the
    search: from the attempt [st], [re] matches a prefix of [s] and
    leaves the attempt [st'].  A single byte matches one accepted byte.
    A [+] takes one or more accepted bytes such that the rest of the
    pattern matches what follows, and takes the most it can: with any
    longer run of accepted bytes the rest of the pattern does not
    match.  A group opens and closes in the attempt. *)
Fixpoint matchesAs (re : regexp.Regexp) (s : string) (st st' : regexp.attempt) : Prop :=
  match re with
  | [] => st' = st
  | regexp.One a :: re' =>
      exists c s',
        s = String c s' /\ regexp.accepts a c = true
        /\ matchesAs re' s' (regexp.consume c st) st'
  | regexp.Plus a :: re' =>
      exists taken s',
        s = (taken ++ s')%string /\ taken ≠ EmptyString /\ allAccepted a taken
        /\ matchesAs re' s' (consumeAll taken st) st'
        /\ forall longer s'',
             s = (longer ++ s'')%string -> allAccepted a longer ->
             (String.length taken < String.length longer)%nat ->
             forall st'', ~ matchesAs re' s'' (consumeAll longer st) st''
  | regexp.Open _ :: re' => matchesAs re' s (regexp.openGroup st) st'
  | regexp.Close :: re' => matchesAs re' s (regexp.closeGroup st) st'
  end.

(** The leftmost match of a pattern in a file path: the pattern matches
    after [skipped], and at no earlier offset. *)
Definition leftmostMatch (re : regexp.Regexp) (file : string) (st : regexp.attempt) : Prop :=
  exists skipped s,
    file = (skipped ++ s)%string
    /\ matchesAs re s regexp.start st
    /\ forall skipped' s',
         file = (skipped' ++ s')%string ->
         (String.length skipped' < String.length skipped)%nat ->
         forall st', ~ matchesAs re s' regexp.start st'.

(** The mapping from the names of a pattern's groups to the texts they
    have in an attempt. *)
Definition groupsByName (re : regexp.Regexp) (st : regexp.attempt) : gmap string string :=
  fillInfo (tail (regexp.SubexpNames re))
    (regexp.groupText st <$> seq 1 (regexp.groups st)) ∅.

Section EffectReference.
Context `{Imports} {W : Type} `{Collaborators W}.

(** The state after a collaborator moved the world to [w] and the
    events [evs] were recorded. *)
Definition after (s : State W) (w : W) (evs : list Event) : State W :=
  mkState w (trace s ++ evs).

(** What the reconciliation of a modified file does to the store,
    database by database, from the state [s]: the activities it returns
    and the state it ends in.  No matching task: the next database.
    One matching task: its issue is looked up and the task patched with
    the file's content, then the next database.  More than one: an
    error is logged and the run ends, with the later databases not
    visited.  A failed search ends the run with an ignored-file
    activity; a failed lookup or patch ends it with an error logged. *)
Inductive ModifiedSteps (repo : api.Repository.t) (pushEvent : vcs.PushEvent.t)
    (file content : string) (migrationInfo : db.MigrationInfo.t)
    : list api.Database.t -> State W -> list (option api.ActivityCreate.t) -> State W -> Prop :=
| steps_end s :
    ModifiedSteps repo pushEvent file content migrationInfo [] s [] s
| steps_no_task database databases s w1 activities s' :
    store_FindTask (pendingTaskFind database migrationInfo) (world s) = (Ok [], w1) ->
    ModifiedSteps repo pushEvent file content migrationInfo databases
      (after s w1 [EvFindTask (pendingTaskFind database migrationInfo) (Ok [])])
      activities s' ->
    ModifiedSteps repo pushEvent file content migrationInfo (database :: databases) s
      activities s'
| steps_patched database databases s task w1 issue w2 patched w3 activities s' :
    store_FindTask (pendingTaskFind database migrationInfo) (world s) = (Ok [task], w1) ->
    store_GetIssueByPipelineID (api.Task.PipelineID task) w1 = (Ok issue, w2) ->
    server_patchTask task (statementPatch task content) issue w2 = (Ok patched, w3) ->
    ModifiedSteps repo pushEvent file content migrationInfo databases
      (after s w3
         [EvFindTask (pendingTaskFind database migrationInfo) (Ok [task]);
          EvGetIssueByPipelineID (api.Task.PipelineID task) (Ok issue);
          EvLog LevelDebug "Patching task for modified file VCS push event";
          EvPatchTask task (statementPatch task content) (Ok patched)])
      activities s' ->
    ModifiedSteps repo pushEvent file content migrationInfo (database :: databases) s
      activities s'
| steps_ambiguous database databases s task1 task2 tasks w1 :
    store_FindTask (pendingTaskFind database migrationInfo) (world s)
    = (Ok (task1 :: task2 :: tasks), w1) ->
    ModifiedSteps repo pushEvent file content migrationInfo (database :: databases) s []
      (after s w1
         [EvFindTask (pendingTaskFind database migrationInfo) (Ok (task1 :: task2 :: tasks));
          EvLog LevelError ambiguousTasks])
| steps_search_failed database databases s err w1 activityCreate s' :
    store_FindTask (pendingTaskFind database migrationInfo) (world s) = (Err err, w1) ->
    getIgnoredFileActivityCreate (api.Repository.ProjectID repo) pushEvent file
      (Wrap err "Failed to find project task")
      (after s w1 [EvFindTask (pendingTaskFind database migrationInfo) (Err err)])
    = (Val activityCreate, s') ->
    ModifiedSteps repo pushEvent file content migrationInfo (database :: databases) s
      [activityCreate] s'
| steps_lookup_failed database databases s task w1 err w2 :
    store_FindTask (pendingTaskFind database migrationInfo) (world s) = (Ok [task], w1) ->
    store_GetIssueByPipelineID (api.Task.PipelineID task) w1 = (Err err, w2) ->
    ModifiedSteps repo pushEvent file content migrationInfo (database :: databases) s []
      (after s w2
         [EvFindTask (pendingTaskFind database migrationInfo) (Ok [task]);
          EvGetIssueByPipelineID (api.Task.PipelineID task) (Err err);
          EvLog LevelError issueLookupFailed])
| steps_patch_failed database databases s task w1 issue w2 err w3 :
    store_FindTask (pendingTaskFind database migrationInfo) (world s) = (Ok [task], w1) ->
    store_GetIssueByPipelineID (api.Task.PipelineID task) w1 = (Ok issue, w2) ->
    server_patchTask task (statementPatch task content) issue w2 = (Err err, w3) ->
    ModifiedSteps repo pushEvent file content migrationInfo (database :: databases) s []
      (after s w3
         [EvFindTask (pendingTaskFind database migrationInfo) (Ok [task]);
          EvGetIssueByPipelineID (api.Task.PipelineID task) (Ok issue);
          EvLog LevelDebug "Patching task for modified file VCS push event";
          EvPatchTask task (statementPatch task content) (Err err);
          EvLog LevelError patchFailed]).

(** The migration detail of a schema diff for a database. *)
Definition diffDetailOf (database : api.Database.t) (diff : string) : api.MigrationDetail.t :=
  {| api.MigrationDetail.DatabaseID := api.Database.ID database;
     api.MigrationDetail.DatabaseName := "";
     api.MigrationDetail.Statement := diff;
     api.MigrationDetail.SchemaVersion := "" |}.

(** What the SDL branch does with the databases of a schema file, one
    by one, from the state [s]: the migration details and the
    activities it collects and the state it ends in.  The schema diff
    of each database against the file's content is computed.  A diff
    computed without an error gives one migration detail, whatever the
    diff is; a failed one gives an ignored-file activity and no
    detail.  Every database is visited. *)
Inductive DiffSteps (repo : api.Repository.t) (pushEvent : vcs.PushEvent.t)
    (file content : string)
    : list api.Database.t -> State W -> list api.MigrationDetail.t
      -> list (option api.ActivityCreate.t) -> State W -> Prop :=
| diffs_end s : DiffSteps repo pushEvent file content [] s [] [] s
| diffs_detail database databases s diff s1 details activities s' :
    computeDatabaseSchemaDiff database content s = (Val (Ok diff), s1) ->
    DiffSteps repo pushEvent file content databases s1 details activities s' ->
    DiffSteps repo pushEvent file content (database :: databases) s
      (diffDetailOf database diff :: details) activities s'
| diffs_ignored database databases s err s1 activityCreate s2 details activities s' :
    computeDatabaseSchemaDiff database content s = (Val (Err err), s1) ->
    getIgnoredFileActivityCreate (api.Repository.ProjectID repo) pushEvent file
      (Wrap err "Failed to compute database schema diff") s1
    = (Val activityCreate, s2) ->
    DiffSteps repo pushEvent file content databases s2 details activities s' ->
    DiffSteps repo pushEvent file content (database :: databases) s
      details (activityCreate :: activities) s'.

(** The migration info the SDL branch makes up for a schema file. *)
Definition sdlMigrationInfo (dbName envName version : string) : db.MigrationInfo.t :=
  {| db.MigrationInfo.Version := version;
     db.MigrationInfo.Namespace := dbName;
     db.MigrationInfo.Database := dbName;
     db.MigrationInfo.Environment := envName;
     db.MigrationInfo.Source := db.VCS;
     db.MigrationInfo.Type_ := db.Migrate;
     db.MigrationInfo.Description := "Apply schema diff" |}.

(** The state in which [createIssueFromPushEvent] prepares a file: the
    call and the file have been logged. *)
Definition processing (s : State W) (repo : api.Repository.t) (file : string)
    (fileType : fileItemType) : State W :=
  after s (world s)
    [EvCreateIssueFromPushEvent repo file fileType; EvLog LevelDebug "Processing file"].

(** The escaped path of a file starts with the base directory of the
    binding, as a string. *)
Definition startsWithBaseDirectory (repo : api.Repository.t) (file : string) : Prop :=
  exists rest, common_EscapeForLogging file = (api.Repository.BaseDirectory repo ++ rest)%string.

(** From [s] to [s'] the GitHub handler has run
    [createIssueFromPushEvent] any number of times for files of the
    push, each run returning without an error, with steps in between
    that enter no run. *)
Inductive RunsWithoutError (pushEvent : github.WebhookPushEvent.t)
    (webhookEndpointID : string) : State W -> State W -> Prop :=
| runs_end s : RunsWithoutError pushEvent webhookEndpointID s s
| runs_reconciled s s1 s' repo repoVCS commit messageTitle file r :
    createIssueFromPushEvent
      (githubPushEvent pushEvent repo repoVCS commit messageTitle file) repo
      webhookEndpointID (fileItem.name file) (fileItem.itemType file) s
    = (Val r, s1) ->
    Reconciled.err r = None ->
    RunsWithoutError pushEvent webhookEndpointID s1 s' ->
    RunsWithoutError pushEvent webhookEndpointID s s'
| runs_between s s1 s' evs :
    trace s1 = (trace s ++ evs)%list ->
    reconciledFiles evs = [] ->
    RunsWithoutError pushEvent webhookEndpointID s1 s' ->
    RunsWithoutError pushEvent webhookEndpointID s s'.

End EffectReference.

Section ResolverReference.
Context `{Imports}.

(** The databases left after the filter by environment name. *)
Definition inEnvironment (envName : string) (found : list api.Database.t)
    : list api.Database.t :=
  if decide (envName = "") then found
  else filter (fun database =>
                 strings_EqualFold
                   (api.Environment.Name
                      (api.Instance.Environment (api.Database.Instance database)))
                   envName = true) found.

(** When [findProjectDatabases] fails, given what the store found. *)
Definition resolutionFails (tenantMode : api.ProjectTenantMode) (envName : string)
    (found : list api.Database.t) : Prop :=
  found = []
  \/ (tenantMode = api.TenantModeTenant /\ envName ≠ "")
  \/ (tenantMode ≠ api.TenantModeTenant
      /\ (inEnvironment envName found = []
          \/ ~ NoDup ((fun d => api.Instance.EnvironmentID (api.Database.Instance d))
                        <$> inEnvironment envName found))).

End ResolverReference.

(** ** An in-memory server

    The collaborators over plain lists, to run the handlers and the
    reconciler on concrete pushes.  The packages are stand-ins of the
    simplest kind: timestamps are decimal numbers, a parsed schema is
    its text, and the JSON body of the request is given with the run. *)

Module Mem.

Record World := {
  repositories : list api.Repository.t;
  databases : list api.Database.t;
  tasks : list api.Task.t;
  issues : list (Z * api.Issue.t);
  principals : list (string * api.Principal.t);
  (** The content of the files of the repository. *)
  files : list (string * string);
  (** The schema each database dumps, by database name. *)
  schemas : list (string * string);
  multiTenancy : bool;
  (** The descriptions of the issues the server refuses to create. *)
  refused : list string;
  (** The issues and activities the run created. *)
  createdIssues : list api.IssueCreate.t;
  createdActivities : list api.ActivityCreate.t;
}.

Definition notFound : error := External "not found".

Fixpoint lookup (key : string) (l : list (string * string)) : option string :=
  match l with
  | [] => None
  | (k, v) :: l' => if decide (k = key) then Some v else lookup key l'
  end.

(** The text of a message, its arguments put after the format. *)
Definition render (t : text) : string :=
  foldl (fun acc a =>
           match a with
           | AStr s => acc ++ " " ++ s
           | AInt n => acc ++ " " ++ strconv.Itoa n
           | AErr _ => acc
           end) (format t) (args t).

Definition taskMatches (find : api.TaskFind.t) (task : api.Task.t) : bool :=
  bool_decide (api.Task.DatabaseID task = api.TaskFind.DatabaseID find)
  && bool_decide (api.Task.Status task ∈ api.TaskFind.StatusList find)
  && bool_decide (api.Task.Type_ task ∈ api.TaskFind.TypeList find)
  && match args (api.TaskFind.Payload find) with
     | [AStr version] => bool_decide (api.Task.SchemaVersion task = version)
     | _ => false
     end.

Definition patch (p : api.TaskPatch.t) (task : api.Task.t) : api.Task.t :=
  if decide (api.Task.ID task = api.TaskPatch.ID p) then
    {| api.Task.ID := api.Task.ID task;
       api.Task.PipelineID := api.Task.PipelineID task;
       api.Task.DatabaseID := api.Task.DatabaseID task;
       api.Task.Status := api.Task.Status task;
       api.Task.Type_ := api.Task.Type_ task;
       api.Task.Statement := api.TaskPatch.Statement p;
       api.Task.SchemaVersion := api.Task.SchemaVersion task |}
  else task.

Definition withTasks (w : World) (ts : list api.Task.t) : World :=
  {| repositories := repositories w; databases := databases w; tasks := ts;
     issues := issues w; principals := principals w; files := files w;
     schemas := schemas w; multiTenancy := multiTenancy w; refused := refused w;
     createdIssues := createdIssues w; createdActivities := createdActivities w |}.

Definition withIssue (w : World) (c : api.IssueCreate.t) : World :=
  {| repositories := repositories w; databases := databases w; tasks := tasks w;
     issues := issues w; principals := principals w; files := files w;
     schemas := schemas w; multiTenancy := multiTenancy w; refused := refused w;
     createdIssues := (createdIssues w ++ [c])%list;
     createdActivities := createdActivities w |}.

Definition withActivity (w : World) (a : api.ActivityCreate.t) : World :=
  {| repositories := repositories w; databases := databases w; tasks := tasks w;
     issues := issues w; principals := principals w; files := files w;
     schemas := schemas w; multiTenancy := multiTenancy w; refused := refused w;
     createdIssues := createdIssues w;
     createdActivities := (createdActivities w ++ [a])%list |}.

#[global] Instance collaborators : Collaborators World := {|
  store_FindRepository id w :=
    (Ok (filter (fun r => api.Repository.WebhookEndpointID r = id) (repositories w)), w);
  store_FindDatabase find w :=
    (Ok (filter (fun d => api.Database.ProjectID d = api.DatabaseFind.ProjectID find
                          /\ api.Database.Name d = api.DatabaseFind.Name find)
                (databases w)), w);
  store_FindTask find w := (Ok (filter (fun t => taskMatches find t = true) (tasks w)), w);
  store_GetIssueByPipelineID id w :=
    (match list_find (fun i => i.1 = id) (issues w) with
     | Some (_, (_, issue)) => Ok issue
     | None => Err notFound
     end, w);
  store_GetPrincipalByEmail email w :=
    (match list_find (fun p => p.1 = email) (principals w) with
     | Some (_, (_, principal)) => (Some principal, None)
     | None => (None, None)
     end, w);
  server_patchTask task p issue w := (Ok (patch p task), withTasks w (patch p <$> tasks w));
  server_createIssue create creatorID w :=
    if decide (api.IssueCreate.Description create ∈ refused w) then
      (Err (External "issue refused"), w)
    else
      (Ok {| api.Issue.ID := 100 + Z.of_nat (length (createdIssues w));
             api.Issue.Name := render (api.IssueCreate.Name create) |},
       withIssue w create);
  ActivityManager_CreateActivity create w :=
    match create with
    | Some a => (Ok tt, withActivity w a)
    | None => (Err (External "nil activity"), w)
    end;
  server_feature f w := multiTenancy w;
  vcs_ReadFileContent ty oauth instanceURL repositoryID filePath ref w :=
    (match lookup filePath (files w) with
     | Some content => Ok content
     | None => Err notFound
     end, w);
  Driver := string;
  server_getAdminDatabaseDriver instance name w := (Ok name, w);
  driver_Dump driver name w :=
    (match lookup name (schemas w) with
     | Some schema => Ok schema
     | None => Err notFound
     end, w);
  driver_Close driver w := w;
  common_DefaultMigrationVersion w := ("20060102150405", w);
|}.

(** A decimal number, or nothing. *)
Fixpoint decimal (s : string) (acc : Z) : option Z :=
  match s with
  | EmptyString => Some acc
  | String c s' =>
      let d := Z.of_N (N_of_ascii c) - 48 in
      if ((0 <=? d) && (d <=? 9))%Z then decimal s' (10 * acc + d) else None
  end.

Definition lower (c : ascii) : ascii :=
  let n := N_of_ascii c in
  if ((65 <=? n) && (n <=? 90))%N then ascii_of_N (n + 32) else c.

Fixpoint equalFold (s t : string) : bool :=
  match s, t with
  | EmptyString, EmptyString => true
  | String a s', String b t' => Ascii.eqb (lower a) (lower b) && equalFold s' t'
  | _, _ => false
  end.

(** The packages, given the push event the body decodes to and the
    migration info of each file path. *)
Definition imports (gl : result gitlab.WebhookPushEvent.t)
    (gh : result github.WebhookPushEvent.t)
    (migrations : list (string * db.MigrationInfo.t)) : Imports := {|
  time_Parse_RFC3339 s := match s with EmptyString => None | _ => decimal s 0 end;
  strings_EqualFold := equalFold;
  hmac_sha256 key body := Ok (key ++ body);
  json_Unmarshal_gitlab body := gl;
  json_Unmarshal_github body := gh;
  json_Marshal_payload p := Ok "{}";
  json_Marshal_context c := Ok "{}";
  common_EscapeForLogging s :=
    strings.ReplaceAll (strings.ReplaceAll s (String "010" "") "") (String "013" "") "";
  api_AccessErrorMessage f := "multi-tenancy is a paid feature";
  db_ParseMigrationInfo filePath template :=
    match list_find (fun m => m.1 = filePath) migrations with
    | Some (_, (_, info)) => Ok info
    | None => Err (External "not a migration file")
    end;
  Node := string;
  parser_Parse engine s := Ok [s];
  pg_SchemaDiff old new :=
    Ok (if decide (old = new) then "" else foldr String.append "" new);
|}.

(** A run from a world with an empty trace. *)
Definition exec {A} (m : M World A) (w : World) : Res A * State World :=
  m (mkState w []).

End Mem.


(** ** Sample data *)

Module Sample.

Definition prod : api.Instance.t :=
  {| api.Instance.EnvironmentID := 1;
     api.Instance.Environment := {| api.Environment.Name := "prod" |};
     api.Instance.Engine := db.Postgres |}.

Definition staging : api.Instance.t :=
  {| api.Instance.EnvironmentID := 2;
     api.Instance.Environment := {| api.Environment.Name := "staging" |};
     api.Instance.Engine := db.Postgres |}.

Definition database (id : Z) (instance : api.Instance.t) : api.Database.t :=
  {| api.Database.ID := id; api.Database.ProjectID := 7;
     api.Database.Name := "orders"; api.Database.Instance := instance |}.

Definition ordersProd : api.Database.t := database 11 prod.
Definition ordersStaging : api.Database.t := database 12 staging.
(** A second database named [orders] in the environment of the first. *)
Definition ordersProdTwin : api.Database.t := database 13 prod.

(** A server with the multi-tenancy feature off. *)
Definition server (repositories : list api.Repository.t) (databases : list api.Database.t)
    (tasks : list api.Task.t) (issues : list (Z * api.Issue.t))
    (files schemas : list (string * string)) : Mem.World :=
  {| Mem.repositories := repositories; Mem.databases := databases; Mem.tasks := tasks;
     Mem.issues := issues; Mem.principals := []; Mem.files := files;
     Mem.schemas := schemas; Mem.multiTenancy := false; Mem.refused := [];
     Mem.createdIssues := []; Mem.createdActivities := [] |}.

(** The same server, refusing the issues with one description. *)
Definition refusing (description : string) (w : Mem.World) : Mem.World :=
  {| Mem.repositories := Mem.repositories w; Mem.databases := Mem.databases w;
     Mem.tasks := Mem.tasks w; Mem.issues := Mem.issues w;
     Mem.principals := Mem.principals w; Mem.files := Mem.files w;
     Mem.schemas := Mem.schemas w; Mem.multiTenancy := Mem.multiTenancy w;
     Mem.refused := [description];
     Mem.createdIssues := Mem.createdIssues w;
     Mem.createdActivities := Mem.createdActivities w |}.

Definition world (databases : list api.Database.t) : Mem.World :=
  server [] databases [] [] [] [].

Definition ddl : api.Project.t :=
  {| api.Project.TenantMode := api.TenantModeDisabled;
     api.Project.SchemaChangeType := api.ProjectSchemaChangeTypeDDL |}.

Definition sdl : api.Project.t :=
  {| api.Project.TenantMode := api.TenantModeDisabled;
     api.Project.SchemaChangeType := api.ProjectSchemaChangeTypeSDL |}.

Definition tenant : api.Project.t :=
  {| api.Project.TenantMode := api.TenantModeTenant;
     api.Project.SchemaChangeType := api.ProjectSchemaChangeTypeDDL |}.

Definition hostedVCS (type : vcs.Type') : api.VCS.t :=
  {| api.VCS.Type_ := type; api.VCS.ApplicationID := "app";
     api.VCS.Secret := "app-secret"; api.VCS.InstanceURL := "https://vcs.example.com" |}.

(** The template of the specification's example. *)
Definition schemaTemplate : string := "{{ENV_NAME}}/{{DB_NAME}}/schema.sql".

(** A binding under the endpoint [ep], with base directory [migrations]
    and secret [secret]. *)
Definition repository (id : Z) (type : vcs.Type') (project : api.Project.t)
    (branchFilter externalID : string) : api.Repository.t :=
  {| api.Repository.ID := id;
     api.Repository.VCS := Some (hostedVCS type);
     api.Repository.ProjectID := 7;
     api.Repository.Project := project;
     api.Repository.WebURL := "https://vcs.example.com/org/repo";
     api.Repository.WebhookEndpointID := "ep";
     api.Repository.BranchFilter := branchFilter;
     api.Repository.BaseDirectory := "migrations";
     api.Repository.FilePathTemplate :=
       "{{ENV_NAME}}/{{DB_NAME}}__{{VERSION}}__{{TYPE}}__{{DESCRIPTION}}.sql";
     api.Repository.SchemaPathTemplate := schemaTemplate;
     api.Repository.ExternalID := externalID;
     api.Repository.WebhookSecretToken := "secret";
     api.Repository.AccessToken := "token";
     api.Repository.RefreshToken := "refresh" |}.

(** What the example path of the specification is classified as. *)
Definition schemaInfo : gmap string string :=
  <["DB_NAME" := "orders"]> (<["ENV_NAME" := "prod"]> ∅).

Definition schemaFile : string := "migrations/prod/orders/schema.sql".

Definition schema : string := "CREATE TABLE t (id INT);".

(** Two migration scripts and what [db.ParseMigrationInfo] makes of them. *)
Definition script1 : string := "migrations/orders__v1__migrate__init.sql".
Definition script2 : string := "migrations/orders__v2__migrate__more.sql".

Definition migration (version description : string) : db.MigrationInfo.t :=
  {| db.MigrationInfo.Version := version;
     db.MigrationInfo.Namespace := "orders";
     db.MigrationInfo.Database := "orders";
     db.MigrationInfo.Environment := "";
     db.MigrationInfo.Source := db.VCS;
     db.MigrationInfo.Type_ := db.Migrate;
     db.MigrationInfo.Description := description |}.

Definition migrations : list (string * db.MigrationInfo.t) :=
  [(script1, migration "v1" "init"); (script2, migration "v2" "more")].

(** A schema-update task of a database for the version [v1], with the
    statement [old], and the issue of its pipeline. *)
Definition task (id databaseID : Z) (status : api.TaskStatus) : api.Task.t :=
  {| api.Task.ID := id; api.Task.PipelineID := id; api.Task.DatabaseID := databaseID;
     api.Task.Status := status; api.Task.Type_ := api.TaskDatabaseSchemaUpdate;
     api.Task.Statement := "old"; api.Task.SchemaVersion := "v1" |}.

Definition issue (pipelineID : Z) : Z * api.Issue.t :=
  (pipelineID, {| api.Issue.ID := 50 + pipelineID; api.Issue.Name := "init" |}).

(** The push event of a file, as a handler builds it. *)
Definition pushEvent (file : string) : vcs.PushEvent.t :=
  {| vcs.PushEvent.VCSType := vcs.GitLabSelfHost;
     vcs.PushEvent.BaseDirectory := "migrations";
     vcs.PushEvent.Ref := "refs/heads/main";
     vcs.PushEvent.RepositoryID := "42";
     vcs.PushEvent.RepositoryURL := "https://vcs.example.com/org/repo";
     vcs.PushEvent.RepositoryFullPath := "org/repo";
     vcs.PushEvent.AuthorName := "dev";
     vcs.PushEvent.FileCommit :=
       {| vcs.FileCommit.ID := "c1"; vcs.FileCommit.Title := "change";
          vcs.FileCommit.Message := "change"; vcs.FileCommit.CreatedTs := 0;
          vcs.FileCommit.URL := ""; vcs.FileCommit.AuthorName := "dev";
          vcs.FileCommit.AuthorEmail := ""; vcs.FileCommit.Added := file |} |}.

(** A push to [main] of two commits: the first adds [script1], the
    second [script2]. *)
Definition githubCommit (id message file : string) : github.WebhookCommit.t :=
  {| github.WebhookCommit.ID := id; github.WebhookCommit.Distinct := true;
     github.WebhookCommit.Message := message; github.WebhookCommit.Timestamp := 0;
     github.WebhookCommit.URL := "";
     github.WebhookCommit.Author :=
       {| github.WebhookCommitAuthor.Name := "dev"; github.WebhookCommitAuthor.Email := "" |};
     github.WebhookCommit.Added := [file]; github.WebhookCommit.Modified := [] |}.

Definition githubPush : github.WebhookPushEvent.t :=
  {| github.WebhookPushEvent.Ref := "refs/heads/main";
     github.WebhookPushEvent.Repository :=
       {| github.WebhookRepository.ID := 42; github.WebhookRepository.FullName := "org/repo";
          github.WebhookRepository.HTMLURL := "https://vcs.example.com/org/repo" |};
     github.WebhookPushEvent.Sender := {| github.WebhookSender.Login := "dev" |};
     github.WebhookPushEvent.Commits :=
       [githubCommit "c1" "init" script1; githubCommit "c2" "more" script2] |}.

Definition gitlabCommit (id message timestamp file : string) : gitlab.WebhookCommit.t :=
  {| gitlab.WebhookCommit.ID := id; gitlab.WebhookCommit.Title := message;
     gitlab.WebhookCommit.Message := message; gitlab.WebhookCommit.Timestamp := timestamp;
     gitlab.WebhookCommit.URL := "";
     gitlab.WebhookCommit.Author :=
       {| gitlab.WebhookCommitAuthor.Name := "dev"; gitlab.WebhookCommitAuthor.Email := "" |};
     gitlab.WebhookCommit.AddedList := [file]; gitlab.WebhookCommit.ModifiedList := [] |}.

Definition gitlabPush : gitlab.WebhookPushEvent.t :=
  {| gitlab.WebhookPushEvent.ObjectKind := "push";
     gitlab.WebhookPushEvent.Ref := "refs/heads/main";
     gitlab.WebhookPushEvent.AuthorName := "dev";
     gitlab.WebhookPushEvent.Project :=
       {| gitlab.WebhookProject.ID := 42;
          gitlab.WebhookProject.WebURL := "https://vcs.example.com/org/repo";
          gitlab.WebhookProject.FullPath := "org/repo" |};
     gitlab.WebhookPushEvent.CommitList :=
       [gitlabCommit "c1" "init" "1" script1; gitlabCommit "c2" "more" "2" script2] |}.

(** The packages: the body of a request decodes to the push above. *)
#[global] Instance imports : Imports :=
  Mem.imports (Ok gitlabPush) (Ok githubPush) migrations.

(** The request of the push, signed for GitHub with the secret
    [secret] and carrying the GitLab token [secret]. *)
Definition request : Request.t :=
  {| Request.Body := Ok "{}";
     Request.Header h :=
       if decide (h = "X-GitHub-Event") then "push"
       else if decide (h = "X-Hub-Signature-256")
            then "sha256=" ++ hex.EncodeToString ("secret" ++ "{}")
       else if decide (h = "X-Gitlab-Token") then "secret"
       else "";
     Request.ParamID := "ep" |}.

End Sample.
(** * Properties *)

Open Scope list_scope.
Set Warnings "-clear-no-such-hyp".

(** ** The commit deduplicator *)

Section DedupProperties.
Context `{Imports}.

Lemma addDistinctFileFrom_upsert (pre rest : list distinctFileItem) (item : distinctFileItem) :
  addDistinctFileFrom (pre ++ rest) item (length pre) rest = pre ++ upsert item rest.
Proof.
  revert pre. induction rest as [|file rest IH]; intros pre; simpl.
  - by rewrite app_nil_r.
  - destruct (decide (fileName item = fileName file)) as [Heq|Hne].
    + destruct (time.Before _ _); [|done].
      rewrite insert_app_r_alt by lia. by rewrite Nat.sub_diag.
    + specialize (IH (pre ++ [file])).
      rewrite length_app in IH. simpl in IH.
      rewrite Nat.add_1_r, <- !app_assoc in IH. exact IH.
Qed.

Lemma addDistinctFile_upsert (l : list distinctFileItem) t c name ty :
  addDistinctFile l t c name ty
  = upsert {| createdTime := t; commit := c; fileName := name; itemType := ty |} l.
Proof. unfold addDistinctFile. exact (addDistinctFileFrom_upsert [] l _). Qed.

(** The names after an upsert: unchanged when the name is there, one
    more at the end when it is new. *)
Lemma upsert_names (item : distinctFileItem) (l : list distinctFileItem) :
  fileName <$> upsert item l
  = if decide (fileName item ∈ fileName <$> l) then fileName <$> l
    else (fileName <$> l) ++ [fileName item].
Proof.
  induction l as [|file rest IH]; [done|]. csimpl.
  destruct (decide (fileName item = fileName file)) as [Heq|Hne].
  - rewrite decide_True by (rewrite Heq; apply list_elem_of_here).
    destruct (time.Before _ _); csimpl; by rewrite ?Heq.
  - csimpl. rewrite IH.
    destruct (decide (fileName item ∈ fileName <$> rest)) as [Hin|Hnin].
    + by rewrite decide_True by (by apply list_elem_of_further).
    + rewrite decide_False; [done|].
      intros [?|?]%elem_of_cons; done.
Qed.

Lemma addDistinctFile_names (l : list distinctFileItem) t c name ty :
  fileName <$> addDistinctFile l t c name ty = appendNew (fileName <$> l) name.
Proof. rewrite addDistinctFile_upsert, upsert_names. done. Qed.

Lemma foldl_addDistinctFile_names (paths : list string) (l : list distinctFileItem) t c ty :
  fileName <$> foldl (fun l p => addDistinctFile l t c p ty) l paths
  = foldl appendNew (fileName <$> l) paths.
Proof.
  revert l. induction paths as [|p paths IH]; intros l; [done|].
  simpl. by rewrite IH, addDistinctFile_names.
Qed.

Lemma dedupCommit_names (l : list distinctFileItem) (c : gitlab.WebhookCommit.t) :
  fileName <$> dedupCommit l c
  = foldl appendNew (fileName <$> l)
      (gitlab.WebhookCommit.AddedList c ++ gitlab.WebhookCommit.ModifiedList c).
Proof.
  unfold dedupCommit. by rewrite foldl_app, !foldl_addDistinctFile_names.
Qed.

Lemma dedup_names_from (commitList : list gitlab.WebhookCommit.t) (l : list distinctFileItem) :
  fileName <$> foldl dedupCommit l commitList
  = foldl appendNew (fileName <$> l) (commitPaths commitList).
Proof.
  revert l. induction commitList as [|c cl IH]; intros l; [done|].
  simpl. rewrite IH, dedupCommit_names. unfold commitPaths. csimpl.
  symmetry. apply foldl_app.
Qed.

Lemma firstOccurrences_elem (l : list string) (x : string) :
  x ∈ firstOccurrences l <-> x ∈ l.
Proof.
  induction l as [|p l IH]; [done|]. simpl.
  rewrite !elem_of_cons, list_elem_of_filter, IH.
  destruct (decide (x = p)); naive_solver.
Qed.

Lemma firstOccurrences_NoDup (l : list string) : NoDup (firstOccurrences l).
Proof.
  induction l as [|p l IH]; simpl; [constructor|].
  constructor.
  - rewrite list_elem_of_filter. naive_solver.
  - by apply NoDup_filter.
Qed.

Lemma foldl_appendNew (paths seen : list string) :
  foldl appendNew seen paths
  = seen ++ filter (fun q => q ∉ seen) (firstOccurrences paths).
Proof.
  revert seen. induction paths as [|p paths IH]; intros seen; simpl.
  - by rewrite app_nil_r.
  - rewrite IH. unfold appendNew.
    destruct (decide (p ∈ seen)) as [Hin|Hnin].
    + rewrite filter_cons_False by naive_solver.
      rewrite list_filter_filter. f_equal.
      apply list_filter_iff. intros x. naive_solver.
    + rewrite filter_cons_True by done.
      rewrite <- app_assoc. simpl. do 2 f_equal.
      rewrite list_filter_filter.
      apply list_filter_iff. intros x.
      rewrite elem_of_app, list_elem_of_singleton. naive_solver.
Qed.

Lemma filter_all {A} (P : A -> Prop) `{forall x, Decision (P x)} (l : list A) :
  (forall x, x ∈ l -> P x) -> filter P l = l.
Proof.
  induction l as [|x l IH]; intros Hall; [done|].
  rewrite filter_cons_True by (apply Hall; left).
  f_equal. apply IH. intros y Hy. apply Hall. by right.
Qed.

Lemma dedup_one_entry_per_path_in_first_occurrence_order_aux
    (commitList : list gitlab.WebhookCommit.t) :
  NoDup (fileName <$> foldl dedupCommit [] commitList).
Proof.
  rewrite dedup_names_from, foldl_appendNew. simpl.
  apply NoDup_filter, firstOccurrences_NoDup.
Qed.

(** C2.  For every commit list, the output of
    [dedupMigrationFilesFromCommitList] has at most one entry per file
    path, and its paths come in the order of their first occurrence in
    the commit list (commit by commit, added before modified),
    whatever was replaced on the way. *)
Theorem dedup_one_entry_per_path_in_first_occurrence_order
    (commitList : list gitlab.WebhookCommit.t) :
  NoDup (fileName <$> dedupMigrationFilesFromCommitList commitList)
  /\ fileName <$> dedupMigrationFilesFromCommitList commitList
     = firstOccurrences (commitPaths commitList).
Proof.
  assert (Hnames : fileName <$> dedupMigrationFilesFromCommitList commitList
                   = firstOccurrences (commitPaths commitList)).
  { unfold dedupMigrationFilesFromCommitList.
    rewrite dedup_names_from, foldl_appendNew. simpl.
    apply filter_all. intros x _. apply not_elem_of_nil. }
  split; [|exact Hnames].
  rewrite Hnames. apply firstOccurrences_NoDup.
Qed.

Lemma upsert_at (item : distinctFileItem) (l : list distinctFileItem) (i : nat)
    (file : distinctFileItem) :
  l !! i = Some file ->
  fileName file = fileName item ->
  (forall j f, (j < i)%nat -> l !! j = Some f -> fileName f ≠ fileName item) ->
  upsert item l
  = if time.Before (createdTime file) (createdTime item) then <[i := item]> l else l.
Proof.
  revert i. induction l as [|g rest IH]; intros i Hi Hname Hfirst; [done|].
  simpl. destruct i as [|i]; simpl in Hi.
  - injection Hi as ->. rewrite decide_True by done. by destruct (time.Before _ _).
  - rewrite decide_False.
    2:{ intros Heq. by apply (Hfirst 0%nat g); [lia| |]. }
    rewrite (IH i Hi Hname).
    + by destruct (time.Before _ _).
    + intros j f Hj Hf. apply (Hfirst (S j) f); [lia|done].
Qed.

(** C3.  When a path already has an entry, [addDistinctFile] overwrites
    that entry, at its index, exactly when the stored time is before
    the new commit's time, and leaves the list as it is otherwise.  So a
    file added by a commit and modified by a later commit with a later
    timestamp ends as one entry, with the later commit's data. *)
Theorem addDistinctFile_replaces_in_place_iff_later :
  (forall (l : list distinctFileItem) (t : Time) (c : gitlab.WebhookCommit.t)
          (name : string) (ty : fileItemType) (i : nat) (file : distinctFileItem),
      l !! i = Some file ->
      fileName file = name ->
      (forall j f, (j < i)%nat -> l !! j = Some f -> fileName f ≠ name) ->
      addDistinctFile l t c name ty
      = if time.Before (createdTime file) t
        then <[i := {| createdTime := t; commit := c; fileName := name; itemType := ty |}]> l
        else l)
  /\ (forall (c1 c2 : gitlab.WebhookCommit.t) (F : string),
        gitlab.WebhookCommit.AddedList c1 = [F] ->
        gitlab.WebhookCommit.ModifiedList c1 = [] ->
        gitlab.WebhookCommit.AddedList c2 = [] ->
        gitlab.WebhookCommit.ModifiedList c2 = [F] ->
        parseCreatedTime c1 < parseCreatedTime c2 ->
        dedupMigrationFilesFromCommitList [c1; c2]
        = [{| createdTime := parseCreatedTime c2; commit := c2; fileName := F;
              itemType := fileItemTypeModified |}]).
Proof.
  split.
  - intros l t c name ty i file Hi Hname Hfirst.
    rewrite addDistinctFile_upsert.
    by rewrite (upsert_at _ l i file Hi).
  - intros c1 c2 F Ha1 Hm1 Ha2 Hm2 Hlt.
    unfold dedupMigrationFilesFromCommitList, dedupCommit. simpl.
    rewrite Ha1, Hm1, Ha2, Hm2. simpl.
    unfold addDistinctFile. simpl.
    rewrite decide_True by done. simpl.
    unfold time.Before. by rewrite (proj2 (Z.ltb_lt _ _) Hlt).
Qed.

(** *** The entry kept for a path has the latest time *)

Lemma upsert_elem (item x : distinctFileItem) (l : list distinctFileItem) :
  x ∈ upsert item l -> x ∈ l \/ x = item.
Proof.
  induction l as [|file rest IH]; simpl.
  - rewrite list_elem_of_singleton. auto.
  - destruct (decide _) as [Heq|Hne].
    + destruct (time.Before _ _); rewrite !elem_of_cons; naive_solver.
    + rewrite !elem_of_cons. naive_solver.
Qed.

(** After an upsert every entry of before, and the upserted item, has an
    entry of its name that is not earlier. *)
Lemma upsert_covers (item y : distinctFileItem) (l : list distinctFileItem) :
  y ∈ l \/ y = item ->
  exists x, x ∈ upsert item l /\ fileName x = fileName y /\ createdTime y <= createdTime x.
Proof.
  induction l as [|file rest IH]; simpl.
  - intros [Hy| ->]; [by apply elem_of_nil in Hy|].
    exists item. rewrite list_elem_of_singleton. split; [done|]. split; [done|lia].
  - destruct (decide (fileName item = fileName file)) as [Heq|Hne].
    + unfold time.Before. destruct (Z.ltb_spec (createdTime file) (createdTime item)).
      * intros [[->|Hy]%elem_of_cons| ->].
        -- exists item. split; [left|]. split; [done|lia].
        -- exists y. split; [by right|]. split; [done|lia].
        -- exists item. split; [left|]. split; [done|lia].
      * intros [[->|Hy]%elem_of_cons| ->].
        -- exists file. split; [left|]. split; [done|lia].
        -- exists y. split; [by right|]. split; [done|lia].
        -- exists file. split; [left|]. split; [done|lia].
    + intros [[->|Hy]%elem_of_cons| ->].
      * exists file. split; [left|]. split; [done|lia].
      * destruct (IH (or_introl Hy)) as (x & Hx & Hname & Htime).
        exists x. split; [by right|done].
      * destruct (IH (or_intror eq_refl)) as (x & Hx & Hname & Htime).
        exists x. split; [by right|done].
Qed.

Lemma foldl_upsert_elem (items l : list distinctFileItem) (x : distinctFileItem) :
  x ∈ foldl (fun l item => upsert item l) l items -> x ∈ l \/ x ∈ items.
Proof.
  revert l. induction items as [|item items IH]; intros l; simpl; [auto|].
  intros [[Hx| ->]%upsert_elem|Hx]%IH.
  - by left.
  - right. left.
  - right. by right.
Qed.

Lemma foldl_upsert_covers (items l : list distinctFileItem) (y : distinctFileItem) :
  y ∈ l \/ y ∈ items ->
  exists x, x ∈ foldl (fun l item => upsert item l) l items
            /\ fileName x = fileName y /\ createdTime y <= createdTime x.
Proof.
  revert l y. induction items as [|item items IH]; intros l y; simpl.
  - intros [Hy|Hy]; [|by apply elem_of_nil in Hy].
    exists y. split; [done|]. split; [done|lia].
  - intros Hy.
    assert (y ∈ items \/ (y ∈ l \/ y = item)) as [Hlater|Hnow].
    { rewrite elem_of_cons in Hy. tauto. }
    + apply IH. by right.
    + destruct (upsert_covers item y l Hnow) as (x & Hx & Hname & Htime).
      destruct (IH (upsert item l) x (or_introl Hx)) as (z & Hz & Hname' & Htime').
      exists z. split; [done|]. split; [congruence|lia].
Qed.

Lemma foldl_addDistinctFile_upsert (paths : list string) (l : list distinctFileItem) t c ty :
  foldl (fun l p => addDistinctFile l t c p ty) l paths
  = foldl (fun l item => upsert item l) l
      ((fun p => {| createdTime := t; commit := c; fileName := p; itemType := ty |}) <$> paths).
Proof.
  revert l. induction paths as [|p paths IH]; intros l; [done|].
  csimpl. by rewrite addDistinctFile_upsert, IH.
Qed.

(** The deduplicator is the fold of [upsert] over the candidates of the
    commits. *)
Lemma dedup_fold_candidates (commitList : list gitlab.WebhookCommit.t)
    (l : list distinctFileItem) :
  foldl dedupCommit l commitList
  = foldl (fun l item => upsert item l) l
      (commitList ≫= fun c => commitCandidates (parseCreatedTime c) c).
Proof.
  revert l. induction commitList as [|c cl IH]; intros l; [done|].
  csimpl. rewrite IH, foldl_app. f_equal.
  unfold dedupCommit, commitCandidates.
  by rewrite foldl_app, !foldl_addDistinctFile_upsert.
Qed.

Lemma candidate_of_commit (c : gitlab.WebhookCommit.t) (t : Time) (x : distinctFileItem) :
  x ∈ commitCandidates t c
  <-> commit x = c /\ createdTime x = t
      /\ ((itemType x = fileItemTypeAdded /\ fileName x ∈ gitlab.WebhookCommit.AddedList c)
          \/ (itemType x = fileItemTypeModified
              /\ fileName x ∈ gitlab.WebhookCommit.ModifiedList c)).
Proof.
  unfold commitCandidates. rewrite elem_of_app, !list_elem_of_fmap. split.
  - intros [(p & -> & Hp)|(p & -> & Hp)]; simpl; auto.
  - destruct x as [t' c' name ty]. simpl.
    intros (-> & -> & [[-> Hp]|[-> Hp]]); [left|right]; by exists name.
Qed.

(** The invariant of the data model: every entry of the output comes
    from a commit of the list that mentions its path (as added or as
    modified, with that commit's parsed time), and no commit that
    mentions the path has a later time. *)
Theorem dedup_keeps_a_latest_candidate (commitList : list gitlab.WebhookCommit.t)
    (item : distinctFileItem) :
  item ∈ dedupMigrationFilesFromCommitList commitList ->
  (commit item ∈ commitList
   /\ createdTime item = parseCreatedTime (commit item)
   /\ ((itemType item = fileItemTypeAdded
        /\ fileName item ∈ gitlab.WebhookCommit.AddedList (commit item))
       \/ (itemType item = fileItemTypeModified
           /\ fileName item ∈ gitlab.WebhookCommit.ModifiedList (commit item))))
  /\ forall c,
      c ∈ commitList ->
      fileName item ∈ gitlab.WebhookCommit.AddedList c ++ gitlab.WebhookCommit.ModifiedList c ->
      parseCreatedTime c <= createdTime item.
Proof.
  intros Hitem.
  pose proof (dedup_one_entry_per_path_in_first_occurrence_order_aux commitList) as Hnodup.
  unfold dedupMigrationFilesFromCommitList in *.
  rewrite dedup_fold_candidates in *. split.
  - apply foldl_upsert_elem in Hitem as [Hnil|Hcand]; [by apply elem_of_nil in Hnil|].
    apply list_elem_of_bind in Hcand as (c & Hcand & Hc).
    apply candidate_of_commit in Hcand as (<- & Htime & Hkind). done.
  - intros c Hc Hmention.
    assert (exists y, y ∈ commitCandidates (parseCreatedTime c) c
                      /\ fileName y = fileName item) as (y & Hy & Hname).
    { apply elem_of_app in Hmention as [Hp|Hp].
      - exists {| createdTime := parseCreatedTime c; commit := c; fileName := fileName item;
                  itemType := fileItemTypeAdded |}.
        split; [|done]. apply candidate_of_commit. simpl. auto.
      - exists {| createdTime := parseCreatedTime c; commit := c; fileName := fileName item;
                  itemType := fileItemTypeModified |}.
        split; [|done]. apply candidate_of_commit. simpl. auto. }
    destruct (foldl_upsert_covers
                (commitList ≫= fun c => commitCandidates (parseCreatedTime c) c) [] y)
      as (x & Hx & Hxname & Htime).
    { right. apply list_elem_of_bind. eauto. }
    assert (x = item) as ->.
    { apply list_elem_of_lookup in Hx as [i Hi]. apply list_elem_of_lookup in Hitem as [j Hj].
      assert (i = j) as ->; [|congruence].
      eapply (NoDup_lookup _ i j (fileName x) Hnodup).
      - by rewrite list_lookup_fmap, Hi.
      - rewrite list_lookup_fmap, Hj. simpl. congruence. }
    apply candidate_of_commit in Hy as (_ & <- & _). done.
Qed.

End DedupProperties.

(** An added file and its later modification, through the in-memory
    packages (timestamps 1 and 2). *)
Lemma addDistinctFile_replaces_in_place_iff_later_witness :
  let imports := Sample.imports in
  let author := {| gitlab.WebhookCommitAuthor.Name := "dev";
                   gitlab.WebhookCommitAuthor.Email := "dev@example.com" |} in
  let c1 := {| gitlab.WebhookCommit.ID := "c1"; gitlab.WebhookCommit.Title := "add";
               gitlab.WebhookCommit.Message := "add"; gitlab.WebhookCommit.Timestamp := "1";
               gitlab.WebhookCommit.URL := ""; gitlab.WebhookCommit.Author := author;
               gitlab.WebhookCommit.AddedList := ["F.sql"];
               gitlab.WebhookCommit.ModifiedList := [] |} in
  let c2 := {| gitlab.WebhookCommit.ID := "c2"; gitlab.WebhookCommit.Title := "fix";
               gitlab.WebhookCommit.Message := "fix"; gitlab.WebhookCommit.Timestamp := "2";
               gitlab.WebhookCommit.URL := ""; gitlab.WebhookCommit.Author := author;
               gitlab.WebhookCommit.AddedList := [];
               gitlab.WebhookCommit.ModifiedList := ["F.sql"] |} in
  let old := {| createdTime := 1; commit := c1; fileName := "F.sql";
                itemType := fileItemTypeAdded |} in
  addDistinctFile [old] 2 c2 "F.sql" fileItemTypeModified
  = [{| createdTime := 2; commit := c2; fileName := "F.sql";
        itemType := fileItemTypeModified |}]
  /\ @dedupMigrationFilesFromCommitList imports [c1; c2]
     = [{| createdTime := 2; commit := c2; fileName := "F.sql";
           itemType := fileItemTypeModified |}].
Proof.
  intros imports author c1 c2 old. split.
  - apply (proj1 (@addDistinctFile_replaces_in_place_iff_later imports)
             [old] 2 c2 "F.sql" fileItemTypeModified 0%nat old);
      [reflexivity | reflexivity | intros j f Hj; lia].
  - apply (proj2 (@addDistinctFile_replaces_in_place_iff_later imports) c1 c2 "F.sql");
      [reflexivity | reflexivity | reflexivity | reflexivity | reflexivity].
Defined.


(** The sample push: the entry of the second script comes from the
    second commit, whose time no other mention exceeds. *)
Lemma dedup_keeps_a_latest_candidate_witness :
  let c2 := Sample.gitlabCommit "c2" "more" "2" Sample.script2 in
  let item := {| createdTime := 2; commit := c2; fileName := Sample.script2;
                 itemType := fileItemTypeAdded |} in
  let commitList := gitlab.WebhookPushEvent.CommitList Sample.gitlabPush in
  (commit item ∈ commitList
   /\ createdTime item = parseCreatedTime (commit item)
   /\ ((itemType item = fileItemTypeAdded
        /\ fileName item ∈ gitlab.WebhookCommit.AddedList (commit item))
       \/ (itemType item = fileItemTypeModified
           /\ fileName item ∈ gitlab.WebhookCommit.ModifiedList (commit item))))
  /\ forall c,
      c ∈ commitList ->
      fileName item ∈ gitlab.WebhookCommit.AddedList c ++ gitlab.WebhookCommit.ModifiedList c ->
      parseCreatedTime c <= createdTime item.
Proof.
  intros c2 item commitList.
  apply (@dedup_keeps_a_latest_candidate Sample.imports commitList item).
  vm_compute. apply list_elem_of_further, list_elem_of_here.
Defined.

(** ** Signature validation *)

Lemma xorFold_zero (x y : string) (v : N) :
  String.length x = String.length y ->
  subtle.xorFold x y v = 0%N <-> v = 0%N /\ x = y.
Proof.
  revert y v. induction x as [|a x IH]; intros [|b y] v Hlen; simpl in *; try done.
  - naive_solver.
  - rewrite IH by congruence. rewrite N.lor_eq_0_iff, N.lxor_eq_0_iff.
    split.
    + intros [[-> Hab] ->]. split; [done|]. f_equal.
      by rewrite <- (ascii_N_embedding a), <- (ascii_N_embedding b), Hab.
    + intros [-> [= -> ->]]. done.
Qed.

(** [subtle.ConstantTimeCompare] decides the equality of its arguments. *)
Lemma ConstantTimeCompare_eq (x y : string) :
  subtle.ConstantTimeCompare x y = 1 <-> x = y.
Proof.
  unfold subtle.ConstantTimeCompare, subtle.ConstantTimeByteEq.
  destruct (Nat.eqb_spec (String.length x) (String.length y)) as [Hlen|Hlen]; simpl.
  - destruct (N.eqb_spec (subtle.xorFold x y 0) 0) as [Hz|Hz].
    + apply xorFold_zero in Hz as [_ ->]; done.
    + split; [done|]. intros ->. exfalso. apply Hz. by apply xorFold_zero.
  - split; [done|]. intros ->. done.
Qed.

Lemma HasPrefix_app (s prefix : string) :
  strings.HasPrefix s prefix = true <-> exists rest, s = (prefix ++ rest)%string.
Proof.
  revert s. induction prefix as [|c prefix IH]; intros s; simpl.
  - split; [by exists s|done].
  - destruct s as [|d s].
    { split; [done|]. intros [rest Hrest]. discriminate Hrest. }
    destruct (Ascii.eqb_spec c d) as [->|Hne].
    + rewrite IH. split; intros [rest Hrest]; exists rest.
      * cbn. by rewrite Hrest.
      * cbn in Hrest. by injection Hrest.
    + split; [done|]. intros [rest Hrest]. cbn in Hrest. injection Hrest as Hc _.
      by destruct Hne.
Qed.

Lemma drop_app (prefix rest : string) :
  strings.drop (String.length prefix) (prefix ++ rest)%string = rest.
Proof. induction prefix as [|c prefix IH]; simpl; [by destruct rest|done]. Qed.

(** Branch parsing: a ref yields a branch exactly when it is
    [refs/heads/] followed by a non-empty branch name, which is the
    branch returned ([refs/heads/main] gives [main]; [refs/tags/v1] and
    the bare prefix give an error). *)
Theorem parseBranchNameFromRefs_heads_only (ref branch : string) :
  parseBranchNameFromRefs ref = Ok branch
  <-> ref = ("refs/heads/" ++ branch)%string /\ branch ≠ "".
Proof.
  unfold parseBranchNameFromRefs.
  destruct (strings.HasPrefix ref "refs/heads/") eqn:Hprefix.
  - apply HasPrefix_app in Hprefix as [rest ->].
    destruct rest as [|c rest]; cbn.
    + split; [done|]. intros [Href Hne]. destruct branch; [done|discriminate Href].
    + split.
      * intros [= <-]. done.
      * intros [Href _].
        apply (f_equal (strings.drop (String.length "refs/heads/"))) in Href.
        rewrite !drop_app in Href. by subst.
  - cbn. split; [done|]. intros [-> _].
    assert (strings.HasPrefix ("refs/heads/" ++ branch)%string "refs/heads/" = true) as Ht
      by (apply HasPrefix_app; eauto).
    congruence.
Qed.

Section ValidationProperties.
Context `{Imports}.

(** C4, the part that does not rest on the strength of HMAC-SHA256:
    [validateGitHubWebhookSignature256] fails only with the error of
    the HMAC write, and otherwise answers whether the signature
    header, without its [sha256=] prefix, is the lowercase hex text of
    the digest. *)
Lemma validateGitHubWebhookSignature256_compares_hex_digest (signature key body : string) :
  match hmac_sha256 key body with
  | Err err => validateGitHubWebhookSignature256 signature key body = Err err
  | Ok sum =>
      validateGitHubWebhookSignature256 signature key body
      = Ok (bool_decide (strings.TrimPrefix signature "sha256=" = hex.EncodeToString sum))
  end.
Proof.
  unfold validateGitHubWebhookSignature256.
  destruct (hmac_sha256 key body) as [sum|err]; [|done].
  f_equal. apply bool_decide_ext, ConstantTimeCompare_eq.
Qed.

End ValidationProperties.

(** ** The database resolver *)

Lemma sharesEnvironment_false (databases : list api.Database.t) (marked : gset Z) :
  sharesEnvironment databases marked = false
  <-> NoDup ((fun d => api.Instance.EnvironmentID (api.Database.Instance d)) <$> databases)
      /\ forall d, d ∈ databases ->
                   api.Instance.EnvironmentID (api.Database.Instance d) ∉ marked.
Proof.
  revert marked. induction databases as [|d ds IH]; intros marked; simpl.
  - split; [|done]. intros _. split; [constructor|]. intros d Hd. by apply elem_of_nil in Hd.
  - destruct (decide _) as [Hin|Hnin].
    + split; [done|]. intros [_ Hall]. exfalso. apply (Hall d); [left|done].
    + rewrite IH. csimpl. rewrite NoDup_cons. split.
      * intros [Hnd Hall]. split; [split; [|done]|].
        -- intros (d' & Heq & Hd')%list_elem_of_fmap.
           apply (Hall d' Hd'). rewrite <- Heq. set_solver.
        -- intros d' [->|Hd']%elem_of_cons; [done|].
           specialize (Hall d' Hd'). set_solver.
      * intros [[Hfresh Hnd] Hall]. split; [done|].
        intros d' Hd'. rewrite elem_of_union, elem_of_singleton.
        intros [Heq|Hm].
        -- apply Hfresh. rewrite <- Heq. apply list_elem_of_fmap. by exists d'.
        -- apply (Hall d'); [by right|done].
Qed.

Lemma sharesEnvironment_true (databases : list api.Database.t) :
  sharesEnvironment databases ∅ = true
  <-> ~ NoDup ((fun d => api.Instance.EnvironmentID (api.Database.Instance d)) <$> databases).
Proof.
  destruct (sharesEnvironment databases ∅) eqn:Hs.
  - split; [|done]. intros _ Hnd.
    assert (sharesEnvironment databases ∅ = false) as Hf; [|congruence].
    apply sharesEnvironment_false. split; [done|]. intros. apply not_elem_of_empty.
  - split; [done|]. intros Hnd. exfalso. apply Hnd.
    by apply sharesEnvironment_false in Hs as [? _].
Qed.

Section ResolverProperties.
Context `{Imports} {W : Type} `{Collaborators W}.

#[local] Arguments sharesEnvironment : simpl never.
#[local] Arguments filter : simpl never.

(** C7, amended.  Once the store has answered the lookup by project and
    name, [findProjectDatabases] fails exactly when: no database was
    found; or the project is in tenant mode and an environment name is
    given; or the project is not in tenant mode and either the filter
    by environment name (case-insensitive) leaves no database or two
    of the databases left share an environment id.  Otherwise it
    returns the databases found (tenant mode, whatever environment ids
    they have) or the ones left after the filter. *)
Theorem findProjectDatabases_fails_iff (projectID : Z) (tenantMode : api.ProjectTenantMode)
    (dbName envName : string) (s : State W) (found : list api.Database.t) (w' : W) :
  store_FindDatabase {| api.DatabaseFind.ProjectID := projectID;
                        api.DatabaseFind.Name := dbName |} (world s) = (Ok found, w') ->
  ((exists e, findProjectDatabases projectID tenantMode dbName envName s
              = (Val (Err e), mkState w' (trace s)))
   <-> resolutionFails tenantMode envName found)
  /\ (~ resolutionFails tenantMode envName found ->
      findProjectDatabases projectID tenantMode dbName envName s
      = (Val (Ok (if decide (tenantMode = api.TenantModeTenant) then found
                  else inEnvironment envName found)),
         mkState w' (trace s))).
Proof.
  intros Hfind.
  unfold findProjectDatabases, resolutionFails, inEnvironment, mbind, M_bind, bind, call.
  rewrite Hfind. simpl.
  destruct found as [|d ds]; simpl.
  { split; [split; [by left|eauto]|]. intros Hn. exfalso. apply Hn. by left. }
  destruct (decide (tenantMode = api.TenantModeTenant)) as [Ht|Ht].
  { destruct (decide (envName = "")) as [He|He].
    - rewrite bool_decide_true by done. simpl. split.
      + split.
        * intros [e Hr]. discriminate Hr.
        * intros [Hd|[[_ Hne]|[Hnt _]]]; done.
      + done.
    - rewrite bool_decide_false by done. simpl. split.
      + split; [|eauto]. intros _. right. by left.
      + intros Hn. exfalso. apply Hn. right. by left. }
  destruct (decide (envName = "")) as [He|He].
  - rewrite bool_decide_true by done. simpl.
    destruct (sharesEnvironment (d :: ds) ∅) eqn:Hs.
    + apply sharesEnvironment_true in Hs. split.
      * split; [|eauto]. intros _. right. right. split; [done|]. by right.
      * intros Hn. exfalso. apply Hn. right. right. split; [done|]. by right.
    + apply sharesEnvironment_false in Hs as [Hnd _]. split.
      * split.
        -- intros [e Hr]. discriminate Hr.
        -- intros [Hd|[[Hte _]|[_ [Hd|Hd]]]]; done.
      * done.
  - rewrite bool_decide_false by done. simpl.
    set (filtered := filter _ (d :: ds)).
    destruct filtered as [|f fs] eqn:Hf; simpl.
    + split.
      * split; [|eauto]. intros _. right. right. split; [done|]. by left.
      * intros Hn. exfalso. apply Hn. right. right. split; [done|]. by left.
    + destruct (sharesEnvironment (f :: fs) ∅) eqn:Hs.
      * apply sharesEnvironment_true in Hs. split.
        -- split; [|eauto]. intros _. right. right. split; [done|]. by right.
        -- intros Hn. exfalso. apply Hn. right. right. split; [done|]. by right.
      * apply sharesEnvironment_false in Hs as [Hnd _]. split.
        -- split.
           ++ intros [e Hr]. discriminate Hr.
           ++ intros [Hd|[[Hte _]|[_ [Hd|Hd]]]]; done.
        -- done.
Qed.

End ResolverProperties.

(** C7, as stated, fails in tenant mode: two databases of the project
    share an environment id and the resolver returns both. *)
Lemma findProjectDatabases_tenant_mode_keeps_shared_environment :
  (Mem.exec (findProjectDatabases 7 api.TenantModeTenant "orders" "")
            (Sample.world [Sample.ordersProd; Sample.ordersProdTwin])).1
  = Val (Ok [Sample.ordersProd; Sample.ordersProdTwin])
  /\ api.Instance.EnvironmentID (api.Database.Instance Sample.ordersProd)
     = api.Instance.EnvironmentID (api.Database.Instance Sample.ordersProdTwin).
Proof. split; reflexivity. Qed.

(** Two databases named [orders], one in [prod] and one in [staging]:
    resolving with the environment [PROD] returns the first alone. *)
Lemma findProjectDatabases_fails_iff_witness :
  Mem.exec (findProjectDatabases 7 api.TenantModeDisabled "orders" "PROD")
           (Sample.world [Sample.ordersProd; Sample.ordersStaging])
  = (Val (Ok [Sample.ordersProd]),
     mkState (Sample.world [Sample.ordersProd; Sample.ordersStaging]) []).
Proof.
  refine (proj2 (findProjectDatabases_fails_iff 7 api.TenantModeDisabled "orders" "PROD"
                   (mkState (Sample.world [Sample.ordersProd; Sample.ordersStaging]) [])
                   [Sample.ordersProd; Sample.ordersStaging]
                   (Sample.world [Sample.ordersProd; Sample.ordersStaging]) _) _).
  - reflexivity.
  - intros [Hf|[[Hf _]|[_ [Hf|Hf]]]]; try discriminate.
    apply Hf. vm_compute. apply NoDup_singleton.
Defined.

(** ** The path classifier *)

Section RegexpProperties.
Import regexp.

(** A fallback that succeeds makes [many] succeed. *)
Lemma many_fallback (a : atom) (k : string -> attempt -> option attempt)
    (s : string) (st : attempt) :
  is_Some (k s st) -> is_Some (many a s st k).
Proof.
  intros Hk. destruct s as [|c s]; simpl; [done|].
  destruct (accepts a c); [|done].
  by destruct (many a s (consume c st) k).
Qed.

(** More text after the subject does not lose a match of [many]. *)
Lemma many_extend (a : atom) (k k' : string -> attempt -> option attempt) (post : string) :
  (forall s st st', is_Some (k s st) -> is_Some (k' (s ++ post)%string st')) ->
  forall s st st', is_Some (many a s st k) -> is_Some (many a (s ++ post)%string st' k').
Proof.
  intros Hk. induction s as [|c s IH]; intros st st' Hm; simpl in *.
  - apply many_fallback. by apply (Hk "" st).
  - destruct (accepts a c) eqn:Hc.
    + destruct (many a s (consume c st) k) eqn:Hdeep.
      * assert (is_Some (many a (s ++ post)%string (consume c st') k')) as [r Hr].
        { apply (IH (consume c st)). by rewrite Hdeep. }
        by rewrite Hr.
      * apply (Hk _ _ st') in Hm. simpl in Hm.
        by destruct (many a (s ++ post)%string (consume c st') k').
    + by apply (Hk _ _ st') in Hm.
Qed.

(** More text after the subject does not lose a match at its start,
    whatever the attempt has recorded. *)
Lemma run_extend (re : Regexp) (post : string) :
  forall s st st', is_Some (run re s st) -> is_Some (run re (s ++ post)%string st').
Proof.
  induction re as [|i re IH]; intros s st st' Hrun; simpl in *; [done|].
  destruct i as [a|a|name|].
  - destruct s as [|c s]; simpl in *; [by destruct Hrun|].
    destruct (accepts a c); [|by destruct Hrun]. by apply (IH s (consume c st)).
  - destruct s as [|c s]; simpl in *; [by destruct Hrun|].
    destruct (accepts a c); [|by destruct Hrun].
    apply (many_extend a (run re) (run re) post IH s (consume c st)). done.
  - by apply (IH s (openGroup st)).
  - by apply (IH s (closeGroup st)).
Qed.

Lemma search_extend_right (re : Regexp) (post : string) :
  forall s, is_Some (search re s) -> is_Some (search re (s ++ post)%string).
Proof.
  induction s as [|c s IH]; intros Hs; simpl in *.
  - destruct (run re "" start) eqn:Hrun; [|by destruct Hs].
    assert (is_Some (run re post start)) as Hpost.
    { apply (run_extend re post "" start start). by rewrite Hrun. }
    destruct post as [|d post]; simpl.
    + by rewrite Hrun.
    + destruct Hpost as [r Hr]. by rewrite Hr.
  - destruct (run re (String c s) start) eqn:Hrun.
    + assert (is_Some (run re (String c s ++ post)%string start)) as [r Hr].
      { apply (run_extend re post _ start start). by rewrite Hrun. }
      change (String c s +:+ post) with (String c (s +:+ post)) in Hr. by rewrite Hr.
    + specialize (IH Hs). by destruct (run re (String c (s ++ post)) start).
Qed.

Lemma search_extend_left (re : Regexp) (pre s : string) :
  is_Some (search re s) -> is_Some (search re (pre ++ s)%string).
Proof.
  intros Hs. induction pre as [|c pre IH]; simpl; [done|].
  by destruct (run re (String c (pre ++ s)) start).
Qed.

(** [FindStringSubmatch] is unanchored: a subject that matches still
    matches inside any longer text. *)
Lemma FindStringSubmatch_unanchored (re : Regexp) (pre s post : string) :
  FindStringSubmatch re s ≠ [] ->
  FindStringSubmatch re (pre ++ s ++ post)%string ≠ [].
Proof.
  unfold FindStringSubmatch. intros Hs.
  assert (is_Some (search re (pre ++ s ++ post)%string)) as [r Hr].
  { apply search_extend_left, search_extend_right.
    by destruct (search re s). }
  by rewrite Hr.
Qed.

End RegexpProperties.

(** C9, as stated, fails: the pattern is not anchored, and a path that
    has a matching path strictly inside it matches as well. *)
Lemma parseSchemaFileInfo_matches_inside_longer_path :
  parseSchemaFileInfo "migrations" Sample.schemaTemplate "old/migrations/prod/orders/schema.sql.bak"
  = Some (Ok (Some Sample.schemaInfo))
  /\ "old/migrations/prod/orders/schema.sql.bak"
     = ("old/" ++ "migrations/prod/orders/schema.sql" ++ ".bak")%string.
Proof. split; reflexivity. Qed.

(** ** The reconciler *)

Section ReconcilerProperties.
Context `{Imports} {W : Type} `{Collaborators W}.

(** Unfolds the monad at the head of a run. *)
Ltac run :=
  unfold traced, call, emit, log_Debug, log_Warn, log_Error, ret, mbind, M_bind, bind in *;
  simpl in *.

(** [getIgnoredFileActivityCreate] leaves the world alone and writes at
    most a warning. *)
Lemma getIgnoredFileActivityCreate_run projectID pushEvent file err (s : State W) :
  exists a evs,
    getIgnoredFileActivityCreate projectID pushEvent file err s
    = (Val a, mkState (world s) (trace s ++ evs))
    /\ Forall (fun ev => exists l m, ev = EvLog l m) evs.
Proof.
  unfold getIgnoredFileActivityCreate.
  destruct (json_Marshal_payload _); run.
  - eexists _, []. rewrite app_nil_r. by destruct s.
  - eexists _, [_]. split; [done|]. repeat constructor. eauto.
Qed.

(** [computeDatabaseSchemaDiff] always returns, and its answer is the
    one event it adds to the trace. *)
Lemma computeDatabaseSchemaDiff_run database newSchemaStr (s : State W) :
  exists r w',
    computeDatabaseSchemaDiff database newSchemaStr s
    = (Val r, mkState w' (trace s ++ [EvSchemaDiff database newSchemaStr r])).
Proof.
  unfold computeDatabaseSchemaDiff, diffWithDriver. run.
  destruct (server_getAdminDatabaseDriver _ _ _) as [[driver|e] w1]; simpl; [|eauto].
  destruct (driver_Dump _ _ _) as [[schema|e] w2]; simpl; [|eauto].
  destruct (api.Instance.Engine _); simpl; [| |eauto].
  all: destruct (parser_Parse _ schema); simpl; [|eauto].
  all: destruct (parser_Parse _ newSchemaStr); simpl; [|eauto].
  all: destruct (pg_SchemaDiff _ _); simpl; eauto.
Qed.

(** [findProjectDatabases] always returns and writes nothing to the
    trace. *)
Lemma findProjectDatabases_run projectID tenantMode dbName envName (s : State W) :
  exists r w',
    findProjectDatabases projectID tenantMode dbName envName s
    = (Val r, mkState w' (trace s)).
Proof.
  unfold findProjectDatabases. run.
  destruct (store_FindDatabase _ _) as [[found|e] w1]; simpl; [|eauto].
  destruct (length found =? 0)%nat; [eauto|].
  destruct (decide _); [destruct (negb _); eauto|].
  destruct (_ && _); [eauto|].
  destruct (sharesEnvironment _ _); eauto.
Qed.

(** The loop over the databases of a modified file returns no
    migration detail, and its trace is a [ModifiedRun]. *)
Lemma modifiedDatabases_run repo pushEvent file content migrationInfo databases
    (s : State W) :
  exists activities w' evs,
    modifiedDatabases repo pushEvent file content migrationInfo databases s
    = (Val ([], activities), mkState w' (trace s ++ evs))
    /\ ModifiedRun content migrationInfo databases evs.
Proof.
  revert s. induction databases as [|database databases IH]; intros s; simpl.
  - exists [], (world s), []. rewrite app_nil_r. split; [by destruct s|constructor].
  - run.
    destruct (store_FindTask _ _) as [[tasks|e] w1]; simpl.
    + destruct tasks as [|task [|task2 tasks]]; simpl.
      * edestruct IH as (activities & w' & evs & Hrun & Hevs). rewrite Hrun.
        eexists activities, w', (_ :: evs). simpl. rewrite <- app_assoc.
        split; [done|]. by constructor.
      * destruct (store_GetIssueByPipelineID _ _) as [[issue|e] w2]; simpl.
        -- destruct (server_patchTask _ _ _ _) as [[patched|e] w3]; simpl.
           ++ edestruct IH as (activities & w' & evs & Hrun & Hevs). rewrite Hrun.
              eexists activities, w', (_ :: _ :: _ :: _ :: evs). simpl.
              rewrite <- !app_assoc. split; [done|]. by constructor.
           ++ eexists [], w3, [_; _; _; _; _]. rewrite <- !app_assoc.
              split; [done|]. constructor.
        -- eexists [], w2, [_; _; _]. rewrite <- !app_assoc.
           split; [done|]. constructor.
      * eexists [], w1, [_; _]. rewrite <- !app_assoc. split; [done|]. constructor.
    + edestruct (getIgnoredFileActivityCreate_run (api.Repository.ProjectID repo) pushEvent
                   file (Wrap e "Failed to find project task"))
        as (a & logs & Hact & Hlogs).
      unfold getIgnoredFileActivityCreate, log_Warn, emit, ret, mbind, M_bind, bind in Hact.
      rewrite Hact. simpl.
      eexists [a], w1, (_ :: logs). rewrite <- !app_assoc. split; [done|].
      by constructor.
Qed.

End ReconcilerProperties.

(** C8, as stated, fails: the schema file equals what the database
    dumps, the diff is the empty string, and the SDL branch still
    returns a MigrationDetail for the database, for which the
    reconciler goes on to create an issue. *)
Lemma prepareIssueFromPushEventSDL_keeps_empty_diff :
  let repo := Sample.repository 1 vcs.GitLabSelfHost Sample.sdl "main" "42" in
  let w := Sample.server [repo] [Sample.ordersProd] [] []
             [(Sample.schemaFile, Sample.schema)] [("orders", Sample.schema)] in
  (Mem.exec (computeDatabaseSchemaDiff Sample.ordersProd Sample.schema) w).1 = Val (Ok "")
  /\ (exists info activities pushEvent',
        (Mem.exec (prepareIssueFromPushEventSDL repo (Sample.pushEvent Sample.schemaFile)
                     Sample.schemaInfo Sample.schemaFile "ep") w).1
        = Val (info,
               [{| api.MigrationDetail.DatabaseID := 11;
                   api.MigrationDetail.DatabaseName := "";
                   api.MigrationDetail.Statement := "";
                   api.MigrationDetail.SchemaVersion := "" |}],
               activities, pushEvent'))
  /\ length (Mem.createdIssues
               (world (Mem.exec (createIssueFromPushEvent (Sample.pushEvent Sample.schemaFile)
                                   repo "ep" Sample.schemaFile fileItemTypeModified) w).2))
     = 1%nat.
Proof.
  intros repo w. split; [reflexivity|]. split; [|reflexivity].
  eexists _, _, _. reflexivity.
Qed.

(** C6, as stated, fails: the first database has two matching tasks,
    the second has exactly one, and the run ends at the first: the
    task of the second database is not patched. *)
Lemma modified_file_stops_at_ambiguous_database :
  let repo := Sample.repository 1 vcs.GitLabSelfHost Sample.ddl "main" "42" in
  let w := Sample.server [repo] [Sample.ordersProd; Sample.ordersStaging]
             [Sample.task 1 11 api.TaskPendingApproval; Sample.task 2 11 api.TaskFailed;
              Sample.task 3 12 api.TaskPendingApproval]
             [Sample.issue 1; Sample.issue 2; Sample.issue 3]
             [(Sample.script1, "new")] [] in
  let out := Mem.exec (prepareIssueFromPushEventDDL repo (Sample.pushEvent Sample.script1)
                         Sample.script1 fileItemTypeModified "ep"
                         (Sample.migration "v1" "init")) w in
  (store_FindTask (pendingTaskFind Sample.ordersStaging (Sample.migration "v1" "init")) w).1
  = Ok [Sample.task 3 12 api.TaskPendingApproval]
  /\ out.1 = Val ([], [])
  /\ Mem.tasks (world out.2) = Mem.tasks w.
Proof. intros repo w out. split; [reflexivity|]. split; reflexivity. Qed.

(** ** What a computation writes to the trace *)

Section Emits.
Context {W : Type}.
Implicit Types P : Event -> Prop.

Lemma emitsOnly_ret {A} (a : A) P : emitsOnly (ret a : M W A) P.
Proof. intros s. exists []. by rewrite app_nil_r. Qed.

Lemma emitsOnly_panic {A} msg P : emitsOnly (panic msg : M W A) P.
Proof. intros s. exists []. by rewrite app_nil_r. Qed.

Lemma emitsOnly_stuck {A} P : emitsOnly (stuck : M W A) P.
Proof. intros s. exists []. by rewrite app_nil_r. Qed.

Lemma emitsOnly_emit ev P : P ev -> emitsOnly (emit ev : M W unit) P.
Proof. intros Hev s. exists [ev]. split; [done|]. by constructor. Qed.

Lemma emitsOnly_call {A} (f : W -> A * W) P : emitsOnly (call f) P.
Proof.
  intros s. exists []. unfold call. destruct (f (world s)). by rewrite app_nil_r.
Qed.

Lemma emitsOnly_bind {A B} (m : M W A) (k : A -> M W B) P :
  emitsOnly m P -> (forall a, emitsOnly (k a) P) -> emitsOnly (m ≫= k) P.
Proof.
  intros Hm Hk s. unfold mbind, M_bind, bind.
  destruct (Hm s) as (evs1 & Ht1 & Hp1).
  destruct (m s) as [[a|msg|] s1]; simpl in *; [|by exists evs1..].
  destruct (Hk a s1) as (evs2 & Ht2 & Hp2).
  exists (evs1 ++ evs2). rewrite Ht2, Ht1, app_assoc. split; [done|].
  by apply Forall_app.
Qed.

Lemma emitsOnly_traced {A} (f : W -> A * W) (ev : A -> Event) P :
  (forall a, P (ev a)) -> emitsOnly (traced f ev) P.
Proof.
  intros Hev. unfold traced.
  apply emitsOnly_bind; [apply emitsOnly_call|]. intros a.
  apply emitsOnly_bind; [by apply emitsOnly_emit|]. intros _. apply emitsOnly_ret.
Qed.

Lemma emitsOnly_forEach {A} (l : list A) (body : A -> M W unit) P :
  (forall x, emitsOnly (body x) P) -> emitsOnly (forEach l body) P.
Proof.
  intros Hbody. induction l as [|x l IH]; simpl; [apply emitsOnly_ret|].
  apply emitsOnly_bind; [apply Hbody|]. by intros _.
Qed.

Lemma emitsOnly_weaken {A} (m : M W A) P Q :
  (forall ev, P ev -> Q ev) -> emitsOnly m P -> emitsOnly m Q.
Proof.
  intros HPQ Hm s. destruct (Hm s) as (evs & Ht & Hp).
  exists evs. split; [done|]. by eapply Forall_impl.
Qed.

End Emits.

(** One step of a proof of [emitsOnly]: the monad's operations, then a
    case analysis on what the code branches on. *)
Ltac emits_step :=
  first
    [ apply emitsOnly_ret
    | apply emitsOnly_panic
    | apply emitsOnly_stuck
    | apply emitsOnly_call
    | apply emitsOnly_bind; [|intros ?]
    | match goal with
      | |- emitsOnly (match ?x with _ => _ end) _ => destruct x
      | |- emitsOnly (let '(_, _) := ?x in _) _ => destruct x
      end ].

Section ReconcilerEmits.
Context `{Imports} {W : Type} `{Collaborators W}.
Variable P : Event -> Prop.

(** [P] holds of every log line but the one of the scope check, and of
    every call to a collaborator. *)
Hypothesis P_inner :
  forall ev,
    ev ≠ EvLog LevelDebug outsideBaseDirectory ->
    (forall repo file fileType, ev ≠ EvCreateIssueFromPushEvent repo file fileType) ->
    P ev.

Ltac inner := apply P_inner; [discriminate | intros; discriminate].

Ltac emits :=
  repeat first
    [ emits_step
    | apply emitsOnly_emit; inner
    | apply emitsOnly_traced; intros ?; inner ].

Lemma getIgnoredFileActivityCreate_emits projectID pushEvent file err :
  emitsOnly (getIgnoredFileActivityCreate projectID pushEvent file err : M W _) P.
Proof. unfold getIgnoredFileActivityCreate, log_Warn. emits. Qed.

Lemma readFileContent_emits pushEvent webhookEndpointID file :
  emitsOnly (readFileContent pushEvent webhookEndpointID file : M W _) P.
Proof. unfold readFileContent. emits. Qed.

Lemma findProjectDatabases_emits projectID tenantMode dbName envName :
  emitsOnly (findProjectDatabases projectID tenantMode dbName envName : M W _) P.
Proof. unfold findProjectDatabases. emits. Qed.

Lemma computeDatabaseSchemaDiff_emits database newSchemaStr :
  emitsOnly (computeDatabaseSchemaDiff database newSchemaStr : M W _) P.
Proof. unfold computeDatabaseSchemaDiff, diffWithDriver. emits. Qed.

Lemma sdlDatabases_emits repo pushEvent file content databases details activities :
  emitsOnly (sdlDatabases repo pushEvent file content databases details activities : M W _) P.
Proof.
  revert details activities. induction databases as [|database databases IH];
    intros details activities; simpl; [apply emitsOnly_ret|].
  apply emitsOnly_bind; [apply computeDatabaseSchemaDiff_emits|]. intros [diff|e].
  - apply IH.
  - apply emitsOnly_bind; [apply getIgnoredFileActivityCreate_emits|]. intros a. apply IH.
Qed.

Lemma prepareIssueFromPushEventSDL_emits repo pushEvent schemaInfo file webhookEndpointID :
  emitsOnly (prepareIssueFromPushEventSDL repo pushEvent schemaInfo file webhookEndpointID
             : M W _) P.
Proof.
  unfold prepareIssueFromPushEventSDL, log_Debug.
  repeat first
    [ apply readFileContent_emits
    | apply getIgnoredFileActivityCreate_emits
    | apply findProjectDatabases_emits
    | apply sdlDatabases_emits
    | emits_step
    | apply emitsOnly_emit; inner ].
Qed.

Lemma modifiedDatabases_emits repo pushEvent file content migrationInfo databases :
  emitsOnly (modifiedDatabases repo pushEvent file content migrationInfo databases : M W _) P.
Proof.
  induction databases as [|database databases IH]; simpl; [apply emitsOnly_ret|].
  unfold log_Debug, log_Error.
  repeat first
    [ apply IH
    | apply getIgnoredFileActivityCreate_emits
    | emits_step
    | apply emitsOnly_emit; inner
    | apply emitsOnly_traced; intros ?; inner ].
Qed.

Lemma prepareIssueFromPushEventDDL_emits repo pushEvent file fileType webhookEndpointID
    migrationInfo :
  emitsOnly (prepareIssueFromPushEventDDL repo pushEvent file fileType webhookEndpointID
               migrationInfo : M W _) P.
Proof.
  unfold prepareIssueFromPushEventDDL.
  repeat first
    [ apply readFileContent_emits
    | apply getIgnoredFileActivityCreate_emits
    | apply findProjectDatabases_emits
    | apply modifiedDatabases_emits
    | emits_step ].
Qed.

Lemma createIssueForDetails_emits pushEvent repo file fileEscaped migrationInfo details
    activities :
  emitsOnly (createIssueForDetails pushEvent repo file fileEscaped migrationInfo details
               activities : M W _) P.
Proof. unfold createIssueForDetails, log_Debug, log_Error. emits. Qed.

(** The events of the body of [createIssueFromPushEvent]: the line of
    the scope check only for a file that fails it, and inner events. *)
Lemma reconcileFile_emits pushEvent repo webhookEndpointID file fileType :
  (underBaseDirectory repo (common_EscapeForLogging file) = false ->
   P (EvLog LevelDebug outsideBaseDirectory)) ->
  emitsOnly (reconcileFile pushEvent repo webhookEndpointID file fileType : M W _) P.
Proof.
  intros Hscope. unfold reconcileFile, log_Debug, log_Error.
  apply emitsOnly_bind; [emits|]. intros allowed.
  destruct (negb allowed); [apply emitsOnly_ret|].
  apply emitsOnly_bind; [emits|]. intros _.
  destruct (underBaseDirectory repo _) eqn:Hunder; simpl.
  2:{ apply emitsOnly_bind; [apply emitsOnly_emit; by apply Hscope|].
      intros _. apply emitsOnly_ret. }
  repeat first
    [ apply prepareIssueFromPushEventSDL_emits
    | apply prepareIssueFromPushEventDDL_emits
    | apply getIgnoredFileActivityCreate_emits
    | apply createIssueForDetails_emits
    | emits_step
    | apply emitsOnly_emit; inner ].
Qed.

(** The events of [createIssueFromPushEvent]: its entry, then those of
    its body. *)
Lemma createIssueFromPushEvent_emits pushEvent repo webhookEndpointID file fileType :
  P (EvCreateIssueFromPushEvent repo file fileType) ->
  (underBaseDirectory repo (common_EscapeForLogging file) = false ->
   P (EvLog LevelDebug outsideBaseDirectory)) ->
  emitsOnly (createIssueFromPushEvent pushEvent repo webhookEndpointID file fileType
             : M W _) P.
Proof.
  intros Hentry Hscope. unfold createIssueFromPushEvent.
  apply emitsOnly_bind; [by apply emitsOnly_emit|]. intros _.
  by apply reconcileFile_emits.
Qed.

End ReconcilerEmits.

(** ** The handlers *)

Lemma reconciledFiles_app (evs1 evs2 : list Event) :
  reconciledFiles (evs1 ++ evs2) = reconciledFiles evs1 ++ reconciledFiles evs2.
Proof. apply omap_app. Qed.

Lemma reconciledFiles_no_entry (evs : list Event) :
  Forall (fun ev => ~ isEntry ev) evs -> reconciledFiles evs = [].
Proof.
  induction 1 as [|ev evs Hev _ IH]; [done|].
  change (reconciledFiles (ev :: evs)) with (reconciledFiles ([ev] ++ evs)).
  rewrite reconciledFiles_app, IH, app_nil_r.
  destruct ev; try done. exfalso. apply Hev. unfold isEntry. eauto.
Qed.

Lemma logs_no_entry (evs : list Event) :
  Forall isLog evs -> Forall (fun ev => ~ isEntry ev) evs.
Proof.
  intros Hlogs. eapply Forall_impl; [exact Hlogs|].
  intros ev (l & m & ->) (repo & file & ty & Hev). discriminate.
Qed.

Section GitlabProperties.
Context `{Imports} {W : Type} `{Collaborators W}.

Lemma gitlabAccepts_run c pushEvent branch repo (s : State W) :
  exists logs,
    gitlabAccepts c pushEvent branch repo s
    = (Val (gitlabAccepted c pushEvent branch repo), mkState (world s) (trace s ++ logs))
    /\ Forall isLog logs.
Proof.
  unfold gitlabAccepts, gitlabAccepted, log_Debug, emit, ret, mbind, M_bind, bind.
  repeat (destruct (bool_decide _); simpl;
          [|eexists [_]; split; [done|repeat constructor; unfold isLog; eauto]]).
  exists []. rewrite app_nil_r. by destruct s.
Qed.

Lemma gitlabHandleRepos_run c pushEvent branch repos handleRepos (s : State W) :
  exists logs,
    gitlabHandleRepos c pushEvent branch repos handleRepos s
    = (Val (handleRepos
            ++ filter (fun repo => gitlabAccepted c pushEvent branch repo = true) repos),
       mkState (world s) (trace s ++ logs))
    /\ Forall isLog logs.
Proof.
  revert handleRepos s. induction repos as [|repo repos IH]; intros handleRepos s; simpl.
  - exists []. rewrite !app_nil_r. by destruct s.
  - destruct (gitlabAccepts_run c pushEvent branch repo s) as (logs1 & Hacc & Hlogs1).
    unfold mbind, M_bind, bind at 1. rewrite Hacc.
    edestruct IH as (logs2 & Hrest & Hlogs2). rewrite Hrest.
    exists (logs1 ++ logs2). simpl. rewrite <- app_assoc. split; [|by apply Forall_app].
    destruct (gitlabAccepted c pushEvent branch repo) eqn:Hok.
    + rewrite filter_cons_True by done. by rewrite <- app_assoc.
    + rewrite filter_cons_False; [done|]. by rewrite Hok.
Qed.

(** [createIssueFromPushEvent] writes its entry to the trace once. *)
Lemma createIssueFromPushEvent_entry pushEvent repo webhookEndpointID file fileType
    (s : State W) :
  exists evs,
    trace (createIssueFromPushEvent pushEvent repo webhookEndpointID file fileType s).2
    = trace s ++ EvCreateIssueFromPushEvent repo file fileType :: evs
    /\ reconciledFiles evs = [].
Proof.
  unfold createIssueFromPushEvent, emit, mbind, M_bind, bind. simpl.
  destruct (reconcileFile_emits (fun ev => ~ isEntry ev)
              ltac:(intros ev _ Hev (r & f & t & ->); by apply (Hev r f t))
              pushEvent repo webhookEndpointID file fileType
              ltac:(intros _ (r & f & t & [=]))
              (mkState (world s) (trace s ++ [EvCreateIssueFromPushEvent repo file fileType])))
    as (evs & Htrace & Hevs).
  exists evs. rewrite Htrace. simpl. rewrite <- app_assoc.
  split; [done|]. by apply reconciledFiles_no_entry.
Qed.

Lemma createIgnoredActivities_trace handleRepos activities (s : State W) :
  exists evs,
    trace (createIgnoredActivities handleRepos activities s).2 = trace s ++ evs
    /\ reconciledFiles evs = [].
Proof.
  assert (emitsOnly (createIgnoredActivities handleRepos activities : M W unit)
            (fun ev => ~ isEntry ev)) as Hemits.
  { unfold createIgnoredActivities, log_Warn.
    apply emitsOnly_forEach. intros repo.
    destruct (activities !! _); [|apply emitsOnly_ret].
    apply emitsOnly_forEach. intros activity.
    apply emitsOnly_bind.
    - apply emitsOnly_traced. intros r (? & ? & ? & [=]).
    - intros [|]; [apply emitsOnly_ret|].
      apply emitsOnly_emit. intros (? & ? & ? & [=]). }
  destruct (Hemits s) as (evs & Htrace & Hevs).
  exists evs. split; [done|]. by apply reconciledFiles_no_entry.
Qed.

(** When the loop over the bindings returns, it has run
    [createIssueFromPushEvent] once for every binding, in order,
    whatever errors came back. *)
Lemma gitlabRepos_run pushEvent webhookEndpointID item handleRepos created activities
    (s s' : State W) r :
  gitlabRepos pushEvent webhookEndpointID item handleRepos created activities s = (Val r, s') ->
  exists evs,
    trace s' = trace s ++ evs
    /\ reconciledFiles evs
       = (fun repo => (api.Repository.ID repo, fileName item)) <$> handleRepos.
Proof.
  revert created activities s.
  induction handleRepos as [|repo handleRepos IH]; intros created activities s; simpl.
  - intros [= _ <-]. exists []. by rewrite app_nil_r.
  - destruct (api.Repository.VCS repo) as [repoVCS|]; [|done].
    unfold mbind, M_bind, bind at 1.
    destruct (createIssueFromPushEvent_entry (gitlabPushEvent pushEvent repo repoVCS item)
                repo webhookEndpointID (fileName item) (itemType item) s)
      as (evs1 & Htrace1 & Hevs1).
    destruct (createIssueFromPushEvent _ _ _ _ _ s) as [[r1|msg|] s1]; [|done|done].
    simpl in Htrace1. intros Hrest.
    assert (exists evs2, trace s' = trace s1 ++ evs2
                         /\ reconciledFiles evs2
                            = (fun repo => (api.Repository.ID repo, fileName item))
                                <$> handleRepos) as (evs2 & Htrace2 & Hevs2).
    { destruct (Reconciled.err r1); by eapply IH. }
    exists (EvCreateIssueFromPushEvent repo (fileName item) (itemType item) :: evs1 ++ evs2).
    rewrite Htrace2, Htrace1, <- app_assoc. split; [done|].
    change (reconciledFiles (?e :: ?l)) with (reconciledFiles ([e] ++ l)).
    rewrite !reconciledFiles_app, Hevs1, Hevs2. done.
Qed.

(** The same for the loop over the files. *)
Lemma gitlabFiles_run pushEvent webhookEndpointID handleRepos distinctFileList created
    (s s' : State W) r :
  gitlabFiles pushEvent webhookEndpointID handleRepos distinctFileList created s
  = (Val r, s') ->
  exists evs,
    trace s' = trace s ++ evs
    /\ reconciledFiles evs = filesTimesRepos distinctFileList handleRepos.
Proof.
  revert created s. induction distinctFileList as [|item items IH]; intros created s; simpl.
  - intros [= _ <-]. exists []. by rewrite app_nil_r.
  - unfold mbind, M_bind, bind at 1.
    destruct (gitlabRepos _ _ _ _ _ _ s) as [[r1|msg|] s1] eqn:Hrepos; [|done|done].
    apply gitlabRepos_run in Hrepos as (evs1 & Htrace1 & Hevs1).
    unfold mbind, M_bind, bind at 1.
    destruct ((if (length r1.1 =? 0)%nat then createIgnoredActivities handleRepos r1.2
               else ret tt) s1) as [[[]|msg|] s2] eqn:Hact; [|done|done].
    assert (exists evs2, trace s2 = trace s1 ++ evs2 /\ reconciledFiles evs2 = [])
      as (evs2 & Htrace2 & Hevs2).
    { destruct (length r1.1 =? 0)%nat.
      - destruct (createIgnoredActivities_trace handleRepos r1.2 s1) as (evs2 & Ht & He).
        rewrite Hact in Ht. by exists evs2.
      - injection Hact as <-. exists []. by rewrite app_nil_r. }
    intros Hrest. apply IH in Hrest as (evs3 & Htrace3 & Hevs3).
    exists (evs1 ++ evs2 ++ evs3).
    rewrite Htrace3, Htrace2, Htrace1, <- !app_assoc. split; [done|].
    rewrite !reconciledFiles_app, Hevs1, Hevs2, Hevs3. done.
Qed.

(** The GitLab handler, once the request itself is in order (body read
    and decoded, a push, a branch ref, bindings found under the
    endpoint): whenever it returns, it answers 200, and it has run
    [createIssueFromPushEvent] for every file of the deduplicated list
    with every binding that passes the four checks, in order, and with
    no other binding, whatever errors these runs returned. *)
Theorem gitlabWebhook_reconciles_each_file_with_each_accepted_binding
    (c : Request.t) (s s' : State W) (body : string)
    (pushEvent : gitlab.WebhookPushEvent.t) (branch : string)
    (repos : list api.Repository.t) (w1 : W) (r : Response) :
  Request.Body c = Ok body ->
  json_Unmarshal_gitlab body = Ok pushEvent ->
  gitlab.WebhookPushEvent.ObjectKind pushEvent = gitlab.WebhookPush ->
  parseBranchNameFromRefs (gitlab.WebhookPushEvent.Ref pushEvent) = Ok branch ->
  store_FindRepository (Request.ParamID c) (world s) = (Ok repos, w1) ->
  repos ≠ [] ->
  gitlabWebhook c s = (Val r, s') ->
  (exists created, r = RespondString StatusOK created)
  /\ exists evs,
      trace s' = trace s ++ evs
      /\ reconciledFiles evs
         = filesTimesRepos
             (dedupMigrationFilesFromCommitList (gitlab.WebhookPushEvent.CommitList pushEvent))
             (filter (fun repo => gitlabAccepted c pushEvent branch repo = true) repos).
Proof.
  intros Hbody Hjson Hkind Hbranch Hfind Hrepos.
  unfold gitlabWebhook. rewrite Hbody, Hjson, Hbranch.
  rewrite bool_decide_true by done. simpl.
  unfold mbind, M_bind, bind at 1. unfold call at 1. rewrite Hfind.
  destruct repos as [|repo repos]; [done|].
  unfold mbind, M_bind, bind at 1.
  destruct (gitlabHandleRepos_run c pushEvent branch (repo :: repos) [] (mkState w1 (trace s)))
    as (logs & Hhandle & Hlogs).
  rewrite Hhandle. simpl app.
  set (handleRepos := filter _ (repo :: repos)).
  unfold log_Debug at 1, emit at 1. unfold mbind, M_bind, bind at 1.
  unfold mbind, M_bind, bind at 1.
  destruct (gitlabFiles _ _ _ _ _ _) as [[created|msg|] s2] eqn:Hfiles; [|done|done].
  apply gitlabFiles_run in Hfiles as (evs & Htrace & Hevs). simpl in Htrace.
  unfold log_Warn, emit, ret, mbind, M_bind, bind.
  destruct (length created =? 0)%nat; simpl; intros [= <- <-].
  - split; [eauto|].
    exists (logs ++ [EvLog LevelDebug "Process push event in repos"] ++ evs
            ++ [EvLog LevelWarn
                  "Ignored push event because no applicable file found in the commit list"]).
    split; [simpl; by rewrite Htrace, <- !app_assoc|].
    rewrite !reconciledFiles_app, Hevs.
    rewrite (reconciledFiles_no_entry logs) by by apply logs_no_entry.
    simpl. by rewrite app_nil_r.
  - split; [eauto|].
    exists (logs ++ [EvLog LevelDebug "Process push event in repos"] ++ evs).
    split; [simpl; by rewrite Htrace, <- !app_assoc|].
    rewrite !reconciledFiles_app, Hevs.
    by rewrite (reconciledFiles_no_entry logs) by by apply logs_no_entry.
Qed.

End GitlabProperties.

(** The sample push through the GitLab handler, with a binding on
    [main] and one on [release], and the issue of the first file
    refused: the two files are reconciled with the first binding. *)
Lemma gitlabWebhook_reconciles_each_file_with_each_accepted_binding_witness :
  let accepted := Sample.repository 1 vcs.GitLabSelfHost Sample.ddl "main" "42" in
  let rejected := Sample.repository 2 vcs.GitLabSelfHost Sample.ddl "release" "42" in
  let w := Sample.refusing "init"
             (Sample.server [accepted; rejected] [Sample.ordersProd] [] []
                [(Sample.script1, "CREATE TABLE a (id INT);");
                 (Sample.script2, "CREATE TABLE b (id INT);")] []) in
  let out := Mem.exec (gitlabWebhook Sample.request) w in
  let response :=
    RespondString StatusOK
      [Sprintf "Created issue %q on adding %s"
         [AStr "%s by %s more orders__v2__migrate__more.sql"; AStr Sample.script2]] in
  out.1 = Val response
  /\ (exists created, response = RespondString StatusOK created)
  /\ exists evs,
      trace out.2 = [] ++ evs
      /\ reconciledFiles evs = [(1, Sample.script1); (1, Sample.script2)].
Proof.
  intros accepted rejected w out response.
  split; [vm_compute; reflexivity|].
  exact (@gitlabWebhook_reconciles_each_file_with_each_accepted_binding
           Sample.imports Mem.World Mem.collaborators
           Sample.request (mkState w []) out.2 "{}" Sample.gitlabPush "main"
           [accepted; rejected] w response
           eq_refl eq_refl eq_refl eq_refl eq_refl
           ltac:(discriminate) ltac:(vm_compute; reflexivity)).
Defined.



(** C1 fails in the GitHub handler: the only binding of the endpoint
    filters on the branch [release], the push is to [main], so no
    binding passes the checks; the handler still runs
    [createIssueFromPushEvent] for this binding on both files, and two
    issues are created. *)
Theorem githubWebhook_reconciles_rejected_binding :
  let repo := Sample.repository 1 vcs.GitHubCom Sample.ddl "release" "org/repo" in
  let w := Sample.server [repo] [Sample.ordersProd] [] []
             [(Sample.script1, "CREATE TABLE a (id INT);");
              (Sample.script2, "CREATE TABLE b (id INT);")] [] in
  let out := Mem.exec (githubWebhook Sample.request) w in
  (Mem.exec (githubHandleRepos Sample.request Sample.githubPush "{}" "main" [repo] []) w).1
  = Val (inr [])
  /\ reconciledFiles (trace out.2) = [(1, Sample.script1); (1, Sample.script2)]
  /\ length (Mem.createdIssues (world out.2)) = 2%nat
  /\ exists created, out.1 = Val (RespondString StatusOK created) /\ length created = 2%nat.
Proof.
  intros repo w out. split; [reflexivity|]. split; [reflexivity|]. split; [reflexivity|].
  eexists. split; [vm_compute; reflexivity|reflexivity].
Qed.

(** The same push through the GitLab handler: a binding that fails the
    branch filter is not reconciled. *)
Lemma gitlabWebhook_skips_rejected_binding :
  let repo := Sample.repository 1 vcs.GitLabSelfHost Sample.ddl "release" "42" in
  let w := Sample.server [repo] [Sample.ordersProd] [] []
             [(Sample.script1, "CREATE TABLE a (id INT);");
              (Sample.script2, "CREATE TABLE b (id INT);")] [] in
  let out := Mem.exec (gitlabWebhook Sample.request) w in
  reconciledFiles (trace out.2) = []
  /\ out.1 = Val (RespondString StatusOK []).
Proof. intros repo w out. split; reflexivity. Qed.

(** C5 fails in the GitHub handler: the server refuses the issue of
    the first file; the handler returns that error at once, and the
    second file of the push is never reconciled. *)
Theorem githubWebhook_stops_at_first_error :
  let repo := Sample.repository 1 vcs.GitHubCom Sample.ddl "main" "org/repo" in
  let w := Sample.refusing "init"
             (Sample.server [repo] [Sample.ordersProd] [] []
                [(Sample.script1, "CREATE TABLE a (id INT);");
                 (Sample.script2, "CREATE TABLE b (id INT);")] []) in
  let out := Mem.exec (githubWebhook Sample.request) w in
  out.1 = Val (RespondError
                 (NewHTTPError StatusInternalServerError
                    (Sprintf "Failed to create schema update issue" [])
                    (Some (External "issue refused"))))
  /\ reconciledFiles (trace out.2) = [(1, Sample.script1)]
  /\ Mem.createdIssues (world out.2) = [].
Proof. intros repo w out. split; [reflexivity|]. split; reflexivity. Qed.

(** The same push through the GitLab handler: the error of the first
    file is passed over and the second file gets its issue. *)
Lemma gitlabWebhook_continues_after_error :
  let repo := Sample.repository 1 vcs.GitLabSelfHost Sample.ddl "main" "42" in
  let w := Sample.refusing "init"
             (Sample.server [repo] [Sample.ordersProd] [] []
                [(Sample.script1, "CREATE TABLE a (id INT);");
                 (Sample.script2, "CREATE TABLE b (id INT);")] []) in
  let out := Mem.exec (gitlabWebhook Sample.request) w in
  reconciledFiles (trace out.2) = [(1, Sample.script1); (1, Sample.script2)]
  /\ length (Mem.createdIssues (world out.2)) = 1%nat
  /\ exists created, out.1 = Val (RespondString StatusOK created) /\ length created = 1%nat.
Proof.
  intros repo w out. split; [reflexivity|]. split; [reflexivity|].
  eexists. split; [vm_compute; reflexivity|reflexivity].
Qed.

(** * More of the reconciler and the handlers *)

(** Unfolds the monad at the head of a run. *)
Ltac run_monad :=
  unfold traced, call, emit, log_Debug, log_Warn, log_Error, ret, mbind, M_bind, bind in *;
  simpl in *.

Section SchemaDiffProperties.
Context `{Imports} {W : Type} `{Collaborators W}.

(** [computeDatabaseSchemaDiff] always returns, and records its answer.
    Once the admin driver is open it is closed on every way out, after
    the dump and after nothing else; a driver that could not be opened
    is neither dumped nor closed.  A diff is returned only for a
    Postgres or MySQL instance, and it is the difference between the
    dumped schema and the new schema, both parsed for that engine. *)
Theorem computeDatabaseSchemaDiff_closes_opened_driver (database : api.Database.t)
    (newSchemaStr : string) (s : State W) :
  let opened := server_getAdminDatabaseDriver (api.Database.Instance database)
                  (api.Database.Name database) (world s) in
  let out := computeDatabaseSchemaDiff database newSchemaStr s in
  exists r,
    out.1 = Val r
    /\ trace out.2 = trace s ++ [EvSchemaDiff database newSchemaStr r]
    /\ world out.2
       = match opened.1 with
         | Err _ => opened.2
         | Ok driver =>
             driver_Close driver (driver_Dump driver (api.Database.Name database) opened.2).2
         end
    /\ (forall err, opened.1 = Err err -> r = Err (Wrap err "get admin driver"))
    /\ forall diff, r = Ok diff ->
         exists driver schema engine oldSchema newSchema,
           opened.1 = Ok driver
           /\ (driver_Dump driver (api.Database.Name database) opened.2).1 = Ok schema
           /\ match api.Instance.Engine (api.Database.Instance database) with
              | db.Postgres => engine = parser.Postgres
              | db.MySQL => engine = parser.MySQL
              | db.OtherEngine _ => False
              end
           /\ parser_Parse engine schema = Ok oldSchema
           /\ parser_Parse engine newSchemaStr = Ok newSchema
           /\ pg_SchemaDiff oldSchema newSchema = Ok diff.
Proof.
  intros opened out. subst opened out.
  unfold computeDatabaseSchemaDiff, diffWithDriver. run_monad.
  destruct (server_getAdminDatabaseDriver _ _ _) as [[driver|e] w1]; simpl.
  2:{ eexists. split_and!; try done. by intros ? [= ->]. }
  destruct (driver_Dump _ _ _) as [[schema|e] w2] eqn:Hdump; simpl.
  2:{ eexists. split_and!; done. }
  destruct (api.Instance.Engine _) eqn:Hengine; simpl.
  3:{ eexists. split_and!; done. }
  all: destruct (parser_Parse _ schema) as [oldSchema|e] eqn:Hold; simpl;
    [|eexists; split_and!; done].
  all: destruct (parser_Parse _ newSchemaStr) as [newSchema|e] eqn:Hnew; simpl;
    [|eexists; split_and!; done].
  all: destruct (pg_SchemaDiff _ _) as [diff|e] eqn:Hdiff; simpl;
    [|eexists; split_and!; done].
  all: eexists; split_and!; try done.
  all: intros ? [= <-]; eexists driver, schema, _, oldSchema, newSchema.
  all: split_and!; try done; by rewrite Hdump.
Qed.

End SchemaDiffProperties.

Section PrepareProperties.
Context `{Imports} {W : Type} `{Collaborators W}.

(** [readFileContent] writes nothing to the trace. *)
Lemma readFileContent_trace pushEvent webhookEndpointID file (s s' : State W) r :
  readFileContent pushEvent webhookEndpointID file s = (Val r, s') -> trace s' = trace s.
Proof.
  unfold readFileContent. run_monad.
  destruct (store_FindRepository _ _) as [[[|repo repos]|e] w1]; simpl;
    [by intros [= _ <-]| |by intros [= _ <-]].
  destruct (api.Repository.VCS repo) as [repoVCS|]; [|done]. simpl.
  destruct (vcs_ReadFileContent _ _ _ _ _ _ _) as [[content|e] w2]; simpl;
    by intros [= _ <-].
Qed.

(** The resolver never returns an empty list of databases. *)
Lemma findProjectDatabases_nonempty projectID tenantMode dbName envName (s s' : State W)
    databases :
  findProjectDatabases projectID tenantMode dbName envName s = (Val (Ok databases), s') ->
  databases ≠ [] /\ trace s' = trace s.
Proof.
  unfold findProjectDatabases. run_monad.
  destruct (store_FindDatabase _ _) as [[found|e] w1]; simpl; [|done].
  destruct found as [|d found]; [done|]. simpl.
  destruct (decide _).
  { destruct (negb _); [done|]. by intros [= <- <-]. }
  destruct (negb (bool_decide (envName = ""))); simpl.
  - destruct (filter _ _) as [|f fs]; [done|]. simpl.
    destruct (sharesEnvironment _ _); [done|]. by intros [= <- <-].
  - destruct (sharesEnvironment _ _); [done|]. by intros [= <- <-].
Qed.

Lemma prepareIssueFromPushEventDDL_tenant_mode_any_type repo pushEvent file
    (fileType fileType' : fileItemType) webhookEndpointID migrationInfo (s : State W) :
  api.Project.TenantMode (api.Repository.Project repo) = api.TenantModeTenant ->
  prepareIssueFromPushEventDDL repo pushEvent file fileType webhookEndpointID migrationInfo s
  = prepareIssueFromPushEventDDL repo pushEvent file fileType' webhookEndpointID
      migrationInfo s.
Proof.
  intros Htenant. unfold prepareIssueFromPushEventDDL, mbind, M_bind, bind.
  destruct (readFileContent _ _ _ s) as [[[content|e]|msg|] s1]; [|done..].
  by rewrite !decide_True by done.
Qed.

(** For a project in tenant mode [prepareIssueFromPushEventDDL] does not
    look at the file type: a modified file is prepared like an added
    one.  When the content can be read it returns one migration detail,
    for the database name and the version parsed from the path, with
    database id 0 and the content as its statement, and no database or
    task is looked up; when the content cannot be read it returns no
    detail and one ignored-file activity.  The trace gets log lines at
    most. *)
Theorem prepareIssueFromPushEventDDL_tenant_mode_ignores_file_type
    (repo : api.Repository.t) (pushEvent : vcs.PushEvent.t) (file : string)
    (fileType : fileItemType) (webhookEndpointID : string)
    (migrationInfo : db.MigrationInfo.t) (s s' : State W)
    (r : list api.MigrationDetail.t * list (option api.ActivityCreate.t)) :
  api.Project.TenantMode (api.Repository.Project repo) = api.TenantModeTenant ->
  prepareIssueFromPushEventDDL repo pushEvent file fileType webhookEndpointID migrationInfo s
  = (Val r, s') ->
  (forall fileType',
      prepareIssueFromPushEventDDL repo pushEvent file fileType' webhookEndpointID
        migrationInfo s = (Val r, s'))
  /\ (exists logs, trace s' = trace s ++ logs /\ Forall isLog logs)
  /\ ((exists content,
          readFileContent pushEvent webhookEndpointID file s = (Val (Ok content), s')
          /\ r = ([{| api.MigrationDetail.DatabaseID := 0;
                      api.MigrationDetail.DatabaseName :=
                        db.MigrationInfo.Database migrationInfo;
                      api.MigrationDetail.Statement := content;
                      api.MigrationDetail.SchemaVersion :=
                        db.MigrationInfo.Version migrationInfo |}], []))
      \/ (exists err activityCreate,
             (readFileContent pushEvent webhookEndpointID file s).1 = Val (Err err)
             /\ r = ([], [activityCreate]))).
Proof.
  intros Htenant Hrun. split.
  { intros fileType'. rewrite <- Hrun.
    by apply prepareIssueFromPushEventDDL_tenant_mode_any_type. }
  revert Hrun. unfold prepareIssueFromPushEventDDL.
  unfold mbind, M_bind, bind at 1.
  destruct (readFileContent _ _ _ s) as [[[content|e]|msg|] s1] eqn:Hread; [| |done|done].
  - rewrite !decide_True by done. intros [= <- <-]. split.
    + exists []. rewrite app_nil_r. split; [|done]. by eapply readFileContent_trace.
    + left. by exists content.
  - destruct (getIgnoredFileActivityCreate_run (api.Repository.ProjectID repo) pushEvent
                file (Wrap e "Failed to read file content") s1) as (a & logs & Hact & Hlogs).
    unfold mbind, M_bind, bind. rewrite Hact. intros [= <- <-]. split.
    + exists logs. simpl. split; [|done]. f_equal. by eapply readFileContent_trace.
    + right. by exists e, a.
Qed.

(** For an added file of a project that is not in tenant mode,
    [prepareIssueFromPushEventDDL] reads the file and resolves the
    databases of the migration.  When both succeed it returns one
    migration detail for each database the resolver returned, in order,
    each with the database's id, the content read as its statement and
    the version parsed from the path, and no activity; there is at
    least one detail.  When the content cannot be read, or when it is
    read and the resolver fails, it returns no detail and the one
    activity [getIgnoredFileActivityCreate] makes for that error.  The
    trace gets log lines at most: no task is searched or patched. *)
Theorem prepareIssueFromPushEventDDL_added_file_one_detail_per_database
    (repo : api.Repository.t) (pushEvent : vcs.PushEvent.t) (file : string)
    (webhookEndpointID : string) (migrationInfo : db.MigrationInfo.t) (s s' : State W)
    (r : list api.MigrationDetail.t * list (option api.ActivityCreate.t)) :
  api.Project.TenantMode (api.Repository.Project repo) ≠ api.TenantModeTenant ->
  prepareIssueFromPushEventDDL repo pushEvent file fileItemTypeAdded webhookEndpointID
    migrationInfo s = (Val r, s') ->
  (exists logs, trace s' = trace s ++ logs /\ Forall isLog logs)
  /\ ((exists content s1 databases,
          readFileContent pushEvent webhookEndpointID file s = (Val (Ok content), s1)
          /\ findProjectDatabases (api.Repository.ProjectID repo)
               (api.Project.TenantMode (api.Repository.Project repo))
               (db.MigrationInfo.Database migrationInfo)
               (db.MigrationInfo.Environment migrationInfo) s1
             = (Val (Ok databases), s')
          /\ databases ≠ []
          /\ r = ((fun database =>
                     {| api.MigrationDetail.DatabaseID := api.Database.ID database;
                        api.MigrationDetail.DatabaseName := "";
                        api.MigrationDetail.Statement := content;
                        api.MigrationDetail.SchemaVersion :=
                          db.MigrationInfo.Version migrationInfo |}) <$> databases, []))
      \/ (exists err s1 activityCreate,
             readFileContent pushEvent webhookEndpointID file s = (Val (Err err), s1)
             /\ getIgnoredFileActivityCreate (api.Repository.ProjectID repo) pushEvent file
                  (Wrap err "Failed to read file content") s1
                = (Val activityCreate, s')
             /\ r = ([], [activityCreate]))
      \/ (exists content s1 err s2 activityCreate,
             readFileContent pushEvent webhookEndpointID file s = (Val (Ok content), s1)
             /\ findProjectDatabases (api.Repository.ProjectID repo)
                  (api.Project.TenantMode (api.Repository.Project repo))
                  (db.MigrationInfo.Database migrationInfo)
                  (db.MigrationInfo.Environment migrationInfo) s1
                = (Val (Err err), s2)
             /\ getIgnoredFileActivityCreate (api.Repository.ProjectID repo) pushEvent file
                  (Wrap err "Failed to find project databases") s2
                = (Val activityCreate, s')
             /\ r = ([], [activityCreate]))).
Proof.
  intros Htenant. unfold prepareIssueFromPushEventDDL.
  unfold mbind, M_bind, bind at 1.
  destruct (readFileContent _ _ _ s) as [[[content|e]|msg|] s1] eqn:Hread; [| |done|done].
  - rewrite decide_False by done.
    unfold mbind, M_bind, bind at 1.
    destruct (findProjectDatabases _ _ _ _ s1) as [[[databases|e]|msg|] s2] eqn:Hfind;
      [| |done|done].
    + rewrite decide_True by done. intros [= <- <-].
      destruct (findProjectDatabases_nonempty _ _ _ _ _ _ _ Hfind) as [Hne Htrace].
      split.
      * exists []. rewrite app_nil_r, Htrace. split; [|done].
        by eapply readFileContent_trace.
      * left. by exists content, s1, databases.
    + destruct (getIgnoredFileActivityCreate_run (api.Repository.ProjectID repo) pushEvent
                  file (Wrap e "Failed to find project databases") s2)
        as (a & logs & Hact & Hlogs).
      unfold mbind, M_bind, bind. rewrite Hact. intros [= <- <-].
      split; [|right; right; by exists content, s1, e, s2, a].
      exists logs. simpl. split; [|done]. f_equal.
      destruct (findProjectDatabases_run (api.Repository.ProjectID repo)
                  (api.Project.TenantMode (api.Repository.Project repo))
                  (db.MigrationInfo.Database migrationInfo)
                  (db.MigrationInfo.Environment migrationInfo) s1) as (r' & w' & Hrun).
      rewrite Hrun in Hfind. injection Hfind as _ <-. simpl.
      by eapply readFileContent_trace.
  - destruct (getIgnoredFileActivityCreate_run (api.Repository.ProjectID repo) pushEvent
                file (Wrap e "Failed to read file content") s1) as (a & logs & Hact & Hlogs).
    unfold mbind, M_bind, bind. rewrite Hact. intros [= <- <-].
    split; [|right; left; by exists e, s1, a].
    exists logs. simpl. split; [|done]. f_equal. by eapply readFileContent_trace.
Qed.

(** The loop over the databases of a modified file always returns, with
    no migration detail, and what it does is a [ModifiedSteps]. *)
Lemma modifiedDatabases_steps repo pushEvent file content migrationInfo databases
    (s : State W) :
  exists activities s',
    modifiedDatabases repo pushEvent file content migrationInfo databases s
    = (Val ([], activities), s')
    /\ ModifiedSteps repo pushEvent file content migrationInfo databases s activities s'.
Proof.
  revert s. induction databases as [|database databases IH]; intros s.
  { exists [], s. split; [done|constructor]. }
  cbn [modifiedDatabases]. unfold traced, call, emit, log_Debug, log_Error, emit, ret.
  unfold mbind, M_bind, bind. simpl.
  destruct (store_FindTask _ (world s)) as [[tasks|e] w1] eqn:Hfind; simpl.
  - destruct tasks as [|task [|task2 tasks]]; simpl.
    + destruct (IH (after s w1 [EvFindTask (pendingTaskFind database migrationInfo) (Ok [])]))
        as (activities & s' & Hrun & Hsteps).
      unfold after in Hrun. rewrite Hrun. exists activities, s'. split; [done|].
      by eapply steps_no_task.
    + destruct (store_GetIssueByPipelineID _ w1) as [[issue|e] w2] eqn:Hissue; simpl.
      * destruct (server_patchTask _ _ _ w2) as [[patched|e] w3] eqn:Hpatch; simpl.
        -- destruct (IH (after s w3
                           [EvFindTask (pendingTaskFind database migrationInfo) (Ok [task]);
                            EvGetIssueByPipelineID (api.Task.PipelineID task) (Ok issue);
                            EvLog LevelDebug "Patching task for modified file VCS push event";
                            EvPatchTask task (statementPatch task content) (Ok patched)]))
             as (activities & s' & Hrun & Hsteps).
           unfold after in Hrun. simpl in Hrun. rewrite <- !app_assoc. simpl.
           rewrite Hrun. exists activities, s'. split; [done|].
           by eapply steps_patched.
        -- eexists [], _. split; [done|]. rewrite <- !app_assoc. simpl.
           by eapply steps_patch_failed.
      * eexists [], _. split; [done|]. rewrite <- !app_assoc. simpl.
        by eapply steps_lookup_failed.
    + eexists [], _. split; [done|]. rewrite <- !app_assoc. simpl.
      by eapply steps_ambiguous.
  - destruct (getIgnoredFileActivityCreate_run (api.Repository.ProjectID repo) pushEvent
                file (Wrap e "Failed to find project task")
                (after s w1 [EvFindTask (pendingTaskFind database migrationInfo) (Err e)]))
      as (a & logs & Hact & _).
    pose proof Hact as Hact'. unfold after in Hact'. rewrite Hact'.
    eexists [a], _. split; [done|].
    eapply steps_search_failed; [exact Hfind|exact Hact].
Qed.

(** C6, amended.  For a modified migration file of a project that is
    not in tenant mode, [prepareIssueFromPushEventDDL] never returns a
    migration detail: no new issue is asked for.  When the file has
    been read and its databases resolved, the function returns, and
    what it did is what [ModifiedSteps] says for the databases the
    resolver returned, in their order, with the content that was read:
    a database with no matching task is passed over; a database with
    one matching task has the task's issue looked up and the task
    patched with the file's content; at the first database with more
    than one matching task an error is logged and the run ends there,
    with no patch for that database or any later one and the earlier
    patches in place.  A failed task search, issue lookup or patch ends
    the run as well. *)
Theorem modified_file_patches_single_pending_task
    (repo : api.Repository.t) (pushEvent : vcs.PushEvent.t) (file : string)
    (webhookEndpointID : string) (migrationInfo : db.MigrationInfo.t) (s : State W) :
  api.Project.TenantMode (api.Repository.Project repo) ≠ api.TenantModeTenant ->
  (forall r s',
      prepareIssueFromPushEventDDL repo pushEvent file fileItemTypeModified
        webhookEndpointID migrationInfo s = (Val r, s') ->
      r.1 = [])
  /\ (forall content s1 databases s2,
        readFileContent pushEvent webhookEndpointID file s = (Val (Ok content), s1) ->
        findProjectDatabases (api.Repository.ProjectID repo)
          (api.Project.TenantMode (api.Repository.Project repo))
          (db.MigrationInfo.Database migrationInfo)
          (db.MigrationInfo.Environment migrationInfo) s1
        = (Val (Ok databases), s2) ->
        exists activities s',
          prepareIssueFromPushEventDDL repo pushEvent file fileItemTypeModified
            webhookEndpointID migrationInfo s = (Val ([], activities), s')
          /\ ModifiedSteps repo pushEvent file content migrationInfo databases s2
               activities s').
Proof.
  intros Htenant. split.
  - intros r s'. unfold prepareIssueFromPushEventDDL.
    unfold mbind, M_bind, bind at 1.
    destruct (readFileContent _ _ _ s) as [[[content|e]|msg|] s1]; [| |done|done].
    + rewrite decide_False by done.
      unfold mbind, M_bind, bind at 1.
      destruct (findProjectDatabases _ _ _ _ s1) as [[[databases|e]|msg|] s2];
        [| |done|done].
      * rewrite decide_False by done.
        destruct (modifiedDatabases_steps repo pushEvent file content migrationInfo
                    databases s2) as (activities & s3 & Hrun & _).
        rewrite Hrun. by intros [= <- _].
      * destruct (getIgnoredFileActivityCreate_run (api.Repository.ProjectID repo)
                    pushEvent file (Wrap e "Failed to find project databases") s2)
          as (a & logs & Hact & _).
        unfold mbind, M_bind, bind. rewrite Hact. by intros [= <- _].
    + destruct (getIgnoredFileActivityCreate_run (api.Repository.ProjectID repo)
                  pushEvent file (Wrap e "Failed to read file content") s1)
        as (a & logs & Hact & _).
      unfold mbind, M_bind, bind. rewrite Hact. by intros [= <- _].
  - intros content s1 databases s2 Hread Hfind.
    destruct (modifiedDatabases_steps repo pushEvent file content migrationInfo
                databases s2) as (activities & s' & Hrun & Hsteps).
    exists activities, s'. split; [|done].
    unfold prepareIssueFromPushEventDDL.
    unfold mbind, M_bind, bind at 1. rewrite Hread.
    rewrite decide_False by done.
    unfold mbind, M_bind, bind at 1. rewrite Hfind.
    by rewrite decide_False by done.
Qed.

End PrepareProperties.

(** A modified migration script of a project in tenant mode: it is
    prepared like an added one, with one detail for the database name. *)
Lemma prepareIssueFromPushEventDDL_tenant_mode_ignores_file_type_witness :
  let repo := Sample.repository 1 vcs.GitLabSelfHost Sample.tenant "main" "42" in
  let w := Sample.server [repo] [] [] [] [(Sample.script1, "CREATE TABLE a (id INT);")] [] in
  let prepare fileType :=
    Mem.exec (prepareIssueFromPushEventDDL repo (Sample.pushEvent Sample.script1)
                Sample.script1 fileType "ep" (Sample.migration "v1" "init")) w in
  let r := ([{| api.MigrationDetail.DatabaseID := 0;
                api.MigrationDetail.DatabaseName := "orders";
                api.MigrationDetail.Statement := "CREATE TABLE a (id INT);";
                api.MigrationDetail.SchemaVersion := "v1" |}], []) in
  api.Project.TenantMode (api.Repository.Project repo) = api.TenantModeTenant
  /\ prepare fileItemTypeModified = (Val r, mkState w [])
  /\ prepare fileItemTypeAdded = (Val r, mkState w []).
Proof.
  intros repo w prepare r. split; [reflexivity|]. split; [vm_compute; reflexivity|].
  exact (proj1 (@prepareIssueFromPushEventDDL_tenant_mode_ignores_file_type
                  Sample.imports Mem.World Mem.collaborators repo
                  (Sample.pushEvent Sample.script1) Sample.script1 fileItemTypeModified "ep"
                  (Sample.migration "v1" "init") (mkState w []) (mkState w []) r
                  eq_refl ltac:(vm_compute; reflexivity))
           fileItemTypeAdded).
Defined.

(** An added migration script for a database that lives in two
    environments: one detail for each of the two databases. *)
Lemma prepareIssueFromPushEventDDL_added_file_one_detail_per_database_witness :
  let repo := Sample.repository 1 vcs.GitLabSelfHost Sample.ddl "main" "42" in
  let w := Sample.server [repo] [Sample.ordersProd; Sample.ordersStaging] [] []
             [(Sample.script1, "CREATE TABLE a (id INT);")] [] in
  let pushEvent := Sample.pushEvent Sample.script1 in
  let migrationInfo := Sample.migration "v1" "init" in
  let s := mkState w [] in
  let detail database :=
    {| api.MigrationDetail.DatabaseID := api.Database.ID database;
       api.MigrationDetail.DatabaseName := "";
       api.MigrationDetail.Statement := "CREATE TABLE a (id INT);";
       api.MigrationDetail.SchemaVersion := "v1" |} in
  let r := ([detail Sample.ordersProd; detail Sample.ordersStaging], []) in
  prepareIssueFromPushEventDDL repo pushEvent Sample.script1 fileItemTypeAdded "ep"
    migrationInfo s = (Val r, s)
  /\ (exists logs, trace s = trace s ++ logs /\ Forall isLog logs)
  /\ ((exists content s1 databases,
          readFileContent pushEvent "ep" Sample.script1 s = (Val (Ok content), s1)
          /\ findProjectDatabases 7 api.TenantModeDisabled "orders" "" s1
             = (Val (Ok databases), s)
          /\ databases ≠ []
          /\ r = ((fun database =>
                     {| api.MigrationDetail.DatabaseID := api.Database.ID database;
                        api.MigrationDetail.DatabaseName := "";
                        api.MigrationDetail.Statement := content;
                        api.MigrationDetail.SchemaVersion := "v1" |}) <$> databases, []))
      \/ (exists err s1 activityCreate,
             readFileContent pushEvent "ep" Sample.script1 s = (Val (Err err), s1)
             /\ getIgnoredFileActivityCreate 7 pushEvent Sample.script1
                  (Wrap err "Failed to read file content") s1
                = (Val activityCreate, s)
             /\ r = ([], [activityCreate]))
      \/ (exists content s1 err s2 activityCreate,
             readFileContent pushEvent "ep" Sample.script1 s = (Val (Ok content), s1)
             /\ findProjectDatabases 7 api.TenantModeDisabled "orders" "" s1
                = (Val (Err err), s2)
             /\ getIgnoredFileActivityCreate 7 pushEvent Sample.script1
                  (Wrap err "Failed to find project databases") s2
                = (Val activityCreate, s)
             /\ r = ([], [activityCreate]))).
Proof.
  intros repo w pushEvent migrationInfo s detail r.
  split; [vm_compute; reflexivity|].
  exact (@prepareIssueFromPushEventDDL_added_file_one_detail_per_database
           Sample.imports Mem.World Mem.collaborators repo pushEvent Sample.script1 "ep"
           migrationInfo s s r ltac:(discriminate) ltac:(vm_compute; reflexivity)).
Defined.

(** A modified migration script for one database with one matching
    task: the function returns no detail, and its steps are those of
    the one database the resolver returned, with the content read. *)
Lemma modified_file_patches_single_pending_task_witness :
  let repo := Sample.repository 1 vcs.GitLabSelfHost Sample.ddl "main" "42" in
  let w := Sample.server [repo] [Sample.ordersProd]
             [Sample.task 1 11 api.TaskPendingApproval] [Sample.issue 1]
             [(Sample.script1, "new")] [] in
  let pushEvent := Sample.pushEvent Sample.script1 in
  let migrationInfo := Sample.migration "v1" "init" in
  let s := mkState w [] in
  exists activities s',
    prepareIssueFromPushEventDDL repo pushEvent Sample.script1 fileItemTypeModified "ep"
      migrationInfo s = (Val ([], activities), s')
    /\ ModifiedSteps repo pushEvent Sample.script1 "new" migrationInfo [Sample.ordersProd]
         s activities s'.
Proof.
  intros repo w pushEvent migrationInfo s.
  exact (proj2 (@modified_file_patches_single_pending_task
                  Sample.imports Mem.World Mem.collaborators repo pushEvent Sample.script1
                  "ep" migrationInfo s ltac:(discriminate))
           "new" s [Sample.ordersProd] s
           ltac:(vm_compute; reflexivity) ltac:(vm_compute; reflexivity)).
Defined.

(** ** What [createIssueFromPushEvent] reports *)

Section Returns.
Context {W : Type}.

Lemma issueEvents_app (evs1 evs2 : list Event) :
  issueEvents (evs1 ++ evs2) = issueEvents evs1 ++ issueEvents evs2.
Proof. apply filter_app. Qed.

Lemma issueEvents_preparation (evs : list Event) :
  Forall isPreparation evs -> issueEvents evs = [].
Proof.
  induction 1 as [|ev evs Hev _ IH]; [done|].
  unfold issueEvents. rewrite filter_cons_False; [done|].
  by destruct ev.
Qed.

Lemma returns_ret {A} (a : A) (Q : A -> list Event -> Prop) :
  Q a [] -> returns (ret a : M W A) Q.
Proof. intros HQ s a' s' [= <- <-]. exists []. by rewrite app_nil_r. Qed.

Lemma returns_weaken {A} (m : M W A) (Q Q' : A -> list Event -> Prop) :
  (forall a evs, Q a evs -> Q' a evs) -> returns m Q -> returns m Q'.
Proof.
  intros HQ Hm s a s' Hrun. destruct (Hm s a s' Hrun) as (evs & Htrace & Ha).
  exists evs. split; [done|]. by apply HQ.
Qed.

(** After a computation that only prepares, the calls to create and to
    record an issue are those of the rest of the run. *)
Lemma returns_after_preparation {A B} (m : M W A) (k : A -> M W B)
    (Q : B -> list Event -> Prop) :
  emitsOnly m isPreparation ->
  (forall a, returns (k a) (fun b evs => Q b (issueEvents evs))) ->
  returns (m ≫= k) (fun b evs => Q b (issueEvents evs)).
Proof.
  intros Hm Hk s b s'. unfold mbind, M_bind, bind.
  destruct (Hm s) as (evs1 & Htrace1 & Hevs1).
  destruct (m s) as [[a|msg|] s1]; [|done|done]. simpl in Htrace1.
  intros Hrun. destruct (Hk a s1 b s' Hrun) as (evs2 & Htrace2 & Hb).
  exists (evs1 ++ evs2). rewrite Htrace2, Htrace1, app_assoc. split; [done|].
  by rewrite issueEvents_app, (issueEvents_preparation evs1).
Qed.

End Returns.

Section OutcomeProperties.
Context `{Imports} {W : Type} `{Collaborators W}.

Ltac prepares :=
  repeat first
    [ emits_step
    | apply emitsOnly_emit; exact I
    | apply emitsOnly_traced; intros ?; exact I ].

Lemma getIgnoredFileActivityCreate_prepares projectID pushEvent file err :
  emitsOnly (getIgnoredFileActivityCreate projectID pushEvent file err : M W _) isPreparation.
Proof. unfold getIgnoredFileActivityCreate, log_Warn. prepares. Qed.

Lemma readFileContent_prepares pushEvent webhookEndpointID file :
  emitsOnly (readFileContent pushEvent webhookEndpointID file : M W _) isPreparation.
Proof. unfold readFileContent. prepares. Qed.

Lemma findProjectDatabases_prepares projectID tenantMode dbName envName :
  emitsOnly (findProjectDatabases projectID tenantMode dbName envName : M W _) isPreparation.
Proof. unfold findProjectDatabases. prepares. Qed.

Lemma computeDatabaseSchemaDiff_prepares database newSchemaStr :
  emitsOnly (computeDatabaseSchemaDiff database newSchemaStr : M W _) isPreparation.
Proof. unfold computeDatabaseSchemaDiff, diffWithDriver. prepares. Qed.

Lemma sdlDatabases_prepares repo pushEvent file content databases details activities :
  emitsOnly (sdlDatabases repo pushEvent file content databases details activities : M W _)
    isPreparation.
Proof.
  revert details activities. induction databases as [|database databases IH];
    intros details activities; simpl; [apply emitsOnly_ret|].
  apply emitsOnly_bind; [apply computeDatabaseSchemaDiff_prepares|]. intros [diff|e].
  - apply IH.
  - apply emitsOnly_bind; [apply getIgnoredFileActivityCreate_prepares|]. intros a. apply IH.
Qed.

Lemma prepareIssueFromPushEventSDL_prepares repo pushEvent schemaInfo file webhookEndpointID :
  emitsOnly (prepareIssueFromPushEventSDL repo pushEvent schemaInfo file webhookEndpointID
             : M W _) isPreparation.
Proof.
  unfold prepareIssueFromPushEventSDL, log_Debug.
  repeat first
    [ apply readFileContent_prepares
    | apply getIgnoredFileActivityCreate_prepares
    | apply findProjectDatabases_prepares
    | apply sdlDatabases_prepares
    | emits_step
    | apply emitsOnly_emit; exact I ].
Qed.

Lemma modifiedDatabases_prepares repo pushEvent file content migrationInfo databases :
  emitsOnly (modifiedDatabases repo pushEvent file content migrationInfo databases : M W _)
    isPreparation.
Proof.
  induction databases as [|database databases IH]; simpl; [apply emitsOnly_ret|].
  unfold log_Debug, log_Error.
  repeat first
    [ apply IH
    | apply getIgnoredFileActivityCreate_prepares
    | emits_step
    | apply emitsOnly_emit; exact I
    | apply emitsOnly_traced; intros ?; exact I ].
Qed.

Lemma prepareIssueFromPushEventDDL_prepares repo pushEvent file fileType webhookEndpointID
    migrationInfo :
  emitsOnly (prepareIssueFromPushEventDDL repo pushEvent file fileType webhookEndpointID
               migrationInfo : M W _) isPreparation.
Proof.
  unfold prepareIssueFromPushEventDDL.
  repeat first
    [ apply readFileContent_prepares
    | apply getIgnoredFileActivityCreate_prepares
    | apply findProjectDatabases_prepares
    | apply modifiedDatabases_prepares
    | emits_step ].
Qed.

Lemma createIssueForDetails_outcome pushEvent repo file fileEscaped migrationInfo details
    activities :
  returns (createIssueForDetails pushEvent repo file fileEscaped migrationInfo details
             activities : M W _)
    (fun r evs => IssueOutcome file r (issueEvents evs)).
Proof.
  intros s r s'. unfold createIssueForDetails.
  apply (returns_after_preparation _ _ (IssueOutcome file)).
  { unfold log_Error, log_Debug. prepares. }
  intros creatorID. clear s r s'. intros s r s'.
  destruct (json_Marshal_context _) as [createContext|e].
  2:{ intros [= <- <-]. exists []. rewrite app_nil_r. split; [done|].
      eapply outcome_failed; [|by right]. unfold failsWith. simpl. eauto 10. }
  run_monad.
  destruct (server_createIssue _ _ _) as [[issue|e] w1]; simpl.
  2:{ intros [= <- <-]. eexists [_]. split; [done|].
      apply outcome_refused. unfold failsWith. simpl. eauto 10. }
  destruct (json_Marshal_payload _) as [payload|e].
  2:{ intros [= <- <-]. eexists [_]. split; [done|].
      eapply outcome_unrecorded. unfold failsWith. simpl. eauto 10. }
  simpl.
  destruct (ActivityManager_CreateActivity _ _) as [[[]|e] w2]; simpl.
  - intros [= <- <-]. eexists [_; _]. rewrite <- app_assoc. split; [done|].
    by apply outcome_created.
  - intros [= <- <-]. eexists [_; _]. rewrite <- app_assoc. split; [done|].
    apply outcome_unstored. unfold failsWith. simpl. eauto 10.
Qed.

Lemma returns_stuck {A} (Q : A -> list Event -> Prop) : returns (stuck : M W A) Q.
Proof. by intros s a s'. Qed.

Lemma reconcileFile_outcome pushEvent repo webhookEndpointID file fileType :
  returns (reconcileFile pushEvent repo webhookEndpointID file fileType : M W _)
    (fun r evs => IssueOutcome file r (issueEvents evs)).
Proof.
  unfold reconcileFile, log_Debug, log_Error.
  repeat first
    [ apply createIssueForDetails_outcome
    | apply returns_stuck
    | apply returns_ret; first
        [ by apply outcome_ignored
        | eapply outcome_failed; [|by left]; unfold failsWith; simpl; by eauto 10 ]
    | apply (returns_after_preparation _ _ (IssueOutcome file));
      [ first [ apply prepareIssueFromPushEventSDL_prepares
              | apply prepareIssueFromPushEventDDL_prepares
              | apply getIgnoredFileActivityCreate_prepares
              | prepares ]
      | intros ? ]
    | match goal with
      | |- returns (match ?x with _ => _ end) _ => destruct x
      | |- returns (let '(_, _) := ?x in _) _ => destruct x
      | |- returns (if ?x then _ else _) _ => destruct x
      end ].
Qed.

(** Whenever [createIssueFromPushEvent] returns, what it reports agrees
    with what it did.  It asks for at most one issue, and records an
    activity only for an issue it has created.  It reports an issue as
    created, with the message naming the issue and the file and
    without an error, exactly when the issue was created and the
    activity recording it was stored.  Every error it returns comes
    with no message and nothing reported as created: status 403 before
    any call, or status 500, which can leave a created issue behind
    when its activity could not be built or stored.  An outcome with
    neither an error nor an issue reported made no call to create
    one. *)
Theorem createIssueFromPushEvent_reports_issue_iff_created_and_recorded
    (pushEvent : vcs.PushEvent.t) (repo : api.Repository.t)
    (webhookEndpointID file : string) (fileType : fileItemType)
    (s s' : State W) (r : Reconciled.t) :
  createIssueFromPushEvent pushEvent repo webhookEndpointID file fileType s = (Val r, s') ->
  exists evs,
    trace s' = trace s ++ evs
    /\ IssueOutcome file r (issueEvents evs)
    /\ (Reconciled.created r = true
        <-> exists create creatorID issue activityCreate,
              issueEvents evs = [EvCreateIssue create creatorID (Ok issue);
                                 EvCreateActivity (Some activityCreate) (Ok tt)])
    /\ (Reconciled.created r = true -> Reconciled.err r = None)
    /\ (Reconciled.created r = false -> Reconciled.message r = noText)
    /\ (Reconciled.created r = false -> Reconciled.err r = None -> issueEvents evs = []).
Proof.
  unfold createIssueFromPushEvent, emit, mbind, M_bind, bind. simpl. intros Hrun.
  apply reconcileFile_outcome in Hrun as (evs & Htrace & Hout). simpl in Htrace.
  exists (EvCreateIssueFromPushEvent repo file fileType :: evs).
  rewrite Htrace, <- app_assoc. split; [done|].
  change (issueEvents (?e :: evs)) with (issueEvents evs).
  split; [done|].
  destruct Hout as [Hc Hm He|code cause (Hc & Hm & e & He & _) _
                    |create creatorID cause (Hc & Hm & e & He & _)
                    |create creatorID issue cause (Hc & Hm & e & He & _)
                    |create creatorID issue a cause (Hc & Hm & e & He & _)
                    |create creatorID issue a Hc He Hm _ _].
  all: rewrite ?Hc, ?He, ?Hm; split_and!; try done.
  all: try (split; [done|]; intros (? & ? & ? & ? & [=])).
  split; [|done]. intros _. by exists create, creatorID, issue, a.
Qed.

End OutcomeProperties.

(** The first script of the sample push, added: the issue is created,
    its activity is stored, and the run reports the issue. *)
Lemma createIssueFromPushEvent_reports_issue_iff_created_and_recorded_witness :
  let repo := Sample.repository 1 vcs.GitLabSelfHost Sample.ddl "main" "42" in
  let w := Sample.server [repo] [Sample.ordersProd] [] []
             [(Sample.script1, "CREATE TABLE a (id INT);")] [] in
  let out := Mem.exec (createIssueFromPushEvent (Sample.pushEvent Sample.script1) repo "ep"
                         Sample.script1 fileItemTypeAdded) w in
  let r := reconciled
             (Sprintf "Created issue %q on adding %s"
                [AStr "%s by %s init orders__v1__migrate__init.sql"; AStr Sample.script1])
             true [] None in
  out.1 = Val r
  /\ exists evs,
      trace out.2 = [] ++ evs
      /\ IssueOutcome Sample.script1 r (issueEvents evs)
      /\ (Reconciled.created r = true
          <-> exists create creatorID issue activityCreate,
                issueEvents evs = [EvCreateIssue create creatorID (Ok issue);
                                   EvCreateActivity (Some activityCreate) (Ok tt)])
      /\ (Reconciled.created r = true -> Reconciled.err r = None)
      /\ (Reconciled.created r = false -> Reconciled.message r = noText)
      /\ (Reconciled.created r = false -> Reconciled.err r = None -> issueEvents evs = []).
Proof.
  intros repo w out r. split; [vm_compute; reflexivity|].
  exact (@createIssueFromPushEvent_reports_issue_iff_created_and_recorded
           Sample.imports Mem.World Mem.collaborators (Sample.pushEvent Sample.script1) repo
           "ep" Sample.script1 fileItemTypeAdded (mkState w []) out.2 r
           ltac:(vm_compute; reflexivity)).
Defined.

(** ** The SDL branch *)

Section SDLProperties.
Context `{Imports} {W : Type} `{Collaborators W}.

(** The SDL loop always returns, and what it does is a [DiffSteps]. *)
Lemma sdlDatabases_steps repo pushEvent file content databases details activities
    (s : State W) :
  exists details' activities' s',
    sdlDatabases repo pushEvent file content databases details activities s
    = (Val (details ++ details', activities ++ activities'), s')
    /\ DiffSteps repo pushEvent file content databases s details' activities' s'.
Proof.
  revert details activities s.
  induction databases as [|database databases IH]; intros details activities s.
  { exists [], [], s. rewrite !app_nil_r. split; [done|constructor]. }
  cbn [sdlDatabases].
  destruct (computeDatabaseSchemaDiff_run database content s) as (r & w1 & Hdiff).
  unfold mbind, M_bind, bind at 1. rewrite Hdiff.
  destruct r as [diff|e].
  - destruct (IH (details ++ [diffDetailOf database diff]) activities
                (mkState w1 (trace s ++ [EvSchemaDiff database content (Ok diff)])))
      as (details' & activities' & s' & Hrun & Hsteps).
    unfold diffDetailOf in Hrun at 1. rewrite Hrun.
    exists (diffDetailOf database diff :: details'), activities', s'.
    split; [by rewrite <- app_assoc|]. by eapply diffs_detail.
  - destruct (getIgnoredFileActivityCreate_run (api.Repository.ProjectID repo) pushEvent file
                (Wrap e "Failed to compute database schema diff")
                (mkState w1 (trace s ++ [EvSchemaDiff database content (Err e)])))
      as (a & logs & Hact & Hlogs).
    unfold mbind, M_bind, bind at 1. rewrite Hact.
    destruct (IH details (activities ++ [a])
                (mkState w1 ((trace s ++ [EvSchemaDiff database content (Err e)]) ++ logs)))
      as (details' & activities' & s' & Hrun & Hsteps).
    simpl. simpl in Hrun. rewrite Hrun.
    exists details', (a :: activities'), s'.
    split; [by rewrite <- app_assoc|]. by eapply diffs_ignored.
Qed.

(** The SDL branch once the file has been read and its databases
    resolved, for a project that is not in tenant mode. *)
Lemma prepareIssueFromPushEventSDL_resolved repo pushEvent schemaInfo file webhookEndpointID
    (s s1 s2 : State W) content databases :
  let dbName := default "" (schemaInfo !! "DB_NAME") in
  let envName := default "" (schemaInfo !! "ENV_NAME") in
  dbName ≠ "" ->
  api.Project.TenantMode (api.Repository.Project repo) ≠ api.TenantModeTenant ->
  readFileContent pushEvent webhookEndpointID file s = (Val (Ok content), s1) ->
  findProjectDatabases (api.Repository.ProjectID repo)
    (api.Project.TenantMode (api.Repository.Project repo)) dbName envName s1
  = (Val (Ok databases), s2) ->
  exists details activities s3 version w4,
    DiffSteps repo pushEvent file content databases s2 details activities s3
    /\ common_DefaultMigrationVersion (world s3) = (version, w4)
    /\ prepareIssueFromPushEventSDL repo pushEvent schemaInfo file webhookEndpointID s
       = (Val (Some (sdlMigrationInfo dbName envName version), details, activities,
               withAdded pushEvent (sdlMigrationFile repo dbName envName version)),
          mkState w4 (trace s3)).
Proof.
  intros dbName envName Hname Htenant Hread Hfind.
  destruct (sdlDatabases_steps repo pushEvent file content databases [] [] s2)
    as (details & activities & s3 & Hloop & Hsteps).
  destruct (common_DefaultMigrationVersion (world s3)) as [version w4] eqn:Hclock.
  exists details, activities, s3, version, w4. split; [done|]. split; [done|].
  unfold prepareIssueFromPushEventSDL. fold dbName envName.
  rewrite decide_False by done.
  unfold mbind, M_bind, bind at 1. rewrite Hread.
  rewrite decide_False by done.
  unfold mbind, M_bind, bind at 1. unfold mbind, M_bind, bind at 1. rewrite Hfind.
  unfold mbind, M_bind, bind at 1. rewrite Hloop.
  unfold ret, call, mbind, M_bind, bind. simpl. by rewrite Hclock.
Qed.

(** Whenever [prepareIssueFromPushEventSDL] returns, one of five things
    has happened.  The schema file names no database: a line is logged,
    nothing is read or looked up, and nothing is returned.  The file
    cannot be read: the activity [getIgnoredFileActivityCreate] makes
    for that error is returned, alone.  The project is in tenant mode:
    no database is resolved and no schema diff computed, and the one
    detail carries the content that was read, for the database name.
    The databases cannot be resolved: the activity for that error is
    returned, alone.  Otherwise the loop runs over the databases the
    resolver returned: each gets a detail with its diff, or, when the
    diff fails, an activity.  In the third and the fifth case the
    migration info is that of a schema migration from the VCS of the
    named database, with the environment name of the path and the
    version the clock gives after the preparation, and the push event
    has the path of its added file replaced by the migration file the
    schema file stands for; in the other cases there is no migration
    info and the push event is as it was. *)
Theorem prepareIssueFromPushEventSDL_builds_migration_for_database_name
    (repo : api.Repository.t) (pushEvent : vcs.PushEvent.t)
    (schemaInfo : gmap string string) (file webhookEndpointID : string) (s s' : State W)
    (r : option db.MigrationInfo.t * list api.MigrationDetail.t
         * list (option api.ActivityCreate.t) * vcs.PushEvent.t) :
  prepareIssueFromPushEventSDL repo pushEvent schemaInfo file webhookEndpointID s
  = (Val r, s') ->
  let dbName := default "" (schemaInfo !! "DB_NAME") in
  let envName := default "" (schemaInfo !! "ENV_NAME") in
  let projectID := api.Repository.ProjectID repo in
  let tenantMode := api.Project.TenantMode (api.Repository.Project repo) in
  let prepared version :=
    (Some (sdlMigrationInfo dbName envName version),
     withAdded pushEvent (sdlMigrationFile repo dbName envName version)) in
  (dbName = ""
   /\ r = (None, [], [], pushEvent)
   /\ s' = after s (world s) [EvLog LevelDebug "Ignored schema file without a database name"])
  \/ (dbName ≠ ""
      /\ exists err s1 activityCreate,
           readFileContent pushEvent webhookEndpointID file s = (Val (Err err), s1)
           /\ getIgnoredFileActivityCreate projectID pushEvent file
                (Wrap err "Failed to read file content") s1
              = (Val activityCreate, s')
           /\ r = (None, [], [activityCreate], pushEvent))
  \/ (dbName ≠ "" /\ tenantMode = api.TenantModeTenant
      /\ exists content s1 version w2,
           readFileContent pushEvent webhookEndpointID file s = (Val (Ok content), s1)
           /\ common_DefaultMigrationVersion (world s1) = (version, w2)
           /\ s' = mkState w2 (trace s1)
           /\ r = ((prepared version).1,
                   [{| api.MigrationDetail.DatabaseID := 0;
                       api.MigrationDetail.DatabaseName := dbName;
                       api.MigrationDetail.Statement := content;
                       api.MigrationDetail.SchemaVersion := "" |}],
                   [], (prepared version).2))
  \/ (dbName ≠ "" /\ tenantMode ≠ api.TenantModeTenant
      /\ exists content s1 err s2 activityCreate,
           readFileContent pushEvent webhookEndpointID file s = (Val (Ok content), s1)
           /\ findProjectDatabases projectID tenantMode dbName envName s1
              = (Val (Err err), s2)
           /\ getIgnoredFileActivityCreate projectID pushEvent file
                (Wrap err "Failed to find project databases") s2
              = (Val activityCreate, s')
           /\ r = (None, [], [activityCreate], pushEvent))
  \/ (dbName ≠ "" /\ tenantMode ≠ api.TenantModeTenant
      /\ exists content s1 databases s2 details activities s3 version w4,
           readFileContent pushEvent webhookEndpointID file s = (Val (Ok content), s1)
           /\ findProjectDatabases projectID tenantMode dbName envName s1
              = (Val (Ok databases), s2)
           /\ DiffSteps repo pushEvent file content databases s2 details activities s3
           /\ common_DefaultMigrationVersion (world s3) = (version, w4)
           /\ s' = mkState w4 (trace s3)
           /\ r = ((prepared version).1, details, activities, (prepared version).2)).
Proof.
  intros Hrun dbName envName projectID tenantMode prepared. revert Hrun.
  destruct (decide (dbName = "")) as [Hname|Hname].
  { unfold prepareIssueFromPushEventSDL. fold dbName. rewrite decide_True by done.
    run_monad. intros [= <- <-]. by left. }
  destruct (readFileContent pushEvent webhookEndpointID file s)
    as [[[content|e]|msg|] s1] eqn:Hread.
  - destruct (decide (tenantMode = api.TenantModeTenant)) as [Htenant|Htenant].
    + unfold prepareIssueFromPushEventSDL. fold dbName envName tenantMode.
      rewrite decide_False by done.
      unfold mbind, M_bind, bind at 1. rewrite Hread.
      rewrite decide_True by done.
      unfold ret, call, mbind, M_bind, bind. simpl.
      destruct (common_DefaultMigrationVersion (world s1)) as [version w2] eqn:Hclock.
      intros [= <- <-]. right. right. left. split; [done|]. split; [done|].
      by exists content, s1, version, w2.
    + destruct (findProjectDatabases projectID tenantMode dbName envName s1)
        as [[[databases|e]|msg|] s2] eqn:Hfind.
      * destruct (prepareIssueFromPushEventSDL_resolved repo pushEvent schemaInfo file
                    webhookEndpointID s s1 s2 content databases Hname Htenant Hread Hfind)
          as (details & activities & s3 & version & w4 & Hsteps & Hclock & Hrun).
        fold dbName envName in Hrun. rewrite Hrun. intros [= <- <-].
        do 4 right. split; [done|]. split; [done|].
        by exists content, s1, databases, s2, details, activities, s3, version, w4.
      * unfold prepareIssueFromPushEventSDL. fold dbName envName tenantMode projectID.
        rewrite decide_False by done.
        unfold mbind, M_bind, bind at 1. rewrite Hread.
        rewrite decide_False by done.
        unfold mbind, M_bind, bind at 1. unfold mbind, M_bind, bind at 1. rewrite Hfind.
        destruct (getIgnoredFileActivityCreate_run projectID pushEvent file
                    (Wrap e "Failed to find project databases") s2)
          as (a & logs & Hact & _).
        unfold mbind, M_bind, bind at 1. rewrite Hact.
        unfold ret. simpl. intros [= <- <-].
        do 3 right. left. split; [done|]. split; [done|].
        by exists content, s1, e, s2, a.
      * unfold prepareIssueFromPushEventSDL. fold dbName envName tenantMode projectID.
        rewrite decide_False by done.
        unfold mbind, M_bind, bind at 1. rewrite Hread.
        rewrite decide_False by done.
        unfold mbind, M_bind, bind at 1. unfold mbind, M_bind, bind at 1.
        by rewrite Hfind.
      * unfold prepareIssueFromPushEventSDL. fold dbName envName tenantMode projectID.
        rewrite decide_False by done.
        unfold mbind, M_bind, bind at 1. rewrite Hread.
        rewrite decide_False by done.
        unfold mbind, M_bind, bind at 1. unfold mbind, M_bind, bind at 1.
        by rewrite Hfind.
  - unfold prepareIssueFromPushEventSDL. fold dbName envName tenantMode projectID.
    rewrite decide_False by done.
    unfold mbind, M_bind, bind at 1. rewrite Hread.
    destruct (getIgnoredFileActivityCreate_run projectID pushEvent file
                (Wrap e "Failed to read file content") s1) as (a & logs & Hact & _).
    unfold mbind, M_bind, bind at 1. rewrite Hact.
    unfold ret. simpl. intros [= <- <-].
    right. left. split; [done|]. by exists e, s1, a.
  - unfold prepareIssueFromPushEventSDL. fold dbName.
    rewrite decide_False by done.
    unfold mbind, M_bind, bind at 1. by rewrite Hread.
  - unfold prepareIssueFromPushEventSDL. fold dbName.
    rewrite decide_False by done.
    unfold mbind, M_bind, bind at 1. by rewrite Hread.
Qed.

End SDLProperties.

(** The schema file of the sample for the database [orders] in [prod]:
    the migration info is for [orders] in [prod], the push event names
    the migration file the schema file stands for, and the one database
    the resolver returns gets one detail with its diff. *)
Lemma prepareIssueFromPushEventSDL_builds_migration_for_database_name_witness :
  let repo := Sample.repository 1 vcs.GitLabSelfHost Sample.sdl "main" "42" in
  let w := Sample.server [repo] [Sample.ordersProd] [] []
             [(Sample.schemaFile, Sample.schema)] [("orders", "CREATE TABLE old (id INT);")] in
  let pushEvent := Sample.pushEvent Sample.schemaFile in
  let s := mkState w [] in
  let s' := mkState w [EvSchemaDiff Sample.ordersProd Sample.schema (Ok Sample.schema)] in
  let info := sdlMigrationInfo "orders" "prod" "20060102150405" in
  let details := [diffDetailOf Sample.ordersProd Sample.schema] in
  let pushEvent' :=
    withAdded pushEvent
      "migrations/prod/orders__20060102150405__migrate__Apply_schema_diff.sql" in
  let r := (Some info, details, [], pushEvent') in
  let prepared version :=
    (Some (sdlMigrationInfo "orders" "prod" version),
     withAdded pushEvent (sdlMigrationFile repo "orders" "prod" version)) in
  prepareIssueFromPushEventSDL repo pushEvent Sample.schemaInfo Sample.schemaFile "ep" s
  = (Val r, s')
  /\ (("orders" = ""
       /\ r = (None, [], [], pushEvent)
       /\ s' = after s (world s)
                 [EvLog LevelDebug "Ignored schema file without a database name"])
      \/ ("orders" ≠ ""
          /\ exists err s1 activityCreate,
               readFileContent pushEvent "ep" Sample.schemaFile s = (Val (Err err), s1)
               /\ getIgnoredFileActivityCreate 7 pushEvent Sample.schemaFile
                    (Wrap err "Failed to read file content") s1
                  = (Val activityCreate, s')
               /\ r = (None, [], [activityCreate], pushEvent))
      \/ ("orders" ≠ "" /\ api.TenantModeDisabled = api.TenantModeTenant
          /\ exists content s1 version w2,
               readFileContent pushEvent "ep" Sample.schemaFile s = (Val (Ok content), s1)
               /\ common_DefaultMigrationVersion (world s1) = (version, w2)
               /\ s' = mkState w2 (trace s1)
               /\ r = ((prepared version).1,
                       [{| api.MigrationDetail.DatabaseID := 0;
                           api.MigrationDetail.DatabaseName := "orders";
                           api.MigrationDetail.Statement := content;
                           api.MigrationDetail.SchemaVersion := "" |}],
                       [], (prepared version).2))
      \/ ("orders" ≠ "" /\ api.TenantModeDisabled ≠ api.TenantModeTenant
          /\ exists content s1 err s2 activityCreate,
               readFileContent pushEvent "ep" Sample.schemaFile s = (Val (Ok content), s1)
               /\ findProjectDatabases 7 api.TenantModeDisabled "orders" "prod" s1
                  = (Val (Err err), s2)
               /\ getIgnoredFileActivityCreate 7 pushEvent Sample.schemaFile
                    (Wrap err "Failed to find project databases") s2
                  = (Val activityCreate, s')
               /\ r = (None, [], [activityCreate], pushEvent))
      \/ ("orders" ≠ "" /\ api.TenantModeDisabled ≠ api.TenantModeTenant
          /\ exists content s1 databases s2 details activities s3 version w4,
               readFileContent pushEvent "ep" Sample.schemaFile s = (Val (Ok content), s1)
               /\ findProjectDatabases 7 api.TenantModeDisabled "orders" "prod" s1
                  = (Val (Ok databases), s2)
               /\ DiffSteps repo pushEvent Sample.schemaFile content databases s2 details
                    activities s3
               /\ common_DefaultMigrationVersion (world s3) = (version, w4)
               /\ s' = mkState w4 (trace s3)
               /\ r = ((prepared version).1, details, activities, (prepared version).2))).
Proof.
  intros repo w pushEvent s s' info details pushEvent' r prepared.
  split; [vm_compute; reflexivity|].
  exact (@prepareIssueFromPushEventSDL_builds_migration_for_database_name
           Sample.imports Mem.World Mem.collaborators repo pushEvent Sample.schemaInfo
           Sample.schemaFile "ep" s s' r ltac:(vm_compute; reflexivity)).
Defined.

(** ** The GitHub handler *)

Section GithubProperties.
Context `{Imports} {W : Type} `{Collaborators W}.

(** The loop over the bindings for one file: each binding in order,
    up to the first error. *)
Lemma githubRepos_run pushEvent webhookEndpointID commit messageTitle file repos created
    activities (s s' : State W) r :
  githubRepos pushEvent webhookEndpointID commit messageTitle file repos created activities s
  = (Val r, s') ->
  exists evs,
    trace s' = trace s ++ evs
    /\ reconciledFiles evs
       `prefix_of` ((fun repo => (api.Repository.ID repo, fileItem.name file)) <$> repos)
    /\ (forall x, r = inr x ->
        reconciledFiles evs
        = (fun repo => (api.Repository.ID repo, fileItem.name file)) <$> repos).
Proof.
  revert created activities s.
  induction repos as [|repo repos IH]; intros created activities s; simpl.
  - intros [= <- <-]. exists []. rewrite app_nil_r. by split_and!.
  - destruct (api.Repository.VCS repo) as [repoVCS|]; [|done].
    unfold mbind, M_bind, bind at 1.
    destruct (createIssueFromPushEvent_entry
                (githubPushEvent pushEvent repo repoVCS commit messageTitle file)
                repo webhookEndpointID (fileItem.name file) (fileItem.itemType file) s)
      as (evs1 & Htrace1 & Hevs1).
    destruct (createIssueFromPushEvent _ _ _ _ _ s) as [[r1|msg|] s1]; [|done|done].
    simpl in Htrace1.
    assert (reconciledFiles
              (EvCreateIssueFromPushEvent repo (fileItem.name file) (fileItem.itemType file)
               :: evs1)
            = [(api.Repository.ID repo, fileItem.name file)]) as Hhere.
    { change (reconciledFiles (?e :: ?l)) with (reconciledFiles ([e] ++ l)).
      by rewrite reconciledFiles_app, Hevs1. }
    destruct (Reconciled.err r1) as [httpErr|].
    + intros [= <- <-]. eexists. split; [exact Htrace1|]. rewrite Hhere.
      split; [|done]. apply prefix_cons, prefix_nil.
    + intros Hrest. apply IH in Hrest as (evs2 & Htrace2 & Hpre & Hall).
      exists ((EvCreateIssueFromPushEvent repo (fileItem.name file) (fileItem.itemType file)
               :: evs1) ++ evs2).
      rewrite Htrace2, Htrace1, reconciledFiles_app, Hhere, <- !app_assoc.
      split; [done|]. split.
      * by apply prefix_cons.
      * intros x Hx. simpl. f_equal. by eapply Hall.
Qed.

(** The same for the loop over the files of a commit. *)
Lemma githubFiles_run pushEvent webhookEndpointID repos handleRepos commit messageTitle
    files created (s s' : State W) r :
  githubFiles pushEvent webhookEndpointID repos handleRepos commit messageTitle files created s
  = (Val r, s') ->
  let pairs :=
    files ≫= fun file => (fun repo => (api.Repository.ID repo, fileItem.name file)) <$> repos in
  exists evs,
    trace s' = trace s ++ evs
    /\ reconciledFiles evs `prefix_of` pairs
    /\ (forall x, r = inr x -> reconciledFiles evs = pairs).
Proof.
  revert created s. induction files as [|file files IH]; intros created s; simpl.
  - intros [= <- <-]. exists []. rewrite app_nil_r. by split_and!.
  - unfold mbind, M_bind, bind at 1.
    destruct (githubRepos _ _ _ _ _ _ _ _ s) as [[r1|msg|] s1] eqn:Hrepos; [|done|done].
    apply githubRepos_run in Hrepos as (evs1 & Htrace1 & Hpre1 & Hall1).
    destruct r1 as [httpErr|[createdMessageList activities]].
    + intros [= <- <-]. exists evs1. split; [done|]. split; [|done].
      by apply prefix_app_r.
    + specialize (Hall1 _ eq_refl).
      unfold mbind, M_bind, bind at 1.
      match goal with
      | |- context [(if (length createdMessageList =? 0)%nat then ?a else ?b) s1] =>
          destruct ((if (length createdMessageList =? 0)%nat then a else b) s1)
            as [[[]|msg|] s2] eqn:Hact
      end; [|done|done].
      assert (exists evs2, trace s2 = trace s1 ++ evs2 /\ reconciledFiles evs2 = [])
        as (evs2 & Htrace2 & Hevs2).
      { destruct (length createdMessageList =? 0)%nat.
        - revert Hact. unfold log_Debug, emit, mbind, M_bind, bind. simpl. intros Hact.
          destruct (createIgnoredActivities_trace handleRepos activities
                      (mkState (world s1)
                         (trace s1
                          ++ [EvLog LevelDebug
                                "Ignored push event file because no applicable file found in the commit list"])))
            as (evs2 & Ht & He).
          rewrite Hact in Ht. simpl in Ht.
          eexists (_ :: evs2). rewrite Ht, <- app_assoc. split; [done|].
          change (reconciledFiles (?e :: ?l)) with (reconciledFiles ([e] ++ l)).
          by rewrite reconciledFiles_app, He.
        - injection Hact as <-. exists []. by rewrite app_nil_r. }
      intros Hrest. apply IH in Hrest as (evs3 & Htrace3 & Hpre3 & Hall3).
      exists (evs1 ++ evs2 ++ evs3).
      rewrite Htrace3, Htrace2, Htrace1, <- !app_assoc. split; [done|].
      rewrite !reconciledFiles_app, Hall1, Hevs2. simpl. split.
      * by apply prefix_app.
      * intros x Hx. f_equal. by eapply Hall3.
Qed.

(** The same for the loop over the commits; a commit that is not
    distinct is passed over. *)
Lemma githubCommits_run pushEvent webhookEndpointID repos handleRepos commits created
    (s s' : State W) r :
  githubCommits pushEvent webhookEndpointID repos handleRepos commits created s = (Val r, s') ->
  exists evs,
    trace s' = trace s ++ evs
    /\ reconciledFiles evs `prefix_of` commitsTimesRepos commits repos
    /\ (forall x, r = inr x -> reconciledFiles evs = commitsTimesRepos commits repos).
Proof.
  unfold commitsTimesRepos.
  revert created s. induction commits as [|commit commits IH]; intros created s; simpl.
  - intros [= <- <-]. exists []. rewrite app_nil_r. by split_and!.
  - destruct (github.WebhookCommit.Distinct commit) eqn:Hdistinct; simpl.
    + rewrite filter_cons_True by done.
      unfold mbind, M_bind, bind at 1.
      destruct (githubFiles _ _ _ _ _ _ _ _ s) as [[r1|msg|] s1] eqn:Hfiles; [|done|done].
      apply githubFiles_run in Hfiles as (evs1 & Htrace1 & Hpre1 & Hall1).
      destruct r1 as [httpErr|created1].
      * intros [= <- <-]. exists evs1. split; [done|]. split; [|done].
        by apply prefix_app_r.
      * specialize (Hall1 _ eq_refl).
        intros Hrest. apply IH in Hrest as (evs2 & Htrace2 & Hpre2 & Hall2).
        exists (evs1 ++ evs2). rewrite Htrace2, Htrace1, <- !app_assoc. split; [done|].
        rewrite reconciledFiles_app, Hall1. split.
        -- by apply prefix_app.
        -- intros x Hx. simpl. f_equal. by eapply Hall2.
    + rewrite filter_cons_False by (by rewrite Hdistinct). apply IH.
Qed.

(** The checks of the bindings write log lines only. *)
Lemma githubHandleRepos_logs c pushEvent body branch repos handleRepos :
  emitsOnly (githubHandleRepos c pushEvent body branch repos handleRepos : M W _) isLog.
Proof.
  revert handleRepos. induction repos as [|repo repos IH]; intros handleRepos; simpl.
  { apply emitsOnly_ret. }
  unfold log_Debug.
  repeat first
    [ apply IH
    | emits_step
    | apply emitsOnly_emit; unfold isLog; by eauto
    | match goal with
      | |- emitsOnly (if ?x then _ else _) _ => destruct x
      end ].
Qed.

(** The GitHub handler on a push, once the bindings of the endpoint are
    found and the body is read and decoded: whenever it returns, it has
    run [createIssueFromPushEvent] for the files of the distinct
    commits, commit by commit, each file with every binding of the
    endpoint in order, whether or not the binding passed the checks of
    branch, signature and repository, up to the first run that
    returned an error; with the answer 200 it has run all of them. *)
Theorem githubWebhook_reconciles_each_file_with_every_binding
    (c : Request.t) (s s' : State W) (body : string)
    (pushEvent : github.WebhookPushEvent.t) (repos : list api.Repository.t) (w1 : W)
    (r : Response) :
  Request.Header c "X-GitHub-Event" = github.WebhookPush ->
  store_FindRepository (Request.ParamID c) (world s) = (Ok repos, w1) ->
  Request.Body c = Ok body ->
  json_Unmarshal_github body = Ok pushEvent ->
  githubWebhook c s = (Val r, s') ->
  exists evs,
    trace s' = trace s ++ evs
    /\ reconciledFiles evs
       `prefix_of` commitsTimesRepos (github.WebhookPushEvent.Commits pushEvent) repos
    /\ (forall code lines,
          r = RespondString code lines ->
          code = StatusOK
          /\ reconciledFiles evs
             = commitsTimesRepos (github.WebhookPushEvent.Commits pushEvent) repos).
Proof.
  intros Hevent Hfind Hbody Hjson.
  unfold githubWebhook. rewrite Hevent, Hbody, Hjson.
  rewrite bool_decide_false by done. rewrite bool_decide_true by done. simpl.
  unfold mbind, M_bind, bind at 1. unfold call at 1. rewrite Hfind.
  destruct repos as [|repo repos].
  { intros [= <- <-]. exists []. rewrite app_nil_r. split; [done|].
    split; [apply prefix_nil|done]. }
  destruct (parseBranchNameFromRefs _) as [branch|e].
  2:{ intros [= <- <-]. exists []. rewrite app_nil_r. split; [done|].
      split; [apply prefix_nil|done]. }
  unfold mbind, M_bind, bind at 1.
  destruct (githubHandleRepos_logs c pushEvent body branch (repo :: repos) []
              (mkState w1 (trace s))) as (logs & Htrace0 & Hlogs).
  destruct (githubHandleRepos _ _ _ _ _ _ _) as [[handled|msg|] s0]; [|done|done].
  simpl in Htrace0.
  assert (reconciledFiles logs = []) as Hlogs0
    by by apply reconciledFiles_no_entry, logs_no_entry.
  destruct handled as [httpErr|handleRepos].
  { intros [= <- <-]. exists logs. split; [done|]. rewrite Hlogs0.
    split; [apply prefix_nil|done]. }
  unfold mbind, M_bind, bind at 1.
  destruct (githubCommits _ _ _ _ _ _ s0) as [[r1|msg|] s1] eqn:Hcommits; [|done|done].
  apply githubCommits_run in Hcommits as (evs & Htrace & Hpre & Hall).
  destruct r1 as [httpErr|created].
  { intros [= <- <-]. exists (logs ++ evs). rewrite Htrace, Htrace0, <- app_assoc.
    split; [done|]. rewrite reconciledFiles_app, Hlogs0. by split. }
  specialize (Hall _ eq_refl).
  unfold log_Warn, emit, ret, mbind, M_bind, bind.
  destruct (length created =? 0)%nat; simpl; intros [= <- <-].
  - exists (logs ++ evs
            ++ [EvLog LevelWarn
                  "Ignored push event because no applicable file found in the commit list"]).
    simpl. rewrite Htrace, Htrace0, <- !app_assoc. split; [done|].
    rewrite !reconciledFiles_app, Hlogs0, Hall. simpl. rewrite app_nil_r.
    split; [done|]. by intros ? ? [= <- _].
  - exists (logs ++ evs). rewrite Htrace, Htrace0, <- !app_assoc. split; [done|].
    rewrite !reconciledFiles_app, Hlogs0, Hall. simpl.
    split; [done|]. by intros ? ? [= <- _].
Qed.

End GithubProperties.

(** The sample push through the GitHub handler, with a binding on
    [main] and one on [release]: both scripts are reconciled with both
    bindings. *)
Lemma githubWebhook_reconciles_each_file_with_every_binding_witness :
  let onMain := Sample.repository 1 vcs.GitHubCom Sample.ddl "main" "org/repo" in
  let onRelease := Sample.repository 2 vcs.GitHubCom Sample.ddl "release" "org/repo" in
  let w := Sample.server [onMain; onRelease] [Sample.ordersProd] [] []
             [(Sample.script1, "CREATE TABLE a (id INT);");
              (Sample.script2, "CREATE TABLE b (id INT);")] [] in
  let out := Mem.exec (githubWebhook Sample.request) w in
  let first := Sprintf "Created issue %q on adding %s"
                 [AStr "%s by %s init orders__v1__migrate__init.sql"; AStr Sample.script1] in
  let second := Sprintf "Created issue %q on adding %s"
                  [AStr "%s by %s more orders__v2__migrate__more.sql"; AStr Sample.script2] in
  let r := RespondString StatusOK [first; first; second; second] in
  out.1 = Val r
  /\ commitsTimesRepos (github.WebhookPushEvent.Commits Sample.githubPush) [onMain; onRelease]
     = [(1, Sample.script1); (2, Sample.script1); (1, Sample.script2); (2, Sample.script2)]
  /\ exists evs,
      trace out.2 = [] ++ evs
      /\ reconciledFiles evs
         `prefix_of` commitsTimesRepos (github.WebhookPushEvent.Commits Sample.githubPush)
                       [onMain; onRelease]
      /\ (forall code lines,
            r = RespondString code lines ->
            code = StatusOK
            /\ reconciledFiles evs
               = commitsTimesRepos (github.WebhookPushEvent.Commits Sample.githubPush)
                   [onMain; onRelease]).
Proof.
  intros onMain onRelease w out first second r.
  split; [vm_compute; reflexivity|]. split; [reflexivity|].
  exact (@githubWebhook_reconciles_each_file_with_every_binding
           Sample.imports Mem.World Mem.collaborators Sample.request (mkState w []) out.2
           "{}" Sample.githubPush [onMain; onRelease] w r
           eq_refl eq_refl eq_refl eq_refl ltac:(vm_compute; reflexivity)).
Defined.

(** ** The answers of the GitLab handler *)

Section GitlabAnswers.
Context `{Imports} {W : Type} `{Collaborators W}.


End GitlabAnswers.


(** ** The deduplicator on equal times *)

Section DedupTies.
Context `{Imports}.

(** What an upsert leaves in a list with one entry per name: the old
    entries that the item does not supersede, and the item when it is
    later than the entry of its name, or new. *)
Lemma upsert_elem_inv (item x : distinctFileItem) (l : list distinctFileItem) :
  NoDup (fileName <$> l) ->
  x ∈ upsert item l ->
  (x ∈ l /\ (fileName x = fileName item -> createdTime item <= createdTime x))
  \/ (x = item
      /\ forall y, y ∈ l -> fileName y = fileName item -> createdTime y < createdTime item).
Proof.
  induction l as [|file rest IH]; csimpl.
  - intros _ Hx%list_elem_of_singleton. subst x. right. split; [done|].
    intros y Hy. by apply elem_of_nil in Hy.
  - intros [Hfile Hrest]%NoDup_cons.
    assert (forall y, y ∈ rest -> fileName y ≠ fileName file) as Hother.
    { intros y Hy Heq. apply Hfile. rewrite <- Heq. by apply list_elem_of_fmap_2. }
    destruct (decide (fileName item = fileName file)) as [Heq|Hne].
    + unfold time.Before. destruct (Z.ltb_spec (createdTime file) (createdTime item)).
      * intros [->|Hx]%elem_of_cons.
        -- right. split; [done|]. intros y [->|Hy]%elem_of_cons Hname; [done|].
           exfalso. apply (Hother y Hy). congruence.
        -- left. split; [by right|]. intros Hname. exfalso. apply (Hother x Hx). congruence.
      * intros [->|Hx]%elem_of_cons.
        -- left. split; [left|]. intros _. lia.
        -- left. split; [by right|]. intros Hname. exfalso. apply (Hother x Hx). congruence.
    + intros [->|Hx]%elem_of_cons.
      * left. split; [left|]. intros Hname. by rewrite Hname in Hne.
      * destruct (IH Hrest Hx) as [[Hin Htime]|[-> Hall]].
        -- left. split; [by right|done].
        -- right. split; [done|]. intros y [->|Hy]%elem_of_cons Hname; [done|].
           by apply Hall.
Qed.

Lemma upsert_first_of_latest (visited l : list distinctFileItem) (item : distinctFileItem) :
  NoDup (fileName <$> l) ->
  (forall x, x ∈ l -> firstOfLatest visited x) ->
  (forall y, y ∈ visited -> fileName y ∈ fileName <$> l) ->
  NoDup (fileName <$> upsert item l)
  /\ (forall x, x ∈ upsert item l -> firstOfLatest (visited ++ [item]) x)
  /\ (forall y, y ∈ visited ++ [item] -> fileName y ∈ fileName <$> upsert item l).
Proof.
  intros Hnodup Hkept Hnames. split_and!.
  - rewrite upsert_names. destruct (decide _) as [Hin|Hnin]; [done|].
    apply NoDup_app. split_and!; [done| |apply NoDup_singleton].
    intros name Hname Heq%list_elem_of_singleton. by subst name.
  - intros x Hx. apply upsert_elem_inv in Hx as [[Hin Htime]|[-> Hall]]; [| |done].
    + destruct (Hkept x Hin) as (i & Hi & Hothers).
      exists i. split; [by apply lookup_app_l_Some|].
      intros j other Hj Hname.
      apply lookup_app_Some in Hj as [Hj|[Hlen Hj]]; [by apply Hothers|].
      apply list_lookup_singleton_Some in Hj as [_ <-].
      apply lookup_lt_Some in Hi. split; [lia|]. intros _. by apply Htime.
    + exists (length visited). split.
      { rewrite lookup_app_r by lia. by rewrite Nat.sub_diag. }
      intros j other Hj Hname.
      apply lookup_app_Some in Hj as [Hj|[Hlen Hj]].
      * pose proof (lookup_lt_Some _ _ _ Hj) as Hlt. split; [|lia]. intros _.
        apply list_elem_of_lookup_2 in Hj as Hother.
        apply Hnames, list_elem_of_fmap in Hother as (x & Hxname & Hx).
        destruct (Hkept x Hx) as (i & Hi & Hothers).
        assert (createdTime other <= createdTime x).
        { destruct (Hothers j other Hj Hxname) as [Hbefore Hafter].
          destruct (decide (j < i)%nat); [specialize (Hbefore ltac:(done))|
                                          specialize (Hafter ltac:(lia))]; lia. }
        assert (createdTime x < createdTime item) by (apply Hall; [done|congruence]).
        lia.
      * apply list_lookup_singleton_Some in Hj as [_ <-]. split; lia.
  - intros y Hy. rewrite upsert_names.
    apply elem_of_app in Hy as [Hy|Hy%list_elem_of_singleton]; [|subst y].
    + destruct (decide _); [by apply Hnames|]. apply elem_of_app. left. by apply Hnames.
    + destruct (decide _) as [Hin|Hnin]; [done|]. apply elem_of_app. right.
      by apply list_elem_of_singleton.
Qed.

Lemma foldl_upsert_first_of_latest (items visited l : list distinctFileItem) :
  NoDup (fileName <$> l) ->
  (forall x, x ∈ l -> firstOfLatest visited x) ->
  (forall y, y ∈ visited -> fileName y ∈ fileName <$> l) ->
  forall x, x ∈ foldl (fun l item => upsert item l) l items ->
            firstOfLatest (visited ++ items) x.
Proof.
  revert visited l. induction items as [|item items IH]; intros visited l Hnodup Hkept Hnames.
  - simpl. rewrite app_nil_r. exact Hkept.
  - simpl. destruct (upsert_first_of_latest visited l item Hnodup Hkept Hnames)
      as (Hnodup' & Hkept' & Hnames').
    intros x Hx. replace (visited ++ item :: items) with ((visited ++ [item]) ++ items)
      by by rewrite <- app_assoc.
    by apply (IH (visited ++ [item]) (upsert item l)).
Qed.

(** The entry the deduplicator keeps for a path is the first mention of
    the path with the latest time: in the order the deduplicator visits
    the mentions (commit by commit, the added paths of a commit before
    its modified paths), every earlier mention of the path has a
    strictly earlier time and no later mention has a later one.  On
    equal times the earlier mention stays, with its commit and its file
    type. *)
Theorem dedup_keeps_first_mention_with_latest_time
    (commitList : list gitlab.WebhookCommit.t) (item : distinctFileItem) :
  item ∈ dedupMigrationFilesFromCommitList commitList ->
  let mentions := commitList ≫= fun c => commitCandidates (parseCreatedTime c) c in
  exists i,
    mentions !! i = Some item
    /\ forall j other,
         mentions !! j = Some other -> fileName other = fileName item ->
         ((j < i)%nat -> createdTime other < createdTime item)
         /\ ((i <= j)%nat -> createdTime other <= createdTime item).
Proof.
  unfold dedupMigrationFilesFromCommitList. rewrite dedup_fold_candidates.
  intros Hitem. cbv zeta.
  apply (foldl_upsert_first_of_latest _ [] []); [apply NoDup_nil_2| | |exact Hitem].
  - intros x Hx. by apply elem_of_nil in Hx.
  - intros y Hy. by apply elem_of_nil in Hy.
Qed.

End DedupTies.

(** Two commits with the same time: the first adds and modifies a
    file, the second modifies it again.  The entry kept is the first
    mention, as added by the first commit. *)
Lemma dedup_keeps_first_mention_with_latest_time_witness :
  let author := {| gitlab.WebhookCommitAuthor.Name := "dev";
                   gitlab.WebhookCommitAuthor.Email := "dev@example.com" |} in
  let c1 := {| gitlab.WebhookCommit.ID := "c1"; gitlab.WebhookCommit.Title := "add";
               gitlab.WebhookCommit.Message := "add"; gitlab.WebhookCommit.Timestamp := "1";
               gitlab.WebhookCommit.URL := ""; gitlab.WebhookCommit.Author := author;
               gitlab.WebhookCommit.AddedList := ["F.sql"];
               gitlab.WebhookCommit.ModifiedList := ["F.sql"] |} in
  let c2 := {| gitlab.WebhookCommit.ID := "c2"; gitlab.WebhookCommit.Title := "fix";
               gitlab.WebhookCommit.Message := "fix"; gitlab.WebhookCommit.Timestamp := "1";
               gitlab.WebhookCommit.URL := ""; gitlab.WebhookCommit.Author := author;
               gitlab.WebhookCommit.AddedList := [];
               gitlab.WebhookCommit.ModifiedList := ["F.sql"] |} in
  let item := {| createdTime := 1; commit := c1; fileName := "F.sql";
                 itemType := fileItemTypeAdded |} in
  let mentions :=
    [c1; c2] ≫= fun c => commitCandidates (@parseCreatedTime Sample.imports c) c in
  @dedupMigrationFilesFromCommitList Sample.imports [c1; c2] = [item]
  /\ exists i,
      mentions !! i = Some item
      /\ forall j other,
           mentions !! j = Some other -> fileName other = fileName item ->
           ((j < i)%nat -> createdTime other < createdTime item)
           /\ ((i <= j)%nat -> createdTime other <= createdTime item).
Proof.
  intros author c1 c2 item mentions. split; [vm_compute; reflexivity|].
  apply (@dedup_keeps_first_mention_with_latest_time Sample.imports [c1; c2] item).
  vm_compute. apply list_elem_of_here.
Defined.

(** ** The names and the values of the path classifier *)

Lemma string_app_assoc (s t u : string) : ((s ++ t) ++ u = s ++ t ++ u)%string.
Proof.
  induction s as [|c s IH]; [done|].
  change (String c ((s ++ t) ++ u)%string = String c (s ++ t ++ u)%string).
  by rewrite IH.
Qed.

Lemma string_app_nil_r (s : string) : (s ++ "" = s)%string.
Proof.
  induction s as [|c s IH]; [done|].
  change (String c (s ++ "")%string = String c s).
  by rewrite IH.
Qed.

Section ClassifierProperties.
Import regexp.

(** A property of the attempt and of the text still to match that every
    step of the matcher keeps holds at the end of a run. *)
Section Invariant.
Variable R : string -> attempt -> Prop.
Hypothesis R_consume : forall c s st, R (String c s) st -> R s (consume c st).
Hypothesis R_open : forall s st, R s st -> R s (openGroup st).
Hypothesis R_close : forall s st, R s st -> R s (closeGroup st).

Lemma many_invariant (a : atom) (k : string -> attempt -> option attempt)
    (Q : attempt -> Prop) :
  (forall s st st', R s st -> k s st = Some st' -> Q st') ->
  forall s st st', R s st -> many a s st k = Some st' -> Q st'.
Proof.
  intros Hk. induction s as [|c s IH]; intros st st' HR; simpl.
  - by apply Hk.
  - destruct (accepts a c); [|by apply Hk].
    destruct (many a s (consume c st) k) as [r|] eqn:Hdeep.
    + intros [= <-]. eapply IH; [|exact Hdeep]. by apply R_consume.
    + by apply Hk.
Qed.

Lemma run_invariant (re : Regexp) :
  forall s st st', R s st -> run re s st = Some st' -> exists s', R s' st'.
Proof.
  induction re as [|i re IH]; intros s st st' HR; simpl.
  - intros [= <-]. eauto.
  - destruct i as [a|a|name|].
    + destruct s as [|c s]; [done|]. destruct (accepts a c); [|done].
      apply IH. by apply R_consume.
    + destruct s as [|c s]; [done|]. destruct (accepts a c); [|done].
      apply (many_invariant a (run re) (fun st' => exists s', R s' st') IH).
      by apply R_consume.
    + apply IH. by apply R_open.
    + apply IH. by apply R_close.
Qed.

End Invariant.

(** A run opens each group of the pattern once. *)
Lemma run_groups (re : Regexp) :
  forall s st st', run re s st = Some st' -> groups st' = (groups st + opens re)%nat.
Proof.
  induction re as [|i re IH]; intros s st st'; cbn [run].
  - intros [= <-]. change (opens []) with 0%nat. lia.
  - destruct i as [a|a|name|].
    + change (opens (One a :: re)) with (opens re).
      destruct s as [|c s]; [done|]. destruct (accepts a c); [|done].
      intros Hrun. by apply IH in Hrun.
    + change (opens (Plus a :: re)) with (opens re).
      destruct s as [|c s]; [done|]. destruct (accepts a c); [|done].
      apply (many_invariant (fun _ st1 => groups st1 = groups st) ltac:(done) a (run re)
               (fun st' => groups st' = (groups st + opens re)%nat)); [|done].
      intros s1 st1 st1' <- Hrun. by apply IH in Hrun.
    + change (opens (Open name :: re)) with (S (opens re)).
      intros Hrun. apply IH in Hrun. rewrite Hrun. cbn [openGroup groups]. lia.
    + change (opens (Close :: re)) with (opens re).
      intros Hrun. apply IH in Hrun. rewrite Hrun. unfold closeGroup.
      by destruct (opened st).
Qed.

Lemma search_groups (re : Regexp) (s : string) (st : attempt) :
  search re s = Some st -> groups st = opens re.
Proof.
  induction s as [|c s IH]; simpl.
  - destruct (run re "" start) as [r|] eqn:Hrun; [|done].
    intros [= <-]. by apply run_groups in Hrun.
  - destruct (run re (String c s) start) as [r|] eqn:Hrun; [|done].
    intros [= <-]. by apply run_groups in Hrun.
Qed.

Lemma within_consume file c s st :
  within file (String c s) st -> within file s (consume c st).
Proof.
  intros ((skipped & Hfile) & Hopen & Hclosed). split_and!; simpl.
  - exists skipped. rewrite Hfile. by rewrite !string_app_assoc.
  - intros g (g0 & -> & Hg0)%list_elem_of_fmap. simpl.
    destruct (Hopen g0 Hg0) as [pre Hpre]. exists pre.
    by rewrite Hpre, string_app_assoc.
  - intros g Hg. destruct (Hclosed g Hg) as (pre & post & Hm).
    exists pre, (post ++ String c "")%string. by rewrite Hm, !string_app_assoc.
Qed.

Lemma within_open file s st : within file s st -> within file s (openGroup st).
Proof.
  intros (Hfile & Hopen & Hclosed). split_and!; simpl; [done| |done].
  intros g [->|Hg]%elem_of_cons; [|by apply Hopen].
  exists (matched st). by rewrite string_app_nil_r.
Qed.

Lemma within_close file s st : within file s st -> within file s (closeGroup st).
Proof.
  intros Hw. pose proof Hw as (Hfile & Hopen & Hclosed). unfold closeGroup.
  destruct (opened st) as [|g rest] eqn:Hopened; [exact Hw|].
  split_and!; simpl; [done| |].
  - intros g' Hg'. apply Hopen. by right.
  - intros g' [->|Hg']%elem_of_cons; [|by apply Hclosed].
    destruct (Hopen g ltac:(left)) as [pre Hpre]. exists pre, ""%string.
    by rewrite string_app_nil_r.
Qed.

Lemma search_within (re : Regexp) (file : string) :
  forall s skipped st,
    file = (skipped ++ s)%string -> search re s = Some st -> exists s', within file s' st.
Proof.
  assert (forall s skipped, file = (skipped ++ s)%string -> within file s start) as Hstart.
  { intros s skipped ->. split_and!; simpl.
    - by exists skipped.
    - intros g Hg. by apply elem_of_nil in Hg.
    - intros g Hg. by apply elem_of_nil in Hg. }
  induction s as [|c s IH]; intros skipped st Hfile; simpl.
  - destruct (run re "" start) as [r|] eqn:Hrun; [|done]. intros [= <-].
    eapply (run_invariant (within file)); [apply within_consume|apply within_open
                                           |apply within_close| |exact Hrun].
    by eapply Hstart.
  - destruct (run re (String c s) start) as [r|] eqn:Hrun.
    + intros [= <-].
      eapply (run_invariant (within file)); [apply within_consume|apply within_open
                                             |apply within_close| |exact Hrun].
      by eapply Hstart.
    + apply (IH (skipped ++ String c "")%string). by rewrite Hfile, string_app_assoc.
Qed.

Lemma occursIn_trans (a b c : string) : occursIn a b -> occursIn b c -> occursIn a c.
Proof.
  intros (pre1 & post1 & ->) (pre2 & post2 & ->).
  exists (pre2 ++ pre1)%string, (post1 ++ post2)%string. by rewrite !string_app_assoc.
Qed.

(** The submatches of a match: one for each group of the pattern, each
    a piece of the subject. *)
Lemma FindStringSubmatch_groups (re : Regexp) (file whole : string) (texts : list string) :
  FindStringSubmatch re file = whole :: texts ->
  length texts = length (tail (SubexpNames re))
  /\ Forall (fun text => occursIn text file) texts.
Proof.
  unfold FindStringSubmatch.
  destruct (search re file) as [st|] eqn:Hsearch; [|done]. intros [= _ <-]. split.
  - rewrite length_fmap, length_seq. by apply search_groups in Hsearch.
  - apply (search_within re file file ""%string) in Hsearch as (s' & Hfile & _ & Hclosed);
      [|done].
    assert (occursIn (matched st) file) as Hmatched.
    { destruct Hfile as [skipped Hfile]. by exists skipped, s'. }
    apply Forall_fmap, Forall_forall. intros i _. simpl. unfold groupText.
    destruct (list_find _ (closed st)) as [[n g]|] eqn:Hfind.
    + apply list_find_Some in Hfind as (Hg%list_elem_of_lookup_2 & _).
      by eapply occursIn_trans; [apply Hclosed|].
    + exists ""%string, file. done.
Qed.

Lemma fillInfo_lookup (names texts : list string) (info : gmap string string)
    (name value : string) :
  fillInfo names texts info !! name = Some value ->
  value ∈ texts \/ info !! name = Some value.
Proof.
  revert texts info. induction names as [|n names IH]; intros texts info; simpl; [auto|].
  destruct texts as [|t texts]; [auto|].
  intros [Hin|Hold]%IH; [left; by right|].
  destruct (decide (n = name)) as [->|Hne].
  - rewrite lookup_insert_eq in Hold. injection Hold as <-. left. left.
  - rewrite lookup_insert_ne in Hold by done. by right.
Qed.

Lemma fillInfo_names (names texts : list string) (info : gmap string string) (name : string) :
  length texts = length names ->
  is_Some (fillInfo names texts info !! name) <-> name ∈ names \/ is_Some (info !! name).
Proof.
  revert texts info. induction names as [|n names IH]; intros texts info Hlen; simpl.
  - split; [auto|]. intros [Hin|Hm]; [by apply elem_of_nil in Hin|done].
  - destruct texts as [|t texts]; [done|]. injection Hlen as Hlen.
    rewrite (IH texts _ Hlen), elem_of_cons.
    destruct (decide (n = name)) as [->|Hne].
    + rewrite lookup_insert_eq. split; [auto|]. intros _. right. eauto.
    + rewrite lookup_insert_ne by done. naive_solver.
Qed.

(** When [parseSchemaFileInfo] classifies a path as a schema file, the
    mapping it returns has exactly the names of the groups of the
    compiled pattern as its keys, and each value is a piece of the
    path. *)
Theorem parseSchemaFileInfo_names_groups_with_pieces_of_path
    (baseDirectory schemaPathTemplate file : string) (info : gmap string string) :
  parseSchemaFileInfo baseDirectory schemaPathTemplate file = Some (Ok (Some info)) ->
  exists re,
    regexp.Compile (schemaFilePathRegex baseDirectory schemaPathTemplate) = regexp.Compiled re
    /\ (forall name, is_Some (info !! name) <-> name ∈ tail (regexp.SubexpNames re))
    /\ (forall name value, info !! name = Some value -> occursIn value file).
Proof.
  unfold parseSchemaFileInfo.
  destruct (decide (schemaPathTemplate = "")); [done|].
  destruct (regexp.Compile _) as [re|e|]; [|done|done].
  destruct (regexp.FindStringSubmatch re file) as [|whole texts] eqn:Hmatch; [done|].
  intros [= <-]. apply FindStringSubmatch_groups in Hmatch as [Hlen Hpieces].
  exists re. split_and!; [done| |].
  - intros name. rewrite (fillInfo_names _ _ _ _ Hlen), lookup_empty.
    split; [|auto]. intros [Hin|[? [=]]]. done.
  - intros name value [Hin|Hempty]%fillInfo_lookup; [|by rewrite lookup_empty in Hempty].
    rewrite Forall_forall in Hpieces. by apply Hpieces.
Qed.

End ClassifierProperties.

(** The example path of the specification: the mapping has the keys
    [ENV_NAME] and [DB_NAME], and its values are pieces of the path. *)
Lemma parseSchemaFileInfo_names_groups_with_pieces_of_path_witness :
  parseSchemaFileInfo "migrations" Sample.schemaTemplate Sample.schemaFile
  = Some (Ok (Some Sample.schemaInfo))
  /\ exists re,
      regexp.Compile (schemaFilePathRegex "migrations" Sample.schemaTemplate)
      = regexp.Compiled re
      /\ (forall name,
            is_Some (Sample.schemaInfo !! name) <-> name ∈ tail (regexp.SubexpNames re))
      /\ (forall name value,
            Sample.schemaInfo !! name = Some value -> occursIn value Sample.schemaFile).
Proof.
  split; [reflexivity|].
  apply (parseSchemaFileInfo_names_groups_with_pieces_of_path "migrations"
           Sample.schemaTemplate Sample.schemaFile Sample.schemaInfo).
  reflexivity.
Defined.

(** ** The lines of the answer *)

Section Yields.
Context {W : Type}.

Lemma yields_ret {A} (a : A) (P : A -> Prop) : P a -> yields (ret a : M W A) P.
Proof. by intros Ha s a' s' [= <- _]. Qed.

Lemma yields_stuck {A} (P : A -> Prop) : yields (stuck : M W A) P.
Proof. by intros s a s'. Qed.

Lemma yields_bind {A B} (m : M W A) (k : A -> M W B) (P : A -> Prop) (Q : B -> Prop) :
  yields m P -> (forall a, P a -> yields (k a) Q) -> yields (m ≫= k) Q.
Proof.
  intros Hm Hk s b s'. unfold mbind, M_bind, bind.
  destruct (m s) as [[a|msg|] s1] eqn:Hrun; [|done|done].
  intros Hrest. eapply Hk; [|exact Hrest]. by eapply Hm.
Qed.

Lemma yields_any {A} (m : M W A) : yields m (fun _ => True).
Proof. by intros s a s' _. Qed.

Lemma announcements_app (evs1 evs2 : list Event) :
  announcements (evs1 ++ evs2) = announcements evs1 ++ announcements evs2.
Proof. apply filter_app. Qed.

Lemma filter_filter_sub {A} (P Q : A -> Prop) `{forall x, Decision (P x)}
    `{forall x, Decision (Q x)} (l : list A) :
  (forall x, P x -> Q x) -> filter P (filter Q l) = filter P l.
Proof.
  intros HPQ. induction l as [|x l IH]; [done|].
  destruct (decide (Q x)) as [HQ|HQ].
  - rewrite (filter_cons_True Q) by done.
    destruct (decide (P x)).
    + rewrite !(filter_cons_True P) by done. by rewrite IH.
    + by rewrite !(filter_cons_False P) by done.
  - rewrite (filter_cons_False Q) by done.
    rewrite (filter_cons_False P); [done|]. intros HP. by apply HQ, HPQ.
Qed.

Lemma announcements_issueEvents (evs : list Event) :
  announcements (issueEvents evs) = announcements evs.
Proof.
  apply filter_filter_sub. intros ev. by destruct ev as [| | | | | | |[a|] [[]|]].
Qed.

Lemma announcements_none (evs : list Event) :
  Forall (fun ev => isAnnouncement ev = false) evs -> announcements evs = [].
Proof.
  induction 1 as [|ev evs Hev _ IH]; [done|].
  unfold announcements. rewrite filter_cons_False; [done|]. by rewrite Hev.
Qed.

Lemma emitsOnly_forEach_Forall {A} (l : list A) (body : A -> M W unit) (P : Event -> Prop) :
  Forall (fun x => emitsOnly (body x) P) l -> emitsOnly (forEach l body) P.
Proof.
  induction 1 as [|x l Hx _ IH]; simpl; [apply emitsOnly_ret|].
  apply emitsOnly_bind; [exact Hx|]. by intros _.
Qed.

End Yields.

Section IgnoredActivities.
Context `{Imports} {W : Type} `{Collaborators W}.

Lemma getIgnoredFileActivityCreate_ignored projectID pushEvent file err :
  yields (getIgnoredFileActivityCreate projectID pushEvent file err : M W _) isIgnoredActivity.
Proof.
  unfold getIgnoredFileActivityCreate. destruct (json_Marshal_payload _).
  - by apply yields_ret.
  - eapply yields_bind; [apply yields_any|]. intros _ _. by apply yields_ret.
Qed.

Lemma sdlDatabases_ignored repo pushEvent file content databases details activities :
  Forall isIgnoredActivity activities ->
  yields (sdlDatabases repo pushEvent file content databases details activities : M W _)
    (fun r => Forall isIgnoredActivity r.2).
Proof.
  revert details activities. induction databases as [|database databases IH];
    intros details activities Hacts; simpl; [by apply yields_ret|].
  eapply yields_bind; [apply yields_any|]. intros [diff|e] _.
  - by apply IH.
  - eapply yields_bind; [apply getIgnoredFileActivityCreate_ignored|]. intros a Ha.
    apply IH. apply Forall_app. split; [done|]. by constructor.
Qed.

(** One step of a proof that a computation returns activities of
    ignored files only. *)
Ltac ignores_step :=
  first
    [ apply yields_stuck
    | apply yields_ret; simpl; first [done | by repeat constructor]
    | eapply yields_bind;
      [ first [ apply getIgnoredFileActivityCreate_ignored
              | apply sdlDatabases_ignored; by constructor
              | apply yields_any ]
      | intros ? ? ]
    | match goal with
      | |- yields (match ?x with _ => _ end) _ => destruct x
      | |- yields (let '(_, _) := ?x in _) _ => destruct x
      | |- yields (if ?x then _ else _) _ => destruct x
      end ].

Lemma prepareIssueFromPushEventSDL_ignored repo pushEvent schemaInfo file webhookEndpointID :
  yields (prepareIssueFromPushEventSDL repo pushEvent schemaInfo file webhookEndpointID
          : M W _)
    (fun r => Forall isIgnoredActivity r.1.2).
Proof.
  unfold prepareIssueFromPushEventSDL.
  destruct (decide _); [repeat ignores_step|].
  eapply yields_bind; [apply yields_any|]. intros [content|e] _; [|repeat ignores_step].
  eapply (yields_bind _ _ (fun p => Forall isIgnoredActivity p.2)).
  - destruct (decide _); [repeat ignores_step|].
    eapply yields_bind; [apply yields_any|]. intros [databases|e] _; [|repeat ignores_step].
    eapply yields_bind; [apply sdlDatabases_ignored; constructor|].
    intros r Hr. by apply yields_ret.
  - intros [[details|] activities] Hacts; [|by apply yields_ret].
    eapply yields_bind; [apply yields_any|]. intros version _. by apply yields_ret.
Qed.

Lemma modifiedDatabases_ignored repo pushEvent file content migrationInfo databases :
  yields (modifiedDatabases repo pushEvent file content migrationInfo databases : M W _)
    (fun r => Forall isIgnoredActivity r.2).
Proof.
  induction databases as [|database databases IH]; simpl; [by apply yields_ret|].
  repeat first [apply IH | ignores_step].
Qed.

Lemma prepareIssueFromPushEventDDL_ignored repo pushEvent file fileType webhookEndpointID
    migrationInfo :
  yields (prepareIssueFromPushEventDDL repo pushEvent file fileType webhookEndpointID
            migrationInfo : M W _)
    (fun r => Forall isIgnoredActivity r.2).
Proof.
  unfold prepareIssueFromPushEventDDL.
  repeat first [apply modifiedDatabases_ignored | ignores_step].
Qed.

Lemma createIssueForDetails_ignored pushEvent repo file fileEscaped migrationInfo details
    activities :
  Forall isIgnoredActivity activities ->
  yields (createIssueForDetails pushEvent repo file fileEscaped migrationInfo details
            activities : M W _)
    (fun r => Forall isIgnoredActivity (Reconciled.activityCreateList r)).
Proof.
  intros Hacts. unfold createIssueForDetails.
  eapply yields_bind; [apply yields_any|]. intros creatorID _.
  repeat ignores_step.
Qed.

Lemma reconcileFile_ignored pushEvent repo webhookEndpointID file fileType :
  yields (reconcileFile pushEvent repo webhookEndpointID file fileType : M W _)
    (fun r => Forall isIgnoredActivity (Reconciled.activityCreateList r)).
Proof.
  unfold reconcileFile.
  eapply yields_bind; [apply yields_any|]. intros allowed _.
  destruct (negb allowed); [by apply yields_ret|].
  eapply yields_bind; [apply yields_any|]. intros _ _.
  destruct (negb _); [repeat ignores_step|].
  destruct (parseSchemaFileInfo _ _ _) as [[[schemaInfo|]|e]|];
    [| |repeat ignores_step|repeat ignores_step].
  - destruct (api.Project.SchemaChangeType _); [repeat ignores_step|].
    eapply yields_bind; [apply prepareIssueFromPushEventSDL_ignored|].
    intros [[[migrationInfo details] activities] pushEvent'] Hacts. simpl in Hacts.
    destruct migrationInfo as [migrationInfo|]; [|by apply yields_ret].
    destruct details; [by apply yields_ret|].
    by apply createIssueForDetails_ignored.
  - destruct (api.Project.SchemaChangeType _).
    all: destruct (db_ParseMigrationInfo _ _) as [migrationInfo|e]; [|repeat ignores_step].
    all: destruct (_ && _); [repeat ignores_step|].
    all: eapply yields_bind; [apply prepareIssueFromPushEventDDL_ignored|].
    all: intros [details activities] Hacts; simpl in *.
    all: destruct details; [by apply yields_ret|].
    all: by apply createIssueForDetails_ignored.
Qed.

End IgnoredActivities.

Section AnswerProperties.
Context `{Imports} {W : Type} `{Collaborators W}.

Lemma announcements_logs (logs : list Event) : Forall isLog logs -> announcements logs = [].
Proof.
  intros Hlogs. apply announcements_none.
  eapply Forall_impl; [exact Hlogs|]. by intros ev (l & m & ->).
Qed.

(** A run of [createIssueFromPushEvent] stores the record of an issue
    exactly when it reports the issue as created. *)
Lemma createIssueFromPushEvent_announces pushEvent repo webhookEndpointID file fileType
    (s s' : State W) r :
  createIssueFromPushEvent pushEvent repo webhookEndpointID file fileType s = (Val r, s') ->
  exists evs,
    trace s' = trace s ++ evs
    /\ length (announcements evs) = (if Reconciled.created r then 1 else 0)%nat
    /\ (Reconciled.created r = true -> Reconciled.err r = None)
    /\ Forall isIgnoredActivity (Reconciled.activityCreateList r).
Proof.
  unfold createIssueFromPushEvent, emit, mbind, M_bind, bind. simpl. intros Hrun.
  pose proof (reconcileFile_ignored _ _ _ _ _ _ _ _ Hrun) as Hacts.
  apply reconcileFile_outcome in Hrun as (evs & Htrace & Hout). simpl in Htrace.
  exists (EvCreateIssueFromPushEvent repo file fileType :: evs).
  rewrite Htrace, <- app_assoc. split; [done|].
  change (announcements (?e :: evs)) with (announcements evs).
  rewrite <- announcements_issueEvents. split_and!; [| |done].
  - destruct Hout as [Hc Hm He|code cause (Hc & Hm & e & He & _) _
                      |create creatorID cause (Hc & Hm & e & He & _)
                      |create creatorID issue cause (Hc & Hm & e & He & _)
                      |create creatorID issue a cause (Hc & Hm & e & He & _)
                      |create creatorID issue a Hc He Hm Hlevel _];
      rewrite Hc; try done.
    unfold announcements. rewrite filter_cons_False by done.
    rewrite filter_cons_True; [done|]. simpl. by rewrite Hlevel.
  - destruct Hout as [Hc Hm He|code cause (Hc & Hm & e & He & _) _
                      |create creatorID cause (Hc & Hm & e & He & _)
                      |create creatorID issue cause (Hc & Hm & e & He & _)
                      |create creatorID issue a cause (Hc & Hm & e & He & _)
                      |create creatorID issue a Hc He Hm Hlevel _];
      rewrite Hc; done.
Qed.

(** Storing the activities of ignored files announces no issue. *)
Lemma createIgnoredActivities_quiet handleRepos activities (s : State W) :
  collected activities ->
  exists evs,
    trace (createIgnoredActivities handleRepos activities s).2 = trace s ++ evs
    /\ announcements evs = [].
Proof.
  intros Hcollected.
  assert (emitsOnly (createIgnoredActivities handleRepos activities : M W unit)
            (fun ev => isAnnouncement ev = false)) as Hemits.
  { unfold createIgnoredActivities, log_Warn.
    apply emitsOnly_forEach. intros repo.
    destruct (activities !! _) as [l|] eqn:Hl; [|apply emitsOnly_ret].
    apply emitsOnly_forEach_Forall.
    eapply Forall_impl; [exact (Hcollected _ _ Hl)|].
    intros activity Hactivity. apply emitsOnly_bind.
    - apply emitsOnly_traced. intros r. destruct activity as [a|]; [|done].
      simpl in *. rewrite Hactivity. by destruct r.
    - intros [|]; [apply emitsOnly_ret|]. by apply emitsOnly_emit. }
  destruct (Hemits s) as (evs & Htrace & Hevs).
  exists evs. split; [done|]. by apply announcements_none.
Qed.

Lemma appendActivities_collected activities repoID l :
  collected activities -> Forall isIgnoredActivity l ->
  collected (appendActivities activities repoID l).
Proof.
  intros Hcollected Hl. unfold appendActivities. apply map_Forall_insert_2; [|done].
  apply Forall_app. split; [|done].
  destruct (activities !! repoID) as [old|] eqn:Hold; simpl; [|done].
  exact (Hcollected _ _ Hold).
Qed.

(** The loop over the bindings for one file of a GitLab push adds one
    line for each issue announced. *)
Lemma gitlabRepos_announces pushEvent webhookEndpointID item handleRepos lines activities
    (s s' : State W) out :
  collected activities ->
  gitlabRepos pushEvent webhookEndpointID item handleRepos lines activities s
  = (Val out, s') ->
  exists evs new,
    trace s' = trace s ++ evs
    /\ out.1 = lines ++ new
    /\ length new = length (announcements evs)
    /\ collected out.2.
Proof.
  revert lines activities s.
  induction handleRepos as [|repo handleRepos IH]; intros lines activities s Hcollected; simpl.
  - intros [= <- <-]. exists [], []. by rewrite !app_nil_r.
  - destruct (api.Repository.VCS repo) as [repoVCS|]; [|done].
    unfold mbind, M_bind, bind at 1.
    destruct (createIssueFromPushEvent _ _ _ _ _ s) as [[r1|msg|] s1] eqn:Hcall;
      [|done|done].
    apply createIssueFromPushEvent_announces in Hcall as (evs1 & Htrace1 & Hann1 & Herr & Hacts).
    destruct (Reconciled.err r1) as [httpErr|] eqn:Herr1.
    + intros Hrest. apply IH in Hrest as (evs2 & new & Htrace2 & Hlines & Hnew & Hout);
        [|done].
      exists (evs1 ++ evs2), new. rewrite Htrace2, Htrace1, <- app_assoc.
      split_and!; [done|done| |done].
      rewrite announcements_app, length_app, Hann1, Hnew.
      destruct (Reconciled.created r1); [|done]. by specialize (Herr eq_refl).
    + intros Hrest. apply IH in Hrest as (evs2 & new & Htrace2 & Hlines & Hnew & Hout);
        [|by apply appendActivities_collected].
      exists (evs1 ++ evs2),
        ((if Reconciled.created r1 then [Reconciled.message r1] else []) ++ new).
      rewrite Htrace2, Htrace1, <- app_assoc. split_and!; [done| | |done].
      * rewrite Hlines. destruct (Reconciled.created r1); [|done]. by rewrite <- app_assoc.
      * rewrite announcements_app, !length_app, Hann1, Hnew.
        by destruct (Reconciled.created r1).
Qed.

(** The same for the loop over the files. *)
Lemma gitlabFiles_announces pushEvent webhookEndpointID handleRepos distinctFileList lines
    (s s' : State W) out :
  gitlabFiles pushEvent webhookEndpointID handleRepos distinctFileList lines s
  = (Val out, s') ->
  exists evs new,
    trace s' = trace s ++ evs /\ out = lines ++ new
    /\ length new = length (announcements evs).
Proof.
  revert lines s. induction distinctFileList as [|item items IH]; intros lines s; simpl.
  - intros [= <- <-]. exists [], []. by rewrite !app_nil_r.
  - unfold mbind, M_bind, bind at 1.
    destruct (gitlabRepos _ _ _ _ _ _ s) as [[r1|msg|] s1] eqn:Hrepos; [|done|done].
    apply gitlabRepos_announces in Hrepos as (evs1 & new1 & Htrace1 & Hlines1 & Hnew1 & Hout1);
      [|apply map_Forall_empty].
    simpl in Hlines1.
    unfold mbind, M_bind, bind at 1.
    destruct ((if (length r1.1 =? 0)%nat then createIgnoredActivities handleRepos r1.2
               else ret tt) s1) as [[[]|msg|] s2] eqn:Hact; [|done|done].
    assert (exists evs2, trace s2 = trace s1 ++ evs2 /\ announcements evs2 = [])
      as (evs2 & Htrace2 & Hevs2).
    { destruct (length r1.1 =? 0)%nat.
      - destruct (createIgnoredActivities_quiet handleRepos r1.2 s1 Hout1) as (evs2 & Ht & He).
        rewrite Hact in Ht. by exists evs2.
      - injection Hact as <-. exists []. by rewrite app_nil_r. }
    intros Hrest. apply IH in Hrest as (evs3 & new3 & Htrace3 & Hlines3 & Hnew3).
    exists (evs1 ++ evs2 ++ evs3), (new1 ++ new3).
    rewrite Htrace3, Htrace2, Htrace1, <- !app_assoc. split_and!; [done| |].
    + by rewrite Hlines3, Hlines1, <- app_assoc.
    + by rewrite !announcements_app, !length_app, Hevs2, Hnew1, Hnew3.
Qed.

(** Whenever the GitLab handler answers with lines, the status is 200
    and there is one line for each issue whose record the activity
    manager has stored during the request: an issue is listed exactly
    when it was created and recorded; an issue that was created but
    whose activity could not be stored is not listed. *)
Theorem gitlabWebhook_lists_one_line_per_announced_issue (c : Request.t) (s s' : State W)
    (code : Z) (lines : list text) :
  gitlabWebhook c s = (Val (RespondString code lines), s') ->
  code = StatusOK
  /\ exists evs, trace s' = trace s ++ evs /\ length lines = length (announcements evs).
Proof.
  unfold gitlabWebhook.
  destruct (Request.Body c) as [body|err]; [|done].
  destruct (json_Unmarshal_gitlab body) as [pushEvent|err]; [|done].
  destruct (negb _); [done|].
  destruct (parseBranchNameFromRefs _) as [branch|err]; [|done].
  unfold mbind, M_bind, bind at 1. unfold call at 1.
  destruct (store_FindRepository _ _) as [[[|repo repos]|err] w1]; cbv beta iota zeta;
    [done| |done].
  unfold mbind, M_bind, bind at 1.
  destruct (gitlabHandleRepos_run c pushEvent branch (repo :: repos) []
              (mkState w1 (trace s))) as (logs & Hhandle & Hlogs).
  rewrite Hhandle.
  unfold log_Debug at 1, emit at 1. unfold mbind, M_bind, bind at 1.
  unfold mbind, M_bind, bind at 1.
  destruct (gitlabFiles _ _ _ _ _ _) as [[created|msg|] s2] eqn:Hfiles; [|done|done].
  apply gitlabFiles_announces in Hfiles as (evs & new & Htrace & Hlines & Hnew).
  simpl in Htrace, Hlines. subst created.
  unfold log_Warn, emit, ret, mbind, M_bind, bind.
  destruct (length new =? 0)%nat; simpl; intros [= <- <- <-]; (split; [done|]).
  - exists (logs ++ [EvLog LevelDebug "Process push event in repos"] ++ evs
            ++ [EvLog LevelWarn
                  "Ignored push event because no applicable file found in the commit list"]).
    split; [simpl; by rewrite Htrace, <- !app_assoc|].
    rewrite !announcements_app, (announcements_logs logs) by done. simpl.
    rewrite length_app. simpl. lia.
  - exists (logs ++ [EvLog LevelDebug "Process push event in repos"] ++ evs).
    split; [simpl; by rewrite Htrace, <- !app_assoc|].
    by rewrite !announcements_app, (announcements_logs logs) by done.
Qed.

(** The loop over the bindings for one file of a GitHub push, when no
    run returned an error. *)
Lemma githubRepos_announces pushEvent webhookEndpointID commit messageTitle file repos lines
    activities (s s' : State W) out :
  collected activities ->
  githubRepos pushEvent webhookEndpointID commit messageTitle file repos lines activities s
  = (Val (inr out), s') ->
  exists evs new,
    trace s' = trace s ++ evs
    /\ out.1 = lines ++ new
    /\ length new = length (announcements evs)
    /\ collected out.2.
Proof.
  revert lines activities s.
  induction repos as [|repo repos IH]; intros lines activities s Hcollected; simpl.
  - intros [= <- <-]. exists [], []. by rewrite !app_nil_r.
  - destruct (api.Repository.VCS repo) as [repoVCS|]; [|done].
    unfold mbind, M_bind, bind at 1.
    destruct (createIssueFromPushEvent _ _ _ _ _ s) as [[r1|msg|] s1] eqn:Hcall;
      [|done|done].
    apply createIssueFromPushEvent_announces in Hcall as (evs1 & Htrace1 & Hann1 & Herr & Hacts).
    destruct (Reconciled.err r1) as [httpErr|] eqn:Herr1; [done|].
    intros Hrest. apply IH in Hrest as (evs2 & new & Htrace2 & Hlines & Hnew & Hout);
      [|by apply appendActivities_collected].
    exists (evs1 ++ evs2),
      ((if Reconciled.created r1 then [Reconciled.message r1] else []) ++ new).
    rewrite Htrace2, Htrace1, <- app_assoc. split_and!; [done| | |done].
    + rewrite Hlines. destruct (Reconciled.created r1); [|done]. by rewrite <- app_assoc.
    + rewrite announcements_app, !length_app, Hann1, Hnew.
      by destruct (Reconciled.created r1).
Qed.

Lemma githubFiles_announces pushEvent webhookEndpointID repos handleRepos commit messageTitle
    files lines (s s' : State W) out :
  githubFiles pushEvent webhookEndpointID repos handleRepos commit messageTitle files lines s
  = (Val (inr out), s') ->
  exists evs new,
    trace s' = trace s ++ evs /\ out = lines ++ new
    /\ length new = length (announcements evs).
Proof.
  revert lines s. induction files as [|file files IH]; intros lines s; simpl.
  - intros [= <- <-]. exists [], []. by rewrite !app_nil_r.
  - unfold mbind, M_bind, bind at 1.
    destruct (githubRepos _ _ _ _ _ _ _ _ s) as [[r1|msg|] s1] eqn:Hrepos; [|done|done].
    destruct r1 as [httpErr|[lines1 activities1]]; [done|].
    apply githubRepos_announces in Hrepos as (evs1 & new1 & Htrace1 & Hlines1 & Hnew1 & Hout1);
      [|apply map_Forall_empty].
    simpl in Hlines1, Hout1. subst lines1.
    unfold mbind, M_bind, bind at 1.
    match goal with
    | |- context [(if (length new1 =? 0)%nat then ?a else ?b) s1] =>
        destruct ((if (length new1 =? 0)%nat then a else b) s1)
          as [[[]|msg|] s2] eqn:Hact
    end; [|done|done].
    assert (exists evs2, trace s2 = trace s1 ++ evs2 /\ announcements evs2 = [])
      as (evs2 & Htrace2 & Hevs2).
    { destruct (length new1 =? 0)%nat.
      - revert Hact. unfold log_Debug, emit, mbind, M_bind, bind. simpl. intros Hact.
        destruct (createIgnoredActivities_quiet handleRepos activities1
                    (mkState (world s1)
                       (trace s1
                        ++ [EvLog LevelDebug
                              "Ignored push event file because no applicable file found in the commit list"]))
                    Hout1)
          as (evs2 & Ht & He).
        rewrite Hact in Ht. simpl in Ht.
        eexists (_ :: evs2). rewrite Ht, <- app_assoc. split; [done|].
        change (announcements (?e :: ?l)) with (announcements l). done.
      - injection Hact as <-. exists []. by rewrite app_nil_r. }
    intros Hrest. apply IH in Hrest as (evs3 & new3 & Htrace3 & Hlines3 & Hnew3).
    exists (evs1 ++ evs2 ++ evs3), (new1 ++ new3).
    rewrite Htrace3, Htrace2, Htrace1, <- !app_assoc. split_and!; [done| |].
    + by rewrite Hlines3, <- app_assoc.
    + by rewrite !announcements_app, !length_app, Hevs2, Hnew1, Hnew3.
Qed.

Lemma githubCommits_announces pushEvent webhookEndpointID repos handleRepos commits lines
    (s s' : State W) out :
  githubCommits pushEvent webhookEndpointID repos handleRepos commits lines s
  = (Val (inr out), s') ->
  exists evs new,
    trace s' = trace s ++ evs /\ out = lines ++ new
    /\ length new = length (announcements evs).
Proof.
  revert lines s. induction commits as [|commit commits IH]; intros lines s; simpl.
  - intros [= <- <-]. exists [], []. by rewrite !app_nil_r.
  - destruct (negb _); [apply IH|].
    unfold mbind, M_bind, bind at 1.
    destruct (githubFiles _ _ _ _ _ _ _ _ s) as [[r1|msg|] s1] eqn:Hfiles; [|done|done].
    destruct r1 as [httpErr|lines1]; [done|].
    apply githubFiles_announces in Hfiles as (evs1 & new1 & Htrace1 & Hlines1 & Hnew1).
    intros Hrest. apply IH in Hrest as (evs2 & new2 & Htrace2 & Hlines2 & Hnew2).
    exists (evs1 ++ evs2), (new1 ++ new2).
    rewrite Htrace2, Htrace1, <- !app_assoc. split_and!; [done| |].
    + by rewrite Hlines2, Hlines1, <- app_assoc.
    + by rewrite !announcements_app, !length_app, Hnew1, Hnew2.
Qed.

(** Whenever the GitHub handler answers an event other than a ping with
    lines, the status is 200 and there is one line for each issue whose
    record the activity manager has stored during the request. *)
Theorem githubWebhook_lists_one_line_per_announced_issue (c : Request.t) (s s' : State W)
    (code : Z) (lines : list text) :
  Request.Header c "X-GitHub-Event" ≠ github.WebhookPing ->
  githubWebhook c s = (Val (RespondString code lines), s') ->
  code = StatusOK
  /\ exists evs, trace s' = trace s ++ evs /\ length lines = length (announcements evs).
Proof.
  intros Hping. unfold githubWebhook.
  rewrite bool_decide_false by done.
  destruct (negb _); [done|].
  unfold mbind, M_bind, bind at 1. unfold call at 1.
  destruct (store_FindRepository _ _) as [[[|repo repos]|err] w1]; cbv beta iota zeta;
    [done| |done].
  destruct (Request.Body c) as [body|err]; [|done].
  destruct (json_Unmarshal_github body) as [pushEvent|err]; [|done].
  destruct (parseBranchNameFromRefs _) as [branch|err]; [|done].
  unfold mbind, M_bind, bind at 1.
  destruct (githubHandleRepos_logs c pushEvent body branch (repo :: repos) []
              (mkState w1 (trace s))) as (logs & Htrace0 & Hlogs).
  destruct (githubHandleRepos _ _ _ _ _ _ _) as [[handled|msg|] s0]; [|done|done].
  simpl in Htrace0.
  destruct handled as [httpErr|handleRepos]; [done|].
  unfold mbind, M_bind, bind at 1.
  destruct (githubCommits _ _ _ _ _ _ s0) as [[r1|msg|] s1] eqn:Hcommits; [|done|done].
  destruct r1 as [httpErr|created]; [done|].
  apply githubCommits_announces in Hcommits as (evs & new & Htrace & Hlines & Hnew).
  simpl in Hlines. subst created.
  unfold log_Warn, emit, ret, mbind, M_bind, bind.
  destruct (length new =? 0)%nat; simpl; intros [= <- <- <-]; (split; [done|]).
  - exists (logs ++ evs
            ++ [EvLog LevelWarn
                  "Ignored push event because no applicable file found in the commit list"]).
    simpl. rewrite Htrace, Htrace0, <- !app_assoc. split; [done|].
    rewrite !announcements_app, (announcements_logs logs) by done. simpl.
    rewrite length_app. simpl. lia.
  - exists (logs ++ evs). rewrite Htrace, Htrace0, <- !app_assoc. split; [done|].
    by rewrite !announcements_app, (announcements_logs logs) by done.
Qed.

End AnswerProperties.

(** The sample push through the GitLab handler with the issue of the
    first script refused: the answer has the line of the second script,
    the one issue that was created and recorded. *)
Lemma gitlabWebhook_lists_one_line_per_announced_issue_witness :
  let repo := Sample.repository 1 vcs.GitLabSelfHost Sample.ddl "main" "42" in
  let w := Sample.refusing "init"
             (Sample.server [repo] [Sample.ordersProd] [] []
                [(Sample.script1, "CREATE TABLE a (id INT);");
                 (Sample.script2, "CREATE TABLE b (id INT);")] []) in
  let out := Mem.exec (gitlabWebhook Sample.request) w in
  let lines := [Sprintf "Created issue %q on adding %s"
                  [AStr "%s by %s more orders__v2__migrate__more.sql"; AStr Sample.script2]] in
  out.1 = Val (RespondString StatusOK lines)
  /\ length (Mem.createdActivities (world out.2)) = 1%nat
  /\ StatusOK = StatusOK
  /\ exists evs, trace out.2 = [] ++ evs /\ length lines = length (announcements evs).
Proof.
  intros repo w out lines. split; [vm_compute; reflexivity|]. split; [reflexivity|].
  exact (@gitlabWebhook_lists_one_line_per_announced_issue Sample.imports Mem.World
           Mem.collaborators Sample.request (mkState w []) out.2 StatusOK lines
           ltac:(vm_compute; reflexivity)).
Defined.

(** The sample push through the GitHub handler: two issues are created
    and recorded, and the answer has their two lines. *)
Lemma githubWebhook_lists_one_line_per_announced_issue_witness :
  let repo := Sample.repository 1 vcs.GitHubCom Sample.ddl "main" "org/repo" in
  let w := Sample.server [repo] [Sample.ordersProd] [] []
             [(Sample.script1, "CREATE TABLE a (id INT);");
              (Sample.script2, "CREATE TABLE b (id INT);")] [] in
  let out := Mem.exec (githubWebhook Sample.request) w in
  let lines := [Sprintf "Created issue %q on adding %s"
                  [AStr "%s by %s init orders__v1__migrate__init.sql"; AStr Sample.script1];
                Sprintf "Created issue %q on adding %s"
                  [AStr "%s by %s more orders__v2__migrate__more.sql"; AStr Sample.script2]] in
  Request.Header Sample.request "X-GitHub-Event" ≠ github.WebhookPing
  /\ out.1 = Val (RespondString StatusOK lines)
  /\ length (Mem.createdActivities (world out.2)) = 2%nat
  /\ StatusOK = StatusOK
  /\ exists evs, trace out.2 = [] ++ evs /\ length lines = length (announcements evs).
Proof.
  intros repo w out lines.
  assert (Request.Header Sample.request "X-GitHub-Event" ≠ github.WebhookPing) as Hping
    by (intros Heq; vm_compute in Heq; discriminate Heq).
  split; [exact Hping|]. split; [vm_compute; reflexivity|]. split; [reflexivity|].
  exact (@githubWebhook_lists_one_line_per_announced_issue Sample.imports Mem.World
           Mem.collaborators Sample.request (mkState w []) out.2 StatusOK lines
           Hping ltac:(vm_compute; reflexivity)).
Defined.

(** ** Modified migration scripts *)

Section ModifiedScripts.
Context `{Imports} {W : Type} `{Collaborators W}.

(** Outside tenant mode a modified file yields no migration detail. *)
Lemma prepareIssueFromPushEventDDL_modified_no_detail repo pushEvent file webhookEndpointID
    migrationInfo :
  api.Project.TenantMode (api.Repository.Project repo) ≠ api.TenantModeTenant ->
  yields (prepareIssueFromPushEventDDL repo pushEvent file fileItemTypeModified
            webhookEndpointID migrationInfo : M W _)
    (fun prepared => prepared.1 = []).
Proof.
  intros Htenant. unfold prepareIssueFromPushEventDDL.
  eapply yields_bind; [apply yields_any|]. intros [content|e] _.
  - rewrite decide_False by done.
    eapply yields_bind; [apply yields_any|]. intros [databases|e] _.
    + rewrite decide_False by done. intros s r s' Hrun.
      destruct (modifiedDatabases_run repo pushEvent file content migrationInfo databases s)
        as (activities & w' & evs & Hmodified & _).
      rewrite Hmodified in Hrun. by injection Hrun as <- _.
    + eapply yields_bind; [apply yields_any|]. intros a _. by apply yields_ret.
  - eapply yields_bind; [apply yields_any|]. intros a _. by apply yields_ret.
Qed.

(** A modified migration script of a project that is not in tenant
    mode never opens an issue: for a file that is not a schema file,
    [createIssueFromPushEvent] on a modification returns without an
    error and with nothing created, and has made no call to create an
    issue or to record one; at most it has patched pending tasks. *)
Theorem modified_migration_script_opens_no_issue (pushEvent : vcs.PushEvent.t)
    (repo : api.Repository.t) (webhookEndpointID file : string) (s s' : State W)
    (r : Reconciled.t) :
  api.Project.TenantMode (api.Repository.Project repo) ≠ api.TenantModeTenant ->
  parseSchemaFileInfo (api.Repository.BaseDirectory repo)
    (api.Repository.SchemaPathTemplate repo) (common_EscapeForLogging file)
  = Some (Ok None) ->
  createIssueFromPushEvent pushEvent repo webhookEndpointID file fileItemTypeModified s
  = (Val r, s') ->
  Reconciled.created r = false
  /\ Reconciled.err r = None
  /\ Reconciled.message r = noText
  /\ exists evs, trace s' = trace s ++ evs /\ issueEvents evs = [].
Proof.
  intros Htenant Hschema.
  unfold createIssueFromPushEvent, emit. unfold mbind, M_bind, bind at 1. simpl.
  intros Hrun.
  assert (Reconciled.created r = false /\ Reconciled.err r = None
          /\ Reconciled.message r = noText) as (Hcreated & Herr & Hmessage).
  { revert Hrun. generalize (mkState (world s)
                               (trace s ++ [EvCreateIssueFromPushEvent repo file
                                              fileItemTypeModified])).
    intros s0 Hrun. revert s0 r s' Hrun.
    change (yields (reconcileFile pushEvent repo webhookEndpointID file fileItemTypeModified
                    : M W _)
              (fun r => Reconciled.created r = false /\ Reconciled.err r = None
                        /\ Reconciled.message r = noText)).
    unfold reconcileFile. rewrite decide_False by done.
    eapply (yields_bind _ _ (fun allowed => allowed = true)); [by apply yields_ret|].
    intros allowed ->. simpl.
    eapply yields_bind; [apply yields_any|]. intros _ _.
    destruct (negb _).
    { eapply yields_bind; [apply yields_any|]. intros _ _. by apply yields_ret. }
    rewrite Hschema.
    destruct (api.Project.SchemaChangeType _).
    all: destruct (db_ParseMigrationInfo _ _) as [migrationInfo|e];
      [|eapply yields_bind; [apply yields_any|]; intros _ _; by apply yields_ret].
    all: cbv beta iota.
    all: try (match goal with
              | |- yields (if ?b then _ else _) _ => destruct b
              end;
              [eapply yields_bind; [apply yields_any|]; intros a _; by apply yields_ret|]).
    all: eapply yields_bind;
      [by apply prepareIssueFromPushEventDDL_modified_no_detail|].
    all: intros [details activities] Hnil; simpl in Hnil; subst details.
    all: by apply yields_ret. }
  apply reconcileFile_outcome in Hrun as (evs & Htrace & Hout). simpl in Htrace.
  split_and!; [done..|].
  exists (EvCreateIssueFromPushEvent repo file fileItemTypeModified :: evs).
  rewrite Htrace, <- app_assoc. split; [done|].
  change (issueEvents (?e :: evs)) with (issueEvents evs).
  destruct Hout as [Hc Hm He|code cause (Hc & Hm & e & He & _) _
                    |create creatorID cause (Hc & Hm & e & He & _)
                    |create creatorID issue cause (Hc & Hm & e & He & _)
                    |create creatorID issue a cause (Hc & Hm & e & He & _)
                    |create creatorID issue a Hc He Hm _ _]; congruence.
Qed.

End ModifiedScripts.

(** The first script of the sample, modified, with one pending task
    for its version: the task is patched and no issue is opened. *)
Lemma modified_migration_script_opens_no_issue_witness :
  let repo := Sample.repository 1 vcs.GitLabSelfHost Sample.ddl "main" "42" in
  let w := Sample.server [repo] [Sample.ordersProd]
             [Sample.task 1 11 api.TaskPendingApproval] [Sample.issue 1]
             [(Sample.script1, "new")] [] in
  let out := Mem.exec (createIssueFromPushEvent (Sample.pushEvent Sample.script1) repo "ep"
                         Sample.script1 fileItemTypeModified) w in
  let r := reconciled noText false [] None in
  parseSchemaFileInfo "migrations" Sample.schemaTemplate Sample.script1 = Some (Ok None)
  /\ out.1 = Val r
  /\ api.Task.Statement <$> Mem.tasks (world out.2) = ["new"]
  /\ Mem.createdIssues (world out.2) = []
  /\ Reconciled.created r = false
  /\ Reconciled.err r = None
  /\ Reconciled.message r = noText
  /\ exists evs, trace out.2 = [] ++ evs /\ issueEvents evs = [].
Proof.
  intros repo w out r. split; [reflexivity|]. split; [vm_compute; reflexivity|].
  split; [reflexivity|]. split; [reflexivity|].
  exact (@modified_migration_script_opens_no_issue Sample.imports Mem.World
           Mem.collaborators (Sample.pushEvent Sample.script1) repo "ep" Sample.script1
           (mkState w []) out.2 r ltac:(discriminate) ltac:(vm_compute; reflexivity)
           ltac:(vm_compute; reflexivity)).
Defined.

(** ** The error answers of the GitHub handler *)

Section GithubAnswers.
Context `{Imports} {W : Type} `{Collaborators W}.

(** The errors of [createIssueFromPushEvent] have status 403 or 500. *)
Lemma createIssueFromPushEvent_error_status pushEvent repo webhookEndpointID file fileType
    (s s' : State W) r e :
  createIssueFromPushEvent pushEvent repo webhookEndpointID file fileType s = (Val r, s') ->
  Reconciled.err r = Some e ->
  HTTPError.Code e = StatusForbidden \/ HTTPError.Code e = StatusInternalServerError.
Proof.
  unfold createIssueFromPushEvent, emit, mbind, M_bind, bind. simpl. intros Hrun.
  apply reconcileFile_outcome in Hrun as (evs & _ & Hout).
  destruct Hout as [Hc Hm He|code cause (Hc & Hm & e' & He & Hcode & _) Hcodes
                    |create creatorID cause (Hc & Hm & e' & He & Hcode & _)
                    |create creatorID issue cause (Hc & Hm & e' & He & Hcode & _)
                    |create creatorID issue a cause (Hc & Hm & e' & He & Hcode & _)
                    |create creatorID issue a Hc He Hm _ _];
    rewrite He; intros [= <-]; rewrite Hcode; auto.
Qed.

Lemma reconciledFiles_entry repo file fileType (evs : list Event) :
  reconciledFiles (EvCreateIssueFromPushEvent repo file fileType :: evs) ≠ [].
Proof. done. Qed.

(** The checks of the bindings fail on an error of the signature
    validation only, with status 500. *)
Lemma githubHandleRepos_error c pushEvent body branch repos handleRepos :
  yields (githubHandleRepos c pushEvent body branch repos handleRepos : M W _)
    (fun r => forall e, r = inl e -> HTTPError.Code e = StatusInternalServerError).
Proof.
  revert handleRepos. induction repos as [|repo repos IH]; intros handleRepos; simpl.
  { by apply yields_ret. }
  repeat first
    [ apply IH
    | apply yields_ret; by intros ? [= <-]
    | eapply yields_bind; [apply yields_any|intros _ _]
    | match goal with
      | |- yields (match ?x with _ => _ end) _ => destruct x
      | |- yields (if ?x then _ else _) _ => destruct x
      end ].
Qed.

Lemma githubRepos_error pushEvent webhookEndpointID commit messageTitle file repos created
    activities (s s' : State W) e :
  githubRepos pushEvent webhookEndpointID commit messageTitle file repos created activities s
  = (Val (inl e), s') ->
  (HTTPError.Code e = StatusForbidden \/ HTTPError.Code e = StatusInternalServerError)
  /\ exists evs, trace s' = trace s ++ evs /\ reconciledFiles evs ≠ [].
Proof.
  revert created activities s.
  induction repos as [|repo repos IH]; intros created activities s; simpl; [done|].
  destruct (api.Repository.VCS repo) as [repoVCS|]; [|done].
  unfold mbind, M_bind, bind at 1.
  destruct (createIssueFromPushEvent_entry
              (githubPushEvent pushEvent repo repoVCS commit messageTitle file)
              repo webhookEndpointID (fileItem.name file) (fileItem.itemType file) s)
    as (evs1 & Htrace1 & _).
  destruct (createIssueFromPushEvent _ _ _ _ _ s) as [[r1|msg|] s1] eqn:Hcall; [|done|done].
  simpl in Htrace1.
  destruct (Reconciled.err r1) as [httpErr|] eqn:Herr.
  - intros [= <- <-]. split; [by eapply createIssueFromPushEvent_error_status|].
    eexists. split; [exact Htrace1|].
    apply reconciledFiles_entry.
  - intros Hrest. apply IH in Hrest as (Hcode & evs2 & Htrace2 & _). split; [done|].
    exists ((EvCreateIssueFromPushEvent repo (fileItem.name file) (fileItem.itemType file)
             :: evs1) ++ evs2).
    rewrite Htrace2, Htrace1, <- app_assoc. split; [done|].
    apply (reconciledFiles_entry _ _ _ (evs1 ++ evs2)).
Qed.

Lemma reconciledFiles_after (evs1 evs2 : list Event) :
  reconciledFiles evs2 ≠ [] -> reconciledFiles (evs1 ++ evs2) ≠ [].
Proof.
  rewrite reconciledFiles_app. intros Hne Heq. by apply app_eq_nil in Heq as [_ ?].
Qed.

Lemma githubFiles_error pushEvent webhookEndpointID repos handleRepos commit messageTitle
    files created (s s' : State W) e :
  githubFiles pushEvent webhookEndpointID repos handleRepos commit messageTitle files created s
  = (Val (inl e), s') ->
  (HTTPError.Code e = StatusForbidden \/ HTTPError.Code e = StatusInternalServerError)
  /\ exists evs, trace s' = trace s ++ evs /\ reconciledFiles evs ≠ [].
Proof.
  revert created s. induction files as [|file files IH]; intros created s; simpl; [done|].
  unfold mbind, M_bind, bind at 1.
  destruct (githubRepos _ _ _ _ _ _ _ _ s) as [[r1|msg|] s1] eqn:Hrepos; [|done|done].
  destruct r1 as [httpErr|[createdMessageList activities]].
  - intros [= <- <-]. by eapply githubRepos_error.
  - apply githubRepos_run in Hrepos as (evs1 & Htrace1 & _).
    unfold mbind, M_bind, bind at 1.
    match goal with
    | |- context [(if (length createdMessageList =? 0)%nat then ?a else ?b) s1] =>
        destruct ((if (length createdMessageList =? 0)%nat then a else b) s1)
          as [[[]|msg|] s2] eqn:Hact
    end; [|done|done].
    assert (exists evs2, trace s2 = trace s1 ++ evs2) as (evs2 & Htrace2).
    { destruct (length createdMessageList =? 0)%nat.
      - revert Hact. unfold log_Debug, emit, mbind, M_bind, bind. simpl. intros Hact.
        destruct (createIgnoredActivities_trace handleRepos activities
                    (mkState (world s1)
                       (trace s1
                        ++ [EvLog LevelDebug
                              "Ignored push event file because no applicable file found in the commit list"])))
          as (evs2 & Ht & _).
        rewrite Hact in Ht. simpl in Ht.
        eexists (_ :: evs2). by rewrite Ht, <- app_assoc.
      - injection Hact as <-. exists []. by rewrite app_nil_r. }
    intros Hrest. apply IH in Hrest as (Hcode & evs3 & Htrace3 & Hevs3). split; [done|].
    exists (evs1 ++ evs2 ++ evs3). rewrite Htrace3, Htrace2, Htrace1, <- !app_assoc.
    split; [done|]. by apply reconciledFiles_after, reconciledFiles_after.
Qed.

Lemma githubCommits_error pushEvent webhookEndpointID repos handleRepos commits created
    (s s' : State W) e :
  githubCommits pushEvent webhookEndpointID repos handleRepos commits created s
  = (Val (inl e), s') ->
  (HTTPError.Code e = StatusForbidden \/ HTTPError.Code e = StatusInternalServerError)
  /\ exists evs, trace s' = trace s ++ evs /\ reconciledFiles evs ≠ [].
Proof.
  revert created s. induction commits as [|commit commits IH]; intros created s; simpl;
    [done|].
  destruct (negb _); [apply IH|].
  unfold mbind, M_bind, bind at 1.
  destruct (githubFiles _ _ _ _ _ _ _ _ s) as [[r1|msg|] s1] eqn:Hfiles; [|done|done].
  destruct r1 as [httpErr|created1].
  - intros [= <- <-]. by eapply githubFiles_error.
  - apply githubFiles_run in Hfiles as (evs1 & Htrace1 & _).
    intros Hrest. apply IH in Hrest as (Hcode & evs2 & Htrace2 & Hevs2). split; [done|].
    exists (evs1 ++ evs2). rewrite Htrace2, Htrace1, <- !app_assoc.
    split; [done|]. by apply reconciledFiles_after.
Qed.

Lemma RunsWithoutError_trans pushEvent webhookEndpointID (s s1 s2 : State W) :
  RunsWithoutError pushEvent webhookEndpointID s s1 ->
  RunsWithoutError pushEvent webhookEndpointID s1 s2 ->
  RunsWithoutError pushEvent webhookEndpointID s s2.
Proof.
  induction 1 as [s|s s1 s' repo repoVCS commit messageTitle file r Hrun Herr _ IH
                  |s s1 s' evs Htrace Hevs _ IH]; intros Hrest; [done| |].
  - eapply runs_reconciled; [exact Hrun|exact Herr|by apply IH].
  - eapply runs_between; [exact Htrace|exact Hevs|by apply IH].
Qed.

Lemma RunsWithoutError_between pushEvent webhookEndpointID (s s1 : State W) evs :
  trace s1 = trace s ++ evs -> reconciledFiles evs = [] ->
  RunsWithoutError pushEvent webhookEndpointID s s1.
Proof. intros Htrace Hevs. eapply runs_between; [exact Htrace|exact Hevs|constructor]. Qed.

(** The loop over the bindings, for one file: either every run
    returned without an error, or the loop ended in the first run that
    returned one. *)
Lemma githubRepos_first_error pushEvent webhookEndpointID commit messageTitle file repos
    created activities (s s' : State W) out :
  githubRepos pushEvent webhookEndpointID commit messageTitle file repos created activities s
  = (Val out, s') ->
  match out with
  | inr _ => RunsWithoutError pushEvent webhookEndpointID s s'
  | inl e =>
      exists repo repoVCS s1 r,
        repo ∈ repos /\ api.Repository.VCS repo = Some repoVCS
        /\ RunsWithoutError pushEvent webhookEndpointID s s1
        /\ createIssueFromPushEvent
             (githubPushEvent pushEvent repo repoVCS commit messageTitle file) repo
             webhookEndpointID (fileItem.name file) (fileItem.itemType file) s1
           = (Val r, s')
        /\ Reconciled.err r = Some e
  end.
Proof.
  revert created activities s.
  induction repos as [|repo repos IH]; intros created activities s; simpl.
  { intros [= <- <-]. constructor. }
  destruct (api.Repository.VCS repo) as [repoVCS|] eqn:Hvcs; [|done].
  unfold mbind, M_bind, bind at 1.
  destruct (createIssueFromPushEvent _ _ _ _ _ s) as [[r1|msg|] s1] eqn:Hcall; [|done|done].
  destruct (Reconciled.err r1) as [httpErr|] eqn:Herr.
  - intros [= <- <-]. exists repo, repoVCS, s, r1.
    split_and!; [by left|done|constructor|done|done].
  - intros Hrest. apply IH in Hrest. destruct out as [e|x].
    + destruct Hrest as (repo' & repoVCS' & s2 & r2 & Hin & Hvcs' & Hruns & Hrun & Herr').
      exists repo', repoVCS', s2, r2. split_and!; [by right|done| |done|done].
      by eapply runs_reconciled.
    + by eapply runs_reconciled.
Qed.

Lemma githubFiles_first_error pushEvent webhookEndpointID repos handleRepos commit
    messageTitle files created (s s' : State W) out :
  githubFiles pushEvent webhookEndpointID repos handleRepos commit messageTitle files created s
  = (Val out, s') ->
  match out with
  | inr _ => RunsWithoutError pushEvent webhookEndpointID s s'
  | inl e =>
      exists file repo repoVCS s1 r,
        file ∈ files /\ repo ∈ repos /\ api.Repository.VCS repo = Some repoVCS
        /\ RunsWithoutError pushEvent webhookEndpointID s s1
        /\ createIssueFromPushEvent
             (githubPushEvent pushEvent repo repoVCS commit messageTitle file) repo
             webhookEndpointID (fileItem.name file) (fileItem.itemType file) s1
           = (Val r, s')
        /\ Reconciled.err r = Some e
  end.
Proof.
  revert created s. induction files as [|file files IH]; intros created s; simpl.
  { intros [= <- <-]. constructor. }
  unfold mbind, M_bind, bind at 1.
  destruct (githubRepos _ _ _ _ _ _ _ _ s) as [[r1|msg|] s1] eqn:Hrepos; [|done|done].
  apply githubRepos_first_error in Hrepos.
  destruct r1 as [httpErr|[createdMessageList activities]].
  - intros [= <- <-].
    destruct Hrepos as (repo & repoVCS & s2 & r2 & Hin & Hvcs & Hruns & Hrun & Herr).
    exists file, repo, repoVCS, s2, r2. split_and!; [by left|done..].
  - unfold mbind, M_bind, bind at 1.
    match goal with
    | |- context [(if (length createdMessageList =? 0)%nat then ?a else ?b) s1] =>
        destruct ((if (length createdMessageList =? 0)%nat then a else b) s1)
          as [[[]|msg|] s2] eqn:Hact
    end; [|done|done].
    assert (RunsWithoutError pushEvent webhookEndpointID s1 s2) as Hbetween.
    { destruct (length createdMessageList =? 0)%nat.
      - revert Hact. unfold log_Debug, emit, mbind, M_bind, bind. simpl. intros Hact.
        destruct (createIgnoredActivities_trace handleRepos activities
                    (mkState (world s1)
                       (trace s1
                        ++ [EvLog LevelDebug
                              "Ignored push event file because no applicable file found in the commit list"])))
          as (evs2 & Ht & Hevs2).
        rewrite Hact in Ht. simpl in Ht.
        eapply (RunsWithoutError_between _ _ _ _ (_ :: evs2)).
        + by rewrite Ht, <- app_assoc.
        + exact Hevs2.
      - injection Hact as <-. constructor. }
    intros Hrest. apply IH in Hrest. destruct out as [e|x].
    + destruct Hrest as (file' & repo & repoVCS & s3 & r3 & Hfile & Hin & Hvcs & Hruns
                         & Hrun & Herr).
      exists file', repo, repoVCS, s3, r3. split_and!; [by right|done|done| |done|done].
      eapply RunsWithoutError_trans; [exact Hrepos|].
      eapply RunsWithoutError_trans; [exact Hbetween|exact Hruns].
    + eapply RunsWithoutError_trans; [exact Hrepos|].
      eapply RunsWithoutError_trans; [exact Hbetween|exact Hrest].
Qed.

Lemma githubCommits_first_error pushEvent webhookEndpointID repos handleRepos commits created
    (s s' : State W) out :
  githubCommits pushEvent webhookEndpointID repos handleRepos commits created s
  = (Val out, s') ->
  match out with
  | inr _ => RunsWithoutError pushEvent webhookEndpointID s s'
  | inl e =>
      exists commit file repo repoVCS s1 r,
        commit ∈ commits /\ github.WebhookCommit.Distinct commit = true
        /\ file ∈ commitFiles commit
        /\ repo ∈ repos /\ api.Repository.VCS repo = Some repoVCS
        /\ RunsWithoutError pushEvent webhookEndpointID s s1
        /\ createIssueFromPushEvent
             (githubPushEvent pushEvent repo repoVCS commit
                (strings.beforeFirst (github.WebhookCommit.Message commit)
                   (String "010" (String "010" ""))) file)
             repo webhookEndpointID (fileItem.name file) (fileItem.itemType file) s1
           = (Val r, s')
        /\ Reconciled.err r = Some e
  end.
Proof.
  revert created s. induction commits as [|commit commits IH]; intros created s; simpl.
  { intros [= <- <-]. constructor. }
  destruct (github.WebhookCommit.Distinct commit) eqn:Hdistinct; simpl.
  2:{ intros Hrest. apply IH in Hrest. destruct out as [e|x]; [|done].
      destruct Hrest as (commit' & file & repo & repoVCS & s1 & r & Hc & Hrest).
      exists commit', file, repo, repoVCS, s1, r. split; [by right|done]. }
  unfold mbind, M_bind, bind at 1.
  destruct (githubFiles _ _ _ _ _ _ _ _ s) as [[r1|msg|] s1] eqn:Hfiles; [|done|done].
  apply githubFiles_first_error in Hfiles.
  destruct r1 as [httpErr|created1].
  - intros [= <- <-].
    destruct Hfiles as (file & repo & repoVCS & s2 & r2 & Hfile & Hrest).
    exists commit, file, repo, repoVCS, s2, r2.
    split; [by left|]. split; [done|]. split; [done|]. exact Hrest.
  - intros Hrest. apply IH in Hrest. destruct out as [e|x].
    + destruct Hrest as (commit' & file & repo & repoVCS & s2 & r2 & Hc & Hd & Hfile & Hin
                         & Hvcs & Hruns & Hrest).
      exists commit', file, repo, repoVCS, s2, r2.
      split; [by right|]. do 4 (split; [done|]). split; [|exact Hrest].
      by eapply RunsWithoutError_trans.
    + by eapply RunsWithoutError_trans.
Qed.

(** An error answer of the GitHub handler is either an error of the
    request, with status 400, 404 or 500 and no file reconciled, or
    the error of the first run of [createIssueFromPushEvent] that
    returned one, with status 403 or 500, passed on as the answer to
    the whole push.  In the second case the run is that of a file of a
    distinct commit of the push, for a binding of the endpoint; every
    run before it returned without an error, and the handler ends in
    the state that run ended in. *)
Theorem githubWebhook_fails_on_request_or_first_reconciliation_error
    (c : Request.t) (s s' : State W) (e : HTTPError.t) :
  githubWebhook c s = (Val (RespondError e), s') ->
  exists evs,
    trace s' = trace s ++ evs
    /\ ((reconciledFiles evs = []
         /\ (HTTPError.Code e = StatusBadRequest \/ HTTPError.Code e = StatusNotFound
             \/ HTTPError.Code e = StatusInternalServerError))
        \/ (reconciledFiles evs ≠ []
            /\ (HTTPError.Code e = StatusForbidden
                \/ HTTPError.Code e = StatusInternalServerError)
            /\ exists body pushEvent repos commit file repo repoVCS s1 r,
                 Request.Body c = Ok body
                 /\ json_Unmarshal_github body = Ok pushEvent
                 /\ (store_FindRepository (Request.ParamID c) (world s)).1 = Ok repos
                 /\ commit ∈ github.WebhookPushEvent.Commits pushEvent
                 /\ github.WebhookCommit.Distinct commit = true
                 /\ file ∈ commitFiles commit
                 /\ repo ∈ repos
                 /\ api.Repository.VCS repo = Some repoVCS
                 /\ RunsWithoutError pushEvent (Request.ParamID c) s s1
                 /\ createIssueFromPushEvent
                      (githubPushEvent pushEvent repo repoVCS commit
                         (strings.beforeFirst (github.WebhookCommit.Message commit)
                            (String "010" (String "010" ""))) file)
                      repo (Request.ParamID c) (fileItem.name file) (fileItem.itemType file)
                      s1
                    = (Val r, s')
                 /\ Reconciled.err r = Some e)).
Proof.
  unfold githubWebhook.
  destruct (bool_decide _); [done|].
  destruct (negb _).
  { intros [= <- <-]. exists []. rewrite app_nil_r. split; [done|]. left. auto. }
  unfold mbind, M_bind, bind at 1. unfold call at 1.
  destruct (store_FindRepository _ _) as [[[|repo repos]|err] w1] eqn:Hfound;
    cbv beta iota zeta.
  1,3: intros [= <- <-]; exists []; rewrite app_nil_r; split; [done|]; left; auto.
  destruct (Request.Body c) as [body|err] eqn:Hbody.
  2:{ intros [= <- <-]. exists []. rewrite app_nil_r. split; [done|]. left. auto. }
  destruct (json_Unmarshal_github body) as [pushEvent|err] eqn:Hpush.
  2:{ intros [= <- <-]. exists []. rewrite app_nil_r. split; [done|]. left. auto. }
  destruct (parseBranchNameFromRefs _) as [branch|err].
  2:{ intros [= <- <-]. exists []. rewrite app_nil_r. split; [done|]. left. auto. }
  unfold mbind, M_bind, bind at 1.
  destruct (githubHandleRepos_logs c pushEvent body branch (repo :: repos) []
              (mkState w1 (trace s))) as (logs & Htrace0 & Hlogs).
  destruct (githubHandleRepos _ _ _ _ _ _ _) as [[handled|msg|] s0] eqn:Hhandle;
    [|done|done].
  simpl in Htrace0.
  assert (reconciledFiles logs = []) as Hlogs0
    by by apply reconciledFiles_no_entry, logs_no_entry.
  destruct handled as [httpErr|handleRepos].
  { intros [= <- <-]. exists logs. split; [done|]. left. split; [done|].
    right. right. by eapply (githubHandleRepos_error _ _ _ _ _ _ _ _ _ Hhandle). }
  unfold mbind, M_bind, bind at 1.
  destruct (githubCommits _ _ _ _ _ _ s0) as [[r1|msg|] s1] eqn:Hcommits; [|done|done].
  destruct r1 as [httpErr|created].
  - intros [= <- <-].
    pose proof (githubCommits_first_error _ _ _ _ _ _ _ _ _ Hcommits)
      as (commit & file & repo' & repoVCS & s2 & r2 & Hcommit & Hdistinct & Hfile & Hin
          & Hvcs & Hruns & Hrun & Herr).
    apply githubCommits_error in Hcommits as (Hcode & evs & Htrace & Hevs).
    exists (logs ++ evs). rewrite Htrace, Htrace0, <- app_assoc. split; [done|].
    right. split; [by apply reconciledFiles_after|]. split; [done|].
    exists body, pushEvent, (repo :: repos), commit, file, repo', repoVCS, s2, r2.
    split_and!; try done.
    eapply RunsWithoutError_trans; [|exact Hruns].
    by eapply (RunsWithoutError_between _ _ _ _ logs).
  - unfold log_Warn, emit, ret, mbind, M_bind, bind.
    destruct (length created =? 0)%nat; simpl; intros [=].
Qed.

End GithubAnswers.

(** The sample push through the GitHub handler with the issue of the
    first script refused: the refusal is the answer to the push. *)
Lemma githubWebhook_fails_on_request_or_first_reconciliation_error_witness :
  let repo := Sample.repository 1 vcs.GitHubCom Sample.ddl "main" "org/repo" in
  let w := Sample.refusing "init"
             (Sample.server [repo] [Sample.ordersProd] [] []
                [(Sample.script1, "CREATE TABLE a (id INT);");
                 (Sample.script2, "CREATE TABLE b (id INT);")] []) in
  let c := Sample.request in
  let s := mkState w [] in
  let out := githubWebhook c s in
  let e := NewHTTPError StatusInternalServerError
             (Sprintf "Failed to create schema update issue" [])
             (Some (External "issue refused")) in
  out.1 = Val (RespondError e)
  /\ exists evs,
      trace out.2 = trace s ++ evs
      /\ ((reconciledFiles evs = []
           /\ (HTTPError.Code e = StatusBadRequest \/ HTTPError.Code e = StatusNotFound
               \/ HTTPError.Code e = StatusInternalServerError))
          \/ (reconciledFiles evs ≠ []
              /\ (HTTPError.Code e = StatusForbidden
                  \/ HTTPError.Code e = StatusInternalServerError)
              /\ exists body pushEvent repos commit file repo repoVCS s1 r,
                   Request.Body c = Ok body
                   /\ json_Unmarshal_github body = Ok pushEvent
                   /\ (store_FindRepository (Request.ParamID c) (world s)).1 = Ok repos
                   /\ commit ∈ github.WebhookPushEvent.Commits pushEvent
                   /\ github.WebhookCommit.Distinct commit = true
                   /\ file ∈ commitFiles commit
                   /\ repo ∈ repos
                   /\ api.Repository.VCS repo = Some repoVCS
                   /\ RunsWithoutError pushEvent (Request.ParamID c) s s1
                   /\ createIssueFromPushEvent
                        (githubPushEvent pushEvent repo repoVCS commit
                           (strings.beforeFirst (github.WebhookCommit.Message commit)
                              (String "010" (String "010" ""))) file)
                        repo (Request.ParamID c) (fileItem.name file)
                        (fileItem.itemType file) s1
                      = (Val r, out.2)
                   /\ Reconciled.err r = Some e)).
Proof.
  intros repo w c s out e. split; [vm_compute; reflexivity|].
  exact (@githubWebhook_fails_on_request_or_first_reconciliation_error Sample.imports
           Mem.World Mem.collaborators c s out.2 e ltac:(vm_compute; reflexivity)).
Defined.

(** ** The multi-tenancy gate *)

Section TenancyGate.
Context `{Imports} {W : Type} `{Collaborators W}.

(** One step of a proof about the errors a computation returns. *)
Ltac errors_step :=
  first
    [ apply yields_stuck
    | apply yields_ret; simpl; first [done | by intros ? [= <-]]
    | eapply yields_bind; [apply yields_any|intros ? _]
    | match goal with
      | |- yields (match ?x with _ => _ end) _ => destruct x
      | |- yields (let '(_, _) := ?x in _) _ => destruct x
      | |- yields (if ?x then _ else _) _ => destruct x
      end ].

Lemma createIssueForDetails_error_status pushEvent repo file fileEscaped migrationInfo
    details activities :
  yields (createIssueForDetails pushEvent repo file fileEscaped migrationInfo details
            activities : M W _)
    (fun r => forall e, Reconciled.err r = Some e ->
                        HTTPError.Code e = StatusInternalServerError).
Proof. unfold createIssueForDetails. repeat errors_step. Qed.

(** Past the gate, every error of the reconciliation has status 500. *)
Lemma reconcileFile_error_status pushEvent repo webhookEndpointID file fileType
    (s s' : State W) r :
  (api.Project.TenantMode (api.Repository.Project repo) = api.TenantModeTenant ->
   server_feature api.FeatureMultiTenancy (world s) = true) ->
  reconcileFile pushEvent repo webhookEndpointID file fileType s = (Val r, s') ->
  forall e, Reconciled.err r = Some e -> HTTPError.Code e = StatusInternalServerError.
Proof.
  intros Hallowed. unfold reconcileFile. unfold mbind, M_bind, bind at 1.
  assert ((if decide (api.Project.TenantMode (api.Repository.Project repo)
                      = api.TenantModeTenant)
           then call (fun w => (server_feature api.FeatureMultiTenancy w, w))
           else ret true) s = (Val true, s)) as ->.
  { destruct (decide _) as [Htenant|]; [|done].
    unfold call. rewrite (Hallowed Htenant). by destruct s. }
  cbv beta iota. change (negb true) with false. cbv iota.
  match goal with
  | |- ?m s = _ -> _ =>
      cut (yields m (fun r => forall e, Reconciled.err r = Some e ->
                                        HTTPError.Code e = StatusInternalServerError));
        [intros Hyields Hrun; exact (Hyields _ _ _ Hrun)|]
  end.
  repeat first [apply createIssueForDetails_error_status | errors_step].
Qed.

(** The check of the multi-tenancy feature comes first.  For a project
    in tenant mode on a server without the feature,
    [createIssueFromPushEvent] returns the error of status 403 at once:
    nothing is logged, read, looked up or created.  In every other
    case no error it returns has status 403: its errors have status
    500. *)
Theorem createIssueFromPushEvent_forbidden_iff_tenant_without_feature
    (pushEvent : vcs.PushEvent.t) (repo : api.Repository.t)
    (webhookEndpointID file : string) (fileType : fileItemType) (s s' : State W)
    (r : Reconciled.t) :
  createIssueFromPushEvent pushEvent repo webhookEndpointID file fileType s = (Val r, s') ->
  let gated :=
    api.Project.TenantMode (api.Repository.Project repo) = api.TenantModeTenant
    /\ server_feature api.FeatureMultiTenancy (world s) = false in
  (gated ->
   r = reconciled noText false []
         (Some (NewHTTPError StatusForbidden
                  (Sprintf (api_AccessErrorMessage api.FeatureMultiTenancy) []) None))
   /\ s' = mkState (world s) (trace s ++ [EvCreateIssueFromPushEvent repo file fileType]))
  /\ (~ gated ->
      forall e, Reconciled.err r = Some e -> HTTPError.Code e = StatusInternalServerError).
Proof.
  unfold createIssueFromPushEvent, emit. unfold mbind, M_bind, bind at 1. simpl.
  intros Hrun. split.
  - intros [Htenant Hfeature]. revert Hrun.
    unfold reconcileFile, call, ret, mbind, M_bind, bind. simpl.
    rewrite decide_True by done. simpl. rewrite Hfeature. simpl. by intros [= <- <-].
  - intros Hgated. eapply reconcileFile_error_status; [|exact Hrun].
    simpl. intros Htenant.
    destruct (server_feature api.FeatureMultiTenancy (world s)) eqn:Hfeature; [done|].
    exfalso. by apply Hgated.
Qed.

End TenancyGate.

(** A migration script of a project in tenant mode on a server without
    the multi-tenancy feature: status 403, and only the call itself in
    the trace. *)
Lemma createIssueFromPushEvent_forbidden_iff_tenant_without_feature_witness :
  let repo := Sample.repository 1 vcs.GitLabSelfHost Sample.tenant "main" "42" in
  let w := Sample.server [repo] [] [] [] [(Sample.script1, "CREATE TABLE a (id INT);")] [] in
  let s := mkState w [] in
  let out := createIssueFromPushEvent (Sample.pushEvent Sample.script1) repo "ep"
               Sample.script1 fileItemTypeAdded s in
  let r := reconciled noText false []
             (Some (NewHTTPError StatusForbidden
                      (Sprintf (api_AccessErrorMessage api.FeatureMultiTenancy) []) None)) in
  (api.Project.TenantMode (api.Repository.Project repo) = api.TenantModeTenant
   /\ server_feature api.FeatureMultiTenancy (world s) = false)
  /\ out.1 = Val r
  /\ r = reconciled noText false []
           (Some (NewHTTPError StatusForbidden
                    (Sprintf (api_AccessErrorMessage api.FeatureMultiTenancy) []) None))
  /\ out.2 = mkState (world s)
               (trace s ++ [EvCreateIssueFromPushEvent repo Sample.script1 fileItemTypeAdded]).
Proof.
  intros repo w s out r. split; [split; reflexivity|]. split; [vm_compute; reflexivity|].
  exact (proj1 (@createIssueFromPushEvent_forbidden_iff_tenant_without_feature
                  Sample.imports Mem.World Mem.collaborators
                  (Sample.pushEvent Sample.script1) repo "ep" Sample.script1
                  fileItemTypeAdded s out.2 r ltac:(vm_compute; reflexivity))
           (conj eq_refl eq_refl)).
Defined.

(** ** The issue that is asked for *)

Section IssueRequest.
Context `{Imports} {W : Type} `{Collaborators W}.

Lemma TrimPrefix_app (prefix rest : string) :
  strings.TrimPrefix (prefix ++ rest)%string prefix = rest.
Proof.
  unfold strings.TrimPrefix.
  assert (strings.HasPrefix (prefix ++ rest)%string prefix = true) as ->
    by (apply HasPrefix_app; eauto).
  apply drop_app.
Qed.

Lemma returns_bind_with {A B} (m : M W A) (k : A -> M W B) (Pv : A -> Prop)
    (P : Event -> Prop) :
  yields m Pv -> emitsOnly m P ->
  (forall a, Pv a -> returns (k a) (fun _ evs => Forall P evs)) ->
  returns (m ≫= k) (fun _ evs => Forall P evs).
Proof.
  intros Hv Hm Hk s b s'. unfold mbind, M_bind, bind.
  destruct (Hm s) as (evs1 & Htrace1 & Hevs1).
  destruct (m s) as [[a|msg|] s1] eqn:Hrun; [|done|done]. simpl in Htrace1.
  intros Hrest. destruct (Hk a (Hv _ _ _ Hrun) s1 b s' Hrest) as (evs2 & Htrace2 & Hevs2).
  exists (evs1 ++ evs2). rewrite Htrace2, Htrace1, app_assoc. split; [done|].
  by apply Forall_app.
Qed.

Lemma returns_emits {A} (m : M W A) (P : Event -> Prop) :
  emitsOnly m P -> returns m (fun _ evs => Forall P evs).
Proof.
  intros Hm s a s' Hrun. destruct (Hm s) as (evs & Htrace & Hevs).
  rewrite Hrun in Htrace. by exists evs.
Qed.

Lemma preparation_requests repo pushEvent fileEscaped (ev : Event) :
  isPreparation ev -> requestsIssueFor repo pushEvent fileEscaped ev.
Proof. by destruct ev. Qed.

Lemma createIssueForDetails_requests pushEvent repo file fileEscaped migrationInfo details
    activities :
  returns (createIssueForDetails pushEvent repo file fileEscaped migrationInfo details
             activities : M W _)
    (fun _ evs => Forall (requestsIssueFor repo pushEvent fileEscaped) evs).
Proof.
  unfold createIssueForDetails.
  eapply (returns_bind_with _ _
            (fun creatorID =>
               vcs.FileCommit.AuthorEmail (vcs.PushEvent.FileCommit pushEvent) = "" ->
               creatorID = api.SystemBotID)).
  - destruct (bool_decide_reflect
                (vcs.FileCommit.AuthorEmail (vcs.PushEvent.FileCommit pushEvent) = ""))
      as [Hemail|Hemail]; simpl.
    + by apply yields_ret.
    + intros s a s' _ Hempty. done.
  - eapply emitsOnly_weaken; [apply (preparation_requests repo pushEvent fileEscaped)|].
    unfold log_Error, log_Debug.
    repeat first
      [ emits_step
      | apply emitsOnly_emit; exact I
      | match goal with
        | |- emitsOnly (if ?x then _ else _) _ => destruct x
        end ].
  - intros creatorID Hcreator.
    destruct (json_Marshal_context _) as [createContext|e]; [|by apply returns_ret].
    apply returns_emits.
    repeat first
      [ apply emitsOnly_traced; intros ?; simpl; by eauto 10
      | apply emitsOnly_emit; simpl; by eauto 10
      | emits_step ].
Qed.

(** [prepareIssueFromPushEventSDL] leaves the commit of the push event
    as it is, up to the path of the added file. *)
Lemma prepareIssueFromPushEventSDL_commit repo pushEvent schemaInfo file webhookEndpointID :
  yields (prepareIssueFromPushEventSDL repo pushEvent schemaInfo file webhookEndpointID
          : M W _)
    (fun r => r.2 = pushEvent \/ exists added, r.2 = withAdded pushEvent added).
Proof.
  unfold prepareIssueFromPushEventSDL.
  repeat first
    [ apply yields_ret; simpl; by eauto
    | eapply yields_bind; [apply yields_any|intros ? _]
    | match goal with
      | |- yields (match ?x with _ => _ end) _ => destruct x
      | |- yields (let '(_, _) := ?x in _) _ => destruct x
      | |- yields (if ?x then _ else _) _ => destruct x
      end ].
Qed.

Lemma requestsIssueFor_commit repo pushEvent pushEvent' fileEscaped (ev : Event) :
  pushEvent' = pushEvent \/ (exists added, pushEvent' = withAdded pushEvent added) ->
  requestsIssueFor repo pushEvent' fileEscaped ev ->
  requestsIssueFor repo pushEvent fileEscaped ev.
Proof. by intros [->|[added ->]]. Qed.

Lemma reconcileFile_requests pushEvent repo webhookEndpointID file fileType :
  returns (reconcileFile pushEvent repo webhookEndpointID file fileType : M W _)
    (fun _ evs =>
       Forall (requestsIssueFor repo pushEvent (common_EscapeForLogging file)) evs).
Proof.
  set (P := requestsIssueFor repo pushEvent (common_EscapeForLogging file)).
  assert (forall A (m : M W A), emitsOnly m isPreparation -> emitsOnly m P) as Hprep.
  { intros A m. apply emitsOnly_weaken, preparation_requests. }
  unfold reconcileFile, log_Debug, log_Error.
  repeat first
    [ apply createIssueForDetails_requests
    | match goal with
      | |- returns (createIssueForDetails _ _ _ _ _ _ _) _ =>
          eapply returns_weaken; [|apply createIssueForDetails_requests];
          intros ? evs Hevs; eapply Forall_impl; [exact Hevs|];
          intros ev; by apply requestsIssueFor_commit
      | |- returns (prepareIssueFromPushEventSDL _ _ _ _ _ ≫= _) _ =>
          eapply returns_bind_with;
            [ apply prepareIssueFromPushEventSDL_commit
            | apply Hprep, prepareIssueFromPushEventSDL_prepares
            | intros [[[? ?] ?] pushEvent'] Hcommit; simpl in Hcommit ]
      end
    | apply returns_stuck
    | apply returns_ret; by constructor
    | eapply (returns_bind_with _ _ (fun _ => True));
      [ apply yields_any
      | apply Hprep;
        solve [ apply prepareIssueFromPushEventDDL_prepares
              | apply getIgnoredFileActivityCreate_prepares
              | repeat first [emits_step | apply emitsOnly_emit; exact I] ]
      | intros ? _ ]
    | match goal with
      | |- returns (match ?x with _ => _ end) _ => destruct x
      | |- returns (let '(_, _) := ?x in _) _ => destruct x
      | |- returns (if ?x then _ else _) _ => destruct x
      end ].
Qed.

(** Every issue [createIssueFromPushEvent] asks for is an issue of the
    project of the binding, assigned to the system bot, with the
    message of the commit as its description, and created by the
    system bot when the commit names no author email.  Its name is a
    description followed by the escaped file path, from which the base
    directory and the slash after it are cut off in front: for a file
    under the base directory the name carries the path relative to
    it. *)
Theorem createIssueFromPushEvent_asks_for_issue_named_by_relative_path
    (pushEvent : vcs.PushEvent.t) (repo : api.Repository.t)
    (webhookEndpointID file : string) (fileType : fileItemType) (s s' : State W)
    (r : Reconciled.t) :
  createIssueFromPushEvent pushEvent repo webhookEndpointID file fileType s = (Val r, s') ->
  (exists evs,
      trace s' = trace s ++ evs
      /\ Forall (requestsIssueFor repo pushEvent (common_EscapeForLogging file)) evs)
  /\ forall rest,
      common_EscapeForLogging file = (api.Repository.BaseDirectory repo ++ "/" ++ rest)%string ->
      strings.TrimPrefix (common_EscapeForLogging file)
        (api.Repository.BaseDirectory repo ++ "/") = rest.
Proof.
  unfold createIssueFromPushEvent, emit. unfold mbind, M_bind, bind at 1. simpl.
  intros Hrun. split.
  - apply reconcileFile_requests in Hrun as (evs & Htrace & Hevs). simpl in Htrace.
    exists (EvCreateIssueFromPushEvent repo file fileType :: evs).
    rewrite Htrace, <- app_assoc. split; [done|]. by constructor.
  - intros rest ->. rewrite <- string_app_assoc. apply TrimPrefix_app.
Qed.

End IssueRequest.

(** The first script of the sample, added: the issue asked for is
    named after the script's path under [migrations]. *)
Lemma createIssueFromPushEvent_asks_for_issue_named_by_relative_path_witness :
  let repo := Sample.repository 1 vcs.GitLabSelfHost Sample.ddl "main" "42" in
  let w := Sample.server [repo] [Sample.ordersProd] [] []
             [(Sample.script1, "CREATE TABLE a (id INT);")] [] in
  let pushEvent := Sample.pushEvent Sample.script1 in
  let out := Mem.exec (createIssueFromPushEvent pushEvent repo "ep" Sample.script1
                         fileItemTypeAdded) w in
  api.IssueCreate.Name <$> Mem.createdIssues (world out.2)
  = [Sprintf "%s by %s" [AStr "init"; AStr "orders__v1__migrate__init.sql"]]
  /\ (exists evs,
        trace out.2 = [] ++ evs
        /\ Forall (requestsIssueFor repo pushEvent (common_EscapeForLogging Sample.script1)) evs)
  /\ forall rest,
      common_EscapeForLogging Sample.script1
      = (api.Repository.BaseDirectory repo ++ "/" ++ rest)%string ->
      strings.TrimPrefix (common_EscapeForLogging Sample.script1)
        (api.Repository.BaseDirectory repo ++ "/") = rest.
Proof.
  intros repo w pushEvent out. split; [reflexivity|].
  exact (@createIssueFromPushEvent_asks_for_issue_named_by_relative_path
           Sample.imports Mem.World Mem.collaborators pushEvent repo "ep" Sample.script1
           fileItemTypeAdded (mkState w []) out.2
           (reconciled
              (Sprintf "Created issue %q on adding %s"
                 [AStr "%s by %s init orders__v1__migrate__init.sql"; AStr Sample.script1])
              true [] None)
           ltac:(vm_compute; reflexivity)).
Defined.

(** ** Reading a file when the endpoint has lost its bindings *)

Section MissingBinding.
Context `{Imports} {W : Type} `{Collaborators W}.

(** When the store finds no repository under the endpoint,
    [readFileContent] does not fail: the error it wraps is [nil], so it
    returns the empty content and no error, without reading anything.
    The callers then go on as with a file that was read: for a project
    in tenant mode [prepareIssueFromPushEventDDL] returns a migration
    detail with the empty statement, and no ignored-file activity. *)
Theorem readFileContent_without_binding_returns_empty_content
    (pushEvent : vcs.PushEvent.t) (webhookEndpointID file : string) (s : State W) (w1 : W) :
  store_FindRepository webhookEndpointID (world s) = (Ok [], w1) ->
  readFileContent pushEvent webhookEndpointID file s = (Val (Ok ""), mkState w1 (trace s))
  /\ forall repo fileType migrationInfo,
      api.Project.TenantMode (api.Repository.Project repo) = api.TenantModeTenant ->
      prepareIssueFromPushEventDDL repo pushEvent file fileType webhookEndpointID
        migrationInfo s
      = (Val ([{| api.MigrationDetail.DatabaseID := 0;
                  api.MigrationDetail.DatabaseName :=
                    db.MigrationInfo.Database migrationInfo;
                  api.MigrationDetail.Statement := "";
                  api.MigrationDetail.SchemaVersion :=
                    db.MigrationInfo.Version migrationInfo |}], []),
         mkState w1 (trace s)).
Proof.
  intros Hfind.
  assert (readFileContent pushEvent webhookEndpointID file s
          = (Val (Ok ""), mkState w1 (trace s))) as Hread.
  { unfold readFileContent, call, mbind, M_bind, bind. by rewrite Hfind. }
  split; [done|]. intros repo fileType migrationInfo Htenant.
  unfold prepareIssueFromPushEventDDL. unfold mbind, M_bind, bind at 1.
  rewrite Hread. by rewrite decide_True by done.
Qed.

End MissingBinding.

(** A server without a repository under the endpoint [ep]. *)
Lemma readFileContent_without_binding_returns_empty_content_witness :
  let w := Sample.world [Sample.ordersProd] in
  let s := mkState w [] in
  let pushEvent := Sample.pushEvent Sample.script1 in
  store_FindRepository "ep" (world s) = (Ok [], w)
  /\ readFileContent pushEvent "ep" Sample.script1 s = (Val (Ok ""), mkState w (trace s))
  /\ forall repo fileType migrationInfo,
      api.Project.TenantMode (api.Repository.Project repo) = api.TenantModeTenant ->
      prepareIssueFromPushEventDDL repo pushEvent Sample.script1 fileType "ep" migrationInfo s
      = (Val ([{| api.MigrationDetail.DatabaseID := 0;
                  api.MigrationDetail.DatabaseName :=
                    db.MigrationInfo.Database migrationInfo;
                  api.MigrationDetail.Statement := "";
                  api.MigrationDetail.SchemaVersion :=
                    db.MigrationInfo.Version migrationInfo |}], []),
         mkState w (trace s)).
Proof.
  intros w s pushEvent. split; [reflexivity|].
  exact (@readFileContent_without_binding_returns_empty_content Sample.imports Mem.World
           Mem.collaborators pushEvent "ep" Sample.script1 s w eq_refl).
Defined.

(** ** The scope check *)

Section TenancyGatePasses.
Context `{Imports} {W : Type} `{Collaborators W}.

(** The multi-tenancy gate lets a file through in every state whose
    world allows it. *)
Lemma tenancy_gate_passes (repo : api.Repository.t) (s s0 : State W) :
  (api.Project.TenantMode (api.Repository.Project repo) = api.TenantModeTenant ->
   server_feature api.FeatureMultiTenancy (world s) = true) ->
  world s0 = world s ->
  (if decide (api.Project.TenantMode (api.Repository.Project repo) = api.TenantModeTenant)
   then call (fun w => (server_feature api.FeatureMultiTenancy w, w))
   else ret true) s0 = (Val true, s0).
Proof.
  intros Hallowed Hs0. destruct (decide _) as [Htenant|]; [|done].
  pose proof (Hallowed Htenant) as Hfeature. rewrite <- Hs0 in Hfeature.
  unfold call. rewrite Hfeature. by destruct s0.
Qed.

End TenancyGatePasses.

(** Runs [createIssueFromPushEvent] up to its scope check, given that
    the gate lets the file through. *)
Ltac to_scope_check Hallowed :=
  unfold createIssueFromPushEvent, reconcileFile;
  unfold mbind, M_bind; unfold bind at 1; unfold emit at 1; cbv beta iota;
  unfold bind at 1;
  rewrite (tenancy_gate_passes _ _ _ Hallowed) by done;
  cbv beta iota; change (negb true) with false; cbv iota;
  unfold bind at 1; unfold log_Debug at 1, emit at 1; cbv beta iota.

Section ScopeCheck.
Context `{Imports} {W : Type} `{Collaborators W}.

(** C10.  The scope check of [createIssueFromPushEvent] is a test of
    string prefix on the escaped file path.  It passes exactly when the
    path starts with the characters of the base directory, also for a
    path in a sibling directory whose name extends the base directory
    ([migrations] accepts [migrationsX/v1.sql]).  A file that gets to
    the check and fails the test is ignored as outside the base
    directory: the function returns at once, with nothing created, no
    activity and no error, the store untouched and that exit logged.
    A file that passes is not ignored there: a migration script goes
    on to [prepareIssueFromPushEventDDL] and a schema file of an SDL
    project to [prepareIssueFromPushEventSDL], and then to the creation
    of the issue.  The log line of the exit is written exactly when the
    reconciliation reaches the check and the test fails. *)
Theorem scope_check_is_string_prefix_test :
  (forall repo fileEscaped,
      underBaseDirectory repo fileEscaped = true
      <-> exists rest, fileEscaped = (api.Repository.BaseDirectory repo ++ rest)%string)
  /\ (forall pushEvent repo webhookEndpointID file fileType (s : State W),
        (api.Project.TenantMode (api.Repository.Project repo) = api.TenantModeTenant ->
         server_feature api.FeatureMultiTenancy (world s) = true) ->
        ~ startsWithBaseDirectory repo file ->
        createIssueFromPushEvent pushEvent repo webhookEndpointID file fileType s
        = (Val (reconciled noText false [] None),
           after s (world s)
             [EvCreateIssueFromPushEvent repo file fileType;
              EvLog LevelDebug "Processing file";
              EvLog LevelDebug outsideBaseDirectory]))
  /\ (forall pushEvent repo webhookEndpointID file fileType (s : State W) migrationInfo,
        (api.Project.TenantMode (api.Repository.Project repo) = api.TenantModeTenant ->
         server_feature api.FeatureMultiTenancy (world s) = true) ->
        startsWithBaseDirectory repo file ->
        parseSchemaFileInfo (api.Repository.BaseDirectory repo)
          (api.Repository.SchemaPathTemplate repo) (common_EscapeForLogging file)
        = Some (Ok None) ->
        db_ParseMigrationInfo file
          (path.Join (api.Repository.BaseDirectory repo)
             (api.Repository.FilePathTemplate repo))
        = Ok migrationInfo ->
        (api.Project.SchemaChangeType (api.Repository.Project repo)
         = api.ProjectSchemaChangeTypeSDL ->
         db.MigrationInfo.Type_ migrationInfo = db.Data) ->
        createIssueFromPushEvent pushEvent repo webhookEndpointID file fileType s
        = (prepared ← prepareIssueFromPushEventDDL repo pushEvent file fileType
                        webhookEndpointID migrationInfo;
           match prepared.1 with
           | [] => ret (reconciled noText false prepared.2 None)
           | _ :: _ =>
               createIssueForDetails pushEvent repo file (common_EscapeForLogging file)
                 migrationInfo prepared.1 prepared.2
           end) (processing s repo file fileType))
  /\ (forall pushEvent repo webhookEndpointID file fileType (s : State W) schemaInfo,
        (api.Project.TenantMode (api.Repository.Project repo) = api.TenantModeTenant ->
         server_feature api.FeatureMultiTenancy (world s) = true) ->
        startsWithBaseDirectory repo file ->
        parseSchemaFileInfo (api.Repository.BaseDirectory repo)
          (api.Repository.SchemaPathTemplate repo) (common_EscapeForLogging file)
        = Some (Ok (Some schemaInfo)) ->
        api.Project.SchemaChangeType (api.Repository.Project repo)
        = api.ProjectSchemaChangeTypeSDL ->
        createIssueFromPushEvent pushEvent repo webhookEndpointID file fileType s
        = (prepared ← prepareIssueFromPushEventSDL repo pushEvent schemaInfo file
                        webhookEndpointID;
           match prepared with
           | (Some migrationInfo, (_ :: _) as migrationDetailList, activityCreateList,
              pushEvent') =>
               createIssueForDetails pushEvent' repo file (common_EscapeForLogging file)
                 migrationInfo migrationDetailList activityCreateList
           | (_, _, activityCreateList, _) =>
               ret (reconciled noText false activityCreateList None)
           end) (processing s repo file fileType))
  /\ (forall pushEvent repo webhookEndpointID file fileType (s : State W),
        exists evs,
          trace (createIssueFromPushEvent pushEvent repo webhookEndpointID file fileType s).2
          = trace s ++ evs
          /\ (EvLog LevelDebug outsideBaseDirectory ∈ evs
              <-> (api.Project.TenantMode (api.Repository.Project repo) = api.TenantModeTenant ->
                   server_feature api.FeatureMultiTenancy (world s) = true)
                  /\ underBaseDirectory repo (common_EscapeForLogging file) = false))
  /\ (forall repo,
        api.Repository.BaseDirectory repo = "migrations" ->
        underBaseDirectory repo "migrationsX/v1.sql" = true).
Proof.
  split; [|split; [|split; [|split; [|split]]]].
  - intros repo fileEscaped. apply HasPrefix_app.
  - intros pushEvent repo webhookEndpointID file fileType s Hallowed Hscope.
    assert (underBaseDirectory repo (common_EscapeForLogging file) = false) as Hunder.
    { destruct (underBaseDirectory _ _) eqn:Hunder; [|done].
      exfalso. apply Hscope. by apply HasPrefix_app. }
    to_scope_check Hallowed. rewrite Hunder.
    unfold log_Debug, emit, ret, bind, after. simpl. by rewrite <- !app_assoc.
  - intros pushEvent repo webhookEndpointID file fileType s migrationInfo Hallowed Hscope
      Hschema Hmigration Htype.
    apply HasPrefix_app in Hscope. fold (underBaseDirectory repo (common_EscapeForLogging file))
      in Hscope.
    to_scope_check Hallowed. rewrite Hscope, Hschema. change (negb true) with false.
    cbv iota beta. simpl world. simpl trace. rewrite <- app_assoc.
    destruct (api.Project.SchemaChangeType _) eqn:Hsdl; rewrite Hmigration; simpl.
    + done.
    + rewrite (Htype eq_refl). by rewrite bool_decide_eq_true_2.
  - intros pushEvent repo webhookEndpointID file fileType s schemaInfo Hallowed Hscope
      Hschema Hsdl.
    apply HasPrefix_app in Hscope. fold (underBaseDirectory repo (common_EscapeForLogging file))
      in Hscope.
    to_scope_check Hallowed. rewrite Hscope, Hschema, Hsdl. change (negb true) with false.
    cbv iota beta. simpl world. simpl trace. rewrite <- app_assoc.
    unfold processing, after. unfold mbind, M_bind, bind.
    destruct (prepareIssueFromPushEventSDL _ _ _ _ _ _) as [[[[[[m|] [|d ds]] acts] pe]|msg|] s1];
      done.
  - intros pushEvent repo webhookEndpointID file fileType s.
    destruct (underBaseDirectory repo (common_EscapeForLogging file)) eqn:Hunder.
    + destruct (createIssueFromPushEvent_emits
                  (fun ev => ev ≠ EvLog LevelDebug outsideBaseDirectory)
                  ltac:(by intros ev Hev _)
                  pushEvent repo webhookEndpointID file fileType
                  ltac:(discriminate) ltac:(by rewrite Hunder) s) as (evs & Htrace & Hevs).
      exists evs. split; [done|]. split; [|by intros [_ ?]].
      intros Hin. exfalso. rewrite Forall_forall in Hevs. by apply (Hevs _ Hin).
    + unfold createIssueFromPushEvent, reconcileFile, log_Debug, emit, call, ret,
        mbind, M_bind, bind.
      simpl.
      destruct (decide (api.Project.TenantMode (api.Repository.Project repo)
                        = api.TenantModeTenant)) as [Ht|Ht]; simpl.
      * destruct (server_feature api.FeatureMultiTenancy (world s)) eqn:Hf; simpl.
        -- rewrite Hunder. simpl. eexists [_; _; _]. rewrite <- !app_assoc. split; [done|].
           split; [done|]. intros _. set_solver.
        -- eexists [_]. split; [done|]. split.
           ++ intros [[=]|[]%elem_of_nil]%elem_of_cons.
           ++ intros [Hall _]. specialize (Hall Ht). discriminate.
      * rewrite Hunder. simpl. eexists [_; _; _]. rewrite <- !app_assoc. split; [done|].
        split; [done|]. intros _. set_solver.
  - intros repo Hbase. unfold underBaseDirectory. by rewrite Hbase.
Qed.

End ScopeCheck.

(** The base directory [migrations] and a migration script added in the
    sibling directory [migrationsX]: the file passes the scope check,
    is prepared, and an issue is created for it. *)
Lemma scope_check_is_string_prefix_test_witness :
  let file := "migrationsX/orders__v1__migrate__init.sql" in
  let imports :=
    Mem.imports (Ok Sample.gitlabPush) (Ok Sample.githubPush)
      [(file, Sample.migration "v1" "init")] in
  let repo := Sample.repository 1 vcs.GitLabSelfHost Sample.ddl "main" "42" in
  let w := Sample.server [repo] [Sample.ordersProd] [] []
             [(file, "CREATE TABLE a (id INT);")] [] in
  let pushEvent := Sample.pushEvent file in
  let s := mkState w [] in
  let run :=
    @createIssueFromPushEvent imports Mem.World Mem.collaborators pushEvent repo "ep" file
      fileItemTypeAdded s in
  run
  = (prepared ← @prepareIssueFromPushEventDDL imports Mem.World Mem.collaborators repo
                  pushEvent file fileItemTypeAdded "ep" (Sample.migration "v1" "init");
     match prepared.1 with
     | [] => ret (reconciled noText false prepared.2 None)
     | _ :: _ =>
         @createIssueForDetails imports Mem.World Mem.collaborators pushEvent repo file
           (@common_EscapeForLogging imports file) (Sample.migration "v1" "init")
           prepared.1 prepared.2
     end) (@processing Mem.World s repo file fileItemTypeAdded)
  /\ (exists r, run.1 = Val r /\ Reconciled.created r = true)
  /\ length (Mem.createdIssues (world run.2)) = 1%nat.
Proof.
  intros file imports repo w pushEvent s run.
  split; [|split; [eexists; split; vm_compute; reflexivity|vm_compute; reflexivity]].
  apply (proj1 (proj2 (proj2 (@scope_check_is_string_prefix_test imports Mem.World
                                Mem.collaborators)))
           pushEvent repo "ep" file fileItemTypeAdded s (Sample.migration "v1" "init")).
  - discriminate.
  - exists "X/orders__v1__migrate__init.sql". vm_compute. reflexivity.
  - vm_compute. reflexivity.
  - vm_compute. reflexivity.
  - discriminate.
Defined.

(** ** Schema files, from the diff to the issue *)

Section SchemaFileIssue.
Context `{Imports} {W : Type} `{Collaborators W}.

(** When the migration context can be serialised,
    [createIssueForDetails] returns and has asked [s.createIssue] for
    an issue with that context. *)
Lemma createIssueForDetails_asks pushEvent repo file fileEscaped migrationInfo details
    activities createContext (s : State W) :
  json_Marshal_context
    {| api.MigrationContext.MigrationType := db.MigrationInfo.Type_ migrationInfo;
       api.MigrationContext.VCSPushEvent := pushEvent;
       api.MigrationContext.DetailList := details |}
  = Ok createContext ->
  exists r s' logs create creatorID answer evs,
    createIssueForDetails pushEvent repo file fileEscaped migrationInfo details activities s
    = (Val r, s')
    /\ trace s' = trace s ++ logs ++ EvCreateIssue create creatorID answer :: evs
    /\ Forall isLog logs
    /\ api.IssueCreate.CreateContext create = createContext
    /\ api.IssueCreate.ProjectID create = api.Repository.ProjectID repo
    /\ api.IssueCreate.Type_ create
       = (if decide (db.MigrationInfo.Type_ migrationInfo = db.Data)
          then api.IssueDatabaseDataUpdate else api.IssueDatabaseSchemaUpdate).
Proof.
  intros Hcontext. unfold createIssueForDetails. rewrite Hcontext.
  unfold mbind, M_bind. unfold bind at 1.
  assert (exists creatorID s1 logs,
             (if negb (bool_decide
                         (vcs.FileCommit.AuthorEmail (vcs.PushEvent.FileCommit pushEvent) = ""))
              then
                bind (call (store_GetPrincipalByEmail
                              (vcs.FileCommit.AuthorEmail (vcs.PushEvent.FileCommit pushEvent))))
                  (fun found =>
                     bind match found.2 with
                          | Some _ =>
                              log_Error "Failed to find the principal with committer email"
                          | None => ret tt
                          end
                       (fun _ =>
                          match found.1 with
                          | None =>
                              bind (log_Debug "Failed to find the principal with committer email, use system bot instead")
                                (fun _ => ret api.SystemBotID)
                          | Some committerPrincipal =>
                              ret (api.Principal.ID committerPrincipal)
                          end))
              else ret api.SystemBotID) s = (Val creatorID, s1)
             /\ trace s1 = trace s ++ logs /\ Forall isLog logs)
    as (creatorID & s1 & logs & -> & Hlogs & Hislog).
  { destruct (negb _).
    - unfold bind, call, log_Error, log_Debug, emit, ret.
      destruct (store_GetPrincipalByEmail _ (world s)) as [[[principal|] [e|]] w1]; simpl.
      + eexists _, _, [_]. split_and!; [done..|]. repeat constructor. by eexists _, _.
      + eexists _, _, []. rewrite app_nil_r. by split_and!.
      + eexists _, _, [_; _]. rewrite <- app_assoc. split_and!; [done..|].
        repeat constructor; by eexists _, _.
      + eexists _, _, [_]. split_and!; [done..|]. repeat constructor. by eexists _, _.
    - eexists _, s, []. rewrite app_nil_r. by split_and!. }
  cbv beta iota. unfold traced, call, emit, ret, mbind, M_bind, bind. cbv beta iota.
  destruct (server_createIssue _ creatorID (world s1)) as [[issue|e] w2]; simpl.
  - destruct (json_Marshal_payload _) as [payload|e]; simpl.
    + destruct (ActivityManager_CreateActivity _ w2) as [[[]|e] w3]; simpl.
      all: eexists _, _, logs, _, creatorID, _, [_]; rewrite Hlogs, <- !app_assoc.
      all: split_and!; try done.
    + eexists _, _, logs, _, creatorID, _, []. rewrite Hlogs, <- !app_assoc.
      split_and!; try done.
  - eexists _, _, logs, _, creatorID, _, []. rewrite Hlogs, <- !app_assoc.
    split_and!; try done.
Qed.

(** C8, amended.  In the SDL branch for a project that is not in tenant
    mode, once the schema file has been read and its databases
    resolved, the schema diff of every resolved database is computed
    once, in order, and every database whose diff is computed without
    an error yields exactly one MigrationDetail, with its database id
    and the diff as statement, also when the diff is the empty string;
    only a database whose diff computation fails yields no
    MigrationDetail, and an ignored-file activity instead
    ([DiffSteps]).  And [createIssueFromPushEvent] goes on to ask for
    an issue with these details whenever there is at least one,
    whatever the statements are: so an issue is requested even when
    every diff is empty. *)
Theorem prepareIssueFromPushEventSDL_one_detail_per_computed_diff
    (repo : api.Repository.t) (pushEvent : vcs.PushEvent.t)
    (schemaInfo : gmap string string) (file webhookEndpointID : string) :
  let dbName := default "" (schemaInfo !! "DB_NAME") in
  let envName := default "" (schemaInfo !! "ENV_NAME") in
  let projectID := api.Repository.ProjectID repo in
  let tenantMode := api.Project.TenantMode (api.Repository.Project repo) in
  tenantMode ≠ api.TenantModeTenant ->
  dbName ≠ "" ->
  (forall (s s1 s2 : State W) content databases,
      readFileContent pushEvent webhookEndpointID file s = (Val (Ok content), s1) ->
      findProjectDatabases projectID tenantMode dbName envName s1
      = (Val (Ok databases), s2) ->
      exists details activities s3 version w4,
        DiffSteps repo pushEvent file content databases s2 details activities s3
        /\ common_DefaultMigrationVersion (world s3) = (version, w4)
        /\ prepareIssueFromPushEventSDL repo pushEvent schemaInfo file webhookEndpointID s
           = (Val (Some (sdlMigrationInfo dbName envName version), details, activities,
                   withAdded pushEvent (sdlMigrationFile repo dbName envName version)),
              mkState w4 (trace s3)))
  /\ (forall fileType (s s1 s2 : State W) content databases,
        api.Project.SchemaChangeType (api.Repository.Project repo)
        = api.ProjectSchemaChangeTypeSDL ->
        startsWithBaseDirectory repo file ->
        parseSchemaFileInfo (api.Repository.BaseDirectory repo)
          (api.Repository.SchemaPathTemplate repo) (common_EscapeForLogging file)
        = Some (Ok (Some schemaInfo)) ->
        readFileContent pushEvent webhookEndpointID file (processing s repo file fileType)
        = (Val (Ok content), s1) ->
        findProjectDatabases projectID tenantMode dbName envName s1
        = (Val (Ok databases), s2) ->
        exists details activities s3 version w4,
          DiffSteps repo pushEvent file content databases s2 details activities s3
          /\ common_DefaultMigrationVersion (world s3) = (version, w4)
          /\ let migrationInfo := sdlMigrationInfo dbName envName version in
             let pushEvent' :=
               withAdded pushEvent (sdlMigrationFile repo dbName envName version) in
             let run :=
               createIssueFromPushEvent pushEvent repo webhookEndpointID file fileType s in
             match details with
             | [] =>
                 run = (Val (reconciled noText false activities None), mkState w4 (trace s3))
             | _ :: _ =>
                 run = createIssueForDetails pushEvent' repo file
                         (common_EscapeForLogging file) migrationInfo details activities
                         (mkState w4 (trace s3))
                 /\ forall createContext,
                      json_Marshal_context
                        {| api.MigrationContext.MigrationType := db.Migrate;
                           api.MigrationContext.VCSPushEvent := pushEvent';
                           api.MigrationContext.DetailList := details |}
                      = Ok createContext ->
                      exists r s' logs create creatorID answer evs,
                        run = (Val r, s')
                        /\ trace s' = trace s3 ++ logs
                                      ++ EvCreateIssue create creatorID answer :: evs
                        /\ Forall isLog logs
                        /\ api.IssueCreate.CreateContext create = createContext
                        /\ api.IssueCreate.ProjectID create = projectID
                        /\ api.IssueCreate.Type_ create = api.IssueDatabaseSchemaUpdate
             end).
Proof.
  intros dbName envName projectID tenantMode Htenant Hname. split.
  { intros s s1 s2 content databases Hread Hfind.
    exact (prepareIssueFromPushEventSDL_resolved repo pushEvent schemaInfo file
             webhookEndpointID s s1 s2 content databases Hname Htenant Hread Hfind). }
  intros fileType s s1 s2 content databases Hsdl Hscope Hschema Hread Hfind.
  destruct (prepareIssueFromPushEventSDL_resolved repo pushEvent schemaInfo file
              webhookEndpointID _ s1 s2 content databases Hname Htenant Hread Hfind)
    as (details & activities & s3 & version & w4 & Hsteps & Hclock & Hprepared).
  fold dbName envName in Hprepared.
  exists details, activities, s3, version, w4. split; [done|]. split; [done|].
  intros migrationInfo pushEvent' run.
  assert (run
          = match details with
            | [] => (Val (reconciled noText false activities None), mkState w4 (trace s3))
            | _ :: _ =>
                createIssueForDetails pushEvent' repo file (common_EscapeForLogging file)
                  migrationInfo details activities (mkState w4 (trace s3))
            end) as Hrun.
  { subst run.
    assert (api.Project.TenantMode (api.Repository.Project repo) = api.TenantModeTenant ->
            server_feature api.FeatureMultiTenancy (world s) = true) as Hallowed by done.
    apply HasPrefix_app in Hscope.
    fold (underBaseDirectory repo (common_EscapeForLogging file)) in Hscope.
    to_scope_check Hallowed. rewrite Hscope, Hschema, Hsdl. change (negb true) with false.
    cbv iota beta. simpl world. simpl trace. rewrite <- app_assoc.
    change {| world := world s;
              trace := trace s ++ [EvCreateIssueFromPushEvent repo file fileType]
                       ++ [EvLog LevelDebug "Processing file"] |}
      with (processing s repo file fileType).
    unfold bind at 1. rewrite Hprepared. by destruct details. }
  destruct details as [|detail details]; [done|]. split; [done|].
  intros createContext Hcontext.
  destruct (createIssueForDetails_asks pushEvent' repo file (common_EscapeForLogging file)
              migrationInfo (detail :: details) activities createContext
              (mkState w4 (trace s3)) Hcontext)
    as (r & s' & logs & create & creatorID & answer & evs & Hcreate & Htrace & Hlogs
        & Hctx & Hproject & Htype).
  exists r, s', logs, create, creatorID, answer, evs.
  rewrite Hrun. by split_and!.
Qed.

End SchemaFileIssue.

(** The schema file of the sample when the database already has the
    schema of the file: the diff is empty, the database still gets its
    MigrationDetail, with the empty statement, and the issue is asked
    for. *)
Lemma prepareIssueFromPushEventSDL_one_detail_per_computed_diff_witness :
  let repo := Sample.repository 1 vcs.GitLabSelfHost Sample.sdl "main" "42" in
  let w := Sample.server [repo] [Sample.ordersProd] [] []
             [(Sample.schemaFile, Sample.schema)] [("orders", Sample.schema)] in
  let pushEvent := Sample.pushEvent Sample.schemaFile in
  let s := mkState w [] in
  let s0 := processing s repo Sample.schemaFile fileItemTypeModified in
  let run :=
    createIssueFromPushEvent pushEvent repo "ep" Sample.schemaFile fileItemTypeModified s in
  (exists migrationInfo activities pushEvent',
      (prepareIssueFromPushEventSDL repo pushEvent Sample.schemaInfo Sample.schemaFile "ep"
         s0).1
      = Val (migrationInfo, [diffDetailOf Sample.ordersProd ""], activities, pushEvent'))
  /\ exists details activities s3 version w4,
      DiffSteps repo pushEvent Sample.schemaFile Sample.schema [Sample.ordersProd] s0
        details activities s3
      /\ common_DefaultMigrationVersion (world s3) = (version, w4)
      /\ let migrationInfo := sdlMigrationInfo "orders" "prod" version in
         let pushEvent' :=
           withAdded pushEvent (sdlMigrationFile repo "orders" "prod" version) in
         match details with
         | [] =>
             run = (Val (reconciled noText false activities None), mkState w4 (trace s3))
         | _ :: _ =>
             run = createIssueForDetails pushEvent' repo Sample.schemaFile
                     (common_EscapeForLogging Sample.schemaFile) migrationInfo details
                     activities (mkState w4 (trace s3))
             /\ forall createContext,
                  json_Marshal_context
                    {| api.MigrationContext.MigrationType := db.Migrate;
                       api.MigrationContext.VCSPushEvent := pushEvent';
                       api.MigrationContext.DetailList := details |}
                  = Ok createContext ->
                  exists r s' logs create creatorID answer evs,
                    run = (Val r, s')
                    /\ trace s' = trace s3 ++ logs
                                  ++ EvCreateIssue create creatorID answer :: evs
                    /\ Forall isLog logs
                    /\ api.IssueCreate.CreateContext create = createContext
                    /\ api.IssueCreate.ProjectID create = 7
                    /\ api.IssueCreate.Type_ create = api.IssueDatabaseSchemaUpdate
         end.
Proof.
  intros repo w pushEvent s s0 run.
  split; [eexists _, _, _; vm_compute; reflexivity|].
  apply (proj2 (@prepareIssueFromPushEventSDL_one_detail_per_computed_diff
                  Sample.imports Mem.World Mem.collaborators repo pushEvent
                  Sample.schemaInfo Sample.schemaFile "ep"
                  ltac:(discriminate) ltac:(discriminate))
           fileItemTypeModified s s0 s0 Sample.schema [Sample.ordersProd]).
  - reflexivity.
  - exists "/prod/orders/schema.sql". vm_compute. reflexivity.
  - vm_compute. reflexivity.
  - vm_compute. reflexivity.
  - vm_compute. reflexivity.
Defined.

(** ** The match the path classifier finds *)

Lemma string_app_nil_l (s : string) : ("" ++ s = s)%string.
Proof. reflexivity. Qed.

Lemma string_app_cons (c : ascii) (s t : string) :
  (String c s ++ t = String c (s ++ t))%string.
Proof. reflexivity. Qed.

Section ClassifierMatch.
Import regexp.

(** [many] against its description: it gives the continuation the
    longest run of accepted bytes with which the continuation
    succeeds, and fails when there is none. *)
Lemma many_longest (a : atom) (k : string -> attempt -> option attempt) :
  forall s st,
    match many a s st k with
    | Some r =>
        exists taken s',
          s = (taken ++ s')%string /\ allAccepted a taken
          /\ k s' (consumeAll taken st) = Some r
          /\ forall longer s'',
               s = (longer ++ s'')%string -> allAccepted a longer ->
               (String.length taken < String.length longer)%nat ->
               k s'' (consumeAll longer st) = None
    | None =>
        forall taken s',
          s = (taken ++ s')%string -> allAccepted a taken ->
          k s' (consumeAll taken st) = None
    end.
Proof.
  induction s as [|c s IH]; intros st.
  - cbn [many]. destruct (k "" st) as [r|] eqn:Hk.
    + exists "", "". split_and!; [done..|].
      intros [|d longer] s'' Hs _ Hlen; [simpl in Hlen; lia|done].
    + intros [|d taken] s' Hs _; [|done]. rewrite string_app_nil_l in Hs. by subst s'.
  - cbn [many]. destruct (accepts a c) eqn:Hc.
    + specialize (IH (consume c st)).
      destruct (many a s (consume c st) k) as [r|].
      * destruct IH as (taken & s' & -> & Htaken & Hk & Hmax).
        exists (String c taken), s'. split_and!; [done|done|done|].
        intros [|d longer] s'' Hs Hlonger Hlen; [simpl in Hlen; lia|].
        rewrite string_app_cons in Hs. injection Hs as <- Hs. destruct Hlonger as [_ Hlonger].
        apply (Hmax longer s'' Hs Hlonger). simpl in Hlen. lia.
      * destruct (k (String c s) st) as [r|] eqn:Hk.
        -- exists "", (String c s). split_and!; [done..|].
           intros [|d longer] s'' Hs Hlonger Hlen; [simpl in Hlen; lia|].
           rewrite string_app_cons in Hs. injection Hs as <- Hs. destruct Hlonger as [_ Hlonger].
           by apply (IH longer s'').
        -- intros [|d taken] s' Hs Htaken.
           ++ rewrite string_app_nil_l in Hs. by subst s'.
           ++ rewrite string_app_cons in Hs. injection Hs as <- Hs. destruct Htaken as [_ Htaken].
              by apply (IH taken s').
    + destruct (k (String c s) st) as [r|] eqn:Hk.
      * exists "", (String c s). split_and!; [done..|].
        intros [|d longer] s'' Hs Hlonger Hlen; [simpl in Hlen; lia|].
        rewrite string_app_cons in Hs. injection Hs as <- Hs. destruct Hlonger as [Hd _]. congruence.
      * intros [|d taken] s' Hs Htaken.
        -- rewrite string_app_nil_l in Hs. by subst s'.
        -- rewrite string_app_cons in Hs. injection Hs as <- Hs. destruct Htaken as [Hd _]. congruence.
Qed.

(** Two prefixes of one text: the shorter one is a prefix of the
    longer one. *)
Lemma string_app_split (a b c d : string) :
  (a ++ b = c ++ d)%string ->
  (String.length a < String.length c)%nat
  \/ (a = c /\ b = d)
  \/ (String.length c < String.length a)%nat.
Proof.
  revert c. induction a as [|x a IH]; intros [|y c] Heq; simpl in *.
  - right. left. done.
  - left. lia.
  - right. right. lia.
  - injection Heq as <- Heq. destruct (IH c Heq) as [Hlt|[[-> ->]|Hgt]].
    + left. lia.
    + right. left. done.
    + right. right. lia.
Qed.

(** [run] finds exactly the match [matchesAs] describes. *)
Lemma run_matchesAs (re : Regexp) :
  forall s st st', run re s st = Some st' <-> matchesAs re s st st'.
Proof.
  induction re as [|i re IH]; intros s st st'; cbn [run matchesAs].
  { split; [by intros [= <-]|by intros ->]. }
  destruct i as [a|a|name|].
  - destruct s as [|c s].
    { split; [done|]. by intros (c & s' & Hs & _). }
    destruct (accepts a c) eqn:Hc.
    + rewrite IH. split.
      * intros Hm. by exists c, s.
      * by intros (c' & s' & [= <- <-] & _ & Hm).
    + split; [done|]. intros (c' & s' & [= <- <-] & Hc' & _). congruence.
  - destruct s as [|c s].
    { split; [done|]. intros ([|d taken] & s' & Hs & Hne & _); done. }
    destruct (accepts a c) eqn:Hc.
    2:{ split; [done|].
        intros ([|d taken] & s' & Hs & Hne & Htaken & _); [done|].
        rewrite string_app_cons in Hs. injection Hs as <- _. destruct Htaken as [Hd _]. congruence. }
    pose proof (many_longest a (run re) s (consume c st)) as Hmany.
    split.
    + intros Hrun. rewrite Hrun in Hmany.
      destruct Hmany as (taken & s' & -> & Htaken & Hk & Hmax).
      exists (String c taken), s'. split_and!; [done|done|done|by apply IH|].
      intros [|d longer] s'' Hs Hlonger Hlen st'' Hm; [simpl in Hlen; lia|].
      rewrite string_app_cons in Hs. injection Hs as <- Hs. destruct Hlonger as [_ Hlonger].
      apply IH in Hm. cbn [consumeAll] in Hm.
      rewrite (Hmax longer s'' Hs Hlonger) in Hm; [done|]. simpl in Hlen. lia.
    + intros ([|d taken] & s' & Hs & Hne & Htaken & Hm & Hmax); [done|].
      rewrite string_app_cons in Hs. injection Hs as <- Hs. destruct Htaken as [_ Htaken].
      apply IH in Hm. cbn [consumeAll] in Hm.
      destruct (many a s (consume c st) (run re)) as [r|].
      * destruct Hmany as (taken2 & s2 & Hs2 & Htaken2 & Hk2 & Hmax2).
        destruct (string_app_split taken s' taken2 s2) as [Hlt|[[-> ->]|Hgt]].
        -- congruence.
        -- exfalso.
           refine (Hmax (String c taken2) s2 _ _ _ r _); [by rewrite Hs2|done|simpl; lia|].
           apply IH. exact Hk2.
        -- congruence.
        -- rewrite (Hmax2 taken s' Hs Htaken Hgt) in Hm. done.
      * rewrite (Hmany taken s' Hs Htaken) in Hm. done.
  - apply IH.
  - apply IH.
Qed.

(** A pattern has at most one match at the start of a text. *)
Lemma matchesAs_unique (re : Regexp) s st st1 st2 :
  matchesAs re s st st1 -> matchesAs re s st st2 -> st1 = st2.
Proof. rewrite <- !run_matchesAs. congruence. Qed.

(** [search] finds exactly the leftmost match. *)
Lemma search_leftmost (re : Regexp) :
  forall s,
    match search re s with
    | Some st => leftmostMatch re s st
    | None =>
        forall skipped s' st, s = (skipped ++ s')%string -> ~ matchesAs re s' start st
    end.
Proof.
  induction s as [|c s IH]; cbn [search].
  - destruct (run re "" start) as [r|] eqn:Hrun.
    + exists "", "". split_and!; [done|by apply run_matchesAs|].
      intros skipped' s' _ Hlen. simpl in Hlen. lia.
    + intros [|d skipped] s' st Hs; [|done]. rewrite string_app_nil_l in Hs. subst s'.
      intros Hm%run_matchesAs. congruence.
  - destruct (run re (String c s) start) as [r|] eqn:Hrun.
    + exists "", (String c s). split_and!; [done|by apply run_matchesAs|].
      intros skipped' s' _ Hlen. simpl in Hlen. lia.
    + destruct (search re s) as [st|].
      * destruct IH as (skipped & s1 & -> & Hm & Hleft).
        exists (String c skipped), s1. split_and!; [done|done|].
        intros [|d skipped'] s' Hs Hlen st' Hm'.
        -- rewrite string_app_nil_l in Hs. subst s'. apply run_matchesAs in Hm'. congruence.
        -- rewrite string_app_cons in Hs. injection Hs as <- Hs.
           refine (Hleft skipped' s' Hs _ st' Hm'). simpl in Hlen. lia.
      * intros [|d skipped] s' st Hs.
        -- rewrite string_app_nil_l in Hs. subst s'. intros Hm%run_matchesAs. congruence.
        -- rewrite string_app_cons in Hs. injection Hs as <- Hs. by apply (IH skipped s' st).
Qed.

Lemma search_leftmostMatch (re : Regexp) (s : string) (st : attempt) :
  search re s = Some st <-> leftmostMatch re s st.
Proof.
  pose proof (search_leftmost re s) as Hsearch. split.
  - intros Hs. by rewrite Hs in Hsearch.
  - intros (skipped & s1 & Hfile & Hm & Hleft).
    destruct (search re s) as [st2|].
    + destruct Hsearch as (skipped2 & s2 & Hfile2 & Hm2 & Hleft2). f_equal.
      destruct (string_app_split skipped s1 skipped2 s2) as [Hlt|[[-> ->]|Hgt]].
      * congruence.
      * exfalso. by apply (Hleft2 skipped s1 Hfile Hlt st).
      * by eapply matchesAs_unique.
      * exfalso. by apply (Hleft skipped2 s2 Hfile2 Hgt st2).
    + exfalso. by apply (Hsearch skipped s1 st Hfile).
Qed.

Lemma search_no_match (re : Regexp) (s : string) :
  search re s = None
  <-> forall skipped s' st, s = (skipped ++ s')%string -> ~ matchesAs re s' start st.
Proof.
  pose proof (search_leftmost re s) as Hsearch. split.
  - intros Hs. by rewrite Hs in Hsearch.
  - intros Hnone. destruct (search re s) as [st|]; [|done].
    destruct Hsearch as (skipped & s1 & Hfile & Hm & _).
    exfalso. by apply (Hnone skipped s1 st).
Qed.

End ClassifierMatch.

(** C9, amended.  [parseSchemaFileInfo] returns no match for an empty
    template; it joins a non-empty base directory and the substituted
    template with a forward slash (through [path.Join], which cleans
    the result).  For a pattern that compiles it returns a mapping
    exactly when the pattern matches somewhere in the candidate path:
    the pattern is not anchored, the match is the leftmost one, a [+]
    takes as many bytes as the rest of the pattern allows, and the
    mapping gives each placeholder name the text its group has in that
    match; it returns no match exactly when the pattern matches at no
    offset.  So a path that matches still matches with any text before
    and after it.  On the specification's example:
    [migrations/prod/orders/schema.sql] gives [ENV_NAME = prod] and
    [DB_NAME = orders], and a path without the [schema.sql] element
    gives no match; with one more directory,
    [migrations/a/b/c/schema.sql] gives [ENV_NAME = a/b] and
    [DB_NAME = c].  The pattern of the example is the base directory, a
    slash and the template with its groups, and a slash that ends the
    base directory is not doubled. *)
Theorem parseSchemaFileInfo_searches_unanchored :
  (forall base file, parseSchemaFileInfo base "" file = Some (Ok None))
  /\ (forall base template c base',
        base = String c base' ->
        schemaFilePathRegex base template
        = path.Clean (base ++ "/"
                      ++ strings.ReplaceAll
                           (strings.ReplaceAll (strings.ReplaceAll template "." "\.")
                              "{{ENV_NAME}}" "(?P<ENV_NAME>[a-zA-Z0-9+-=/_#?!$. ]+)")
                           "{{DB_NAME}}" "(?P<DB_NAME>[a-zA-Z0-9+-=/_#?!$. ]+)")%string)
  /\ (forall base template file info,
        parseSchemaFileInfo base template file = Some (Ok (Some info))
        <-> template ≠ ""
            /\ exists re st,
                 regexp.Compile (schemaFilePathRegex base template) = regexp.Compiled re
                 /\ leftmostMatch re file st
                 /\ info = groupsByName re st)
  /\ (forall base template file,
        parseSchemaFileInfo base template file = Some (Ok None)
        <-> template = ""
            \/ exists re,
                 regexp.Compile (schemaFilePathRegex base template) = regexp.Compiled re
                 /\ forall skipped s st,
                      file = (skipped ++ s)%string -> ~ matchesAs re s regexp.start st)
  /\ (forall base template file pre post info,
        parseSchemaFileInfo base template file = Some (Ok (Some info)) ->
        exists info',
          parseSchemaFileInfo base template (pre ++ file ++ post)%string
          = Some (Ok (Some info')))
  /\ parseSchemaFileInfo "migrations" Sample.schemaTemplate "migrations/prod/orders/schema.sql"
     = Some (Ok (Some Sample.schemaInfo))
  /\ parseSchemaFileInfo "migrations" Sample.schemaTemplate "migrations/prod/orders"
     = Some (Ok None)
  /\ parseSchemaFileInfo "migrations" Sample.schemaTemplate "migrations/a/b/c/schema.sql"
     = Some (Ok (Some (<["DB_NAME" := "c"]> (<["ENV_NAME" := "a/b"]> ∅))))
  /\ schemaFilePathRegex "migrations" Sample.schemaTemplate
     = "migrations/(?P<ENV_NAME>[a-zA-Z0-9+-=/_#?!$. ]+)/(?P<DB_NAME>[a-zA-Z0-9+-=/_#?!$. ]+)/schema\.sql"
  /\ schemaFilePathRegex "migrations/" "schema.sql" = "migrations/schema\.sql".
Proof.
  split_and!.
  - intros base file. unfold parseSchemaFileInfo. by rewrite decide_True.
  - intros base template c base' ->. reflexivity.
  - intros base template file info. unfold parseSchemaFileInfo, regexp.FindStringSubmatch.
    destruct (decide (template = "")) as [Hempty|Hempty].
    { split; [done|]. by intros [? _]. }
    destruct (regexp.Compile _) as [re|e|].
    2,3: split; [done|]; by intros (_ & re & st & [=] & _).
    destruct (regexp.search re file) as [st|] eqn:Hsearch.
    + apply search_leftmostMatch in Hsearch. split.
      * intros [= <-]. split; [done|]. by exists re, st.
      * intros (_ & re' & st' & [= <-] & Hleft & ->).
        apply search_leftmostMatch in Hsearch, Hleft.
        assert (st' = st) as -> by congruence. reflexivity.
    + split; [done|]. intros (_ & re' & st' & [= <-] & Hleft & _).
      apply search_leftmostMatch in Hleft. congruence.
  - intros base template file. unfold parseSchemaFileInfo, regexp.FindStringSubmatch.
    destruct (decide (template = "")) as [Hempty|Hempty].
    { split; [by left|done]. }
    destruct (regexp.Compile _) as [re|e|].
    2,3: split; [done|]; by intros [?|(re & [=] & _)].
    destruct (regexp.search re file) as [st|] eqn:Hsearch.
    + split; [done|]. intros [?|(re' & [= <-] & Hnone)]; [done|].
      apply search_no_match in Hnone. congruence.
    + split; [|done]. intros _. right. exists re. split; [done|].
      by apply search_no_match.
  - intros base template file pre post info.
    unfold parseSchemaFileInfo.
    destruct (decide (template = "")); [done|].
    destruct (regexp.Compile _) as [re|e|]; [|done|done].
    destruct (regexp.FindStringSubmatch re file) as [|whole groups] eqn:Hfile; [done|].
    intros _.
    pose proof (FindStringSubmatch_unanchored re pre file post) as Hlong.
    destruct (regexp.FindStringSubmatch re (pre ++ file ++ post)%string) as [|w g].
    + exfalso. apply Hlong; [by rewrite Hfile|done].
    + eauto.
  - reflexivity.
  - reflexivity.
  - reflexivity.
  - reflexivity.
  - reflexivity.
Qed.

(** The path [migrations/a/b/c/schema.sql]: the mapping it is classified
    as is that of the leftmost match, in which the first group has taken
    [a/b]. *)
Lemma parseSchemaFileInfo_searches_unanchored_witness :
  let info : gmap string string := <["DB_NAME" := "c"]> (<["ENV_NAME" := "a/b"]> ∅) in
  "{{ENV_NAME}}/{{DB_NAME}}/schema.sql" ≠ ""
  /\ exists re st,
      regexp.Compile (schemaFilePathRegex "migrations" Sample.schemaTemplate)
      = regexp.Compiled re
      /\ leftmostMatch re "migrations/a/b/c/schema.sql" st
      /\ info = groupsByName re st.
Proof.
  intros info.
  apply (proj1 (proj1 (proj2 (proj2 parseSchemaFileInfo_searches_unanchored))
                  "migrations" Sample.schemaTemplate "migrations/a/b/c/schema.sql" info)).
  reflexivity.
Defined.
